(** * pyz80: machine states of the Z80 core (pyz80/machinestates.py)

    A shallow embedding of the machine-state module of pyz80: the
    micro-operations triggered at the end of machine states, the machine
    states themselves (Python generators, here resumable step functions),
    the instruction decode table, the interrupt entry builder and the
    disassembler, followed by the properties established about them. *)

From Stdlib Require Import ZArith List String Ascii Bool Lia.
Import ListNotations.
Open Scope string_scope.
Open Scope list_scope.
Open Scope Z_scope.

(** ** Python values, exceptions and results *)

(** An opcode as the decoder sees it: a single byte, or a tuple of bytes
    for the prefixed instructions. *)
Inductive opcode : Type :=
| OpByte (b : Z)
| OpTuple (bs : list Z).

(** The exceptions the module can raise.  [KeyError None] is the lookup
    of the key [None] in a kwargs dictionary. *)
Inductive exn : Type :=
| UnrecognisedInstructionError (inst : opcode)
| KeyError (k : option string)
| IndexError
| ValueError
| TypeError
| Exception (msg : string).

Inductive result (A : Type) : Type :=
| Ok (a : A)
| Raise (e : exn).
Arguments Ok {A} a.
Arguments Raise {A} e.

Definition bind {A B : Type} (m : result A) (k : A -> result B) : result B :=
  match m with
  | Ok a => k a
  | Raise e => Raise e
  end.

Notation "'do' x <- m ; k" := (bind m (fun x => k))
  (at level 10, x name, m at level 100, k at level 200).

(** Python dictionaries with string keys (the [kwargs] of a machine state),
    kept in insertion order. *)
Definition dict : Type := list (string * Z).

Fixpoint dict_get (d : dict) (k : string) : option Z :=
  match d with
  | [] => None
  | (k', v) :: d' => if String.eqb k' k then Some v else dict_get d' k
  end.

Fixpoint dict_set (d : dict) (k : string) (v : Z) : dict :=
  match d with
  | [] => [(k, v)]
  | (k', v') :: d' =>
      if String.eqb k' k then (k', v) :: d' else (k', v') :: dict_set d' k v
  end.

Definition dict_mem (d : dict) (k : string) : bool :=
  match dict_get d k with Some _ => true | None => false end.

(** ** The register file *)

Inductive regname : Type :=
| rA | rF | rB | rC | rD | rE | rH | rL | rI | rR
| rIXH | rIXL | rIYH | rIYL | rSPH | rSPL | rPCH | rPCL
| rAF | rBC | rDE | rHL | rIX | rIY | rSP | rPC.

(** The attribute name of a register, as the Python code spells it. *)
Definition regname_str (r : regname) : string :=
  match r with
  | rA => "A" | rF => "F" | rB => "B" | rC => "C" | rD => "D" | rE => "E"
  | rH => "H" | rL => "L" | rI => "I" | rR => "R"
  | rIXH => "IXH" | rIXL => "IXL" | rIYH => "IYH" | rIYL => "IYL"
  | rSPH => "SPH" | rSPL => "SPL" | rPCH => "PCH" | rPCL => "PCL"
  | rAF => "AF" | rBC => "BC" | rDE => "DE" | rHL => "HL"
  | rIX => "IX" | rIY => "IY" | rSP => "SP" | rPC => "PC"
  end.

Inductive flag : Type :=
| fS | fZ | f5 | fH | f3 | fP | fV | fN | fC.

(** Bit of F holding each flag; P and V share bit 2. *)
Definition flag_bit (f : flag) : Z :=
  match f with
  | fS => 7 | fZ => 6 | f5 => 5 | fH => 4 | f3 => 3
  | fP => 2 | fV => 2 | fN => 1 | fC => 0
  end.

Definition mask8 (v : Z) : Z := Z.land v 0xFF.
Definition mask16 (v : Z) : Z := Z.land v 0xFFFF.
Definition hi8 (v : Z) : Z := Z.land (Z.shiftr v 8) 0xFF.
Definition pair16 (h l : Z) : Z := Z.lor (Z.shiftl h 8) l.

(** Modelled from the spec: the register file class (pyz80's [cpu.reg]) is
    not part of this module.  Eight-bit registers and their shadow bank are
    stored as bytes, SP and PC as 16-bit words; the 16-bit pairs and the
    8-bit halves of SP and PC are views; every write is masked to the width
    of the register written. *)
Record registers : Type := mkRegs {
  reg_A : Z; reg_F : Z; reg_B : Z; reg_C : Z; reg_D : Z; reg_E : Z;
  reg_H : Z; reg_L : Z; reg_I : Z; reg_R : Z;
  reg_IXH : Z; reg_IXL : Z; reg_IYH : Z; reg_IYL : Z;
  reg_SP : Z; reg_PC : Z;
  sh_A : Z; sh_F : Z; sh_B : Z; sh_C : Z; sh_D : Z; sh_E : Z;
  sh_H : Z; sh_L : Z
}.

Definition getreg (r : registers) (n : regname) : Z :=
  match n with
  | rA => reg_A r | rF => reg_F r | rB => reg_B r | rC => reg_C r
  | rD => reg_D r | rE => reg_E r | rH => reg_H r | rL => reg_L r
  | rI => reg_I r | rR => reg_R r
  | rIXH => reg_IXH r | rIXL => reg_IXL r
  | rIYH => reg_IYH r | rIYL => reg_IYL r
  | rSPH => hi8 (reg_SP r) | rSPL => mask8 (reg_SP r)
  | rPCH => hi8 (reg_PC r) | rPCL => mask8 (reg_PC r)
  | rAF => pair16 (reg_A r) (reg_F r)
  | rBC => pair16 (reg_B r) (reg_C r)
  | rDE => pair16 (reg_D r) (reg_E r)
  | rHL => pair16 (reg_H r) (reg_L r)
  | rIX => pair16 (reg_IXH r) (reg_IXL r)
  | rIY => pair16 (reg_IYH r) (reg_IYL r)
  | rSP => reg_SP r
  | rPC => reg_PC r
  end.

Definition setreg (r : registers) (n : regname) (v : Z) : registers :=
  let '(mkRegs a f b c d e h l i rr ixh ixl iyh iyl sp pc a' f' b' c' d' e' h' l') := r in
  match n with
  | rA => mkRegs (mask8 v) f b c d e h l i rr ixh ixl iyh iyl sp pc a' f' b' c' d' e' h' l'
  | rF => mkRegs a (mask8 v) b c d e h l i rr ixh ixl iyh iyl sp pc a' f' b' c' d' e' h' l'
  | rB => mkRegs a f (mask8 v) c d e h l i rr ixh ixl iyh iyl sp pc a' f' b' c' d' e' h' l'
  | rC => mkRegs a f b (mask8 v) d e h l i rr ixh ixl iyh iyl sp pc a' f' b' c' d' e' h' l'
  | rD => mkRegs a f b c (mask8 v) e h l i rr ixh ixl iyh iyl sp pc a' f' b' c' d' e' h' l'
  | rE => mkRegs a f b c d (mask8 v) h l i rr ixh ixl iyh iyl sp pc a' f' b' c' d' e' h' l'
  | rH => mkRegs a f b c d e (mask8 v) l i rr ixh ixl iyh iyl sp pc a' f' b' c' d' e' h' l'
  | rL => mkRegs a f b c d e h (mask8 v) i rr ixh ixl iyh iyl sp pc a' f' b' c' d' e' h' l'
  | rI => mkRegs a f b c d e h l (mask8 v) rr ixh ixl iyh iyl sp pc a' f' b' c' d' e' h' l'
  | rR => mkRegs a f b c d e h l i (mask8 v) ixh ixl iyh iyl sp pc a' f' b' c' d' e' h' l'
  | rIXH => mkRegs a f b c d e h l i rr (mask8 v) ixl iyh iyl sp pc a' f' b' c' d' e' h' l'
  | rIXL => mkRegs a f b c d e h l i rr ixh (mask8 v) iyh iyl sp pc a' f' b' c' d' e' h' l'
  | rIYH => mkRegs a f b c d e h l i rr ixh ixl (mask8 v) iyl sp pc a' f' b' c' d' e' h' l'
  | rIYL => mkRegs a f b c d e h l i rr ixh ixl iyh (mask8 v) sp pc a' f' b' c' d' e' h' l'
  | rSPH => mkRegs a f b c d e h l i rr ixh ixl iyh iyl (pair16 (mask8 v) (mask8 sp)) pc a' f' b' c' d' e' h' l'
  | rSPL => mkRegs a f b c d e h l i rr ixh ixl iyh iyl (pair16 (hi8 sp) (mask8 v)) pc a' f' b' c' d' e' h' l'
  | rPCH => mkRegs a f b c d e h l i rr ixh ixl iyh iyl sp (pair16 (mask8 v) (mask8 pc)) a' f' b' c' d' e' h' l'
  | rPCL => mkRegs a f b c d e h l i rr ixh ixl iyh iyl sp (pair16 (hi8 pc) (mask8 v)) a' f' b' c' d' e' h' l'
  | rAF => mkRegs (hi8 v) (mask8 v) b c d e h l i rr ixh ixl iyh iyl sp pc a' f' b' c' d' e' h' l'
  | rBC => mkRegs a f (hi8 v) (mask8 v) d e h l i rr ixh ixl iyh iyl sp pc a' f' b' c' d' e' h' l'
  | rDE => mkRegs a f b c (hi8 v) (mask8 v) h l i rr ixh ixl iyh iyl sp pc a' f' b' c' d' e' h' l'
  | rHL => mkRegs a f b c d e (hi8 v) (mask8 v) i rr ixh ixl iyh iyl sp pc a' f' b' c' d' e' h' l'
  | rIX => mkRegs a f b c d e h l i rr (hi8 v) (mask8 v) iyh iyl sp pc a' f' b' c' d' e' h' l'
  | rIY => mkRegs a f b c d e h l i rr ixh ixl (hi8 v) (mask8 v) sp pc a' f' b' c' d' e' h' l'
  | rSP => mkRegs a f b c d e h l i rr ixh ixl iyh iyl (mask16 v) pc a' f' b' c' d' e' h' l'
  | rPC => mkRegs a f b c d e h l i rr ixh ixl iyh iyl sp (mask16 v) a' f' b' c' d' e' h' l'
  end.

(** [reg.ex()]: A and F change places with their shadows. *)
Definition regs_ex (r : registers) : registers :=
  let '(mkRegs a f b c d e h l i rr ixh ixl iyh iyl sp pc a' f' b' c' d' e' h' l') := r in
  mkRegs a' f' b c d e h l i rr ixh ixl iyh iyl sp pc a f b' c' d' e' h' l'.

(** [reg.exx()]: BC, DE and HL change places with their shadows. *)
Definition regs_exx (r : registers) : registers :=
  let '(mkRegs a f b c d e h l i rr ixh ixl iyh iyl sp pc a' f' b' c' d' e' h' l') := r in
  mkRegs a f b' c' d' e' h' l' i rr ixh ixl iyh iyl sp pc a' f' b c d e h l.

Definition regs_getflag (r : registers) (f : flag) : Z :=
  Z.land (Z.shiftr (reg_F r) (flag_bit f)) 1.

Definition regs_setflag (r : registers) (f : flag) : registers :=
  setreg r rF (Z.lor (reg_F r) (Z.shiftl 1 (flag_bit f))).

Definition regs_resetflag (r : registers) (f : flag) : registers :=
  setreg r rF (Z.land (reg_F r) (0xFF - Z.shiftl 1 (flag_bit f))).

(** ** The CPU as the machine states see it *)

(** What [cpu.most_recent_instruction] can hold. *)
Inductive recent : Type :=
| RecentNone
| RecentInst (inst : opcode)
| RecentName (s : string).

(** Modelled from the spec: the CPU driver object, the memory bus and the
    I/O bus are external collaborators.  Memory is a map from addresses to
    bytes, an I/O read is a function of the two address bytes, I/O writes
    are logged. *)
Record CPU : Type := mkCPU {
  cpu_reg : registers;
  cpu_iff1 : Z;
  cpu_iff2 : Z;
  cpu_interrupt_mode : Z;
  cpu_int : bool;
  cpu_most_recent_instruction : recent;
  cpu_membus : Z -> Z;
  cpu_ioread : Z -> Z -> Z;
  cpu_iowrites : list (Z * Z * Z)
}.

Definition with_reg (c : CPU) (r : registers) : CPU :=
  mkCPU r (cpu_iff1 c) (cpu_iff2 c) (cpu_interrupt_mode c) (cpu_int c)
        (cpu_most_recent_instruction c) (cpu_membus c) (cpu_ioread c) (cpu_iowrites c).

Definition with_iff (c : CPU) (i1 i2 : Z) : CPU :=
  mkCPU (cpu_reg c) i1 i2 (cpu_interrupt_mode c) (cpu_int c)
        (cpu_most_recent_instruction c) (cpu_membus c) (cpu_ioread c) (cpu_iowrites c).

Definition with_interrupt_mode (c : CPU) (m : Z) : CPU :=
  mkCPU (cpu_reg c) (cpu_iff1 c) (cpu_iff2 c) m (cpu_int c)
        (cpu_most_recent_instruction c) (cpu_membus c) (cpu_ioread c) (cpu_iowrites c).

Definition with_recent (c : CPU) (m : recent) : CPU :=
  mkCPU (cpu_reg c) (cpu_iff1 c) (cpu_iff2 c) (cpu_interrupt_mode c) (cpu_int c)
        m (cpu_membus c) (cpu_ioread c) (cpu_iowrites c).

Definition membus_read (c : CPU) (address : Z) : Z := cpu_membus c address.

Definition membus_write (c : CPU) (address value : Z) : CPU :=
  mkCPU (cpu_reg c) (cpu_iff1 c) (cpu_iff2 c) (cpu_interrupt_mode c) (cpu_int c)
        (cpu_most_recent_instruction c)
        (fun a => if Z.eqb a address then value else cpu_membus c a)
        (cpu_ioread c) (cpu_iowrites c).

Definition iobus_read (c : CPU) (low high : Z) : Z := cpu_ioread c low high.

Definition iobus_write (c : CPU) (low high value : Z) : CPU :=
  mkCPU (cpu_reg c) (cpu_iff1 c) (cpu_iff2 c) (cpu_interrupt_mode c) (cpu_int c)
        (cpu_most_recent_instruction c) (cpu_membus c) (cpu_ioread c)
        (cpu_iowrites c ++ [(low, high, value)]).

(** ** What an action sees of a machine state

    An action is called as [action(state, *args)].  It reaches the CPU
    through [state.cpu], the cascaded parameters through [state.kwargs]
    and the pipeline through [state.pipeline], of which it only ever takes
    the length and pops the tail; [inta] also draws from the data source
    of the interrupting device, an iterator shared along the pipeline. *)
Record astate : Type := mkAState {
  a_cpu : CPU;
  a_kwargs : dict;
  a_plen : nat;
  a_ds : list Z
}.

Definition action : Type := astate -> list Z -> result astate.
Definition valfn : Type := astate -> list Z -> result Z.
Definition condfn : Type := astate -> list Z -> result bool.
Definition transfn : Type := astate -> Z -> result Z.

(** [lambda state : e] and [lambda state, v : e]: a call with the wrong
    number of positional arguments is a TypeError. *)
Definition lam1 {A : Type} (f : astate -> result A) : astate -> list Z -> result A :=
  fun state args => match args with [] => f state | _ => Raise TypeError end.

Definition lam2 {A : Type} (f : astate -> Z -> result A) : astate -> list Z -> result A :=
  fun state args => match args with [v] => f state v | _ => Raise TypeError end.

(** A keyword parameter that may be [None], a literal or a callable. *)
Inductive pval : Type :=
| PNone
| PLit (v : Z)
| PCall (f : valfn).

Definition with_cpu (s : astate) (c : CPU) : astate :=
  mkAState c (a_kwargs s) (a_plen s) (a_ds s).
Definition with_kwargs (s : astate) (k : dict) : astate :=
  mkAState (a_cpu s) k (a_plen s) (a_ds s).
Definition with_plen (s : astate) (n : nat) : astate :=
  mkAState (a_cpu s) (a_kwargs s) n (a_ds s).
Definition with_ds (s : astate) (d : list Z) : astate :=
  mkAState (a_cpu s) (a_kwargs s) (a_plen s) d.

Definition get_reg (s : astate) (r : regname) : Z := getreg (cpu_reg (a_cpu s)) r.
Definition set_reg (s : astate) (r : regname) (v : Z) : astate :=
  with_cpu s (with_reg (a_cpu s) (setreg (cpu_reg (a_cpu s)) r v)).
Definition getflag (s : astate) (f : flag) : Z := regs_getflag (cpu_reg (a_cpu s)) f.
Definition setflag (s : astate) (f : flag) : astate :=
  with_cpu s (with_reg (a_cpu s) (regs_setflag (cpu_reg (a_cpu s)) f)).
Definition resetflag (s : astate) (f : flag) : astate :=
  with_cpu s (with_reg (a_cpu s) (regs_resetflag (cpu_reg (a_cpu s)) f)).

(** [state.kwargs[k]] *)
Definition kw (s : astate) (k : string) : result Z :=
  match dict_get (a_kwargs s) k with
  | Some v => Ok v
  | None => Raise (KeyError (Some k))
  end.

Definition kw_opt (s : astate) (k : option string) : result Z :=
  match k with
  | Some k' => kw s k'
  | None => Raise (KeyError None)
  end.

Definition set_kw (s : astate) (k : string) (v : Z) : astate :=
  with_kwargs s (dict_set (a_kwargs s) k v).

(** ** Actions which can be triggered at end of machine states *)

(** Jump to the second parameter (an address). *)
Definition JP (value : pval) (key : option string) (source : option regname) : action :=
  fun state args =>
    do target <-
      match value with
      | PCall f => f state []
      | PLit v => Ok v
      | PNone =>
          match source with
          | Some s => Ok (get_reg state s)
          | None =>
              match key with
              | Some k => kw state k
              | None =>
                  match args with
                  | a :: _ => Ok a
                  | [] => kw state "value"
                  end
              end
          end
      end;
    Ok (set_reg state rPC target).

(** Jump to PC plus the second parameter. *)
Definition JR (value : pval) (key : string) : action :=
  fun state args =>
    do target <-
      match value with
      | PCall f => f state []
      | PLit v => Ok v
      | PNone =>
          match args with
          | a :: _ => Ok a
          | [] => kw state key
          end
      end;
    Ok (set_reg state rPC (get_reg state rPC + target)).

(** Load into the specified register. *)
Definition LDr (r : regname) (value : pval) (key : string) : action :=
  fun state args =>
    do v <-
      match value with
      | PCall f => f state args
      | PLit v => Ok v
      | PNone =>
          match args with
          | a :: _ => Ok a
          | [] => kw state key
          end
      end;
    Ok (set_reg state r v).

(** Load from the specified register into the specified register. *)
Definition LDrs (r s : regname) : action :=
  fun state args => Ok (set_reg state r (get_reg state s)).

(** Load a value and store it as a key in the kwargs of the state. *)
Definition RRr (n : string) (r : option regname) (value : pval) : action :=
  fun state args =>
    do v <-
      match r with
      | Some r' => Ok (get_reg state r')
      | None =>
          match value with
          | PCall f => f state args
          | PLit v => Ok v
          | PNone =>
              match args with
              | a :: _ => Ok a
              | [] => Raise (Exception "")
              end
          end
      end;
    Ok (set_kw state n v).

(** Exchange AF with AF' (no operands), or two named registers. *)
Definition EX (a b : option regname) : action :=
  fun state args =>
    match a, b with
    | Some a', Some b' =>
        let tmp := get_reg state a' in
        let state := set_reg state a' (get_reg state b') in
        Ok (set_reg state b' tmp)
    | _, _ =>
        Ok (with_cpu state (with_reg (a_cpu state) (regs_ex (cpu_reg (a_cpu state)))))
    end.

(** Exchange the working registers with their shadows. *)
Definition EXX : action :=
  fun state args =>
    Ok (with_cpu state (with_reg (a_cpu state) (regs_exx (cpu_reg (a_cpu state))))).

(** Load a value from the specified register and add it to the parameter. *)
Definition add_register (r : regname) : transfn :=
  fun state d => Ok (get_reg state r + d).

(** Subtract the value from the value in a register (A by default). *)
Definition subfrom (r : regname) : transfn :=
  fun state d => Ok (get_reg state r - d).

(** Perform a series of actions. *)
Fixpoint do_each (actions : list action) : action :=
  fun state args =>
    match actions with
    | [] => Ok state
    | a :: rest => do state' <- a state args; do_each rest state' args
    end.

(** [len(reg) % 2 == 0]: the register is a 16-bit one. *)
Definition reg16 (r : regname) : bool := Nat.even (String.length (regname_str r)).

(** Increment a register. *)
Definition inc (r : regname) : action :=
  fun state args =>
    if reg16 r
    then Ok (set_reg state r (Z.land (get_reg state r + 1) 0xFFFF))
    else Ok (set_reg state r (Z.land (get_reg state r + 1) 0xFF)).

(** Decrement a register. *)
Definition dec (r : regname) : action :=
  fun state args =>
    if reg16 r
    then Ok (set_reg state r (Z.land (0xFFFF + get_reg state r) 0xFFFF))
    else Ok (set_reg state r (Z.land (0xFF + get_reg state r) 0xFF)).

(** Acknowledge an interrupt, but ignore the data from the remote device. *)
Definition inta : action :=
  fun state args => Ok (with_ds state (tl (a_ds state))).

(** Only take action if register is zero. *)
Definition on_zero (r : regname) (act : action) : action :=
  fun state args => if get_reg state r =? 0 then act state args else Ok state.

(** Only take action if flag is set. *)
Definition on_flag (f : flag) (act : action) : action :=
  fun state args => if getflag state f =? 1 then act state args else Ok state.

(** Only take action if flag is not set. *)
Definition unless_flag (f : flag) (act : action) : action :=
  fun state args => if getflag state f =? 0 then act state args else Ok state.

(** Only take the action if the condition returns True. *)
Definition on_condition (condition : condfn) (act : action) : action :=
  fun state args =>
    do c <- condition state args;
    if c then act state args else Ok state.

(** Set or clear a flag according to a value. *)
Definition force_flag (f : flag) (value : pval) : action :=
  fun state args =>
    match value with
    | PCall g =>
        do v <- g state args;
        if v =? 0 then Ok (resetflag state f) else Ok (setflag state f)
    | PLit v => if v =? 0 then Ok (resetflag state f) else Ok (setflag state f)
    | PNone => Ok (setflag state f)
    end.

(** Clear a flag. *)
Definition clear_flag (f : flag) : action :=
  fun state args => Ok (resetflag state f).

(** [while len(state.pipeline) > 1: state.pipeline.pop()] on the length
    of the pipeline; [fuel] bounds the number of iterations. *)
Fixpoint pop_down_to_head (fuel n : nat) : nat :=
  match fuel with
  | O => n
  | S fuel' => if Nat.ltb 1 n then pop_down_to_head fuel' (Nat.pred n) else n
  end.

(** Abort instruction. *)
Definition early_abort : action :=
  fun state args =>
    Ok (with_plen state (pop_down_to_head (a_plen state) (a_plen state))).

(** [flags[i]] *)
Definition flag_char (flags : string) (i : nat) : result ascii :=
  match String.get i flags with
  | Some c => Ok c
  | None => Raise IndexError
  end.

Definition assign_flag (state : astate) (f : flag) (b : bool) : astate :=
  if b then setflag state f else resetflag state f.

(** [p = d; while p > 1: p = (p&0x1) ^ (p >> 1)] *)
Fixpoint parity_fold (fuel : nat) (p : Z) : Z :=
  match fuel with
  | O => p
  | S fuel' =>
      if 1 <? p then parity_fold fuel' (Z.lxor (Z.land p 1) (Z.shiftr p 1)) else p
  end.

(** The closing loop of [set_flags]: [for n in range(0,7)], reading
    [flags[7-n]] and forcing bit [n] of F. *)
Fixpoint force_literal_flags (flags : string) (ns : list nat) (state : astate)
  : result astate :=
  match ns with
  | [] => Ok state
  | n :: rest =>
      do c <- flag_char flags (7 - n)%nat;
      let state :=
        if Ascii.eqb c "1" then
          set_reg state rF (Z.lor (get_reg state rF) (Z.shiftl 1 (Z.of_nat n)))
        else if Ascii.eqb c "0" then
          set_reg state rF (Z.land (get_reg state rF) (0xFF - Z.shiftl 1 (Z.of_nat n)))
        else state in
      force_literal_flags flags rest state
  end.

(** Set the flags register according to the passed value. *)
Definition set_flags (flags : string) (key : option string) (source : option regname)
    (value : pval) (dest : option regname) : action :=
  fun state args =>
    do D <-
      match value with
      | PCall f => f state args
      | PLit v => Ok v
      | PNone =>
          match source with
          | Some s => Ok (get_reg state s)
          | None =>
              match args with
              | a :: _ => Ok a
              | [] => kw_opt state key
              end
          end
      end;
    let d := Z.land D 0xFF in
    do c0 <- flag_char flags 0;
    let state :=
      if Ascii.eqb c0 "S"
      then assign_flag state fS (Z.land (Z.shiftr d 7) 1 =? 1) else state in
    do c1 <- flag_char flags 1;
    let state :=
      if Ascii.eqb c1 "Z" then assign_flag state fZ (d =? 0) else state in
    do c2 <- flag_char flags 2;
    let state :=
      if Ascii.eqb c2 "5"
      then assign_flag state f5 (Z.land (Z.shiftr d 5) 1 =? 1) else state in
    do c4 <- flag_char flags 4;
    let state :=
      if Ascii.eqb c4 "3"
      then assign_flag state f3 (Z.land (Z.shiftr d 3) 1 =? 1) else state in
    do c5 <- flag_char flags 5;
    let state :=
      if Ascii.eqb c5 "*" then
        assign_flag state fP (cpu_iff2 (a_cpu state) =? 1)
      else if Ascii.eqb c5 "V" then
        assign_flag state fV ((127 <? D) || (D <? -128))
      else if Ascii.eqb c5 "P" then
        assign_flag state fP (parity_fold (Z.to_nat d) d =? 0)
      else state in
    do c7 <- flag_char flags 7;
    let state :=
      if Ascii.eqb c7 "C"
      then assign_flag state fC ((255 <? D) || (D <? 0)) else state in
    do state <- force_literal_flags flags (seq 0 7) state;
    let state :=
      match key with
      | Some k => set_kw state k d
      | None => state
      end in
    let state :=
      match dest with
      | Some r => set_reg state r d
      | None => state
      end in
    Ok state.

Definition di : action :=
  fun state args => Ok (with_cpu state (with_iff (a_cpu state) 0 0)).

Definition ei : action :=
  fun state args => Ok (with_cpu state (with_iff (a_cpu state) 1 1)).

Definition im (m : Z) : action :=
  fun state args => Ok (with_cpu state (with_interrupt_mode (a_cpu state) m)).

Definition restore_iff : action :=
  fun state args =>
    Ok (with_cpu state
          (with_iff (a_cpu state) (cpu_iff2 (a_cpu state)) (cpu_iff2 (a_cpu state)))).

Definition daa : action :=
  fun state args =>
    let A := get_reg state rA in
    let C := Z.land (Z.shiftr (get_reg state rF) 0) 1 in
    let H := Z.land (Z.shiftr (get_reg state rF) 4) 1 in
    let N := Z.land (Z.shiftr (get_reg state rF) 1) 1 in
    let '(A, F) :=
      if N =? 0 then
        let A := if (9 <? Z.land A 0xF) || negb (H =? 0) then A + 0x06 else A in
        if (9 <? Z.shiftr A 4) || negb (C =? 0) then (A + 0x60, 0x01) else (A, 0)
      else
        let A := if (9 <? Z.land A 0xF) || negb (H =? 0) then A - 0x06 else A in
        if (9 <? Z.shiftr A 4) || negb (C =? 0) then (A - 0x60, 0x01) else (A, 0) in
    let A := Z.land A 0xFF in
    let F := Z.lor F (Z.shiftl N 1) in
    let F := Z.lor F (Z.land A 0xA8) in
    let F := if A =? 0x00 then Z.lor F 0x40 else F in
    let state := set_reg state rA A in
    Ok (set_reg state rF F).

(** The default combiner of OD, MR and SR, called as [compound(new, old)]. *)
Definition high_after_low (x y : Z) : Z := Z.lor (Z.shiftl x 8) y.

(** ** Machine states *)

(** The [transform] parameter of IO: absent, one callable applied to the
    kwarg named by [key], or a dictionary from kwarg names to callables. *)
Inductive transform_t : Type :=
| TNone
| TCall (f : transfn)
| TDict (m : list (string * transfn)).

(** The classes built by [OCF(...)], [OD(...)], ... with the parameters
    fixed at decode time.  ([verbose] of MR and MW only prints and is left
    out.) *)
Inductive mclass : Type :=
| OCF (prefix : option opcode) (data_source : bool) (extra : Z)
| OD (compound : option (Z -> Z -> Z)) (act : option action) (key : string)
     (signed : bool)
| MR (address : option Z) (indirect : option regname)
     (compound : option (Z -> Z -> Z)) (act : option action) (incaddr : bool)
| MW (address : option Z) (indirect : option regname) (value : pval)
     (source : option regname) (act : option action) (extra : Z)
| SR (compound : option (Z -> Z -> Z)) (act : option action) (extra : Z)
| SW (source : option regname) (key : string) (extra : Z) (act : option action)
| IO (ticks : Z) (locked : bool) (transform : transform_t) (act : option action)
     (key : string)
| PR (high low : option regname) (act : option action) (dest : option regname)
| PW (high low : option regname) (act : option action) (source : option regname).

(** An instance of a machine state: its class, its kwargs, whether a data
    source is attached, and the point at which its generator [run] is
    suspended, with the local variables live there.  [Start] is a generator
    that has not run yet; the [n] of the waiting frames counts the
    iterations of the idle loop already taken. *)
Inductive mstate : Type :=
| MState (cls : mclass) (kwargs : dict) (data_source : bool) (fr : frame)
with frame : Type :=
| Start
| OCF_latched (PC : Z)
| OCF_fetched (PC : Z) (inst : opcode)
| OCF_wait (n : Z) (extra_clocks : Z) (actions : list action) (states : list mstate)
| OD_latched (PC : Z)
| OD_read (PC : Z) (D : Z)
| MR_addressed (address : Z)
| MR_read (address : Z) (D : Z)
| MW_addressed (address : Z)
| MW_valued (address : Z) (value : Z)
| MW_wait (n : Z) (value : Z)
| SR_addressed (address : Z)
| SR_wait (n : Z) (D : Z)
| SW_wait (n : Z)
| SW_addressed (address : Z)
| IO_wait (n : Z)
| PR_addressed (low high : Z)
| PR_read (D : Z)
| PR_idle (D : Z)
| PW_addressed (low high : Z)
| PW_valued (low high : Z) (D : Z)
| PW_written (D : Z)
| Finished.

Definition ms_class (s : mstate) : mclass := let '(MState c _ _ _) := s in c.
Definition ms_kwargs (s : mstate) : dict := let '(MState _ k _ _) := s in k.
Definition ms_data_source (s : mstate) : bool := let '(MState _ _ d _) := s in d.
Definition ms_frame (s : mstate) : frame := let '(MState _ _ _ f) := s in f.

(** [cls()]: a fresh instance. An OCF class built with a data source
    carries it from the start. *)
Definition instantiate (cls : mclass) : mstate :=
  match cls with
  | OCF _ data_source _ => MState cls [] data_source Start
  | _ => MState cls [] false Start
  end.

Definition set_data_source (s : mstate) (data_source : bool) : mstate :=
  let '(MState c k _ f) := s in MState c k data_source f.

(** Returns True if a pipeline containing this machine state should block
    the state machine from starting a new OCF pipeline. *)
Definition fetchlocked (s : mstate) : bool :=
  match ms_class s with
  | IO _ locked _ _ _ => locked
  | _ => true
  end.

(** ** The decode table *)

(** An entry of [INSTRUCTION_STATES]: extra T-cycles of the opcode fetch,
    the actions at the end of the opcode fetch, the classes of the follow-on
    machine states, the mnemonic and the number of bytes.  A handful of
    entries are four-element tuples without the byte count: they have
    [None] for it. *)
Record entry : Type := mkEntry {
  e_extra_clocks : Z;
  e_actions : list action;
  e_states : list mclass;
  e_mnemonic : string;
  e_length : option Z
}.

Definition opcode_eqb (a b : opcode) : bool :=
  match a, b with
  | OpByte x, OpByte y => x =? y
  | OpTuple xs, OpTuple ys =>
      (Nat.eqb (List.length xs) (List.length ys))
      && forallb (fun p => fst p =? snd p) (combine xs ys)
  | _, _ => false
  end.

Fixpoint table_get (t : list (opcode * entry)) (k : opcode) : option entry :=
  match t with
  | [] => None
  | (k', e) :: t' => if opcode_eqb k' k then Some e else table_get t' k
  end.

(** ** Templates for the instructions that get messy in the table *)

(** This instruction gets messy in the table, so we use this function to template it *)
Definition ADC16 (reg : regname) : list action :=
  [RRr "value" (Some rHL) PNone;
   RRr "summand" (Some reg) PNone;
   force_flag fH (PCall (lam1 (fun state => do kw_summand <- kw state "summand"; do kw_value <- kw state "value"; Ok (if (0xF <? (((Z.land (Z.shiftr kw_summand 8) 0xF) + (Z.land (Z.shiftr kw_value 8) 0xF)) + (Z.shiftr (((Z.land kw_summand 0xFF) + (Z.land kw_value 0xFF)) + (getflag state fC)) 8))) then 1 else 0))));
   LDr rHL (PCall (lam1 (fun state => do kw_summand <- kw state "summand"; do kw_value <- kw state "value"; Ok (Z.land ((kw_summand + kw_value) + (getflag state fC)) 0xFFFF)))) "value";
   set_flags "S-5-3V0C" (Some "value") None (PCall (lam1 (fun state => do kw_summand <- kw state "summand"; do kw_value <- kw state "value"; Ok (((Z.shiftr kw_summand 8) + (Z.shiftr kw_value 8)) + (Z.shiftr (((Z.land kw_summand 0xFF) + (Z.land kw_value 0xFF)) + (getflag state fC)) 8))))) None;
   force_flag fZ (PCall (lam1 (fun state => Ok (if ((get_reg state rHL) =? 0x0000) then 1 else 0))))].

(** This instruction gets messy in the table, so we use this function to template it *)
Definition SBC16 (reg : regname) : list action :=
  [RRr "value" (Some rHL) PNone;
   RRr "summand" None (PCall (lam1 (fun state => Ok (Z.land (- (get_reg state reg)) 0xFFFF))));
   force_flag fH (PCall (lam1 (fun state => do kw_summand <- kw state "summand"; do kw_value <- kw state "value"; Ok (if (0xF <? (((Z.land (Z.shiftr kw_summand 8) 0xF) + (Z.land (Z.shiftr kw_value 8) 0xF)) + (Z.shiftr (((Z.land kw_summand 0xFF) + (Z.land kw_value 0xFF)) - (getflag state fC)) 8))) then 1 else 0))));
   LDr rHL (PCall (lam1 (fun state => do kw_summand <- kw state "summand"; do kw_value <- kw state "value"; Ok (Z.land ((kw_summand + kw_value) - (getflag state fC)) 0xFFFF)))) "value";
   set_flags "S-5-3V1C" (Some "value") None (PCall (lam1 (fun state => do kw_summand <- kw state "summand"; do kw_value <- kw state "value"; Ok (((Z.shiftr kw_summand 8) + (Z.shiftr kw_value 8)) + (Z.shiftr (((Z.land kw_summand 0xFF) + (Z.land kw_value 0xFF)) - (getflag state fC)) 8))))) None;
   force_flag fZ (PCall (lam1 (fun state => Ok (if ((get_reg state rHL) =? 0x0000) then 1 else 0))))].

(** This instruction gets a little messy in the table, so this helps simplify it *)
Definition RLC (reg : option regname) (key : string) : action :=
  match reg with
  | Some reg =>
      set_flags "--503-0C" (Some "value") None (PCall (lam1 (fun state => Ok (Z.lor (Z.shiftl (get_reg state reg) 1) (Z.shiftr (get_reg state reg) 7))))) (Some reg)
  | None =>
      set_flags "--503-0C" (Some key) None (PCall (lam2 (fun state v => Ok (Z.lor (Z.shiftl v 1) (Z.shiftr v 7))))) None
  end.

(** This instruction gets a little messy in the table, so this helps simplify it *)
Definition RL (reg : option regname) (key : string) : action :=
  match reg with
  | Some reg =>
      set_flags "--503-0C" (Some "value") None (PCall (lam1 (fun state => Ok (Z.lor (Z.shiftl (get_reg state reg) 1) (getflag state fC))))) (Some reg)
  | None =>
      set_flags "--503-0C" (Some key) None (PCall (lam2 (fun state v => Ok (Z.lor (Z.shiftl v 1) (getflag state fC))))) None
  end.

(** This instruction gets a little messy in the table, so this helps simplify it *)
Definition RRC (reg : option regname) (key : string) : action :=
  match reg with
  | Some reg =>
      set_flags "--503-0C" (Some "value") None (PCall (lam1 (fun state => Ok (Z.lor (Z.lor (Z.shiftr (get_reg state reg) 1) (Z.shiftl (Z.land (get_reg state reg) 0x01) 7)) (Z.shiftl (Z.land (get_reg state reg) 0x01) 8))))) (Some reg)
  | None =>
      set_flags "--503-0C" (Some key) None (PCall (lam2 (fun state v => Ok (Z.lor (Z.lor (Z.shiftr v 1) (Z.shiftl (Z.land v 0x01) 7)) (Z.shiftl (Z.land v 0x01) 8))))) None
  end.

(** This instruction gets a little messy in the table, so this helps simplify it *)
Definition RR (reg : option regname) (key : string) : action :=
  match reg with
  | Some reg =>
      set_flags "--503-0C" (Some "value") None (PCall (lam1 (fun state => Ok (Z.lor (Z.lor (Z.shiftr (get_reg state reg) 1) (Z.shiftl (getflag state fC) 7)) (Z.shiftl (Z.land (get_reg state reg) 0x01) 8))))) (Some reg)
  | None =>
      set_flags "--503-0C" (Some key) None (PCall (lam2 (fun state v => Ok (Z.lor (Z.lor (Z.shiftr v 1) (Z.shiftl (getflag state fC) 7)) (Z.shiftl (Z.land v 0x01) 8))))) None
  end.

(** This instruction gets a little messy in the table, so this helps simplify it *)
Definition SLA (reg : option regname) (key : string) : action :=
  match reg with
  | Some reg =>
      set_flags "--503-0C" (Some "value") None (PCall (lam1 (fun state => Ok (Z.shiftl (get_reg state reg) 1)))) (Some reg)
  | None =>
      set_flags "--503-0C" (Some key) None (PCall (lam2 (fun state v => Ok (Z.shiftl v 1)))) None
  end.

(** This instruction gets a little messy in the table, so this helps simplify it *)
Definition SRA (reg : option regname) (key : string) : action :=
  match reg with
  | Some reg =>
      set_flags "--503-0C" (Some "value") None (PCall (lam1 (fun state => Ok (Z.lor (Z.lor (Z.shiftr (get_reg state reg) 1) (Z.land (get_reg state reg) 0x80)) (Z.shiftl (Z.land (get_reg state reg) 0x01) 8))))) (Some reg)
  | None =>
      set_flags "--503-0C" (Some key) None (PCall (lam2 (fun state v => Ok (Z.lor (Z.lor (Z.shiftr v 1) (Z.land v 0x80)) (Z.shiftl (Z.land v 0x01) 8))))) None
  end.

(** This instruction gets a little messy in the table, so this helps simplify it *)
Definition SL1 (reg : option regname) (key : string) : action :=
  match reg with
  | Some reg =>
      set_flags "--503-0C" (Some "value") None (PCall (lam1 (fun state => Ok (Z.lor (Z.shiftl (get_reg state reg) 1) 0x01)))) (Some reg)
  | None =>
      set_flags "--503-0C" (Some key) None (PCall (lam2 (fun state v => Ok (Z.lor (Z.shiftl v 1) 0x01)))) None
  end.

(** This instruction gets a little messy in the table, so this helps simplify it *)
Definition SRL (reg : option regname) (key : string) : action :=
  match reg with
  | Some reg =>
      set_flags "--503-0C" (Some "value") None (PCall (lam1 (fun state => Ok (Z.lor (Z.shiftr (get_reg state reg) 1) (Z.shiftl (Z.land (get_reg state reg) 0x01) 8))))) (Some reg)
  | None =>
      set_flags "--503-0C" (Some key) None (PCall (lam2 (fun state v => Ok (Z.lor (Z.shiftr v 1) (Z.shiftl (Z.land v 0x01) 8))))) None
  end.

(** This instruction gets a little messy in the table, so this helps simplify it *)
Definition BIT (n : Z) (reg : option regname) : action :=
  match reg with
  | Some reg =>
      set_flags "SZ513P0-" (Some "value") None (PCall (lam1 (fun state => Ok (Z.land (get_reg state reg) (Z.shiftl 1 n))))) None
  | None =>
      set_flags "SZ513P0-" (Some "value") None (PCall (lam2 (fun state v => Ok (Z.land v (Z.shiftl 1 n))))) None
  end.

(** This instruction gets a little messy in the table, so this helps simplify it *)
Definition RES (n : Z) (reg : option regname) (key : string) : action :=
  match reg with
  | Some reg =>
      LDr reg (PCall (lam1 (fun state => Ok (Z.land (get_reg state reg) (0xFF - (Z.shiftl 1 n)))))) "value"
  | None =>
      RRr key None (PCall (lam2 (fun state v => Ok (Z.land v (0xFF - (Z.shiftl 1 n))))))
  end.

(** This instruction gets a little messy in the table, so this helps simplify it *)
Definition SET (n : Z) (reg : option regname) (key : string) : action :=
  match reg with
  | Some reg =>
      LDr reg (PCall (lam1 (fun state => Ok (Z.lor (get_reg state reg) (Z.shiftl 1 n))))) "value"
  | None =>
      RRr key None (PCall (lam2 (fun state v => Ok (Z.lor v (Z.shiftl 1 n)))))
  end.

(** ** INSTRUCTION_STATES, in the order of the source *)

(** Single byte opcodes. *)
Definition INSTRUCTION_STATES_single : list (opcode * entry) :=
  [
  (OpByte 0x00,
    mkEntry 0
      []
      []
      "NOP" (Some 1));
  (OpByte 0x01,
    mkEntry 0
      []
      [OD (Some high_after_low) None "value" false;
        OD (Some high_after_low) (Some (LDr rBC PNone "value")) "value" false]
      "LD BC,nn" (Some 3));
  (OpByte 0x02,
    mkEntry 0
      []
      [MW None (Some rBC) PNone (Some rA) None 0]
      "LD (BC),A" (Some 1));
  (OpByte 0x03,
    mkEntry 0
      [LDr rBC (PCall (lam1 (fun state => Ok (Z.land ((get_reg state rBC) + 1) 0xFFFF)))) "value"]
      []
      "INC BC" (Some 1));
  (OpByte 0x04,
    mkEntry 0
      [force_flag fH (PCall (lam1 (fun state => Ok (if (0xF <? ((Z.land (get_reg state rB) 0xF) + 1)) then 1 else 0))));
        set_flags "SZ5-3V0-" (Some "value") None (PCall (lam1 (fun state => Ok ((get_reg state rB) + 1)))) None;
        LDr rB PNone "value"]
      []
      "INC B" (Some 1));
  (OpByte 0x05,
    mkEntry 0
      [force_flag fH (PCall (lam1 (fun state => Ok (if (((Z.land (get_reg state rB) 0xF) - 1) <? 0x0) then 1 else 0))));
        set_flags "SZ5-3V1-" (Some "value") None (PCall (lam1 (fun state => Ok ((get_reg state rB) - 1)))) None;
        LDr rB PNone "value"]
      []
      "DEC B" (Some 1));
  (OpByte 0x06,
    mkEntry 0
      []
      [OD (Some high_after_low) (Some (LDr rB PNone "value")) "value" false]
      "LD B,n" (Some 2));
  (OpByte 0x07,
    mkEntry 0
      [RLC (Some rA) "value"]
      []
      "RLCA" (Some 1));
  (OpByte 0x08,
    mkEntry 0
      [EX None None]
      []
      "EX AF,AF'" (Some 1));
  (OpByte 0x09,
    mkEntry 0
      [force_flag fH (PCall (lam1 (fun state => Ok (if (0xF <? (((Z.land (get_reg state rB) 0xF) + (Z.land (get_reg state rH) 0xF)) + (Z.shiftr ((get_reg state rC) + (get_reg state rL)) 8))) then 1 else 0))));
        set_flags "--5-3-0C" (Some "value") None (PCall (lam1 (fun state => Ok (((get_reg state rB) + (get_reg state rH)) + (Z.shiftr ((get_reg state rC) + (get_reg state rL)) 8))))) None;
        LDr rHL (PCall (lam1 (fun state => Ok (Z.land ((get_reg state rHL) + (get_reg state rBC)) 0xFFFF)))) "value"]
      [IO 4 true TNone None "value";
        IO 3 true TNone None "value"]
      "ADD HL,BC" (Some 1));
  (OpByte 0x0B,
    mkEntry 0
      [LDr rBC (PCall (lam1 (fun state => Ok (Z.land ((get_reg state rBC) - 1) 0xFFFF)))) "value"]
      []
      "DEC BC" (Some 1));
  (OpByte 0x0C,
    mkEntry 0
      [force_flag fH (PCall (lam1 (fun state => Ok (if (0xF <? ((Z.land (get_reg state rC) 0xF) + 1)) then 1 else 0))));
        set_flags "SZ5-3V0-" (Some "value") None (PCall (lam1 (fun state => Ok ((get_reg state rC) + 1)))) None;
        LDr rC PNone "value"]
      []
      "INC C" (Some 1));
  (OpByte 0x0D,
    mkEntry 0
      [force_flag fH (PCall (lam1 (fun state => Ok (if (((Z.land (get_reg state rC) 0xF) - 1) <? 0x0) then 1 else 0))));
        set_flags "SZ5H3V1-" (Some "value") None (PCall (lam1 (fun state => Ok ((get_reg state rC) - 1)))) None;
        LDr rC PNone "value"]
      []
      "DEC C" (Some 1));
  (OpByte 0x0E,
    mkEntry 0
      []
      [OD (Some high_after_low) (Some (LDr rC PNone "value")) "value" false]
      "LD C,n" (Some 2));
  (OpByte 0x0F,
    mkEntry 0
      [set_flags "--503-0C" (Some "value") None (PCall (lam1 (fun state => Ok (Z.lor (Z.lor (Z.shiftr (get_reg state rA) 1) (Z.shiftl (Z.land (get_reg state rA) 0x01) 7)) (Z.shiftl (Z.land (get_reg state rA) 0x01) 8))))) (Some rA)]
      []
      "RRCA" (Some 1));
  (OpByte 0x0A,
    mkEntry 0
      []
      [MR None (Some rBC) (Some high_after_low) (Some (LDr rA PNone "value")) true]
      "LD A,(BC)" (Some 1));
  (OpByte 0x10,
    mkEntry 1
      []
      [OD (Some high_after_low) (Some (do_each [(LDr rB (PCall (lam2 (fun state v => Ok (Z.land ((get_reg state rB) - 1) 0xFF)))) "value"); (on_condition (lam2 (fun state v => Ok ((get_reg state rB) =? 0x00))) early_abort); (RRr "value" None PNone)])) "value" true;
        IO 5 true TNone (Some (JR PNone "value")) "value"]
      "DJNZ n" (Some 2));
  (OpByte 0x11,
    mkEntry 0
      []
      [OD (Some high_after_low) None "value" false;
        OD (Some high_after_low) (Some (LDr rDE PNone "value")) "value" false]
      "LD DE,nn" (Some 3));
  (OpByte 0x12,
    mkEntry 0
      []
      [MW None (Some rDE) PNone (Some rA) None 0]
      "LD (DE),A" (Some 1));
  (OpByte 0x13,
    mkEntry 0
      [LDr rDE (PCall (lam1 (fun state => Ok (Z.land ((get_reg state rDE) + 1) 0xFFFF)))) "value"]
      []
      "INC DE" (Some 1));
  (OpByte 0x14,
    mkEntry 0
      [force_flag fH (PCall (lam1 (fun state => Ok (if (0xF <? ((Z.land (get_reg state rD) 0xF) + 1)) then 1 else 0))));
        set_flags "SZ5-3V0-" (Some "value") None (PCall (lam1 (fun state => Ok ((get_reg state rD) + 1)))) None;
        LDr rD PNone "value"]
      []
      "INC D" (Some 1));
  (OpByte 0x15,
    mkEntry 0
      [force_flag fH (PCall (lam1 (fun state => Ok (if (((Z.land (get_reg state rD) 0xF) - 1) <? 0x0) then 1 else 0))));
        set_flags "SZ5H3V1-" (Some "value") None (PCall (lam1 (fun state => Ok ((get_reg state rD) - 1)))) None;
        LDr rD PNone "value"]
      []
      "DEC D" (Some 1));
  (OpByte 0x16,
    mkEntry 0
      []
      [OD (Some high_after_low) (Some (LDr rD PNone "value")) "value" false]
      "LD D,n" (Some 2));
  (OpByte 0x17,
    mkEntry 0
      [RL (Some rA) "value"]
      []
      "RLA" (Some 1));
  (OpByte 0x18,
    mkEntry 0
      []
      [OD (Some high_after_low) None "value" true;
        IO 5 true TNone (Some (JR PNone "value")) "value"]
      "JR n" (Some 2));
  (OpByte 0x19,
    mkEntry 0
      [force_flag fH (PCall (lam1 (fun state => Ok (if (0xF <? (((Z.land (get_reg state rD) 0xF) + (Z.land (get_reg state rH) 0xF)) + (Z.shiftr ((get_reg state rE) + (get_reg state rL)) 8))) then 1 else 0))));
        set_flags "--5-3-0C" (Some "value") None (PCall (lam1 (fun state => Ok (((get_reg state rD) + (get_reg state rH)) + (Z.shiftr ((get_reg state rE) + (get_reg state rL)) 8))))) None;
        LDr rHL (PCall (lam1 (fun state => Ok (Z.land ((get_reg state rHL) + (get_reg state rDE)) 0xFFFF)))) "value"]
      [IO 4 true TNone None "value";
        IO 3 true TNone None "value"]
      "ADD HL,DE" (Some 1));
  (OpByte 0x1B,
    mkEntry 0
      [LDr rDE (PCall (lam1 (fun state => Ok (Z.land ((get_reg state rDE) - 1) 0xFFFF)))) "value"]
      []
      "DEC DE" (Some 1));
  (OpByte 0x1A,
    mkEntry 0
      []
      [MR None (Some rDE) (Some high_after_low) (Some (LDr rA PNone "value")) true]
      "LD A,(DE)" (Some 1));
  (OpByte 0x1C,
    mkEntry 0
      [force_flag fH (PCall (lam1 (fun state => Ok (if (0xF <? ((Z.land (get_reg state rE) 0xF) + 1)) then 1 else 0))));
        set_flags "SZ5-3V0-" (Some "value") None (PCall (lam1 (fun state => Ok ((get_reg state rE) + 1)))) None;
        LDr rE PNone "value"]
      []
      "INC E" (Some 1));
  (OpByte 0x1D,
    mkEntry 0
      [force_flag fH (PCall (lam1 (fun state => Ok (if (((Z.land (get_reg state rE) 0xF) - 1) <? 0x0) then 1 else 0))));
        set_flags "SZ5H3V1-" (Some "value") None (PCall (lam1 (fun state => Ok ((get_reg state rE) - 1)))) None;
        LDr rE PNone "value"]
      []
      "DEC E" (Some 1));
  (OpByte 0x1E,
    mkEntry 0
      []
      [OD (Some high_after_low) (Some (LDr rE PNone "value")) "value" false]
      "LD E,n" (Some 2));
  (OpByte 0x1F,
    mkEntry 0
      [RR (Some rA) "value"]
      []
      "RRA" (Some 1));
  (OpByte 0x20,
    mkEntry 0
      []
      [OD (Some high_after_low) (Some (do_each [(RRr "value" None PNone); (on_flag fZ early_abort)])) "value" true;
        IO 5 true TNone (Some (JR PNone "value")) "value"]
      "JR NZ,n" (Some 2));
  (OpByte 0x21,
    mkEntry 0
      []
      [OD (Some high_after_low) None "value" false;
        OD (Some high_after_low) (Some (LDr rHL PNone "value")) "value" false]
      "LD HL,nn" (Some 3));
  (OpByte 0x22,
    mkEntry 0
      []
      [OD (Some high_after_low) None "address" false;
        OD (Some high_after_low) None "address" false;
        MW None None PNone (Some rL) None 0;
        MW None None PNone (Some rH) None 0]
      "LD (nn),HL" (Some 3));
  (OpByte 0x23,
    mkEntry 0
      [LDr rHL (PCall (lam1 (fun state => Ok (Z.land ((get_reg state rHL) + 1) 0xFFFF)))) "value"]
      []
      "INC HL" (Some 1));
  (OpByte 0x24,
    mkEntry 0
      [force_flag fH (PCall (lam1 (fun state => Ok (if (0xF <? ((Z.land (get_reg state rH) 0xF) + 1)) then 1 else 0))));
        set_flags "SZ5-3V0-" (Some "value") None (PCall (lam1 (fun state => Ok ((get_reg state rH) + 1)))) None;
        LDr rH PNone "value"]
      []
      "INC H" (Some 1));
  (OpByte 0x25,
    mkEntry 0
      [force_flag fH (PCall (lam1 (fun state => Ok (if (((Z.land (get_reg state rH) 0xF) - 1) <? 0x0) then 1 else 0))));
        set_flags "SZ5H3V1-" (Some "value") None (PCall (lam1 (fun state => Ok ((get_reg state rH) - 1)))) None;
        LDr rH PNone "value"]
      []
      "DEC H" (Some 1));
  (OpByte 0x26,
    mkEntry 0
      []
      [OD (Some high_after_low) (Some (LDr rH PNone "value")) "value" false]
      "LD H,n" (Some 2));
  (OpByte 0x27,
    mkEntry 0
      [daa]
      []
      "DAA" (Some 2));
  (OpByte 0x28,
    mkEntry 0
      []
      [OD (Some high_after_low) (Some (do_each [(RRr "value" None PNone); (unless_flag fZ early_abort)])) "value" true;
        IO 5 true TNone (Some (JR PNone "value")) "value"]
      "JR Z,n" (Some 2));
  (OpByte 0x29,
    mkEntry 0
      [force_flag fH (PCall (lam1 (fun state => Ok (if (0xF <? (((Z.land (get_reg state rH) 0xF) + (Z.land (get_reg state rH) 0xF)) + (Z.shiftr ((get_reg state rL) + (get_reg state rL)) 8))) then 1 else 0))));
        set_flags "--5-3-0C" (Some "value") None (PCall (lam1 (fun state => Ok (((get_reg state rH) + (get_reg state rH)) + (Z.shiftr ((get_reg state rL) + (get_reg state rL)) 8))))) None;
        LDr rHL (PCall (lam1 (fun state => Ok (Z.land ((get_reg state rHL) + (get_reg state rHL)) 0xFFFF)))) "value"]
      [IO 4 true TNone None "value";
        IO 3 true TNone None "value"]
      "ADD HL,HL" (Some 1));
  (OpByte 0x2A,
    mkEntry 0
      []
      [OD (Some high_after_low) None "address" false;
        OD (Some high_after_low) None "address" false;
        MR None None (Some high_after_low) (Some (LDr rL PNone "value")) true;
        MR None None (Some high_after_low) (Some (LDr rH PNone "value")) true]
      "LD HL,(nn)" (Some 3));
  (OpByte 0x2B,
    mkEntry 0
      [LDr rHL (PCall (lam1 (fun state => Ok (Z.land ((get_reg state rHL) - 1) 0xFFFF)))) "value"]
      []
      "DEC HL" (Some 1));
  (OpByte 0x2C,
    mkEntry 0
      [force_flag fH (PCall (lam1 (fun state => Ok (if (0xF <? ((Z.land (get_reg state rL) 0xF) + 1)) then 1 else 0))));
        set_flags "SZ5-3V0-" (Some "value") None (PCall (lam1 (fun state => Ok ((get_reg state rL) + 1)))) None;
        LDr rL PNone "value"]
      []
      "INC L" (Some 1));
  (OpByte 0x2D,
    mkEntry 0
      [force_flag fH (PCall (lam1 (fun state => Ok (if (((Z.land (get_reg state rL) 0xF) - 1) <? 0x0) then 1 else 0))));
        set_flags "SZ5H3V1-" (Some "value") None (PCall (lam1 (fun state => Ok ((get_reg state rL) - 1)))) None;
        LDr rL PNone "value"]
      []
      "DEC L" (Some 1));
  (OpByte 0x2E,
    mkEntry 0
      []
      [OD (Some high_after_low) (Some (LDr rL PNone "value")) "value" false]
      "LD L,n" None);
  (OpByte 0x2F,
    mkEntry 0
      [set_flags "--*1*-1-" (Some "value") (Some rA) PNone None;
        LDr rA (PCall (lam1 (fun state => Ok (Z.land (Z.lnot (get_reg state rA)) 0xFF)))) "value"]
      []
      "CPL" (Some 1));
  (OpByte 0x30,
    mkEntry 0
      []
      [OD (Some high_after_low) (Some (do_each [(RRr "value" None PNone); (on_flag fC early_abort)])) "value" true;
        IO 5 true TNone (Some (JR PNone "value")) "value"]
      "JR NC,n" (Some 2));
  (OpByte 0x31,
    mkEntry 0
      []
      [OD (Some high_after_low) None "value" false;
        OD (Some high_after_low) (Some (LDr rSP PNone "value")) "value" false]
      "LD SP,nn" (Some 3));
  (OpByte 0x32,
    mkEntry 0
      []
      [OD (Some high_after_low) None "address" false;
        OD (Some high_after_low) None "address" false;
        MW None None PNone (Some rA) None 0]
      "LD (nn),A" (Some 3));
  (OpByte 0x33,
    mkEntry 0
      [LDr rSP (PCall (lam1 (fun state => Ok (Z.land ((get_reg state rSP) + 1) 0xFFFF)))) "value"]
      []
      "INC SP" (Some 1));
  (OpByte 0x34,
    mkEntry 0
      []
      [MR None (Some rHL) (Some high_after_low) (Some (do_each [(force_flag fH (PCall (lam2 (fun state v => Ok (if (0xF <? ((Z.land v 0xF) + 1)) then 1 else 0))))); (set_flags "SZ5-3V0-" (Some "value") None (PCall (lam2 (fun state v => Ok (v + 1)))) None)])) true;
        MW None (Some rHL) PNone None None 0]
      "INC (HL)" (Some 1));
  (OpByte 0x35,
    mkEntry 0
      []
      [MR None (Some rHL) (Some high_after_low) (Some (do_each [(force_flag fH (PCall (lam2 (fun state v => Ok (if (((Z.land v 0xF) - 1) <? 0x0) then 1 else 0))))); (set_flags "SZ5H3V1-" (Some "value") None (PCall (lam2 (fun state v => Ok (v - 1)))) None)])) true;
        MW None (Some rHL) PNone None None 0]
      "DEC (HL)" (Some 1));
  (OpByte 0x36,
    mkEntry 0
      []
      [OD (Some high_after_low) None "value" false;
        MW None (Some rHL) PNone None None 0]
      "LD (HL),n" (Some 2));
  (OpByte 0x37,
    mkEntry 0
      [LDr rF (PCall (lam1 (fun state => Ok (Z.lor (Z.lor (Z.land (get_reg state rF) 0xC4) (Z.land (get_reg state rA) 0x28)) 0x01)))) "value"]
      []
      "SCF" (Some 1));
  (OpByte 0x38,
    mkEntry 0
      []
      [OD (Some high_after_low) (Some (do_each [(RRr "value" None PNone); (unless_flag fC early_abort)])) "value" true;
        IO 5 true TNone (Some (JR PNone "value")) "value"]
      "JR C,n" (Some 2));
  (OpByte 0x39,
    mkEntry 0
      [force_flag fH (PCall (lam1 (fun state => Ok (if (0xF <? (((Z.land (get_reg state rSPH) 0xF) + (Z.land (get_reg state rH) 0xF)) + (Z.shiftr ((get_reg state rSPL) + (get_reg state rL)) 8))) then 1 else 0))));
        set_flags "--5-3-0C" (Some "value") None (PCall (lam1 (fun state => Ok (((get_reg state rSPH) + (get_reg state rH)) + (Z.shiftr ((get_reg state rSPL) + (get_reg state rL)) 8))))) None;
        LDr rHL (PCall (lam1 (fun state => Ok (Z.land ((get_reg state rSP) + (get_reg state rHL)) 0xFFFF)))) "value"]
      [IO 4 true TNone None "value";
        IO 3 true TNone None "value"]
      "ADD HL,SP" (Some 1));
  (OpByte 0x3B,
    mkEntry 0
      [LDr rSP (PCall (lam1 (fun state => Ok (Z.land ((get_reg state rSP) - 1) 0xFFFF)))) "value"]
      []
      "DEC SP" (Some 1));
  (OpByte 0x3C,
    mkEntry 0
      [force_flag fH (PCall (lam1 (fun state => Ok (if (0xF <? ((Z.land (get_reg state rA) 0xF) + 1)) then 1 else 0))));
        set_flags "SZ5-3V0-" (Some "value") None (PCall (lam1 (fun state => Ok ((get_reg state rA) + 1)))) None;
        LDr rA PNone "value"]
      []
      "INC A" (Some 1));
  (OpByte 0x3D,
    mkEntry 0
      [force_flag fH (PCall (lam1 (fun state => Ok (if (((Z.land (get_reg state rA) 0xF) - 1) <? 0x0) then 1 else 0))));
        set_flags "SZ5H3V1-" (Some "value") None (PCall (lam1 (fun state => Ok ((get_reg state rA) - 1)))) None;
        LDr rA PNone "value"]
      []
      "DEC A" (Some 1));
  (OpByte 0x3A,
    mkEntry 0
      []
      [OD (Some high_after_low) None "address" false;
        OD (Some high_after_low) None "address" false;
        MR None None (Some high_after_low) (Some (LDr rA PNone "value")) true]
      "LD A,(nn)" (Some 3));
  (OpByte 0x3E,
    mkEntry 0
      []
      [OD (Some high_after_low) (Some (LDr rA PNone "value")) "value" false]
      "LD A,n" (Some 2));
  (OpByte 0x3F,
    mkEntry 0
      [LDr rF (PCall (lam1 (fun state => Ok (Z.lor (Z.land (get_reg state rF) 0xEC) (Z.land (Z.lnot (get_reg state rF)) 0x11))))) "value"]
      []
      "CCF" (Some 1));
  (OpByte 0x40,
    mkEntry 0
      [LDrs rB rB]
      []
      "LD B,B" (Some 1));
  (OpByte 0x41,
    mkEntry 0
      [LDrs rB rC]
      []
      "LD B,C" (Some 1));
  (OpByte 0x42,
    mkEntry 0
      [LDrs rB rD]
      []
      "LD B,D" (Some 1));
  (OpByte 0x43,
    mkEntry 0
      [LDrs rB rE]
      []
      "LD B,E" (Some 1));
  (OpByte 0x44,
    mkEntry 0
      [LDrs rB rH]
      []
      "LD B,H" (Some 1));
  (OpByte 0x45,
    mkEntry 0
      [LDrs rB rL]
      []
      "LD B,L" (Some 1));
  (OpByte 0x46,
    mkEntry 0
      []
      [MR None (Some rHL) (Some high_after_low) (Some (LDr rB PNone "value")) true]
      "LD B,(HL)" (Some 1));
  (OpByte 0x47,
    mkEntry 0
      [LDrs rB rA]
      []
      "LD B,A" (Some 1));
  (OpByte 0x48,
    mkEntry 0
      [LDrs rC rB]
      []
      "LD C,B" (Some 1));
  (OpByte 0x49,
    mkEntry 0
      [LDrs rC rC]
      []
      "LD C,C" (Some 1));
  (OpByte 0x4A,
    mkEntry 0
      [LDrs rC rD]
      []
      "LD C,D" (Some 1));
  (OpByte 0x4B,
    mkEntry 0
      [LDrs rC rE]
      []
      "LD C,E" (Some 1));
  (OpByte 0x4C,
    mkEntry 0
      [LDrs rC rH]
      []
      "LD C,H" (Some 1));
  (OpByte 0x4D,
    mkEntry 0
      [LDrs rC rL]
      []
      "LD C,L" (Some 1));
  (OpByte 0x4E,
    mkEntry 0
      []
      [MR None (Some rHL) (Some high_after_low) (Some (LDr rC PNone "value")) true]
      "LD C,(HL)" (Some 1));
  (OpByte 0x4F,
    mkEntry 0
      [LDrs rC rA]
      []
      "LD C,A" (Some 1));
  (OpByte 0x50,
    mkEntry 0
      [LDrs rD rB]
      []
      "LD D,B" (Some 1));
  (OpByte 0x51,
    mkEntry 0
      [LDrs rD rC]
      []
      "LD D,C" (Some 1));
  (OpByte 0x52,
    mkEntry 0
      [LDrs rD rD]
      []
      "LD D,D" (Some 1));
  (OpByte 0x53,
    mkEntry 0
      [LDrs rD rE]
      []
      "LD D,E" (Some 1));
  (OpByte 0x54,
    mkEntry 0
      [LDrs rD rH]
      []
      "LD D,H" (Some 1));
  (OpByte 0x55,
    mkEntry 0
      [LDrs rD rL]
      []
      "LD D,L" (Some 1));
  (OpByte 0x56,
    mkEntry 0
      []
      [MR None (Some rHL) (Some high_after_low) (Some (LDr rD PNone "value")) true]
      "LD D,(HL)" (Some 1));
  (OpByte 0x57,
    mkEntry 0
      [LDrs rD rA]
      []
      "LD D,A" (Some 1));
  (OpByte 0x58,
    mkEntry 0
      [LDrs rE rB]
      []
      "LD E,B" (Some 1));
  (OpByte 0x59,
    mkEntry 0
      [LDrs rE rC]
      []
      "LD E,C" (Some 1));
  (OpByte 0x5A,
    mkEntry 0
      [LDrs rE rD]
      []
      "LD E,D" (Some 1));
  (OpByte 0x5B,
    mkEntry 0
      [LDrs rE rE]
      []
      "LD E,E" (Some 1));
  (OpByte 0x5C,
    mkEntry 0
      [LDrs rE rH]
      []
      "LD E,H" (Some 1));
  (OpByte 0x5D,
    mkEntry 0
      [LDrs rE rL]
      []
      "LD E,L" (Some 1));
  (OpByte 0x5E,
    mkEntry 0
      []
      [MR None (Some rHL) (Some high_after_low) (Some (LDr rE PNone "value")) true]
      "LD E,(HL)" (Some 1));
  (OpByte 0x5F,
    mkEntry 0
      [LDrs rE rA]
      []
      "LD E,A" (Some 1));
  (OpByte 0x60,
    mkEntry 0
      [LDrs rH rB]
      []
      "LD H,B" (Some 1));
  (OpByte 0x61,
    mkEntry 0
      [LDrs rH rC]
      []
      "LD H,C" (Some 1));
  (OpByte 0x62,
    mkEntry 0
      [LDrs rH rD]
      []
      "LD H,D" (Some 1));
  (OpByte 0x63,
    mkEntry 0
      [LDrs rH rE]
      []
      "LD H,E" (Some 1));
  (OpByte 0x64,
    mkEntry 0
      [LDrs rH rH]
      []
      "LD H,H" (Some 1));
  (OpByte 0x65,
    mkEntry 0
      [LDrs rH rL]
      []
      "LD H,L" (Some 1));
  (OpByte 0x66,
    mkEntry 0
      []
      [MR None (Some rHL) (Some high_after_low) (Some (LDr rH PNone "value")) true]
      "LD H,(HL)" (Some 1));
  (OpByte 0x67,
    mkEntry 0
      [LDrs rH rA]
      []
      "LD H,A" (Some 1));
  (OpByte 0x68,
    mkEntry 0
      [LDrs rL rB]
      []
      "LD L,B" (Some 1));
  (OpByte 0x69,
    mkEntry 0
      [LDrs rL rC]
      []
      "LD L,C" (Some 1));
  (OpByte 0x6A,
    mkEntry 0
      [LDrs rL rD]
      []
      "LD L,D" (Some 1));
  (OpByte 0x6B,
    mkEntry 0
      [LDrs rL rE]
      []
      "LD L,E" (Some 1));
  (OpByte 0x6C,
    mkEntry 0
      [LDrs rL rH]
      []
      "LD L,H" (Some 1));
  (OpByte 0x6D,
    mkEntry 0
      [LDrs rL rL]
      []
      "LD L,L" (Some 1));
  (OpByte 0x6E,
    mkEntry 0
      []
      [MR None (Some rHL) (Some high_after_low) (Some (LDr rL PNone "value")) true]
      "LD L,(HL)" (Some 1));
  (OpByte 0x6F,
    mkEntry 0
      [LDrs rL rA]
      []
      "LD L,A" (Some 1));
  (OpByte 0x70,
    mkEntry 0
      []
      [MW None (Some rHL) PNone (Some rB) None 0]
      "LD (HL),B" (Some 1));
  (OpByte 0x71,
    mkEntry 0
      []
      [MW None (Some rHL) PNone (Some rC) None 0]
      "LD (HL),C" (Some 1));
  (OpByte 0x72,
    mkEntry 0
      []
      [MW None (Some rHL) PNone (Some rD) None 0]
      "LD (HL),D" (Some 1));
  (OpByte 0x73,
    mkEntry 0
      []
      [MW None (Some rHL) PNone (Some rE) None 0]
      "LD (HL),E" (Some 1));
  (OpByte 0x74,
    mkEntry 0
      []
      [MW None (Some rHL) PNone (Some rH) None 0]
      "LD (HL),H" (Some 1));
  (OpByte 0x75,
    mkEntry 0
      []
      [MW None (Some rHL) PNone (Some rL) None 0]
      "LD (HL),L" (Some 1));
  (OpByte 0x76,
    mkEntry 0
      [on_condition (lam1 (fun state => Ok (negb (cpu_int (a_cpu state))))) (dec rPC)]
      []
      "HALT" (Some 1));
  (OpByte 0x77,
    mkEntry 0
      []
      [MW None (Some rHL) PNone (Some rA) None 0]
      "LD (HL),A" (Some 1));
  (OpByte 0x78,
    mkEntry 0
      [LDrs rA rB]
      []
      "LD A,B" (Some 1));
  (OpByte 0x79,
    mkEntry 0
      [LDrs rA rC]
      []
      "LD A,C" (Some 1));
  (OpByte 0x7A,
    mkEntry 0
      [LDrs rA rD]
      []
      "LD A,D" (Some 1));
  (OpByte 0x7B,
    mkEntry 0
      [LDrs rA rE]
      []
      "LD A,E" (Some 1));
  (OpByte 0x7C,
    mkEntry 0
      [LDrs rA rH]
      []
      "LD A,H" (Some 1));
  (OpByte 0x7D,
    mkEntry 0
      [LDrs rA rL]
      []
      "LD A,L" (Some 1));
  (OpByte 0x7E,
    mkEntry 0
      []
      [MR None (Some rHL) (Some high_after_low) (Some (LDr rA PNone "value")) true]
      "LD A, (HL)" (Some 1));
  (OpByte 0x7F,
    mkEntry 0
      [LDrs rA rA]
      []
      "LD A,A" (Some 1));
  (OpByte 0x80,
    mkEntry 0
      [force_flag fH (PCall (lam1 (fun state => Ok (if (0xF <? ((Z.land (get_reg state rA) 0xF) + (Z.land (get_reg state rB) 0xF))) then 1 else 0))));
        set_flags "SZ5-3V0C" (Some "value") None (PCall (lam1 (fun state => Ok ((get_reg state rA) + (get_reg state rB))))) None;
        LDr rA PNone "value"]
      []
      "ADD B" (Some 1));
  (OpByte 0x81,
    mkEntry 0
      [force_flag fH (PCall (lam1 (fun state => Ok (if (0xF <? ((Z.land (get_reg state rA) 0xF) + (Z.land (get_reg state rC) 0xF))) then 1 else 0))));
        set_flags "SZ5H3V0C" (Some "value") None (PCall (lam1 (fun state => Ok ((get_reg state rA) + (get_reg state rC))))) None;
        LDr rA PNone "value"]
      []
      "ADD C" (Some 1));
  (OpByte 0x82,
    mkEntry 0
      [force_flag fH (PCall (lam1 (fun state => Ok (if (0xF <? ((Z.land (get_reg state rA) 0xF) + (Z.land (get_reg state rD) 0xF))) then 1 else 0))));
        set_flags "SZ5H3V0C" (Some "value") None (PCall (lam1 (fun state => Ok ((get_reg state rA) + (get_reg state rD))))) None;
        LDr rA PNone "value"]
      []
      "ADD D" (Some 1));
  (OpByte 0x83,
    mkEntry 0
      [force_flag fH (PCall (lam1 (fun state => Ok (if (0xF <? ((Z.land (get_reg state rA) 0xF) + (Z.land (get_reg state rE) 0xF))) then 1 else 0))));
        set_flags "SZ5H3V0C" (Some "value") None (PCall (lam1 (fun state => Ok ((get_reg state rA) + (get_reg state rE))))) None;
        LDr rA PNone "value"]
      []
      "ADD E" (Some 1));
  (OpByte 0x84,
    mkEntry 0
      [force_flag fH (PCall (lam1 (fun state => Ok (if (0xF <? ((Z.land (get_reg state rA) 0xF) + (Z.land (get_reg state rH) 0xF))) then 1 else 0))));
        set_flags "SZ5H3V0C" (Some "value") None (PCall (lam1 (fun state => Ok ((get_reg state rA) + (get_reg state rH))))) None;
        LDr rA PNone "value"]
      []
      "ADD H" (Some 1));
  (OpByte 0x85,
    mkEntry 0
      [force_flag fH (PCall (lam1 (fun state => Ok (if (0xF <? ((Z.land (get_reg state rA) 0xF) + (Z.land (get_reg state rL) 0xF))) then 1 else 0))));
        set_flags "SZ5H3V0C" (Some "value") None (PCall (lam1 (fun state => Ok ((get_reg state rA) + (get_reg state rL))))) None;
        LDr rA PNone "value"]
      []
      "ADD L" (Some 1));
  (OpByte 0x86,
    mkEntry 0
      []
      [MR None (Some rHL) (Some high_after_low) (Some (do_each [(force_flag fH (PCall (lam2 (fun state v => Ok (if (0xF <? ((Z.land (get_reg state rA) 0xF) + (Z.land v 0xF))) then 1 else 0))))); (set_flags "SZ5H3V0C" (Some "value") None (PCall (lam2 (fun state v => Ok ((get_reg state rA) + v)))) (Some rA))])) true]
      "ADD (HL)" (Some 1));
  (OpByte 0x87,
    mkEntry 0
      [force_flag fH (PCall (lam1 (fun state => Ok (if (0xF <? ((Z.land (get_reg state rA) 0xF) + (Z.land (get_reg state rA) 0xF))) then 1 else 0))));
        set_flags "SZ5H3V0C" (Some "value") None (PCall (lam1 (fun state => Ok ((get_reg state rA) + (get_reg state rA))))) None;
        LDr rA PNone "value"]
      []
      "ADD A" (Some 1));
  (OpByte 0x88,
    mkEntry 0
      [force_flag fH (PCall (lam1 (fun state => Ok (if (0xF <? (((Z.land (get_reg state rA) 0xF) + (Z.land (get_reg state rB) 0xF)) + (getflag state fC))) then 1 else 0))));
        set_flags "SZ5H3V0C" (Some "value") None (PCall (lam1 (fun state => Ok (((get_reg state rA) + (get_reg state rB)) + (getflag state fC))))) None;
        LDr rA PNone "value"]
      []
      "ADC B" (Some 1));
  (OpByte 0x89,
    mkEntry 0
      [force_flag fH (PCall (lam1 (fun state => Ok (if (0xF <? (((Z.land (get_reg state rA) 0xF) + (Z.land (get_reg state rC) 0xF)) + (getflag state fC))) then 1 else 0))));
        set_flags "SZ5H3V0C" (Some "value") None (PCall (lam1 (fun state => Ok (((get_reg state rA) + (get_reg state rC)) + (getflag state fC))))) None;
        LDr rA PNone "value"]
      []
      "ADC C" (Some 1));
  (OpByte 0x8A,
    mkEntry 0
      [force_flag fH (PCall (lam1 (fun state => Ok (if (0xF <? (((Z.land (get_reg state rA) 0xF) + (Z.land (get_reg state rD) 0xF)) + (getflag state fC))) then 1 else 0))));
        set_flags "SZ5H3V0C" (Some "value") None (PCall (lam1 (fun state => Ok (((get_reg state rA) + (get_reg state rD)) + (getflag state fC))))) None;
        LDr rA PNone "value"]
      []
      "ADC D" (Some 1));
  (OpByte 0x8B,
    mkEntry 0
      [force_flag fH (PCall (lam1 (fun state => Ok (if (0xF <? (((Z.land (get_reg state rA) 0xF) + (Z.land (get_reg state rE) 0xF)) + (getflag state fC))) then 1 else 0))));
        set_flags "SZ5H3V0C" (Some "value") None (PCall (lam1 (fun state => Ok (((get_reg state rA) + (get_reg state rE)) + (getflag state fC))))) None;
        LDr rA PNone "value"]
      []
      "ADC E" (Some 1));
  (OpByte 0x8C,
    mkEntry 0
      [force_flag fH (PCall (lam1 (fun state => Ok (if (0xF <? (((Z.land (get_reg state rA) 0xF) + (Z.land (get_reg state rH) 0xF)) + (getflag state fC))) then 1 else 0))));
        set_flags "SZ5H3V0C" (Some "value") None (PCall (lam1 (fun state => Ok (((get_reg state rA) + (get_reg state rH)) + (getflag state fC))))) None;
        LDr rA PNone "value"]
      []
      "ADC H" (Some 1));
  (OpByte 0x8D,
    mkEntry 0
      [force_flag fH (PCall (lam1 (fun state => Ok (if (0xF <? (((Z.land (get_reg state rA) 0xF) + (Z.land (get_reg state rL) 0xF)) + (getflag state fC))) then 1 else 0))));
        set_flags "SZ5H3V0C" (Some "value") None (PCall (lam1 (fun state => Ok (((get_reg state rA) + (get_reg state rL)) + (getflag state fC))))) None;
        LDr rA PNone "value"]
      []
      "ADC L" (Some 1));
  (OpByte 0x8E,
    mkEntry 0
      []
      [MR None (Some rHL) (Some high_after_low) (Some (do_each [(force_flag fH (PCall (lam2 (fun state v => Ok (if (0xF <? (((Z.land (get_reg state rA) 0xF) + (Z.land v 0xF)) + (getflag state fC))) then 1 else 0))))); (set_flags "SZ5H3V0C" (Some "value") None (PCall (lam2 (fun state v => Ok (((get_reg state rA) + v) + (getflag state fC))))) (Some rA))])) true]
      "ADC (HL)" (Some 1));
  (OpByte 0x8F,
    mkEntry 0
      [force_flag fH (PCall (lam1 (fun state => Ok (if (0xF <? (((Z.land (get_reg state rA) 0xF) + (Z.land (get_reg state rA) 0xF)) + (getflag state fC))) then 1 else 0))));
        set_flags "SZ5H3V0C" (Some "value") None (PCall (lam1 (fun state => Ok (((get_reg state rA) + (get_reg state rA)) + (getflag state fC))))) None;
        LDr rA PNone "value"]
      []
      "ADC A" (Some 1));
  (OpByte 0x90,
    mkEntry 0
      [force_flag fH (PCall (lam1 (fun state => Ok (if (((Z.land (get_reg state rA) 0xF) - (Z.land (get_reg state rB) 0xF)) <? 0x0) then 1 else 0))));
        set_flags "SZ5H3V1C" (Some "value") None (PCall (lam1 (fun state => Ok ((get_reg state rA) - (get_reg state rB))))) None;
        LDr rA PNone "value"]
      []
      "SUB B" (Some 1));
  (OpByte 0x91,
    mkEntry 0
      [force_flag fH (PCall (lam1 (fun state => Ok (if (((Z.land (get_reg state rA) 0xF) - (Z.land (get_reg state rC) 0xF)) <? 0x0) then 1 else 0))));
        set_flags "SZ5H3V1C" (Some "value") None (PCall (lam1 (fun state => Ok ((get_reg state rA) - (get_reg state rC))))) None;
        LDr rA PNone "value"]
      []
      "SUB C" (Some 1));
  (OpByte 0x92,
    mkEntry 0
      [force_flag fH (PCall (lam1 (fun state => Ok (if (((Z.land (get_reg state rA) 0xF) - (Z.land (get_reg state rD) 0xF)) <? 0x0) then 1 else 0))));
        set_flags "SZ5H3V1C" (Some "value") None (PCall (lam1 (fun state => Ok ((get_reg state rA) - (get_reg state rD))))) None;
        LDr rA PNone "value"]
      []
      "SUB D" (Some 1));
  (OpByte 0x93,
    mkEntry 0
      [force_flag fH (PCall (lam1 (fun state => Ok (if (((Z.land (get_reg state rA) 0xF) - (Z.land (get_reg state rE) 0xF)) <? 0x0) then 1 else 0))));
        set_flags "SZ5H3V1C" (Some "value") None (PCall (lam1 (fun state => Ok ((get_reg state rA) - (get_reg state rE))))) None;
        LDr rA PNone "value"]
      []
      "SUB E" (Some 1));
  (OpByte 0x94,
    mkEntry 0
      [force_flag fH (PCall (lam1 (fun state => Ok (if (((Z.land (get_reg state rA) 0xF) - (Z.land (get_reg state rH) 0xF)) <? 0x0) then 1 else 0))));
        set_flags "SZ5H3V1C" (Some "value") None (PCall (lam1 (fun state => Ok ((get_reg state rA) - (get_reg state rH))))) None;
        LDr rA PNone "value"]
      []
      "SUB H" (Some 1));
  (OpByte 0x95,
    mkEntry 0
      [force_flag fH (PCall (lam1 (fun state => Ok (if (((Z.land (get_reg state rA) 0xF) - (Z.land (get_reg state rL) 0xF)) <? 0x0) then 1 else 0))));
        set_flags "SZ5H3V1C" (Some "value") None (PCall (lam1 (fun state => Ok ((get_reg state rA) - (get_reg state rL))))) None;
        LDr rA PNone "value"]
      []
      "SUB L" (Some 1));
  (OpByte 0x96,
    mkEntry 0
      []
      [MR None (Some rHL) (Some high_after_low) (Some (do_each [(force_flag fH (PCall (lam2 (fun state v => Ok (if (((Z.land (get_reg state rA) 0xF) - (Z.land v 0xF)) <? 0x0) then 1 else 0))))); (set_flags "SZ5H3V1C" (Some "value") None (PCall (lam2 (fun state v => Ok ((get_reg state rA) - v)))) (Some rA))])) true]
      "SUB (HL)" None);
  (OpByte 0x97,
    mkEntry 0
      [force_flag fH (PCall (lam1 (fun state => Ok (if (((Z.land (get_reg state rA) 0xF) - (Z.land (get_reg state rA) 0xF)) <? 0x0) then 1 else 0))));
        set_flags "SZ5H3V1C" (Some "value") None (PCall (lam1 (fun state => Ok ((get_reg state rA) - (get_reg state rA))))) None;
        LDr rA PNone "value"]
      []
      "SUB A" (Some 1));
  (OpByte 0x98,
    mkEntry 0
      [force_flag fH (PCall (lam1 (fun state => Ok (if ((((Z.land (get_reg state rA) 0xF) - (Z.land (get_reg state rB) 0xF)) - (getflag state fC)) <? 0x0) then 1 else 0))));
        set_flags "SZ5H3V1C" (Some "value") None (PCall (lam1 (fun state => Ok (((get_reg state rA) - (get_reg state rB)) - (getflag state fC))))) None;
        LDr rA PNone "value"]
      []
      "SBC B" (Some 1));
  (OpByte 0x99,
    mkEntry 0
      [force_flag fH (PCall (lam1 (fun state => Ok (if ((((Z.land (get_reg state rA) 0xF) - (Z.land (get_reg state rC) 0xF)) - (getflag state fC)) <? 0x0) then 1 else 0))));
        set_flags "SZ5H3V1C" (Some "value") None (PCall (lam1 (fun state => Ok (((get_reg state rA) - (get_reg state rC)) - (getflag state fC))))) None;
        LDr rA PNone "value"]
      []
      "SBC C" (Some 1));
  (OpByte 0x9A,
    mkEntry 0
      [force_flag fH (PCall (lam1 (fun state => Ok (if ((((Z.land (get_reg state rA) 0xF) - (Z.land (get_reg state rD) 0xF)) - (getflag state fC)) <? 0x0) then 1 else 0))));
        set_flags "SZ5H3V1C" (Some "value") None (PCall (lam1 (fun state => Ok (((get_reg state rA) - (get_reg state rD)) - (getflag state fC))))) None;
        LDr rA PNone "value"]
      []
      "SBC D" (Some 1));
  (OpByte 0x9B,
    mkEntry 0
      [force_flag fH (PCall (lam1 (fun state => Ok (if ((((Z.land (get_reg state rA) 0xF) - (Z.land (get_reg state rE) 0xF)) - (getflag state fC)) <? 0x0) then 1 else 0))));
        set_flags "SZ5H3V1C" (Some "value") None (PCall (lam1 (fun state => Ok (((get_reg state rA) - (get_reg state rE)) - (getflag state fC))))) None;
        LDr rA PNone "value"]
      []
      "SBC E" (Some 1));
  (OpByte 0x9C,
    mkEntry 0
      [force_flag fH (PCall (lam1 (fun state => Ok (if ((((Z.land (get_reg state rA) 0xF) - (Z.land (get_reg state rH) 0xF)) - (getflag state fC)) <? 0x0) then 1 else 0))));
        set_flags "SZ5H3V1C" (Some "value") None (PCall (lam1 (fun state => Ok (((get_reg state rA) - (get_reg state rH)) - (getflag state fC))))) None;
        LDr rA PNone "value"]
      []
      "SBC H" (Some 1));
  (OpByte 0x9D,
    mkEntry 0
      [force_flag fH (PCall (lam1 (fun state => Ok (if ((((Z.land (get_reg state rA) 0xF) - (Z.land (get_reg state rL) 0xF)) - (getflag state fC)) <? 0x0) then 1 else 0))));
        set_flags "SZ5H3V1C" (Some "value") None (PCall (lam1 (fun state => Ok (((get_reg state rA) - (get_reg state rL)) - (getflag state fC))))) None;
        LDr rA PNone "value"]
      []
      "SBC L" (Some 1));
  (OpByte 0x9E,
    mkEntry 0
      []
      [MR None (Some rHL) (Some high_after_low) (Some (do_each [(force_flag fH (PCall (lam2 (fun state v => Ok (if ((((Z.land (get_reg state rA) 0xF) - (Z.land v 0xF)) - (getflag state fC)) <? 0x0) then 1 else 0))))); (set_flags "SZ5H3V1C" (Some "value") None (PCall (lam2 (fun state v => Ok (((get_reg state rA) - v) - (getflag state fC))))) (Some rA))])) true]
      "SBC (HL)" (Some 1));
  (OpByte 0x9F,
    mkEntry 0
      [force_flag fH (PCall (lam1 (fun state => Ok (if ((((Z.land (get_reg state rA) 0xF) - (Z.land (get_reg state rA) 0xF)) - (getflag state fC)) <? 0x0) then 1 else 0))));
        set_flags "SZ5H3V1C" (Some "value") None (PCall (lam1 (fun state => Ok (((get_reg state rA) - (get_reg state rA)) - (getflag state fC))))) None;
        LDr rA PNone "value"]
      []
      "SBC A" (Some 1));
  (OpByte 0xA0,
    mkEntry 0
      [set_flags "SZ513P00" (Some "value") None (PCall (lam1 (fun state => Ok (Z.land (get_reg state rA) (get_reg state rB))))) None;
        LDr rA PNone "value"]
      []
      "AND B" (Some 1));
  (OpByte 0xA1,
    mkEntry 0
      [set_flags "SZ513P00" (Some "value") None (PCall (lam1 (fun state => Ok (Z.land (get_reg state rA) (get_reg state rC))))) None;
        LDr rA PNone "value"]
      []
      "AND C" (Some 1));
  (OpByte 0xA2,
    mkEntry 0
      [set_flags "SZ513P00" (Some "value") None (PCall (lam1 (fun state => Ok (Z.land (get_reg state rA) (get_reg state rD))))) None;
        LDr rA PNone "value"]
      []
      "AND D" (Some 1));
  (OpByte 0xA3,
    mkEntry 0
      [set_flags "SZ513P00" (Some "value") None (PCall (lam1 (fun state => Ok (Z.land (get_reg state rA) (get_reg state rE))))) None;
        LDr rA PNone "value"]
      []
      "AND E" (Some 1));
  (OpByte 0xA4,
    mkEntry 0
      [set_flags "SZ513P00" (Some "value") None (PCall (lam1 (fun state => Ok (Z.land (get_reg state rA) (get_reg state rH))))) None;
        LDr rA PNone "value"]
      []
      "AND H" (Some 1));
  (OpByte 0xA5,
    mkEntry 0
      [set_flags "SZ513P00" (Some "value") None (PCall (lam1 (fun state => Ok (Z.land (get_reg state rA) (get_reg state rL))))) None;
        LDr rA PNone "value"]
      []
      "AND L" (Some 1));
  (OpByte 0xA6,
    mkEntry 0
      []
      [MR None (Some rHL) (Some high_after_low) (Some (set_flags "SZ513P00" (Some "value") None (PCall (lam2 (fun state v => Ok (Z.land (get_reg state rA) v)))) (Some rA))) true]
      "AND (HL)" (Some 1));
  (OpByte 0xA7,
    mkEntry 0
      [set_flags "SZ513P00" (Some "value") None (PCall (lam1 (fun state => Ok (Z.land (get_reg state rA) (get_reg state rA))))) None;
        LDr rA PNone "value"]
      []
      "AND A" (Some 1));
  (OpByte 0xA8,
    mkEntry 0
      [set_flags "SZ503P00" (Some "value") None (PCall (lam1 (fun state => Ok (Z.lxor (get_reg state rA) (get_reg state rB))))) None;
        LDr rA PNone "value"]
      []
      "XOR B" (Some 1));
  (OpByte 0xA9,
    mkEntry 0
      [set_flags "SZ503P00" (Some "value") None (PCall (lam1 (fun state => Ok (Z.lxor (get_reg state rA) (get_reg state rC))))) None;
        LDr rA PNone "value"]
      []
      "XOR C" (Some 1));
  (OpByte 0xAA,
    mkEntry 0
      [set_flags "SZ503P00" (Some "value") None (PCall (lam1 (fun state => Ok (Z.lxor (get_reg state rA) (get_reg state rD))))) None;
        LDr rA PNone "value"]
      []
      "XOR D" (Some 1));
  (OpByte 0xAB,
    mkEntry 0
      [set_flags "SZ503P00" (Some "value") None (PCall (lam1 (fun state => Ok (Z.lxor (get_reg state rA) (get_reg state rE))))) None;
        LDr rA PNone "value"]
      []
      "XOR E" (Some 1));
  (OpByte 0xAC,
    mkEntry 0
      [set_flags "SZ503P00" (Some "value") None (PCall (lam1 (fun state => Ok (Z.lxor (get_reg state rA) (get_reg state rH))))) None;
        LDr rA PNone "value"]
      []
      "XOR H" (Some 1));
  (OpByte 0xAD,
    mkEntry 0
      [set_flags "SZ503P00" (Some "value") None (PCall (lam1 (fun state => Ok (Z.lxor (get_reg state rA) (get_reg state rL))))) None;
        LDr rA PNone "value"]
      []
      "XOR L" (Some 1));
  (OpByte 0xAE,
    mkEntry 0
      []
      [MR None (Some rHL) (Some high_after_low) (Some (set_flags "SZ503P00" (Some "value") None (PCall (lam2 (fun state v => Ok (Z.lxor (get_reg state rA) v)))) (Some rA))) true]
      "XOR (HL)" (Some 1));
  (OpByte 0xAF,
    mkEntry 0
      [set_flags "SZ503P00" (Some "value") None (PCall (lam1 (fun state => Ok (Z.lxor (get_reg state rA) (get_reg state rA))))) None;
        LDr rA PNone "value"]
      []
      "XOR A" (Some 1));
  (OpByte 0xB0,
    mkEntry 0
      [set_flags "SZ503P00" (Some "value") None (PCall (lam1 (fun state => Ok (Z.lor (get_reg state rA) (get_reg state rB))))) None;
        LDr rA PNone "value"]
      []
      "OR B" (Some 1));
  (OpByte 0xB1,
    mkEntry 0
      [set_flags "SZ503P00" (Some "value") None (PCall (lam1 (fun state => Ok (Z.lor (get_reg state rA) (get_reg state rC))))) None;
        LDr rA PNone "value"]
      []
      "OR C" (Some 1));
  (OpByte 0xB2,
    mkEntry 0
      [set_flags "SZ503P00" (Some "value") None (PCall (lam1 (fun state => Ok (Z.lor (get_reg state rA) (get_reg state rD))))) None;
        LDr rA PNone "value"]
      []
      "OR D" (Some 1));
  (OpByte 0xB3,
    mkEntry 0
      [set_flags "SZ503P00" (Some "value") None (PCall (lam1 (fun state => Ok (Z.lor (get_reg state rA) (get_reg state rE))))) None;
        LDr rA PNone "value"]
      []
      "OR E" (Some 1));
  (OpByte 0xB4,
    mkEntry 0
      [set_flags "SZ503P00" (Some "value") None (PCall (lam1 (fun state => Ok (Z.lor (get_reg state rA) (get_reg state rH))))) None;
        LDr rA PNone "value"]
      []
      "OR H" (Some 1));
  (OpByte 0xB5,
    mkEntry 0
      [set_flags "SZ503P00" (Some "value") None (PCall (lam1 (fun state => Ok (Z.lor (get_reg state rA) (get_reg state rL))))) None;
        LDr rA PNone "value"]
      []
      "OR L" (Some 1));
  (OpByte 0xB6,
    mkEntry 0
      []
      [MR None (Some rHL) (Some high_after_low) (Some (set_flags "SZ503P00" (Some "value") None (PCall (lam2 (fun state v => Ok (Z.lor (get_reg state rA) v)))) (Some rA))) true]
      "OR (HL)" (Some 1));
  (OpByte 0xB7,
    mkEntry 0
      [set_flags "SZ503P00" (Some "value") None (PCall (lam1 (fun state => Ok (Z.lor (get_reg state rA) (get_reg state rA))))) None;
        LDr rA PNone "value"]
      []
      "OR A" (Some 1));
  (OpByte 0xB8,
    mkEntry 0
      [set_flags "SZ5H3V1C" (Some "value") None (PCall (lam1 (fun state => Ok ((get_reg state rA) - (get_reg state rB))))) None]
      []
      "CP B" (Some 1));
  (OpByte 0xB9,
    mkEntry 0
      [set_flags "SZ5H3V1C" (Some "value") None (PCall (lam1 (fun state => Ok ((get_reg state rA) - (get_reg state rC))))) None]
      []
      "CP C" (Some 1));
  (OpByte 0xBA,
    mkEntry 0
      [set_flags "SZ5H3V1C" (Some "value") None (PCall (lam1 (fun state => Ok ((get_reg state rA) - (get_reg state rD))))) None]
      []
      "CP D" (Some 1));
  (OpByte 0xBB,
    mkEntry 0
      [set_flags "SZ5H3V1C" (Some "value") None (PCall (lam1 (fun state => Ok ((get_reg state rA) - (get_reg state rE))))) None]
      []
      "CP E" (Some 1));
  (OpByte 0xBC,
    mkEntry 0
      [set_flags "SZ5H3V1C" (Some "value") None (PCall (lam1 (fun state => Ok ((get_reg state rA) - (get_reg state rH))))) None]
      []
      "CP H" (Some 1));
  (OpByte 0xBD,
    mkEntry 0
      [set_flags "SZ5H3V1C" (Some "value") None (PCall (lam1 (fun state => Ok ((get_reg state rA) - (get_reg state rL))))) None]
      []
      "CP L" (Some 1));
  (OpByte 0xBE,
    mkEntry 0
      []
      [MR None (Some rHL) (Some high_after_low) (Some (set_flags "SZ5H3V1C" (Some "value") None (PCall (lam2 (fun state v => Ok ((get_reg state rA) - v)))) None)) true]
      "CP (HL)" (Some 1));
  (OpByte 0xBF,
    mkEntry 0
      [set_flags "SZ5H3V1C" (Some "value") None (PCall (lam1 (fun state => Ok ((get_reg state rA) - (get_reg state rA))))) None]
      []
      "CP A" (Some 1));
  (OpByte 0xC0,
    mkEntry 1
      [on_flag fZ early_abort]
      [SR (Some high_after_low) None 0;
        SR (Some high_after_low) (Some (JP PNone None None)) 0]
      "RET NZ" (Some 1));
  (OpByte 0xC1,
    mkEntry 0
      []
      [SR (Some high_after_low) None 0;
        SR (Some high_after_low) (Some (LDr rBC PNone "value")) 0]
      "POP BC" (Some 1));
  (OpByte 0xC2,
    mkEntry 0
      []
      [OD (Some high_after_low) None "value" false;
        OD (Some high_after_low) (Some (unless_flag fZ (JP PNone None None))) "value" false]
      "JP NZ,nn" (Some 3));
  (OpByte 0xC3,
    mkEntry 0
      []
      [OD (Some high_after_low) None "value" false;
        OD (Some high_after_low) (Some (JP PNone None None)) "value" false]
      "JP nn" (Some 3));
  (OpByte 0xC4,
    mkEntry 0
      []
      [OD (Some high_after_low) None "value" false;
        OD (Some high_after_low) (Some (do_each [(RRr "target" None PNone); (on_flag fZ early_abort)])) "value" false;
        SW (Some rPCH) "value" 0 None;
        SW (Some rPCL) "value" 0 (Some (JP PNone (Some "target") None))]
      "CALL NZ,nn" (Some 3));
  (OpByte 0xC5,
    mkEntry 1
      []
      [SW (Some rB) "value" 0 None;
        SW (Some rC) "value" 0 None]
      "PUSH BC" (Some 1));
  (OpByte 0xC6,
    mkEntry 0
      []
      [OD (Some high_after_low) (Some (do_each [(force_flag fH (PCall (lam2 (fun state v => Ok (if (0xF <? ((Z.land (get_reg state rA) 0xF) + (Z.land v 0xF))) then 1 else 0))))); (set_flags "SZ5H3V0C" (Some "value") None (PCall (lam2 (fun state v => Ok ((get_reg state rA) + v)))) (Some rA))])) "value" false]
      "ADD n" (Some 2));
  (OpByte 0xC7,
    mkEntry 1
      []
      [SW (Some rPCH) "value" 0 None;
        SW (Some rPCL) "value" 0 (Some (JP (PLit 0x0000) None None))]
      "RST 00H" (Some 1));
  (OpByte 0xC8,
    mkEntry 1
      [unless_flag fZ early_abort]
      [SR (Some high_after_low) None 0;
        SR (Some high_after_low) (Some (JP PNone None None)) 0]
      "RET NZ" (Some 1));
  (OpByte 0xC9,
    mkEntry 0
      []
      [SR (Some high_after_low) None 0;
        SR (Some high_after_low) (Some (JP PNone None None)) 0]
      "RET" (Some 1));
  (OpByte 0xCA,
    mkEntry 0
      []
      [OD (Some high_after_low) None "value" false;
        OD (Some high_after_low) (Some (on_flag fZ (JP PNone None None))) "value" false]
      "JP Z,nn" (Some 3));
  (OpByte 0xCB,
    mkEntry 0
      []
      [OCF (Some (OpByte 0xCB)) false 0]
      "" (Some 0));
  (OpByte 0xCC,
    mkEntry 0
      []
      [OD (Some high_after_low) None "value" false;
        OD (Some high_after_low) (Some (do_each [(RRr "target" None PNone); (unless_flag fZ early_abort)])) "value" false;
        SW (Some rPCH) "value" 0 None;
        SW (Some rPCL) "value" 0 (Some (JP PNone (Some "target") None))]
      "CALL Z,nn" (Some 3));
  (OpByte 0xCD,
    mkEntry 0
      []
      [OD (Some high_after_low) None "value" false;
        OD (Some high_after_low) (Some (RRr "target" None PNone)) "value" false;
        SW (Some rPCH) "value" 0 None;
        SW (Some rPCL) "value" 0 (Some (JP PNone (Some "target") None))]
      "CALL nn" (Some 3));
  (OpByte 0xCE,
    mkEntry 0
      []
      [OD (Some high_after_low) (Some (do_each [(force_flag fH (PCall (lam2 (fun state v => Ok (if (0xF <? (((Z.land (get_reg state rA) 0xF) + (Z.land v 0xF)) + (getflag state fC))) then 1 else 0))))); (set_flags "SZ5H3V0C" (Some "value") None (PCall (lam2 (fun state v => Ok (((get_reg state rA) + v) + (getflag state fC))))) (Some rA))])) "value" false]
      "ADC n" (Some 2));
  (OpByte 0xCF,
    mkEntry 1
      []
      [SW (Some rPCH) "value" 0 None;
        SW (Some rPCL) "value" 0 (Some (JP (PLit 0x0008) None None))]
      "RST 08H" (Some 1));
  (OpByte 0xD0,
    mkEntry 1
      [on_flag fC early_abort]
      [SR (Some high_after_low) None 0;
        SR (Some high_after_low) (Some (JP PNone None None)) 0]
      "RET NC" (Some 1));
  (OpByte 0xD1,
    mkEntry 0
      []
      [SR (Some high_after_low) None 0;
        SR (Some high_after_low) (Some (LDr rDE PNone "value")) 0]
      "POP DE" (Some 1));
  (OpByte 0xD2,
    mkEntry 0
      []
      [OD (Some high_after_low) None "value" false;
        OD (Some high_after_low) (Some (unless_flag fC (JP PNone None None))) "value" false]
      "JP NC,nn" (Some 3));
  (OpByte 0xD3,
    mkEntry 0
      []
      [OD (Some high_after_low) None "address" false;
        PW (Some rA) None None (Some rA)]
      "OUT (n),A" (Some 2));
  (OpByte 0xD4,
    mkEntry 0
      []
      [OD (Some high_after_low) None "value" false;
        OD (Some high_after_low) (Some (do_each [(RRr "target" None PNone); (on_flag fC early_abort)])) "value" false;
        SW (Some rPCH) "value" 0 None;
        SW (Some rPCL) "value" 0 (Some (JP PNone (Some "target") None))]
      "CALL NC,nn" (Some 3));
  (OpByte 0xD5,
    mkEntry 1
      []
      [SW (Some rD) "value" 0 None;
        SW (Some rE) "value" 0 None]
      "PUSH DE" (Some 1));
  (OpByte 0xD6,
    mkEntry 0
      []
      [OD (Some high_after_low) (Some (do_each [(force_flag fH (PCall (lam2 (fun state v => Ok (if (((Z.land (get_reg state rA) 0xF) - (Z.land v 0xF)) <? 0x0) then 1 else 0))))); (set_flags "SZ5H3V1C" (Some "value") None (PCall (lam2 (fun state v => Ok ((get_reg state rA) - v)))) (Some rA))])) "value" false]
      "SUB n" (Some 2));
  (OpByte 0xD7,
    mkEntry 1
      []
      [SW (Some rPCH) "value" 0 None;
        SW (Some rPCL) "value" 0 (Some (JP (PLit 0x0010) None None))]
      "RST 10H" (Some 1));
  (OpByte 0xD8,
    mkEntry 1
      [unless_flag fC early_abort]
      [SR (Some high_after_low) None 0;
        SR (Some high_after_low) (Some (JP PNone None None)) 0]
      "RET C" (Some 1));
  (OpByte 0xDA,
    mkEntry 0
      []
      [OD (Some high_after_low) None "value" false;
        OD (Some high_after_low) (Some (on_flag fC (JP PNone None None))) "value" false]
      "JP C,nn" (Some 3));
  (OpByte 0xDB,
    mkEntry 0
      []
      [OD (Some high_after_low) None "value" false;
        PR (Some rA) None None (Some rA)]
      "IN A,n" (Some 2));
  (OpByte 0xDC,
    mkEntry 0
      []
      [OD (Some high_after_low) None "value" false;
        OD (Some high_after_low) (Some (do_each [(RRr "target" None PNone); (unless_flag fC early_abort)])) "value" false;
        SW (Some rPCH) "value" 0 None;
        SW (Some rPCL) "value" 0 (Some (JP PNone (Some "target") None))]
      "CALL C,nn" (Some 3));
  (OpByte 0xDE,
    mkEntry 0
      []
      [OD (Some high_after_low) (Some (do_each [(force_flag fH (PCall (lam2 (fun state v => Ok (if ((((Z.land (get_reg state rA) 0xF) - (Z.land v 0xF)) - (getflag state fC)) <? 0x0) then 1 else 0))))); (set_flags "SZ5H3V1C" (Some "value") None (PCall (lam2 (fun state v => Ok (((get_reg state rA) - v) - (getflag state fC))))) (Some rA))])) "value" false]
      "SBC n" (Some 2));
  (OpByte 0xD9,
    mkEntry 0
      [EXX]
      []
      "EXX" (Some 1));
  (OpByte 0xDD,
    mkEntry 0
      []
      [OCF (Some (OpByte 0xDD)) false 0]
      "" (Some 0));
  (OpByte 0xDF,
    mkEntry 1
      []
      [SW (Some rPCH) "value" 0 None;
        SW (Some rPCL) "value" 0 (Some (JP (PLit 0x0018) None None))]
      "RST 18H" (Some 1));
  (OpByte 0xE0,
    mkEntry 1
      [on_flag fP early_abort]
      [SR (Some high_after_low) None 0;
        SR (Some high_after_low) (Some (JP PNone None None)) 0]
      "RET PO" (Some 1));
  (OpByte 0xE1,
    mkEntry 0
      []
      [SR (Some high_after_low) None 0;
        SR (Some high_after_low) (Some (LDr rHL PNone "value")) 0]
      "POP HL" (Some 1));
  (OpByte 0xE2,
    mkEntry 0
      []
      [OD (Some high_after_low) None "value" false;
        OD (Some high_after_low) (Some (unless_flag fP (JP PNone None None))) "value" false]
      "JP PO,nn" (Some 3));
  (OpByte 0xE3,
    mkEntry 0
      [RRr "H" (Some rH) PNone;
        RRr "L" (Some rL) PNone]
      [SR (Some high_after_low) None 0;
        SR (Some high_after_low) (Some (LDr rHL PNone "value")) 1;
        SW None "H" 0 None;
        SW None "L" 2 None]
      "EX (SP),HL" (Some 1));
  (OpByte 0xE4,
    mkEntry 0
      []
      [OD (Some high_after_low) None "value" false;
        OD (Some high_after_low) (Some (do_each [(RRr "target" None PNone); (on_flag fP early_abort)])) "value" false;
        SW (Some rPCH) "value" 0 None;
        SW (Some rPCL) "value" 0 (Some (JP PNone (Some "target") None))]
      "CALL PO,nn" (Some 3));
  (OpByte 0xE5,
    mkEntry 1
      []
      [SW (Some rH) "value" 0 None;
        SW (Some rL) "value" 0 None]
      "PUSH HL" (Some 1));
  (OpByte 0xE6,
    mkEntry 0
      []
      [OD (Some high_after_low) (Some (set_flags "SZ513P00" (Some "value") None (PCall (lam2 (fun state v => Ok (Z.land (get_reg state rA) v)))) (Some rA))) "value" false]
      "AND n" (Some 2));
  (OpByte 0xE7,
    mkEntry 1
      []
      [SW (Some rPCH) "value" 0 None;
        SW (Some rPCL) "value" 0 (Some (JP (PLit 0x0020) None None))]
      "RST 20H" (Some 1));
  (OpByte 0xE8,
    mkEntry 1
      [unless_flag fP early_abort]
      [SR (Some high_after_low) None 0;
        SR (Some high_after_low) (Some (JP PNone None None)) 0]
      "RET PE" (Some 1));
  (OpByte 0xE9,
    mkEntry 0
      [JP PNone None (Some rHL)]
      []
      "JP (HL)" (Some 1));
  (OpByte 0xEA,
    mkEntry 0
      []
      [OD (Some high_after_low) None "value" false;
        OD (Some high_after_low) (Some (on_flag fP (JP PNone None None))) "value" false]
      "JP PE,nn" (Some 3));
  (OpByte 0xEB,
    mkEntry 0
      [EX (Some rDE) (Some rHL)]
      []
      "EX DE,HL" (Some 1));
  (OpByte 0xEC,
    mkEntry 0
      []
      [OD (Some high_after_low) None "value" false;
        OD (Some high_after_low) (Some (do_each [(RRr "target" None PNone); (unless_flag fP early_abort)])) "value" false;
        SW (Some rPCH) "value" 0 None;
        SW (Some rPCL) "value" 0 (Some (JP PNone (Some "target") None))]
      "CALL PE,nn" (Some 3));
  (OpByte 0xED,
    mkEntry 0
      []
      [OCF (Some (OpByte 0xED)) false 0]
      "" (Some 0));
  (OpByte 0xEE,
    mkEntry 0
      []
      [OD (Some high_after_low) (Some (set_flags "SZ503P00" (Some "value") None (PCall (lam2 (fun state v => Ok (Z.lxor (get_reg state rA) v)))) (Some rA))) "value" false]
      "XOR n" (Some 2));
  (OpByte 0xEF,
    mkEntry 1
      []
      [SW (Some rPCH) "value" 0 None;
        SW (Some rPCL) "value" 0 (Some (JP (PLit 0x0028) None None))]
      "RST 28H" (Some 1));
  (OpByte 0xF0,
    mkEntry 1
      [on_flag fS early_abort]
      [SR (Some high_after_low) None 0;
        SR (Some high_after_low) (Some (JP PNone None None)) 0]
      "RET P" (Some 1));
  (OpByte 0xF1,
    mkEntry 0
      []
      [SR (Some high_after_low) None 0;
        SR (Some high_after_low) (Some (LDr rAF PNone "value")) 0]
      "POP AF" (Some 1));
  (OpByte 0xF2,
    mkEntry 0
      []
      [OD (Some high_after_low) None "value" false;
        OD (Some high_after_low) (Some (unless_flag fS (JP PNone None None))) "value" false]
      "JP P,nn" (Some 3));
  (OpByte 0xF3,
    mkEntry 0
      [di]
      []
      "DI" (Some 1));
  (OpByte 0xF4,
    mkEntry 0
      []
      [OD (Some high_after_low) None "value" false;
        OD (Some high_after_low) (Some (do_each [(RRr "target" None PNone); (on_flag fS early_abort)])) "value" false;
        SW (Some rPCH) "value" 0 None;
        SW (Some rPCL) "value" 0 (Some (JP PNone (Some "target") None))]
      "CALL P,nn" (Some 3));
  (OpByte 0xF5,
    mkEntry 1
      []
      [SW (Some rA) "value" 0 None;
        SW (Some rF) "value" 0 None]
      "PUSH AF" (Some 1));
  (OpByte 0xF6,
    mkEntry 0
      []
      [OD (Some high_after_low) (Some (set_flags "SZ503P00" (Some "value") None (PCall (lam2 (fun state v => Ok (Z.lor (get_reg state rA) v)))) (Some rA))) "value" false]
      "OR n" (Some 2));
  (OpByte 0xF7,
    mkEntry 1
      []
      [SW (Some rPCH) "value" 0 None;
        SW (Some rPCL) "value" 0 (Some (JP (PLit 0x0030) None None))]
      "RST 30H" (Some 1));
  (OpByte 0xF8,
    mkEntry 1
      [unless_flag fS early_abort]
      [SR (Some high_after_low) None 0;
        SR (Some high_after_low) (Some (JP PNone None None)) 0]
      "RET M" (Some 1));
  (OpByte 0xF9,
    mkEntry 0
      [LDrs rSP rHL]
      []
      "LD SP,HL" (Some 1));
  (OpByte 0xFA,
    mkEntry 0
      []
      [OD (Some high_after_low) None "value" false;
        OD (Some high_after_low) (Some (on_flag fS (JP PNone None None))) "value" false]
      "JP M,nn" (Some 3));
  (OpByte 0xFB,
    mkEntry 0
      [ei]
      []
      "EI" (Some 1));
  (OpByte 0xFC,
    mkEntry 0
      []
      [OD (Some high_after_low) None "value" false;
        OD (Some high_after_low) (Some (do_each [(RRr "target" None PNone); (unless_flag fS early_abort)])) "value" false;
        SW (Some rPCH) "value" 0 None;
        SW (Some rPCL) "value" 0 (Some (JP PNone (Some "target") None))]
      "CALL M,nn" (Some 3));
  (OpByte 0xFD,
    mkEntry 0
      []
      [OCF (Some (OpByte 0xFD)) false 0]
      "" (Some 0));
  (OpByte 0xFE,
    mkEntry 0
      []
      [OD (Some high_after_low) (Some (set_flags "SZ5H3V1C" (Some "value") None (PCall (lam2 (fun state v => Ok ((get_reg state rA) - v)))) None)) "value" false]
      "CP n" (Some 2));
  (OpByte 0xFF,
    mkEntry 1
      []
      [SW (Some rPCH) "value" 0 None;
        SW (Some rPCL) "value" 0 (Some (JP (PLit 0x0038) None None))]
      "RST 38H" (Some 1))
  ].

(** Opcodes with prefix CB. *)
Definition INSTRUCTION_STATES_CB : list (opcode * entry) :=
  [
  (OpTuple [0xCB; 0x00],
    mkEntry 0
      [RLC (Some rB) "value"]
      []
      "RLC B" (Some 2));
  (OpTuple [0xCB; 0x01],
    mkEntry 0
      [RLC (Some rC) "value"]
      []
      "RLC C" (Some 2));
  (OpTuple [0xCB; 0x02],
    mkEntry 0
      [RLC (Some rD) "value"]
      []
      "RLC D" (Some 2));
  (OpTuple [0xCB; 0x03],
    mkEntry 0
      [RLC (Some rE) "value"]
      []
      "RLC E" (Some 2));
  (OpTuple [0xCB; 0x04],
    mkEntry 0
      [RLC (Some rH) "value"]
      []
      "RLC H" (Some 2));
  (OpTuple [0xCB; 0x05],
    mkEntry 0
      [RLC (Some rL) "value"]
      []
      "RLC L" (Some 2));
  (OpTuple [0xCB; 0x06],
    mkEntry 0
      []
      [MR None (Some rHL) (Some high_after_low) (Some (RLC None "value")) true;
        MW None (Some rHL) PNone None None 0]
      "RLC (HL)" (Some 2));
  (OpTuple [0xCB; 0x07],
    mkEntry 0
      [RLC (Some rA) "value"]
      []
      "RLC A" (Some 2));
  (OpTuple [0xCB; 0x08],
    mkEntry 0
      [RRC (Some rB) "value"]
      []
      "RRC B" (Some 2));
  (OpTuple [0xCB; 0x09],
    mkEntry 0
      [RRC (Some rC) "value"]
      []
      "RRC C" (Some 2));
  (OpTuple [0xCB; 0x0A],
    mkEntry 0
      [RRC (Some rD) "value"]
      []
      "RRC D" (Some 2));
  (OpTuple [0xCB; 0x0B],
    mkEntry 0
      [RRC (Some rE) "value"]
      []
      "RRC E" (Some 2));
  (OpTuple [0xCB; 0x0C],
    mkEntry 0
      [RRC (Some rH) "value"]
      []
      "RRC H" (Some 2));
  (OpTuple [0xCB; 0x0D],
    mkEntry 0
      [RRC (Some rL) "value"]
      []
      "RRC L" (Some 2));
  (OpTuple [0xCB; 0x0E],
    mkEntry 0
      []
      [MR None (Some rHL) (Some high_after_low) (Some (RRC None "value")) true;
        MW None (Some rHL) PNone None None 0]
      "RRC (HL)" (Some 2));
  (OpTuple [0xCB; 0x0F],
    mkEntry 0
      [RRC (Some rA) "value"]
      []
      "RRC A" (Some 2));
  (OpTuple [0xCB; 0x10],
    mkEntry 0
      [RL (Some rB) "value"]
      []
      "RL B" (Some 2));
  (OpTuple [0xCB; 0x11],
    mkEntry 0
      [RL (Some rC) "value"]
      []
      "RL C" (Some 2));
  (OpTuple [0xCB; 0x12],
    mkEntry 0
      [RL (Some rD) "value"]
      []
      "RL D" (Some 2));
  (OpTuple [0xCB; 0x13],
    mkEntry 0
      [RL (Some rE) "value"]
      []
      "RL E" (Some 2));
  (OpTuple [0xCB; 0x14],
    mkEntry 0
      [RL (Some rH) "value"]
      []
      "RL H" (Some 2));
  (OpTuple [0xCB; 0x15],
    mkEntry 0
      [RL (Some rL) "value"]
      []
      "RL L" (Some 2));
  (OpTuple [0xCB; 0x16],
    mkEntry 0
      []
      [MR None (Some rHL) (Some high_after_low) (Some (RL None "value")) true;
        MW None (Some rHL) PNone None None 0]
      "RL (HL)" (Some 2));
  (OpTuple [0xCB; 0x17],
    mkEntry 0
      [RL (Some rA) "value"]
      []
      "RL A" (Some 2));
  (OpTuple [0xCB; 0x18],
    mkEntry 0
      [RR (Some rB) "value"]
      []
      "RR B" (Some 2));
  (OpTuple [0xCB; 0x19],
    mkEntry 0
      [RR (Some rC) "value"]
      []
      "RR C" (Some 2));
  (OpTuple [0xCB; 0x1A],
    mkEntry 0
      [RR (Some rD) "value"]
      []
      "RR D" (Some 2));
  (OpTuple [0xCB; 0x1B],
    mkEntry 0
      [RR (Some rE) "value"]
      []
      "RR E" (Some 2));
  (OpTuple [0xCB; 0x1C],
    mkEntry 0
      [RR (Some rH) "value"]
      []
      "RR H" (Some 2));
  (OpTuple [0xCB; 0x1D],
    mkEntry 0
      [RR (Some rL) "value"]
      []
      "RR L" (Some 2));
  (OpTuple [0xCB; 0x1E],
    mkEntry 0
      []
      [MR None (Some rHL) (Some high_after_low) (Some (RR None "value")) true;
        MW None (Some rHL) PNone None None 0]
      "RR (HL)" (Some 2));
  (OpTuple [0xCB; 0x1F],
    mkEntry 0
      [RR (Some rA) "value"]
      []
      "RR A" (Some 2));
  (OpTuple [0xCB; 0x20],
    mkEntry 0
      [SLA (Some rB) "value"]
      []
      "SLA B" (Some 2));
  (OpTuple [0xCB; 0x21],
    mkEntry 0
      [SLA (Some rC) "value"]
      []
      "SLA C" (Some 2));
  (OpTuple [0xCB; 0x22],
    mkEntry 0
      [SLA (Some rD) "value"]
      []
      "SLA D" (Some 2));
  (OpTuple [0xCB; 0x23],
    mkEntry 0
      [SLA (Some rE) "value"]
      []
      "SLA E" (Some 2));
  (OpTuple [0xCB; 0x24],
    mkEntry 0
      [SLA (Some rH) "value"]
      []
      "SLA H" (Some 2));
  (OpTuple [0xCB; 0x25],
    mkEntry 0
      [SLA (Some rL) "value"]
      []
      "SLA L" (Some 2));
  (OpTuple [0xCB; 0x26],
    mkEntry 0
      []
      [MR None (Some rHL) (Some high_after_low) (Some (SLA None "value")) true;
        MW None (Some rHL) PNone None None 0]
      "SLA (HL)" (Some 2));
  (OpTuple [0xCB; 0x27],
    mkEntry 0
      [SLA (Some rA) "value"]
      []
      "SLA A" (Some 2));
  (OpTuple [0xCB; 0x28],
    mkEntry 0
      [SRA (Some rB) "value"]
      []
      "SRA B" (Some 2));
  (OpTuple [0xCB; 0x29],
    mkEntry 0
      [SRA (Some rC) "value"]
      []
      "SRA C" (Some 2));
  (OpTuple [0xCB; 0x2A],
    mkEntry 0
      [SRA (Some rD) "value"]
      []
      "SRA D" (Some 2));
  (OpTuple [0xCB; 0x2B],
    mkEntry 0
      [SRA (Some rE) "value"]
      []
      "SRA E" (Some 2));
  (OpTuple [0xCB; 0x2C],
    mkEntry 0
      [SRA (Some rH) "value"]
      []
      "SRA H" (Some 2));
  (OpTuple [0xCB; 0x2D],
    mkEntry 0
      [SRA (Some rL) "value"]
      []
      "SRA L" (Some 2));
  (OpTuple [0xCB; 0x2E],
    mkEntry 0
      []
      [MR None (Some rHL) (Some high_after_low) (Some (SRA None "value")) true;
        MW None (Some rHL) PNone None None 0]
      "SRA (HL)" (Some 2));
  (OpTuple [0xCB; 0x2F],
    mkEntry 0
      [SRA (Some rA) "value"]
      []
      "SRA A" (Some 2));
  (OpTuple [0xCB; 0x30],
    mkEntry 0
      [SL1 (Some rB) "value"]
      []
      "SL1 B (undocumemnted)" (Some 2));
  (OpTuple [0xCB; 0x31],
    mkEntry 0
      [SL1 (Some rC) "value"]
      []
      "SL1 C (undocumemnted)" (Some 2));
  (OpTuple [0xCB; 0x32],
    mkEntry 0
      [SL1 (Some rD) "value"]
      []
      "SL1 D (undocumemnted)" (Some 2));
  (OpTuple [0xCB; 0x33],
    mkEntry 0
      [SL1 (Some rE) "value"]
      []
      "SL1 E (undocumemnted)" (Some 2));
  (OpTuple [0xCB; 0x34],
    mkEntry 0
      [SL1 (Some rH) "value"]
      []
      "SL1 H (undocumemnted)" (Some 2));
  (OpTuple [0xCB; 0x35],
    mkEntry 0
      [SL1 (Some rL) "value"]
      []
      "SL1 L (undocumemnted)" (Some 2));
  (OpTuple [0xCB; 0x36],
    mkEntry 0
      []
      [MR None (Some rHL) (Some high_after_low) (Some (SL1 None "value")) true;
        MW None (Some rHL) PNone None None 0]
      "SL1 (HL) (undocumemnted)" (Some 2));
  (OpTuple [0xCB; 0x37],
    mkEntry 0
      [SL1 (Some rA) "value"]
      []
      "SL1 A (undocumemnted)" (Some 2));
  (OpTuple [0xCB; 0x38],
    mkEntry 0
      [SRL (Some rB) "value"]
      []
      "SRL B" (Some 2));
  (OpTuple [0xCB; 0x39],
    mkEntry 0
      [SRL (Some rC) "value"]
      []
      "SRL C" (Some 2));
  (OpTuple [0xCB; 0x3A],
    mkEntry 0
      [SRL (Some rD) "value"]
      []
      "SRL D" (Some 2));
  (OpTuple [0xCB; 0x3B],
    mkEntry 0
      [SRL (Some rE) "value"]
      []
      "SRL E" (Some 2));
  (OpTuple [0xCB; 0x3C],
    mkEntry 0
      [SRL (Some rH) "value"]
      []
      "SRL H" (Some 2));
  (OpTuple [0xCB; 0x3D],
    mkEntry 0
      [SRL (Some rL) "value"]
      []
      "SRL L" (Some 2));
  (OpTuple [0xCB; 0x3E],
    mkEntry 0
      []
      [MR None (Some rHL) (Some high_after_low) (Some (SRL None "value")) true;
        MW None (Some rHL) PNone None None 0]
      "SRL (HL)" (Some 2));
  (OpTuple [0xCB; 0x3F],
    mkEntry 0
      [SRL (Some rA) "value"]
      []
      "SRL A" (Some 2));
  (OpTuple [0xCB; 0x40],
    mkEntry 0
      [BIT 0 (Some rB)]
      []
      "BIT 0,B" (Some 2));
  (OpTuple [0xCB; 0x41],
    mkEntry 0
      [BIT 0 (Some rC)]
      []
      "BIT 0,C" (Some 2));
  (OpTuple [0xCB; 0x42],
    mkEntry 0
      [BIT 0 (Some rD)]
      []
      "BIT 0,D" (Some 2));
  (OpTuple [0xCB; 0x43],
    mkEntry 0
      [BIT 0 (Some rE)]
      []
      "BIT 0,E" (Some 2));
  (OpTuple [0xCB; 0x44],
    mkEntry 0
      [BIT 0 (Some rH)]
      []
      "BIT 0,H" (Some 2));
  (OpTuple [0xCB; 0x45],
    mkEntry 0
      [BIT 0 (Some rL)]
      []
      "BIT 0,L" (Some 2));
  (OpTuple [0xCB; 0x46],
    mkEntry 0
      []
      [MR None (Some rHL) (Some high_after_low) (Some (BIT 0 None)) true]
      "BIT 0,(HL)" (Some 2));
  (OpTuple [0xCB; 0x47],
    mkEntry 0
      [BIT 0 (Some rA)]
      []
      "BIT 0,A" (Some 2));
  (OpTuple [0xCB; 0x48],
    mkEntry 0
      [BIT 1 (Some rB)]
      []
      "BIT 1,B" (Some 2));
  (OpTuple [0xCB; 0x49],
    mkEntry 0
      [BIT 1 (Some rC)]
      []
      "BIT 1,C" (Some 2));
  (OpTuple [0xCB; 0x4A],
    mkEntry 0
      [BIT 1 (Some rD)]
      []
      "BIT 1,D" (Some 2));
  (OpTuple [0xCB; 0x4B],
    mkEntry 0
      [BIT 1 (Some rE)]
      []
      "BIT 1,E" (Some 2));
  (OpTuple [0xCB; 0x4C],
    mkEntry 0
      [BIT 1 (Some rH)]
      []
      "BIT 1,H" (Some 2));
  (OpTuple [0xCB; 0x4D],
    mkEntry 0
      [BIT 1 (Some rL)]
      []
      "BIT 1,L" (Some 2));
  (OpTuple [0xCB; 0x4E],
    mkEntry 0
      []
      [MR None (Some rHL) (Some high_after_low) (Some (BIT 1 None)) true]
      "BIT 1,(HL)" (Some 2));
  (OpTuple [0xCB; 0x4F],
    mkEntry 0
      [BIT 1 (Some rA)]
      []
      "BIT 1,A" (Some 2));
  (OpTuple [0xCB; 0x50],
    mkEntry 0
      [BIT 2 (Some rB)]
      []
      "BIT 2,B" (Some 2));
  (OpTuple [0xCB; 0x51],
    mkEntry 0
      [BIT 2 (Some rC)]
      []
      "BIT 2,C" (Some 2));
  (OpTuple [0xCB; 0x52],
    mkEntry 0
      [BIT 2 (Some rD)]
      []
      "BIT 2,D" (Some 2));
  (OpTuple [0xCB; 0x53],
    mkEntry 0
      [BIT 2 (Some rE)]
      []
      "BIT 2,E" (Some 2));
  (OpTuple [0xCB; 0x54],
    mkEntry 0
      [BIT 2 (Some rH)]
      []
      "BIT 2,H" (Some 2));
  (OpTuple [0xCB; 0x55],
    mkEntry 0
      [BIT 2 (Some rL)]
      []
      "BIT 2,L" (Some 2));
  (OpTuple [0xCB; 0x56],
    mkEntry 0
      []
      [MR None (Some rHL) (Some high_after_low) (Some (BIT 2 None)) true]
      "BIT 2,(HL)" (Some 2));
  (OpTuple [0xCB; 0x57],
    mkEntry 0
      [BIT 2 (Some rA)]
      []
      "BIT 2,A" (Some 2));
  (OpTuple [0xCB; 0x58],
    mkEntry 0
      [BIT 3 (Some rB)]
      []
      "BIT 3,B" (Some 2));
  (OpTuple [0xCB; 0x59],
    mkEntry 0
      [BIT 3 (Some rC)]
      []
      "BIT 3,C" (Some 2));
  (OpTuple [0xCB; 0x5A],
    mkEntry 0
      [BIT 3 (Some rD)]
      []
      "BIT 3,D" (Some 2));
  (OpTuple [0xCB; 0x5B],
    mkEntry 0
      [BIT 3 (Some rE)]
      []
      "BIT 3,E" (Some 2));
  (OpTuple [0xCB; 0x5C],
    mkEntry 0
      [BIT 3 (Some rH)]
      []
      "BIT 3,H" (Some 2));
  (OpTuple [0xCB; 0x5D],
    mkEntry 0
      [BIT 3 (Some rL)]
      []
      "BIT 3,L" (Some 2));
  (OpTuple [0xCB; 0x5E],
    mkEntry 0
      []
      [MR None (Some rHL) (Some high_after_low) (Some (BIT 3 None)) true]
      "BIT 3,(HL)" (Some 2));
  (OpTuple [0xCB; 0x5F],
    mkEntry 0
      [BIT 3 (Some rA)]
      []
      "BIT 3,A" (Some 2));
  (OpTuple [0xCB; 0x60],
    mkEntry 0
      [BIT 4 (Some rB)]
      []
      "BIT 4,B" (Some 2));
  (OpTuple [0xCB; 0x61],
    mkEntry 0
      [BIT 4 (Some rC)]
      []
      "BIT 4,C" (Some 2));
  (OpTuple [0xCB; 0x62],
    mkEntry 0
      [BIT 4 (Some rD)]
      []
      "BIT 4,D" (Some 2));
  (OpTuple [0xCB; 0x63],
    mkEntry 0
      [BIT 4 (Some rE)]
      []
      "BIT 4,E" (Some 2));
  (OpTuple [0xCB; 0x64],
    mkEntry 0
      [BIT 4 (Some rH)]
      []
      "BIT 4,H" (Some 2));
  (OpTuple [0xCB; 0x65],
    mkEntry 0
      [BIT 4 (Some rL)]
      []
      "BIT 4,L" (Some 2));
  (OpTuple [0xCB; 0x66],
    mkEntry 0
      []
      [MR None (Some rHL) (Some high_after_low) (Some (BIT 4 None)) true]
      "BIT 4,(HL)" (Some 2));
  (OpTuple [0xCB; 0x67],
    mkEntry 0
      [BIT 4 (Some rA)]
      []
      "BIT 4,A" (Some 2));
  (OpTuple [0xCB; 0x68],
    mkEntry 0
      [BIT 5 (Some rB)]
      []
      "BIT 5,B" (Some 2));
  (OpTuple [0xCB; 0x69],
    mkEntry 0
      [BIT 5 (Some rC)]
      []
      "BIT 5,C" (Some 2));
  (OpTuple [0xCB; 0x6A],
    mkEntry 0
      [BIT 5 (Some rD)]
      []
      "BIT 5,D" (Some 2));
  (OpTuple [0xCB; 0x6B],
    mkEntry 0
      [BIT 5 (Some rE)]
      []
      "BIT 5,E" (Some 2));
  (OpTuple [0xCB; 0x6C],
    mkEntry 0
      [BIT 5 (Some rH)]
      []
      "BIT 5,H" (Some 2));
  (OpTuple [0xCB; 0x6D],
    mkEntry 0
      [BIT 5 (Some rL)]
      []
      "BIT 5,L" (Some 2));
  (OpTuple [0xCB; 0x6E],
    mkEntry 0
      []
      [MR None (Some rHL) (Some high_after_low) (Some (BIT 5 None)) true]
      "BIT 5,(HL)" (Some 2));
  (OpTuple [0xCB; 0x6F],
    mkEntry 0
      [BIT 5 (Some rA)]
      []
      "BIT 5,A" (Some 2));
  (OpTuple [0xCB; 0x70],
    mkEntry 0
      [BIT 6 (Some rB)]
      []
      "BIT 6,B" (Some 2));
  (OpTuple [0xCB; 0x71],
    mkEntry 0
      [BIT 6 (Some rC)]
      []
      "BIT 6,C" (Some 2));
  (OpTuple [0xCB; 0x72],
    mkEntry 0
      [BIT 6 (Some rD)]
      []
      "BIT 6,D" (Some 2));
  (OpTuple [0xCB; 0x73],
    mkEntry 0
      [BIT 6 (Some rE)]
      []
      "BIT 6,E" (Some 2));
  (OpTuple [0xCB; 0x74],
    mkEntry 0
      [BIT 6 (Some rH)]
      []
      "BIT 6,H" (Some 2));
  (OpTuple [0xCB; 0x75],
    mkEntry 0
      [BIT 6 (Some rL)]
      []
      "BIT 6,L" (Some 2));
  (OpTuple [0xCB; 0x76],
    mkEntry 0
      []
      [MR None (Some rHL) (Some high_after_low) (Some (BIT 6 None)) true]
      "BIT 6,(HL)" (Some 2));
  (OpTuple [0xCB; 0x77],
    mkEntry 0
      [BIT 6 (Some rA)]
      []
      "BIT 6,A" (Some 2));
  (OpTuple [0xCB; 0x78],
    mkEntry 0
      [BIT 7 (Some rB)]
      []
      "BIT 7,B" (Some 2));
  (OpTuple [0xCB; 0x79],
    mkEntry 0
      [BIT 7 (Some rC)]
      []
      "BIT 7,C" (Some 2));
  (OpTuple [0xCB; 0x7A],
    mkEntry 0
      [BIT 7 (Some rD)]
      []
      "BIT 7,D" (Some 2));
  (OpTuple [0xCB; 0x7B],
    mkEntry 0
      [BIT 7 (Some rE)]
      []
      "BIT 7,E" (Some 2));
  (OpTuple [0xCB; 0x7C],
    mkEntry 0
      [BIT 7 (Some rH)]
      []
      "BIT 7,H" (Some 2));
  (OpTuple [0xCB; 0x7D],
    mkEntry 0
      [BIT 7 (Some rL)]
      []
      "BIT 7,L" (Some 2));
  (OpTuple [0xCB; 0x7E],
    mkEntry 0
      []
      [MR None (Some rHL) (Some high_after_low) (Some (BIT 7 None)) true]
      "BIT 7,(HL)" (Some 2));
  (OpTuple [0xCB; 0x7F],
    mkEntry 0
      [BIT 7 (Some rA)]
      []
      "BIT 7,A" (Some 2));
  (OpTuple [0xCB; 0x80],
    mkEntry 0
      [RES 0 (Some rB) "value"]
      []
      "RES 0,B" (Some 2));
  (OpTuple [0xCB; 0x81],
    mkEntry 0
      [RES 0 (Some rC) "value"]
      []
      "RES 0,C" (Some 2));
  (OpTuple [0xCB; 0x82],
    mkEntry 0
      [RES 0 (Some rD) "value"]
      []
      "RES 0,D" (Some 2));
  (OpTuple [0xCB; 0x83],
    mkEntry 0
      [RES 0 (Some rE) "value"]
      []
      "RES 0,E" (Some 2));
  (OpTuple [0xCB; 0x84],
    mkEntry 0
      [RES 0 (Some rH) "value"]
      []
      "RES 0,H" (Some 2));
  (OpTuple [0xCB; 0x85],
    mkEntry 0
      [RES 0 (Some rL) "value"]
      []
      "RES 0,L" (Some 2));
  (OpTuple [0xCB; 0x86],
    mkEntry 0
      []
      [MR None (Some rHL) (Some high_after_low) (Some (RES 0 None "value")) true;
        MW None (Some rHL) PNone None None 0]
      "RES 0,(HL)" (Some 2));
  (OpTuple [0xCB; 0x87],
    mkEntry 0
      [RES 0 (Some rA) "value"]
      []
      "RES 0,A" (Some 2));
  (OpTuple [0xCB; 0x88],
    mkEntry 0
      [RES 1 (Some rB) "value"]
      []
      "RES 1,B" (Some 2));
  (OpTuple [0xCB; 0x89],
    mkEntry 0
      [RES 1 (Some rC) "value"]
      []
      "RES 1,C" (Some 2));
  (OpTuple [0xCB; 0x8A],
    mkEntry 0
      [RES 1 (Some rD) "value"]
      []
      "RES 1,D" (Some 2));
  (OpTuple [0xCB; 0x8B],
    mkEntry 0
      [RES 1 (Some rE) "value"]
      []
      "RES 1,E" (Some 2));
  (OpTuple [0xCB; 0x8C],
    mkEntry 0
      [RES 1 (Some rH) "value"]
      []
      "RES 1,H" (Some 2));
  (OpTuple [0xCB; 0x8D],
    mkEntry 0
      [RES 1 (Some rL) "value"]
      []
      "RES 1,L" (Some 2));
  (OpTuple [0xCB; 0x8E],
    mkEntry 0
      []
      [MR None (Some rHL) (Some high_after_low) (Some (RES 1 None "value")) true;
        MW None (Some rHL) PNone None None 0]
      "RES 1,(HL)" (Some 2));
  (OpTuple [0xCB; 0x8F],
    mkEntry 0
      [RES 1 (Some rA) "value"]
      []
      "RES 1,A" (Some 2));
  (OpTuple [0xCB; 0x90],
    mkEntry 0
      [RES 2 (Some rB) "value"]
      []
      "RES 2,B" (Some 2));
  (OpTuple [0xCB; 0x91],
    mkEntry 0
      [RES 2 (Some rC) "value"]
      []
      "RES 2,C" (Some 2));
  (OpTuple [0xCB; 0x92],
    mkEntry 0
      [RES 2 (Some rD) "value"]
      []
      "RES 2,D" (Some 2));
  (OpTuple [0xCB; 0x93],
    mkEntry 0
      [RES 2 (Some rE) "value"]
      []
      "RES 2,E" (Some 2));
  (OpTuple [0xCB; 0x94],
    mkEntry 0
      [RES 2 (Some rH) "value"]
      []
      "RES 2,H" (Some 2));
  (OpTuple [0xCB; 0x95],
    mkEntry 0
      [RES 2 (Some rL) "value"]
      []
      "RES 2,L" (Some 2));
  (OpTuple [0xCB; 0x96],
    mkEntry 0
      []
      [MR None (Some rHL) (Some high_after_low) (Some (RES 2 None "value")) true;
        MW None (Some rHL) PNone None None 0]
      "RES 2,(HL)" (Some 2));
  (OpTuple [0xCB; 0x97],
    mkEntry 0
      [RES 2 (Some rA) "value"]
      []
      "RES 2,A" (Some 2));
  (OpTuple [0xCB; 0x98],
    mkEntry 0
      [RES 3 (Some rB) "value"]
      []
      "RES 3,B" (Some 2));
  (OpTuple [0xCB; 0x99],
    mkEntry 0
      [RES 3 (Some rC) "value"]
      []
      "RES 3,C" (Some 2));
  (OpTuple [0xCB; 0x9A],
    mkEntry 0
      [RES 3 (Some rD) "value"]
      []
      "RES 3,D" (Some 2));
  (OpTuple [0xCB; 0x9B],
    mkEntry 0
      [RES 3 (Some rE) "value"]
      []
      "RES 3,E" (Some 2));
  (OpTuple [0xCB; 0x9C],
    mkEntry 0
      [RES 3 (Some rH) "value"]
      []
      "RES 3,H" (Some 2));
  (OpTuple [0xCB; 0x9D],
    mkEntry 0
      [RES 3 (Some rL) "value"]
      []
      "RES 3,L" (Some 2));
  (OpTuple [0xCB; 0x9E],
    mkEntry 0
      []
      [MR None (Some rHL) (Some high_after_low) (Some (RES 3 None "value")) true;
        MW None (Some rHL) PNone None None 0]
      "RES 3,(HL)" (Some 2));
  (OpTuple [0xCB; 0x9F],
    mkEntry 0
      [RES 3 (Some rA) "value"]
      []
      "RES 3,A" (Some 2));
  (OpTuple [0xCB; 0xA0],
    mkEntry 0
      [RES 4 (Some rB) "value"]
      []
      "RES 4,B" (Some 2));
  (OpTuple [0xCB; 0xA1],
    mkEntry 0
      [RES 4 (Some rC) "value"]
      []
      "RES 4,C" (Some 2));
  (OpTuple [0xCB; 0xA2],
    mkEntry 0
      [RES 4 (Some rD) "value"]
      []
      "RES 4,D" (Some 2));
  (OpTuple [0xCB; 0xA3],
    mkEntry 0
      [RES 4 (Some rE) "value"]
      []
      "RES 4,E" (Some 2));
  (OpTuple [0xCB; 0xA4],
    mkEntry 0
      [RES 4 (Some rH) "value"]
      []
      "RES 4,H" (Some 2));
  (OpTuple [0xCB; 0xA5],
    mkEntry 0
      [RES 4 (Some rL) "value"]
      []
      "RES 4,L" (Some 2));
  (OpTuple [0xCB; 0xA6],
    mkEntry 0
      []
      [MR None (Some rHL) (Some high_after_low) (Some (RES 4 None "value")) true;
        MW None (Some rHL) PNone None None 0]
      "RES 4,(HL)" (Some 2));
  (OpTuple [0xCB; 0xA7],
    mkEntry 0
      [RES 4 (Some rA) "value"]
      []
      "RES 4,A" (Some 2));
  (OpTuple [0xCB; 0xA8],
    mkEntry 0
      [RES 5 (Some rB) "value"]
      []
      "RES 5,B" (Some 2));
  (OpTuple [0xCB; 0xA9],
    mkEntry 0
      [RES 5 (Some rC) "value"]
      []
      "RES 5,C" (Some 2));
  (OpTuple [0xCB; 0xAA],
    mkEntry 0
      [RES 5 (Some rD) "value"]
      []
      "RES 5,D" (Some 2));
  (OpTuple [0xCB; 0xAB],
    mkEntry 0
      [RES 5 (Some rE) "value"]
      []
      "RES 5,E" (Some 2));
  (OpTuple [0xCB; 0xAC],
    mkEntry 0
      [RES 5 (Some rH) "value"]
      []
      "RES 5,H" (Some 2));
  (OpTuple [0xCB; 0xAD],
    mkEntry 0
      [RES 5 (Some rL) "value"]
      []
      "RES 5,L" (Some 2));
  (OpTuple [0xCB; 0xAE],
    mkEntry 0
      []
      [MR None (Some rHL) (Some high_after_low) (Some (RES 5 None "value")) true;
        MW None (Some rHL) PNone None None 0]
      "RES 5,(HL)" (Some 2));
  (OpTuple [0xCB; 0xAF],
    mkEntry 0
      [RES 5 (Some rA) "value"]
      []
      "RES 5,A" (Some 2));
  (OpTuple [0xCB; 0xB0],
    mkEntry 0
      [RES 6 (Some rB) "value"]
      []
      "RES 6,B" (Some 2));
  (OpTuple [0xCB; 0xB1],
    mkEntry 0
      [RES 6 (Some rC) "value"]
      []
      "RES 6,C" (Some 2));
  (OpTuple [0xCB; 0xB2],
    mkEntry 0
      [RES 6 (Some rD) "value"]
      []
      "RES 6,D" (Some 2));
  (OpTuple [0xCB; 0xB3],
    mkEntry 0
      [RES 6 (Some rE) "value"]
      []
      "RES 6,E" (Some 2));
  (OpTuple [0xCB; 0xB4],
    mkEntry 0
      [RES 6 (Some rH) "value"]
      []
      "RES 6,H" (Some 2));
  (OpTuple [0xCB; 0xB5],
    mkEntry 0
      [RES 6 (Some rL) "value"]
      []
      "RES 6,L" (Some 2));
  (OpTuple [0xCB; 0xB6],
    mkEntry 0
      []
      [MR None (Some rHL) (Some high_after_low) (Some (RES 6 None "value")) true;
        MW None (Some rHL) PNone None None 0]
      "RES 6,(HL)" (Some 2));
  (OpTuple [0xCB; 0xB7],
    mkEntry 0
      [RES 6 (Some rA) "value"]
      []
      "RES 6,A" (Some 2));
  (OpTuple [0xCB; 0xB8],
    mkEntry 0
      [RES 7 (Some rB) "value"]
      []
      "RES 7,B" (Some 2));
  (OpTuple [0xCB; 0xB9],
    mkEntry 0
      [RES 7 (Some rC) "value"]
      []
      "RES 7,C" (Some 2));
  (OpTuple [0xCB; 0xBA],
    mkEntry 0
      [RES 7 (Some rD) "value"]
      []
      "RES 7,D" (Some 2));
  (OpTuple [0xCB; 0xBB],
    mkEntry 0
      [RES 7 (Some rE) "value"]
      []
      "RES 7,E" (Some 2));
  (OpTuple [0xCB; 0xBC],
    mkEntry 0
      [RES 7 (Some rH) "value"]
      []
      "RES 7,H" (Some 2));
  (OpTuple [0xCB; 0xBD],
    mkEntry 0
      [RES 7 (Some rL) "value"]
      []
      "RES 7,L" (Some 2));
  (OpTuple [0xCB; 0xBE],
    mkEntry 0
      []
      [MR None (Some rHL) (Some high_after_low) (Some (RES 7 None "value")) true;
        MW None (Some rHL) PNone None None 0]
      "RES 7,(HL)" (Some 2));
  (OpTuple [0xCB; 0xBF],
    mkEntry 0
      [RES 7 (Some rA) "value"]
      []
      "RES 7,A" (Some 2));
  (OpTuple [0xCB; 0xC0],
    mkEntry 0
      [SET 0 (Some rB) "value"]
      []
      "SET 0,B" (Some 2));
  (OpTuple [0xCB; 0xC1],
    mkEntry 0
      [SET 0 (Some rC) "value"]
      []
      "SET 0,C" (Some 2));
  (OpTuple [0xCB; 0xC2],
    mkEntry 0
      [SET 0 (Some rD) "value"]
      []
      "SET 0,D" (Some 2));
  (OpTuple [0xCB; 0xC3],
    mkEntry 0
      [SET 0 (Some rE) "value"]
      []
      "SET 0,E" (Some 2));
  (OpTuple [0xCB; 0xC4],
    mkEntry 0
      [SET 0 (Some rH) "value"]
      []
      "SET 0,H" (Some 2));
  (OpTuple [0xCB; 0xC5],
    mkEntry 0
      [SET 0 (Some rL) "value"]
      []
      "SET 0,L" (Some 2));
  (OpTuple [0xCB; 0xC6],
    mkEntry 0
      []
      [MR None (Some rHL) (Some high_after_low) (Some (SET 0 None "value")) true;
        MW None (Some rHL) PNone None None 0]
      "SET 0,(HL)" (Some 2));
  (OpTuple [0xCB; 0xC7],
    mkEntry 0
      [SET 0 (Some rA) "value"]
      []
      "SET 0,A" (Some 2));
  (OpTuple [0xCB; 0xC8],
    mkEntry 0
      [SET 1 (Some rB) "value"]
      []
      "SET 1,B" (Some 2));
  (OpTuple [0xCB; 0xC9],
    mkEntry 0
      [SET 1 (Some rC) "value"]
      []
      "SET 1,C" (Some 2));
  (OpTuple [0xCB; 0xCA],
    mkEntry 0
      [SET 1 (Some rD) "value"]
      []
      "SET 1,D" (Some 2));
  (OpTuple [0xCB; 0xCB],
    mkEntry 0
      [SET 1 (Some rE) "value"]
      []
      "SET 1,E" (Some 2));
  (OpTuple [0xCB; 0xCC],
    mkEntry 0
      [SET 1 (Some rH) "value"]
      []
      "SET 1,H" (Some 2));
  (OpTuple [0xCB; 0xCD],
    mkEntry 0
      [SET 1 (Some rL) "value"]
      []
      "SET 1,L" (Some 2));
  (OpTuple [0xCB; 0xCE],
    mkEntry 0
      []
      [MR None (Some rHL) (Some high_after_low) (Some (SET 1 None "value")) true;
        MW None (Some rHL) PNone None None 0]
      "SET 1,(HL)" (Some 2));
  (OpTuple [0xCB; 0xCF],
    mkEntry 0
      [SET 1 (Some rA) "value"]
      []
      "SET 1,A" (Some 2));
  (OpTuple [0xCB; 0xD0],
    mkEntry 0
      [SET 2 (Some rB) "value"]
      []
      "SET 2,B" (Some 2));
  (OpTuple [0xCB; 0xD1],
    mkEntry 0
      [SET 2 (Some rC) "value"]
      []
      "SET 2,C" (Some 2));
  (OpTuple [0xCB; 0xD2],
    mkEntry 0
      [SET 2 (Some rD) "value"]
      []
      "SET 2,D" (Some 2));
  (OpTuple [0xCB; 0xD3],
    mkEntry 0
      [SET 2 (Some rE) "value"]
      []
      "SET 2,E" (Some 2));
  (OpTuple [0xCB; 0xD4],
    mkEntry 0
      [SET 2 (Some rH) "value"]
      []
      "SET 2,H" (Some 2));
  (OpTuple [0xCB; 0xD5],
    mkEntry 0
      [SET 2 (Some rL) "value"]
      []
      "SET 2,L" (Some 2));
  (OpTuple [0xCB; 0xD6],
    mkEntry 0
      []
      [MR None (Some rHL) (Some high_after_low) (Some (SET 2 None "value")) true;
        MW None (Some rHL) PNone None None 0]
      "SET 2,(HL)" (Some 2));
  (OpTuple [0xCB; 0xD7],
    mkEntry 0
      [SET 2 (Some rA) "value"]
      []
      "SET 2,A" (Some 2));
  (OpTuple [0xCB; 0xD8],
    mkEntry 0
      [SET 3 (Some rB) "value"]
      []
      "SET 3,B" (Some 2));
  (OpTuple [0xCB; 0xD9],
    mkEntry 0
      [SET 3 (Some rC) "value"]
      []
      "SET 3,C" (Some 2));
  (OpTuple [0xCB; 0xDA],
    mkEntry 0
      [SET 3 (Some rD) "value"]
      []
      "SET 3,D" (Some 2));
  (OpTuple [0xCB; 0xDB],
    mkEntry 0
      [SET 3 (Some rE) "value"]
      []
      "SET 3,E" (Some 2));
  (OpTuple [0xCB; 0xDC],
    mkEntry 0
      [SET 3 (Some rH) "value"]
      []
      "SET 3,H" (Some 2));
  (OpTuple [0xCB; 0xDD],
    mkEntry 0
      [SET 3 (Some rL) "value"]
      []
      "SET 3,L" (Some 2));
  (OpTuple [0xCB; 0xDE],
    mkEntry 0
      []
      [MR None (Some rHL) (Some high_after_low) (Some (SET 3 None "value")) true;
        MW None (Some rHL) PNone None None 0]
      "SET 3,(HL)" (Some 2));
  (OpTuple [0xCB; 0xDF],
    mkEntry 0
      [SET 3 (Some rA) "value"]
      []
      "SET 3,A" (Some 2));
  (OpTuple [0xCB; 0xE0],
    mkEntry 0
      [SET 4 (Some rB) "value"]
      []
      "SET 4,B" (Some 2));
  (OpTuple [0xCB; 0xE1],
    mkEntry 0
      [SET 4 (Some rC) "value"]
      []
      "SET 4,C" (Some 2));
  (OpTuple [0xCB; 0xE2],
    mkEntry 0
      [SET 4 (Some rD) "value"]
      []
      "SET 4,D" (Some 2));
  (OpTuple [0xCB; 0xE3],
    mkEntry 0
      [SET 4 (Some rE) "value"]
      []
      "SET 4,E" (Some 2));
  (OpTuple [0xCB; 0xE4],
    mkEntry 0
      [SET 4 (Some rH) "value"]
      []
      "SET 4,H" (Some 2));
  (OpTuple [0xCB; 0xE5],
    mkEntry 0
      [SET 4 (Some rL) "value"]
      []
      "SET 4,L" (Some 2));
  (OpTuple [0xCB; 0xE6],
    mkEntry 0
      []
      [MR None (Some rHL) (Some high_after_low) (Some (SET 4 None "value")) true;
        MW None (Some rHL) PNone None None 0]
      "SET 4,(HL)" (Some 2));
  (OpTuple [0xCB; 0xE7],
    mkEntry 0
      [SET 4 (Some rA) "value"]
      []
      "SET 4,A" (Some 2));
  (OpTuple [0xCB; 0xE8],
    mkEntry 0
      [SET 5 (Some rB) "value"]
      []
      "SET 5,B" (Some 2));
  (OpTuple [0xCB; 0xE9],
    mkEntry 0
      [SET 5 (Some rC) "value"]
      []
      "SET 5,C" (Some 2));
  (OpTuple [0xCB; 0xEA],
    mkEntry 0
      [SET 5 (Some rD) "value"]
      []
      "SET 5,D" (Some 2));
  (OpTuple [0xCB; 0xEB],
    mkEntry 0
      [SET 5 (Some rE) "value"]
      []
      "SET 5,E" (Some 2));
  (OpTuple [0xCB; 0xEC],
    mkEntry 0
      [SET 5 (Some rH) "value"]
      []
      "SET 5,H" (Some 2));
  (OpTuple [0xCB; 0xED],
    mkEntry 0
      [SET 5 (Some rL) "value"]
      []
      "SET 5,L" (Some 2));
  (OpTuple [0xCB; 0xEE],
    mkEntry 0
      []
      [MR None (Some rHL) (Some high_after_low) (Some (SET 5 None "value")) true;
        MW None (Some rHL) PNone None None 0]
      "SET 5,(HL)" (Some 2));
  (OpTuple [0xCB; 0xEF],
    mkEntry 0
      [SET 5 (Some rA) "value"]
      []
      "SET 5,A" (Some 2));
  (OpTuple [0xCB; 0xF0],
    mkEntry 0
      [SET 6 (Some rB) "value"]
      []
      "SET 6,B" (Some 2));
  (OpTuple [0xCB; 0xF1],
    mkEntry 0
      [SET 6 (Some rC) "value"]
      []
      "SET 6,C" (Some 2));
  (OpTuple [0xCB; 0xF2],
    mkEntry 0
      [SET 6 (Some rD) "value"]
      []
      "SET 6,D" (Some 2));
  (OpTuple [0xCB; 0xF3],
    mkEntry 0
      [SET 6 (Some rE) "value"]
      []
      "SET 6,E" (Some 2));
  (OpTuple [0xCB; 0xF4],
    mkEntry 0
      [SET 6 (Some rH) "value"]
      []
      "SET 6,H" (Some 2));
  (OpTuple [0xCB; 0xF5],
    mkEntry 0
      [SET 6 (Some rL) "value"]
      []
      "SET 6,L" (Some 2));
  (OpTuple [0xCB; 0xF6],
    mkEntry 0
      []
      [MR None (Some rHL) (Some high_after_low) (Some (SET 6 None "value")) true;
        MW None (Some rHL) PNone None None 0]
      "SET 6,(HL)" (Some 2));
  (OpTuple [0xCB; 0xF7],
    mkEntry 0
      [SET 6 (Some rA) "value"]
      []
      "SET 6,A" (Some 2));
  (OpTuple [0xCB; 0xF8],
    mkEntry 0
      [SET 7 (Some rB) "value"]
      []
      "SET 7,B" (Some 2));
  (OpTuple [0xCB; 0xF9],
    mkEntry 0
      [SET 7 (Some rC) "value"]
      []
      "SET 7,C" (Some 2));
  (OpTuple [0xCB; 0xFA],
    mkEntry 0
      [SET 7 (Some rD) "value"]
      []
      "SET 7,D" (Some 2));
  (OpTuple [0xCB; 0xFB],
    mkEntry 0
      [SET 7 (Some rE) "value"]
      []
      "SET 7,E" (Some 2));
  (OpTuple [0xCB; 0xFC],
    mkEntry 0
      [SET 7 (Some rH) "value"]
      []
      "SET 7,H" (Some 2));
  (OpTuple [0xCB; 0xFD],
    mkEntry 0
      [SET 7 (Some rL) "value"]
      []
      "SET 7,L" (Some 2));
  (OpTuple [0xCB; 0xFE],
    mkEntry 0
      []
      [MR None (Some rHL) (Some high_after_low) (Some (SET 7 None "value")) true;
        MW None (Some rHL) PNone None None 0]
      "SET 7,(HL)" (Some 2));
  (OpTuple [0xCB; 0xFF],
    mkEntry 0
      [SET 7 (Some rA) "value"]
      []
      "SET 7,A" (Some 2))
  ].

(** Opcodes with prefix DD. *)
Definition INSTRUCTION_STATES_DD : list (opcode * entry) :=
  [
  (OpTuple [0xDD; 0x09],
    mkEntry 0
      [force_flag fH (PCall (lam1 (fun state => Ok (if (0xF <? (((Z.land (get_reg state rB) 0xF) + (Z.land (get_reg state rIXH) 0xF)) + (Z.shiftr ((get_reg state rC) + (get_reg state rIXL)) 8))) then 1 else 0))));
        set_flags "--5-3-0C" (Some "value") None (PCall (lam1 (fun state => Ok (((get_reg state rB) + (get_reg state rIXH)) + (Z.shiftr ((get_reg state rC) + (get_reg state rIXL)) 8))))) None;
        LDr rIX (PCall (lam1 (fun state => Ok (Z.land ((get_reg state rIX) + (get_reg state rBC)) 0xFFFF)))) "value"]
      [IO 4 true TNone None "value";
        IO 3 true TNone None "value"]
      "ADD IX,BC" (Some 2));
  (OpTuple [0xDD; 0x19],
    mkEntry 0
      [force_flag fH (PCall (lam1 (fun state => Ok (if (0xF <? (((Z.land (get_reg state rD) 0xF) + (Z.land (get_reg state rIXH) 0xF)) + (Z.shiftr ((get_reg state rE) + (get_reg state rIXL)) 8))) then 1 else 0))));
        set_flags "--5-3-0C" (Some "value") None (PCall (lam1 (fun state => Ok (((get_reg state rD) + (get_reg state rIXH)) + (Z.shiftr ((get_reg state rE) + (get_reg state rIXL)) 8))))) None;
        LDr rIX (PCall (lam1 (fun state => Ok (Z.land ((get_reg state rIX) + (get_reg state rDE)) 0xFFFF)))) "value"]
      [IO 4 true TNone None "value";
        IO 3 true TNone None "value"]
      "ADD IX,DE" (Some 2));
  (OpTuple [0xDD; 0x29],
    mkEntry 0
      [force_flag fH (PCall (lam1 (fun state => Ok (if (0xF <? (((Z.land (get_reg state rIXH) 0xF) + (Z.land (get_reg state rIXH) 0xF)) + (Z.shiftr ((get_reg state rIXL) + (get_reg state rIXL)) 8))) then 1 else 0))));
        set_flags "--5-3-0C" (Some "value") None (PCall (lam1 (fun state => Ok (((get_reg state rIXH) + (get_reg state rIXH)) + (Z.shiftr ((get_reg state rIXL) + (get_reg state rIXL)) 8))))) None;
        LDr rIX (PCall (lam1 (fun state => Ok (Z.land ((get_reg state rIX) + (get_reg state rIX)) 0xFFFF)))) "value"]
      [IO 4 true TNone None "value";
        IO 3 true TNone None "value"]
      "ADD IX,IX" (Some 2));
  (OpTuple [0xDD; 0x39],
    mkEntry 0
      [force_flag fH (PCall (lam1 (fun state => Ok (if (0xF <? (((Z.land (get_reg state rSPH) 0xF) + (Z.land (get_reg state rIXH) 0xF)) + (Z.shiftr ((get_reg state rSPL) + (get_reg state rIXL)) 8))) then 1 else 0))));
        set_flags "--5-3-0C" (Some "value") None (PCall (lam1 (fun state => Ok (((get_reg state rSPH) + (get_reg state rIXH)) + (Z.shiftr ((get_reg state rSPL) + (get_reg state rIXL)) 8))))) None;
        LDr rIX (PCall (lam1 (fun state => Ok (Z.land ((get_reg state rIX) + (get_reg state rSP)) 0xFFFF)))) "value"]
      [IO 4 true TNone None "value";
        IO 3 true TNone None "value"]
      "ADD IX,SP" (Some 2));
  (OpTuple [0xDD; 0x21],
    mkEntry 0
      []
      [OD (Some high_after_low) None "value" false;
        OD (Some high_after_low) (Some (LDr rIX PNone "value")) "value" false]
      "LD IX,nn" (Some 4));
  (OpTuple [0xDD; 0x22],
    mkEntry 0
      []
      [OD (Some high_after_low) None "address" false;
        OD (Some high_after_low) None "address" false;
        MW None None PNone (Some rIXL) None 0;
        MW None None PNone (Some rIXH) None 0]
      "LD (nn),IX" (Some 4));
  (OpTuple [0xDD; 0x23],
    mkEntry 0
      [LDr rIX (PCall (lam1 (fun state => Ok (Z.land ((get_reg state rIX) + 1) 0xFFFF)))) "value"]
      []
      "INC IX" (Some 2));
  (OpTuple [0xDD; 0x2A],
    mkEntry 0
      []
      [OD (Some high_after_low) None "address" false;
        OD (Some high_after_low) None "address" false;
        MR None None (Some high_after_low) (Some (LDr rIXL PNone "value")) true;
        MR None None (Some high_after_low) (Some (LDr rIXH PNone "value")) true]
      "LD IX,(nn)" (Some 4));
  (OpTuple [0xDD; 0x2B],
    mkEntry 0
      [LDr rIX (PCall (lam1 (fun state => Ok (Z.land ((get_reg state rIX) - 1) 0xFFFF)))) "value"]
      []
      "DEC IX" (Some 2));
  (OpTuple [0xDD; 0x34],
    mkEntry 0
      []
      [OD (Some high_after_low) None "address" true;
        IO 5 true (TDict [("address", (add_register rIX))]) None "value";
        MR None None (Some high_after_low) (Some (do_each [(force_flag fH (PCall (lam2 (fun state v => Ok (if (0xF <? ((Z.land v 0xF) + 1)) then 1 else 0))))); (set_flags "SZ5-3V0-" (Some "value") None (PCall (lam2 (fun state v => Ok (v + 1)))) None)])) false;
        MW None None PNone None None 0]
      "INC (IX+d)" (Some 3));
  (OpTuple [0xDD; 0x35],
    mkEntry 0
      []
      [OD (Some high_after_low) None "address" true;
        IO 5 true (TDict [("address", (add_register rIX))]) None "value";
        MR None None (Some high_after_low) (Some (do_each [(force_flag fH (PCall (lam2 (fun state v => Ok (if (((Z.land v 0xF) - 1) <? 0x0) then 1 else 0))))); (set_flags "SZ5H3V1-" (Some "value") None (PCall (lam2 (fun state v => Ok (v - 1)))) None)])) false;
        MW None None PNone None None 0]
      "DEC (IX+d)" (Some 3));
  (OpTuple [0xDD; 0x36],
    mkEntry 0
      []
      [OD (Some high_after_low) None "address" true;
        OD (Some high_after_low) None "value" false;
        IO 5 true (TDict [("address", (add_register rIX))]) None "value";
        MW None None PNone None None 0]
      "LD (IX+d),n" (Some 3));
  (OpTuple [0xDD; 0x46],
    mkEntry 0
      []
      [OD (Some high_after_low) None "address" true;
        IO 5 true (TDict [("address", (add_register rIX))]) None "value";
        MR None None (Some high_after_low) (Some (LDr rB PNone "value")) true]
      "LD B,(IX+d)" None);
  (OpTuple [0xDD; 0x4E],
    mkEntry 0
      []
      [OD (Some high_after_low) None "address" true;
        IO 5 true (TDict [("address", (add_register rIX))]) None "value";
        MR None None (Some high_after_low) (Some (LDr rC PNone "value")) true]
      "LD C,(IX+d)" (Some 3));
  (OpTuple [0xDD; 0x56],
    mkEntry 0
      []
      [OD (Some high_after_low) None "address" true;
        IO 5 true (TDict [("address", (add_register rIX))]) None "value";
        MR None None (Some high_after_low) (Some (LDr rD PNone "value")) true]
      "LD D,(IX+d)" (Some 3));
  (OpTuple [0xDD; 0x5E],
    mkEntry 0
      []
      [OD (Some high_after_low) None "address" true;
        IO 5 true (TDict [("address", (add_register rIX))]) None "value";
        MR None None (Some high_after_low) (Some (LDr rE PNone "value")) true]
      "LD E,(IX+d)" (Some 3));
  (OpTuple [0xDD; 0x66],
    mkEntry 0
      []
      [OD (Some high_after_low) None "address" true;
        IO 5 true (TDict [("address", (add_register rIX))]) None "value";
        MR None None (Some high_after_low) (Some (LDr rH PNone "value")) true]
      "LD H,(IX+d)" (Some 3));
  (OpTuple [0xDD; 0x6E],
    mkEntry 0
      []
      [OD (Some high_after_low) None "address" true;
        IO 5 true (TDict [("address", (add_register rIX))]) None "value";
        MR None None (Some high_after_low) (Some (LDr rL PNone "value")) true]
      "LD L,(IX+d)" (Some 3));
  (OpTuple [0xDD; 0x70],
    mkEntry 0
      []
      [OD (Some high_after_low) None "address" true;
        IO 5 true (TDict [("address", (add_register rIX))]) None "value";
        MW None None PNone (Some rB) None 0]
      "LD (IX+d),B" (Some 3));
  (OpTuple [0xDD; 0x71],
    mkEntry 0
      []
      [OD (Some high_after_low) None "address" true;
        IO 5 true (TDict [("address", (add_register rIX))]) None "value";
        MW None None PNone (Some rC) None 0]
      "LD (IX+d),C" (Some 3));
  (OpTuple [0xDD; 0x72],
    mkEntry 0
      []
      [OD (Some high_after_low) None "address" true;
        IO 5 true (TDict [("address", (add_register rIX))]) None "value";
        MW None None PNone (Some rD) None 0]
      "LD (IX+d),D" (Some 3));
  (OpTuple [0xDD; 0x73],
    mkEntry 0
      []
      [OD (Some high_after_low) None "address" true;
        IO 5 true (TDict [("address", (add_register rIX))]) None "value";
        MW None None PNone (Some rE) None 0]
      "LD (IX+d),E" None);
  (OpTuple [0xDD; 0x74],
    mkEntry 0
      []
      [OD (Some high_after_low) None "address" true;
        IO 5 true (TDict [("address", (add_register rIX))]) None "value";
        MW None None PNone (Some rH) None 0]
      "LD (IX+d),H" (Some 3));
  (OpTuple [0xDD; 0x75],
    mkEntry 0
      []
      [OD (Some high_after_low) None "address" true;
        IO 5 true (TDict [("address", (add_register rIX))]) None "value";
        MW None None PNone (Some rL) None 0]
      "LD (IX+d),L" (Some 3));
  (OpTuple [0xDD; 0x77],
    mkEntry 0
      []
      [OD (Some high_after_low) None "address" true;
        IO 5 true (TDict [("address", (add_register rIX))]) None "value";
        MW None None PNone (Some rA) None 0]
      "LD (IX+d),A" (Some 3));
  (OpTuple [0xDD; 0x7E],
    mkEntry 0
      []
      [OD (Some high_after_low) None "address" true;
        IO 5 true (TDict [("address", (add_register rIX))]) None "value";
        MR None None (Some high_after_low) (Some (LDr rA PNone "value")) true]
      "LD A,(IX+d)" (Some 3));
  (OpTuple [0xDD; 0x86],
    mkEntry 0
      []
      [OD (Some high_after_low) None "address" true;
        IO 5 true (TDict [("address", (add_register rIX))]) None "value";
        MR None None (Some high_after_low) (Some (do_each [(force_flag fH (PCall (lam2 (fun state v => Ok (if (0xF <? ((Z.land (get_reg state rA) 0xF) + (Z.land v 0xF))) then 1 else 0))))); (set_flags "SZ5H3V0C" (Some "value") None (PCall (lam2 (fun state v => Ok ((get_reg state rA) + v)))) (Some rA))])) true]
      "ADD (IX+d)" (Some 3));
  (OpTuple [0xDD; 0x8E],
    mkEntry 0
      []
      [OD (Some high_after_low) None "address" true;
        IO 5 true (TDict [("address", (add_register rIX))]) None "value";
        MR None None (Some high_after_low) (Some (do_each [(force_flag fH (PCall (lam2 (fun state v => Ok (if (0xF <? (((Z.land (get_reg state rA) 0xF) + (Z.land v 0xF)) + (getflag state fC))) then 1 else 0))))); (set_flags "SZ5H3V0C" (Some "value") None (PCall (lam2 (fun state v => Ok (((get_reg state rA) + v) + (getflag state fC))))) (Some rA))])) true]
      "ADC (IX+d)" (Some 3));
  (OpTuple [0xDD; 0x96],
    mkEntry 0
      []
      [OD (Some high_after_low) None "address" true;
        IO 5 true (TDict [("address", (add_register rIX))]) None "value";
        MR None None (Some high_after_low) (Some (do_each [(force_flag fH (PCall (lam2 (fun state v => Ok (if (((Z.land (get_reg state rA) 0xF) - (Z.land v 0xF)) <? 0x0) then 1 else 0))))); (set_flags "SZ5H3V1C" (Some "value") None (PCall (lam2 (fun state v => Ok ((get_reg state rA) - v)))) (Some rA))])) true]
      "SUB (IX+d)" (Some 3));
  (OpTuple [0xDD; 0x9E],
    mkEntry 0
      []
      [OD (Some high_after_low) None "address" true;
        IO 5 true (TDict [("address", (add_register rIX))]) None "value";
        MR None None (Some high_after_low) (Some (do_each [(force_flag fH (PCall (lam2 (fun state v => Ok (if ((((Z.land (get_reg state rA) 0xF) - (Z.land v 0xF)) - (getflag state fC)) <? 0x0) then 1 else 0))))); (set_flags "SZ5H3V1C" (Some "value") None (PCall (lam2 (fun state v => Ok (((get_reg state rA) - v) - (getflag state fC))))) (Some rA))])) true]
      "SBC (IX+d)" (Some 3));
  (OpTuple [0xDD; 0xA6],
    mkEntry 0
      []
      [OD (Some high_after_low) None "address" true;
        IO 5 true (TDict [("address", (add_register rIX))]) None "value";
        MR None None (Some high_after_low) (Some (set_flags "SZ513P00" (Some "value") None (PCall (lam2 (fun state v => Ok (Z.land (get_reg state rA) v)))) (Some rA))) true]
      "AND (IX+d)" (Some 3));
  (OpTuple [0xDD; 0xAE],
    mkEntry 0
      []
      [OD (Some high_after_low) None "address" true;
        IO 5 true (TDict [("address", (add_register rIX))]) None "value";
        MR None None (Some high_after_low) (Some (set_flags "SZ503P00" (Some "value") None (PCall (lam2 (fun state v => Ok (Z.lxor (get_reg state rA) v)))) (Some rA))) true]
      "XOR (IX+d)" (Some 3));
  (OpTuple [0xDD; 0xB6],
    mkEntry 0
      []
      [OD (Some high_after_low) None "address" true;
        IO 5 true (TDict [("address", (add_register rIX))]) None "value";
        MR None None (Some high_after_low) (Some (set_flags "SZ503P00" (Some "value") None (PCall (lam2 (fun state v => Ok (Z.lor (get_reg state rA) v)))) (Some rA))) true]
      "OR (IX+d)" (Some 3));
  (OpTuple [0xDD; 0xBE],
    mkEntry 0
      []
      [OD (Some high_after_low) None "address" true;
        IO 5 true (TDict [("address", (add_register rIX))]) None "value";
        MR None None (Some high_after_low) (Some (set_flags "SZ5H3V1C" (Some "value") None (PCall (lam2 (fun state v => Ok ((get_reg state rA) - v)))) None)) true]
      "CP (IX+d)" (Some 3));
  (OpTuple [0xDD; 0xCB],
    mkEntry 0
      []
      [OD (Some high_after_low) None "address" true;
        IO 1 true (TDict [("address", (add_register rIX))]) None "value";
        OCF (Some (OpTuple [0xDD; 0xCB])) false 0]
      "-- second and third bytes of 4 byte op-code" None);
  (OpTuple [0xDD; 0xE1],
    mkEntry 0
      []
      [SR (Some high_after_low) None 0;
        SR (Some high_after_low) (Some (LDr rIX PNone "value")) 0]
      "POP IX" (Some 2));
  (OpTuple [0xDD; 0xE3],
    mkEntry 0
      [RRr "H" (Some rIXH) PNone;
        RRr "L" (Some rIXL) PNone]
      [SR (Some high_after_low) None 0;
        SR (Some high_after_low) (Some (LDr rIX PNone "value")) 1;
        SW None "H" 0 None;
        SW None "L" 2 None]
      "EX (SP),IX" None);
  (OpTuple [0xDD; 0xE5],
    mkEntry 1
      []
      [SW (Some rIXH) "value" 0 None;
        SW (Some rIXL) "value" 0 None]
      "PUSH IX" (Some 2));
  (OpTuple [0xDD; 0xE9],
    mkEntry 0
      [JP PNone None (Some rIX)]
      []
      "JP (IX)" (Some 2));
  (OpTuple [0xDD; 0xF9],
    mkEntry 0
      [LDrs rSP rIX]
      []
      "LD SP,IX" (Some 2))
  ].

(** Opcodes with prefix ED. *)
Definition INSTRUCTION_STATES_ED : list (opcode * entry) :=
  [
  (OpTuple [0xED; 0x40],
    mkEntry 0
      []
      [PR (Some rB) (Some rC) (Some (set_flags "SZ503P0-" (Some "value") None PNone None)) (Some rB)]
      "IN B,(C)" (Some 2));
  (OpTuple [0xED; 0x41],
    mkEntry 0
      []
      [PW (Some rB) (Some rC) None (Some rB)]
      "OUT (C),B" (Some 2));
  (OpTuple [0xED; 0x42],
    mkEntry 0
      (SBC16 rBC)
      [IO 4 true TNone None "value";
        IO 3 true TNone None "value"]
      "SBC HL,BC" (Some 2));
  (OpTuple [0xED; 0x43],
    mkEntry 0
      []
      [OD (Some high_after_low) None "address" false;
        OD (Some high_after_low) None "address" false;
        MW None None PNone (Some rC) None 0;
        MW None None PNone (Some rB) None 0]
      "LD (nn),BC" (Some 4));
  (OpTuple [0xED; 0x44],
    mkEntry 0
      [set_flags "SZ513V11" (Some "value") None (PCall (lam1 (fun state => Ok (Z.land (- (get_reg state rA)) 0xFF)))) (Some rA)]
      []
      "NEG" (Some 2));
  (OpTuple [0xED; 0x45],
    mkEntry 0
      []
      [SR (Some high_after_low) None 0;
        SR (Some high_after_low) (Some (do_each [restore_iff; (JP PNone None None)])) 0]
      "RETN" (Some 2));
  (OpTuple [0xED; 0x46],
    mkEntry 0
      [im 0]
      []
      "IM0" (Some 2));
  (OpTuple [0xED; 0x47],
    mkEntry 0
      [LDrs rI rA]
      []
      "LD I,A" (Some 2));
  (OpTuple [0xED; 0x48],
    mkEntry 0
      []
      [PR (Some rB) (Some rC) (Some (set_flags "SZ503P0-" (Some "value") None PNone None)) (Some rC)]
      "IN C,(C)" (Some 2));
  (OpTuple [0xED; 0x49],
    mkEntry 0
      []
      [PW (Some rB) (Some rC) None (Some rC)]
      "OUT (C),C" (Some 2));
  (OpTuple [0xED; 0x4B],
    mkEntry 0
      []
      [OD (Some high_after_low) None "address" false;
        OD (Some high_after_low) None "address" false;
        MR None None (Some high_after_low) (Some (LDr rC PNone "value")) true;
        MR None None (Some high_after_low) (Some (LDr rB PNone "value")) true]
      "LD BC,(nn)" (Some 4));
  (OpTuple [0xED; 0x4A],
    mkEntry 0
      (ADC16 rBC)
      [IO 4 true TNone None "value";
        IO 3 true TNone None "value"]
      "ADC HL,BC" (Some 2));
  (OpTuple [0xED; 0x4D],
    mkEntry 0
      []
      [SR (Some high_after_low) None 0;
        SR (Some high_after_low) (Some (JP PNone None None)) 0]
      "RETI" (Some 2));
  (OpTuple [0xED; 0x4F],
    mkEntry 0
      [LDrs rR rA]
      []
      "LD R,A" (Some 2));
  (OpTuple [0xED; 0x50],
    mkEntry 0
      []
      [PR (Some rB) (Some rC) (Some (set_flags "SZ503P0-" (Some "value") None PNone None)) (Some rD)]
      "IN D,(C)" (Some 2));
  (OpTuple [0xED; 0x51],
    mkEntry 0
      []
      [PW (Some rB) (Some rC) None (Some rD)]
      "OUT (C),D" (Some 2));
  (OpTuple [0xED; 0x52],
    mkEntry 0
      (SBC16 rDE)
      [IO 4 true TNone None "value";
        IO 3 true TNone None "value"]
      "SBC HL,DE" (Some 2));
  (OpTuple [0xED; 0x53],
    mkEntry 0
      []
      [OD (Some high_after_low) None "address" false;
        OD (Some high_after_low) None "address" false;
        MW None None PNone (Some rE) None 0;
        MW None None PNone (Some rD) None 0]
      "LD (nn),DE" (Some 4));
  (OpTuple [0xED; 0x56],
    mkEntry 0
      [im 1]
      []
      "IM1" (Some 2));
  (OpTuple [0xED; 0x57],
    mkEntry 0
      [LDrs rA rI;
        set_flags "SZ503*0-" (Some "value") (Some rI) PNone None]
      []
      "LD A,I" (Some 2));
  (OpTuple [0xED; 0x58],
    mkEntry 0
      []
      [PR (Some rB) (Some rC) (Some (set_flags "SZ503P0-" (Some "value") None PNone None)) (Some rE)]
      "IN E,(C)" (Some 2));
  (OpTuple [0xED; 0x59],
    mkEntry 0
      []
      [PW (Some rB) (Some rC) None (Some rE)]
      "OUT (C),E" (Some 2));
  (OpTuple [0xED; 0x5A],
    mkEntry 0
      (ADC16 rDE)
      [IO 4 true TNone None "value";
        IO 3 true TNone None "value"]
      "ADC HL,DE" (Some 2));
  (OpTuple [0xED; 0x5B],
    mkEntry 0
      []
      [OD (Some high_after_low) None "address" false;
        OD (Some high_after_low) None "address" false;
        MR None None (Some high_after_low) (Some (LDr rE PNone "value")) true;
        MR None None (Some high_after_low) (Some (LDr rD PNone "value")) true]
      "LD DE,(nn)" (Some 4));
  (OpTuple [0xED; 0x5E],
    mkEntry 0
      [im 2]
      []
      "IM2" (Some 2));
  (OpTuple [0xED; 0x5F],
    mkEntry 0
      [LDrs rA rR;
        set_flags "SZ503*0-" (Some "value") (Some rR) PNone None]
      []
      "LD A,R" (Some 2));
  (OpTuple [0xED; 0x60],
    mkEntry 0
      []
      [PR (Some rB) (Some rC) (Some (set_flags "SZ503P0-" (Some "value") None PNone None)) (Some rH)]
      "IN H,(C)" (Some 2));
  (OpTuple [0xED; 0x61],
    mkEntry 0
      []
      [PW (Some rB) (Some rC) None (Some rH)]
      "OUT (C),H" (Some 2));
  (OpTuple [0xED; 0x62],
    mkEntry 0
      (SBC16 rHL)
      [IO 4 true TNone None "value";
        IO 3 true TNone None "value"]
      "SBC HL,HL" (Some 2));
  (OpTuple [0xED; 0x67],
    mkEntry 0
      []
      [MR None (Some rHL) (Some high_after_low) (Some (do_each [(RRr "value" None (PCall (lam2 (fun state v => Ok (Z.lor (Z.shiftr v 4) (Z.shiftl (get_reg state rA) 4)))))); (set_flags "SZ503P0-" None None (PCall (lam2 (fun state v => Ok (Z.land v 0x0F)))) (Some rA))])) true;
        IO 4 true TNone None "value";
        MW None (Some rHL) PNone None None 0]
      "RRD" (Some 2));
  (OpTuple [0xED; 0x68],
    mkEntry 0
      []
      [PR (Some rB) (Some rC) (Some (set_flags "SZ503P0-" (Some "value") None PNone None)) (Some rL)]
      "IN L,(C)" (Some 2));
  (OpTuple [0xED; 0x69],
    mkEntry 0
      []
      [PW (Some rB) (Some rC) None (Some rL)]
      "OUT (C),L" (Some 2));
  (OpTuple [0xED; 0x6A],
    mkEntry 0
      (ADC16 rHL)
      [IO 4 true TNone None "value";
        IO 3 true TNone None "value"]
      "ADC HL,HL" (Some 2));
  (OpTuple [0xED; 0x6F],
    mkEntry 0
      []
      [MR None (Some rHL) (Some high_after_low) (Some (do_each [(RRr "value" None (PCall (lam2 (fun state v => Ok (Z.lor (Z.shiftl v 4) (Z.land (get_reg state rA) 0x0F)))))); (set_flags "SZ503P0-" None None (PCall (lam2 (fun state v => Ok (Z.shiftr v 4)))) (Some rA))])) true;
        IO 4 true TNone None "value";
        MW None (Some rHL) PNone None None 0]
      "RLD" (Some 2));
  (OpTuple [0xED; 0x70],
    mkEntry 0
      []
      [PR (Some rB) (Some rC) (Some (set_flags "SZ503P0-" (Some "value") None PNone None)) (Some rF)]
      "IN F,(C) (undocumented)" (Some 2));
  (OpTuple [0xED; 0x71],
    mkEntry 0
      []
      [PW (Some rB) (Some rC) None (Some rF)]
      "OUT (C),F (undocumented)" (Some 2));
  (OpTuple [0xED; 0x72],
    mkEntry 0
      (SBC16 rSP)
      [IO 4 true TNone None "value";
        IO 3 true TNone None "value"]
      "SBC HL,SP" (Some 2));
  (OpTuple [0xED; 0x73],
    mkEntry 0
      []
      [OD (Some high_after_low) None "address" false;
        OD (Some high_after_low) None "address" false;
        MW None None PNone (Some rSPL) None 0;
        MW None None PNone (Some rSPH) None 0]
      "LD (nn),SP" (Some 2));
  (OpTuple [0xED; 0x78],
    mkEntry 0
      []
      [PR (Some rB) (Some rC) (Some (set_flags "SZ503P0-" (Some "value") None PNone None)) (Some rA)]
      "IN A,(C)" (Some 2));
  (OpTuple [0xED; 0x79],
    mkEntry 0
      []
      [PW (Some rB) (Some rC) None (Some rA)]
      "OUT (C),A" (Some 2));
  (OpTuple [0xED; 0x7A],
    mkEntry 0
      (ADC16 rSP)
      [IO 4 true TNone None "value";
        IO 3 true TNone None "value"]
      "ADC HL,SP" (Some 2));
  (OpTuple [0xED; 0x7B],
    mkEntry 0
      []
      [OD (Some high_after_low) None "address" false;
        OD (Some high_after_low) None "address" false;
        MR None None (Some high_after_low) (Some (LDr rSPL PNone "value")) true;
        MR None None (Some high_after_low) (Some (LDr rSPH PNone "value")) true]
      "LD SP,(nn)" (Some 4));
  (OpTuple [0xED; 0xA0],
    mkEntry 0
      []
      [MR None (Some rHL) (Some high_after_low) None true;
        MW None (Some rDE) PNone None (Some (do_each [(set_flags "--50310-" (Some "value") None (PCall (lam2 (fun state _ => do kw_value <- kw state "value"; Ok (kw_value + (get_reg state rA))))) None); (inc rHL); (inc rDE); (dec rBC); (on_zero rBC (clear_flag fV))])) 2]
      "LDI" (Some 2));
  (OpTuple [0xED; 0xA1],
    mkEntry 0
      []
      [MR None (Some rHL) (Some high_after_low) None true;
        IO 5 true (TDict [("value", (subfrom rA))]) (Some (do_each [(set_flags "-Z50311-" (Some "value") None PNone None); (inc rHL); (dec rBC); (on_zero rBC (clear_flag fV))])) "value"]
      "CPI" (Some 2));
  (OpTuple [0xED; 0xA2],
    mkEntry 0
      []
      [PR (Some rB) (Some rC) None None;
        MW None (Some rHL) PNone None (Some (do_each [(inc rHL); (dec rB); (set_flags "SZ503P0-" (Some "value") (Some rB) PNone None)])) 0]
      "INI" (Some 2));
  (OpTuple [0xED; 0xA3],
    mkEntry 0
      []
      [MR None (Some rHL) (Some high_after_low) None true;
        PW (Some rB) (Some rC) (Some (do_each [(inc rHL); (dec rB); (set_flags "SZ503P0-" (Some "value") (Some rB) PNone None)])) None]
      "OUTI" (Some 2));
  (OpTuple [0xED; 0xA8],
    mkEntry 0
      []
      [MR None (Some rHL) (Some high_after_low) None true;
        MW None (Some rDE) PNone None (Some (do_each [(set_flags "--50310-" (Some "value") None (PCall (lam2 (fun state _ => do kw_value <- kw state "value"; Ok (kw_value + (get_reg state rA))))) None); (dec rHL); (dec rDE); (dec rBC); (on_zero rBC (clear_flag fV))])) 2]
      "LDD" (Some 2));
  (OpTuple [0xED; 0xA9],
    mkEntry 0
      []
      [MR None (Some rHL) (Some high_after_low) None true;
        IO 5 true (TDict [("value", (subfrom rA))]) (Some (do_each [(set_flags "-Z50311-" (Some "value") None PNone None); (dec rHL); (dec rBC); (on_zero rBC (clear_flag fV))])) "value"]
      "CPD" (Some 2));
  (OpTuple [0xED; 0xAA],
    mkEntry 0
      []
      [PR (Some rB) (Some rC) None None;
        MW None (Some rHL) PNone None (Some (do_each [(dec rHL); (dec rB); (set_flags "SZ503P0-" (Some "value") (Some rB) PNone None)])) 0]
      "IND" (Some 2));
  (OpTuple [0xED; 0xAB],
    mkEntry 0
      []
      [MR None (Some rHL) (Some high_after_low) None true;
        PW (Some rB) (Some rC) (Some (do_each [(dec rHL); (dec rB); (set_flags "SZ503P0-" (Some "value") (Some rB) PNone None)])) None]
      "OUTD" (Some 2));
  (OpTuple [0xED; 0xB0],
    mkEntry 0
      []
      [MR None (Some rHL) (Some high_after_low) None true;
        MW None (Some rDE) PNone None (Some (do_each [(set_flags "--50310-" (Some "value") None (PCall (lam2 (fun state _ => do kw_value <- kw state "value"; Ok (kw_value + (get_reg state rA))))) None); (inc rHL); (inc rDE); (dec rBC); (on_zero rBC (clear_flag fV)); (on_zero rBC early_abort)])) 2;
        IO 5 true TNone (Some (do_each [(dec rPC); (dec rPC)])) "value"]
      "LDIR" (Some 2));
  (OpTuple [0xED; 0xB1],
    mkEntry 0
      []
      [MR None (Some rHL) (Some high_after_low) None true;
        IO 5 true (TDict [("value", (subfrom rA))]) (Some (do_each [(set_flags "-Z50311-" (Some "value") None PNone None); (inc rHL); (dec rBC); (on_zero rBC (clear_flag fV)); (on_zero rBC early_abort); (on_flag fZ early_abort)])) "value";
        IO 5 true TNone (Some (do_each [(dec rPC); (dec rPC)])) "value"]
      "CPIR" (Some 2));
  (OpTuple [0xED; 0xB2],
    mkEntry 0
      []
      [PR (Some rB) (Some rC) None None;
        MW None (Some rHL) PNone None (Some (do_each [(inc rHL); (dec rB); (set_flags "SZ503P0-" (Some "value") (Some rB) PNone None); (on_flag fZ early_abort)])) 0;
        IO 5 true TNone (Some (do_each [(dec rPC); (dec rPC)])) "value"]
      "INIR" (Some 2));
  (OpTuple [0xED; 0xB3],
    mkEntry 0
      []
      [MR None (Some rHL) (Some high_after_low) None true;
        PW (Some rB) (Some rC) (Some (do_each [(inc rHL); (dec rB); (set_flags "SZ503P0-" (Some "value") (Some rB) PNone None); (on_flag fZ early_abort)])) None;
        IO 5 true TNone (Some (do_each [(dec rPC); (dec rPC)])) "value"]
      "OUTIR" (Some 2));
  (OpTuple [0xED; 0xB8],
    mkEntry 0
      []
      [MR None (Some rHL) (Some high_after_low) None true;
        MW None (Some rDE) PNone None (Some (do_each [(set_flags "--50310-" (Some "value") None (PCall (lam2 (fun state _ => do kw_value <- kw state "value"; Ok (kw_value + (get_reg state rA))))) None); (dec rHL); (dec rDE); (dec rBC); (on_zero rBC (clear_flag fV)); (on_zero rBC early_abort)])) 2;
        IO 5 true TNone (Some (do_each [(dec rPC); (dec rPC)])) "value"]
      "LDDR" (Some 2));
  (OpTuple [0xED; 0xB9],
    mkEntry 0
      []
      [MR None (Some rHL) (Some high_after_low) None true;
        IO 5 true (TDict [("value", (subfrom rA))]) (Some (do_each [(set_flags "-Z50311-" (Some "value") None PNone None); (dec rHL); (dec rBC); (on_zero rBC (clear_flag fV)); (on_zero rBC early_abort); (on_flag fZ early_abort)])) "value";
        IO 5 true TNone (Some (do_each [(dec rPC); (dec rPC)])) "value"]
      "CPDR" (Some 2));
  (OpTuple [0xED; 0xBA],
    mkEntry 0
      []
      [PR (Some rB) (Some rC) None None;
        MW None (Some rHL) PNone None (Some (do_each [(dec rHL); (dec rB); (set_flags "SZ503P0-" (Some "value") (Some rB) PNone None); (on_flag fZ early_abort)])) 0;
        IO 5 true TNone (Some (do_each [(dec rPC); (dec rPC)])) "value"]
      "INDR" (Some 2));
  (OpTuple [0xED; 0xBB],
    mkEntry 0
      []
      [MR None (Some rHL) (Some high_after_low) None true;
        PW (Some rB) (Some rC) (Some (do_each [(dec rHL); (dec rB); (set_flags "SZ503P0-" (Some "value") (Some rB) PNone None); (on_flag fZ early_abort)])) None;
        IO 5 true TNone (Some (do_each [(dec rPC); (dec rPC)])) "value"]
      "OUTDR" (Some 2))
  ].

(** Opcodes with prefix FD. *)
Definition INSTRUCTION_STATES_FD : list (opcode * entry) :=
  [
  (OpTuple [0xFD; 0x09],
    mkEntry 0
      [force_flag fH (PCall (lam1 (fun state => Ok (if (0xF <? (((Z.land (get_reg state rB) 0xF) + (Z.land (get_reg state rIYH) 0xF)) + (Z.shiftr ((get_reg state rC) + (get_reg state rIYL)) 8))) then 1 else 0))));
        set_flags "--5-3-0C" (Some "value") None (PCall (lam1 (fun state => Ok (((get_reg state rB) + (get_reg state rIYH)) + (Z.shiftr ((get_reg state rC) + (get_reg state rIYL)) 8))))) None;
        LDr rIY (PCall (lam1 (fun state => Ok (Z.land ((get_reg state rIY) + (get_reg state rBC)) 0xFFFF)))) "value"]
      [IO 4 true TNone None "value";
        IO 3 true TNone None "value"]
      "ADD IY,BC" (Some 2));
  (OpTuple [0xFD; 0x19],
    mkEntry 0
      [force_flag fH (PCall (lam1 (fun state => Ok (if (0xF <? (((Z.land (get_reg state rD) 0xF) + (Z.land (get_reg state rIYH) 0xF)) + (Z.shiftr ((get_reg state rE) + (get_reg state rIYL)) 8))) then 1 else 0))));
        set_flags "--5-3-0C" (Some "value") None (PCall (lam1 (fun state => Ok (((get_reg state rD) + (get_reg state rIYH)) + (Z.shiftr ((get_reg state rE) + (get_reg state rIYL)) 8))))) None;
        LDr rIY (PCall (lam1 (fun state => Ok (Z.land ((get_reg state rIY) + (get_reg state rDE)) 0xFFFF)))) "value"]
      [IO 4 true TNone None "value";
        IO 3 true TNone None "value"]
      "ADD IY,DE" (Some 2));
  (OpTuple [0xFD; 0x23],
    mkEntry 0
      [LDr rIY (PCall (lam1 (fun state => Ok (Z.land ((get_reg state rIY) + 1) 0xFFFF)))) "value"]
      []
      "INC IY" (Some 2));
  (OpTuple [0xFD; 0x29],
    mkEntry 0
      [force_flag fH (PCall (lam1 (fun state => Ok (if (0xF <? (((Z.land (get_reg state rIYH) 0xF) + (Z.land (get_reg state rIYH) 0xF)) + (Z.shiftr ((get_reg state rIYL) + (get_reg state rIYL)) 8))) then 1 else 0))));
        set_flags "--5-3-0C" (Some "value") None (PCall (lam1 (fun state => Ok (((get_reg state rIYH) + (get_reg state rIYH)) + (Z.shiftr ((get_reg state rIYL) + (get_reg state rIYL)) 8))))) None;
        LDr rIY (PCall (lam1 (fun state => Ok (Z.land ((get_reg state rIY) + (get_reg state rIY)) 0xFFFF)))) "value"]
      [IO 4 true TNone None "value";
        IO 3 true TNone None "value"]
      "ADD IY,IY" (Some 2));
  (OpTuple [0xFD; 0x2B],
    mkEntry 0
      [LDr rIY (PCall (lam1 (fun state => Ok (Z.land ((get_reg state rIY) - 1) 0xFFFF)))) "value"]
      []
      "DEC IY" (Some 2));
  (OpTuple [0xFD; 0x39],
    mkEntry 0
      [force_flag fH (PCall (lam1 (fun state => Ok (if (0xF <? (((Z.land (get_reg state rSPH) 0xF) + (Z.land (get_reg state rIYH) 0xF)) + (Z.shiftr ((get_reg state rSPL) + (get_reg state rIYL)) 8))) then 1 else 0))));
        set_flags "--5-3-0C" (Some "value") None (PCall (lam1 (fun state => Ok (((get_reg state rSPH) + (get_reg state rIYH)) + (Z.shiftr ((get_reg state rSPL) + (get_reg state rIYL)) 8))))) None;
        LDr rIY (PCall (lam1 (fun state => Ok (Z.land ((get_reg state rIY) + (get_reg state rSP)) 0xFFFF)))) "value"]
      [IO 4 true TNone None "value";
        IO 3 true TNone None "value"]
      "ADD IY,SP" (Some 2));
  (OpTuple [0xFD; 0x21],
    mkEntry 0
      []
      [OD (Some high_after_low) None "value" false;
        OD (Some high_after_low) (Some (LDr rIY PNone "value")) "value" false]
      "LD IY,nn" (Some 4));
  (OpTuple [0xFD; 0x22],
    mkEntry 0
      []
      [OD (Some high_after_low) None "address" false;
        OD (Some high_after_low) None "address" false;
        MW None None PNone (Some rIYL) None 0;
        MW None None PNone (Some rIYH) None 0]
      "LD (nn),IY" (Some 4));
  (OpTuple [0xFD; 0x2A],
    mkEntry 0
      []
      [OD (Some high_after_low) None "address" false;
        OD (Some high_after_low) None "address" false;
        MR None None (Some high_after_low) (Some (LDr rIYL PNone "value")) true;
        MR None None (Some high_after_low) (Some (LDr rIYH PNone "value")) true]
      "LD IY,(nn)" (Some 4));
  (OpTuple [0xFD; 0x34],
    mkEntry 0
      []
      [OD (Some high_after_low) None "address" true;
        IO 5 true (TDict [("address", (add_register rIY))]) None "value";
        MR None None (Some high_after_low) (Some (do_each [(force_flag fH (PCall (lam2 (fun state v => Ok (if (0xF <? ((Z.land v 0xF) + 1)) then 1 else 0))))); (set_flags "SZ5-3V0-" (Some "value") None (PCall (lam2 (fun state v => Ok (v + 1)))) None)])) false;
        MW None None PNone None None 0]
      "INC (IY+d)" (Some 3));
  (OpTuple [0xFD; 0x35],
    mkEntry 0
      []
      [OD (Some high_after_low) None "address" true;
        IO 5 true (TDict [("address", (add_register rIY))]) None "value";
        MR None None (Some high_after_low) (Some (do_each [(force_flag fH (PCall (lam2 (fun state v => Ok (if (((Z.land v 0xF) - 1) <? 0x0) then 1 else 0))))); (set_flags "SZ5H3V1-" (Some "value") None (PCall (lam2 (fun state v => Ok (v - 1)))) None)])) false;
        MW None None PNone None None 0]
      "DEC (IY+d)" (Some 3));
  (OpTuple [0xFD; 0x36],
    mkEntry 0
      []
      [OD (Some high_after_low) None "address" true;
        OD (Some high_after_low) None "value" false;
        IO 5 true (TDict [("address", (add_register rIY))]) None "value";
        MW None None PNone None None 0]
      "LD (IY+d),n" (Some 4));
  (OpTuple [0xFD; 0x46],
    mkEntry 0
      []
      [OD (Some high_after_low) None "address" true;
        IO 5 true (TDict [("address", (add_register rIY))]) None "value";
        MR None None (Some high_after_low) (Some (LDr rB PNone "value")) true]
      "LD B,(IY+d)" (Some 3));
  (OpTuple [0xFD; 0x4E],
    mkEntry 0
      []
      [OD (Some high_after_low) None "address" true;
        IO 5 true (TDict [("address", (add_register rIY))]) None "value";
        MR None None (Some high_after_low) (Some (LDr rC PNone "value")) true]
      "LD C,(IY+d)" (Some 3));
  (OpTuple [0xFD; 0x56],
    mkEntry 0
      []
      [OD (Some high_after_low) None "address" true;
        IO 5 true (TDict [("address", (add_register rIY))]) None "value";
        MR None None (Some high_after_low) (Some (LDr rD PNone "value")) true]
      "LD D,(IY+d)" (Some 3));
  (OpTuple [0xFD; 0x5E],
    mkEntry 0
      []
      [OD (Some high_after_low) None "address" true;
        IO 5 true (TDict [("address", (add_register rIY))]) None "value";
        MR None None (Some high_after_low) (Some (LDr rE PNone "value")) true]
      "LD E,(IY+d)" (Some 3));
  (OpTuple [0xFD; 0x66],
    mkEntry 0
      []
      [OD (Some high_after_low) None "address" true;
        IO 5 true (TDict [("address", (add_register rIY))]) None "value";
        MR None None (Some high_after_low) (Some (LDr rH PNone "value")) true]
      "LD H,(IY+d)" (Some 3));
  (OpTuple [0xFD; 0x6E],
    mkEntry 0
      []
      [OD (Some high_after_low) None "address" true;
        IO 5 true (TDict [("address", (add_register rIY))]) None "value";
        MR None None (Some high_after_low) (Some (LDr rL PNone "value")) true]
      "LD L,(IY+d)" (Some 3));
  (OpTuple [0xFD; 0x70],
    mkEntry 0
      []
      [OD (Some high_after_low) None "address" true;
        IO 5 true (TDict [("address", (add_register rIY))]) None "value";
        MW None None PNone (Some rB) None 0]
      "LD (IY+d),B" (Some 3));
  (OpTuple [0xFD; 0x71],
    mkEntry 0
      []
      [OD (Some high_after_low) None "address" true;
        IO 5 true (TDict [("address", (add_register rIY))]) None "value";
        MW None None PNone (Some rC) None 0]
      "LD (IY+d),C" (Some 3));
  (OpTuple [0xFD; 0x72],
    mkEntry 0
      []
      [OD (Some high_after_low) None "address" true;
        IO 5 true (TDict [("address", (add_register rIY))]) None "value";
        MW None None PNone (Some rD) None 0]
      "LD (IY+d),D" (Some 3));
  (OpTuple [0xFD; 0x73],
    mkEntry 0
      []
      [OD (Some high_after_low) None "address" true;
        IO 5 true (TDict [("address", (add_register rIY))]) None "value";
        MW None None PNone (Some rE) None 0]
      "LD (IY+d),E" (Some 3));
  (OpTuple [0xFD; 0x74],
    mkEntry 0
      []
      [OD (Some high_after_low) None "address" true;
        IO 5 true (TDict [("address", (add_register rIY))]) None "value";
        MW None None PNone (Some rH) None 0]
      "LD (IY+d),H" (Some 3));
  (OpTuple [0xFD; 0x75],
    mkEntry 0
      []
      [OD (Some high_after_low) None "address" true;
        IO 5 true (TDict [("address", (add_register rIY))]) None "value";
        MW None None PNone (Some rL) None 0]
      "LD (IY+d),L" (Some 3));
  (OpTuple [0xFD; 0x77],
    mkEntry 0
      []
      [OD (Some high_after_low) None "address" true;
        IO 5 true (TDict [("address", (add_register rIY))]) None "value";
        MW None None PNone (Some rA) None 0]
      "LD (IY+d),A" (Some 3));
  (OpTuple [0xFD; 0x7E],
    mkEntry 0
      []
      [OD (Some high_after_low) None "address" true;
        IO 5 true (TDict [("address", (add_register rIY))]) None "value";
        MR None None (Some high_after_low) (Some (LDr rA PNone "value")) true]
      "LD A,(IY+d)" (Some 3));
  (OpTuple [0xFD; 0x86],
    mkEntry 0
      []
      [OD (Some high_after_low) None "address" true;
        IO 5 true (TDict [("address", (add_register rIY))]) None "value";
        MR None None (Some high_after_low) (Some (do_each [(force_flag fH (PCall (lam2 (fun state v => Ok (if (0xF <? ((Z.land (get_reg state rA) 0xF) + (Z.land v 0xF))) then 1 else 0))))); (set_flags "SZ5H3V0C" (Some "value") None (PCall (lam2 (fun state v => Ok ((get_reg state rA) + v)))) (Some rA))])) true]
      "ADD (IY+d)" (Some 3));
  (OpTuple [0xFD; 0x8E],
    mkEntry 0
      []
      [OD (Some high_after_low) None "address" true;
        IO 5 true (TDict [("address", (add_register rIY))]) None "value";
        MR None None (Some high_after_low) (Some (do_each [(force_flag fH (PCall (lam2 (fun state v => Ok (if (0xF <? (((Z.land (get_reg state rA) 0xF) + (Z.land v 0xF)) + (getflag state fC))) then 1 else 0))))); (set_flags "SZ5H3V0C" (Some "value") None (PCall (lam2 (fun state v => Ok (((get_reg state rA) + v) + (getflag state fC))))) (Some rA))])) true]
      "ADC (IY+d)" (Some 3));
  (OpTuple [0xFD; 0x96],
    mkEntry 0
      []
      [OD (Some high_after_low) None "address" true;
        IO 5 true (TDict [("address", (add_register rIY))]) None "value";
        MR None None (Some high_after_low) (Some (do_each [(force_flag fH (PCall (lam2 (fun state v => Ok (if (((Z.land (get_reg state rA) 0xF) - (Z.land v 0xF)) <? 0x0) then 1 else 0))))); (set_flags "SZ5H3V1C" (Some "value") None (PCall (lam2 (fun state v => Ok ((get_reg state rA) - v)))) (Some rA))])) true]
      "SUB (IY+d)" (Some 3));
  (OpTuple [0xFD; 0x9E],
    mkEntry 0
      []
      [OD (Some high_after_low) None "address" true;
        IO 5 true (TDict [("address", (add_register rIY))]) None "value";
        MR None None (Some high_after_low) (Some (do_each [(force_flag fH (PCall (lam2 (fun state v => Ok (if ((((Z.land (get_reg state rA) 0xF) - (Z.land v 0xF)) - (getflag state fC)) <? 0x0) then 1 else 0))))); (set_flags "SZ5H3V1C" (Some "value") None (PCall (lam2 (fun state v => Ok (((get_reg state rA) - v) - (getflag state fC))))) (Some rA))])) true]
      "SBC (IY+d)" (Some 3));
  (OpTuple [0xFD; 0xA6],
    mkEntry 0
      []
      [OD (Some high_after_low) None "address" true;
        IO 5 true (TDict [("address", (add_register rIY))]) None "value";
        MR None None (Some high_after_low) (Some (set_flags "SZ513P00" (Some "value") None (PCall (lam2 (fun state v => Ok (Z.land (get_reg state rA) v)))) (Some rA))) true]
      "AND (IY+d)" (Some 3));
  (OpTuple [0xFD; 0xAE],
    mkEntry 0
      []
      [OD (Some high_after_low) None "address" true;
        IO 5 true (TDict [("address", (add_register rIY))]) None "value";
        MR None None (Some high_after_low) (Some (set_flags "SZ503P00" (Some "value") None (PCall (lam2 (fun state v => Ok (Z.lxor (get_reg state rA) v)))) (Some rA))) true]
      "XOR (IY+d)" (Some 3));
  (OpTuple [0xFD; 0xB6],
    mkEntry 0
      []
      [OD (Some high_after_low) None "address" true;
        IO 5 true (TDict [("address", (add_register rIY))]) None "value";
        MR None None (Some high_after_low) (Some (set_flags "SZ503P00" (Some "value") None (PCall (lam2 (fun state v => Ok (Z.lor (get_reg state rA) v)))) (Some rA))) true]
      "OR (IY+d)" (Some 3));
  (OpTuple [0xFD; 0xBE],
    mkEntry 0
      []
      [OD (Some high_after_low) None "address" true;
        IO 5 true (TDict [("address", (add_register rIY))]) None "value";
        MR None None (Some high_after_low) (Some (set_flags "SZ5H3V1C" (Some "value") None (PCall (lam2 (fun state v => Ok ((get_reg state rA) - v)))) None)) true]
      "CP (IY+d)" (Some 3));
  (OpTuple [0xFD; 0xCB],
    mkEntry 0
      []
      [OD (Some high_after_low) None "address" true;
        IO 1 true (TDict [("address", (add_register rIY))]) None "value";
        OCF (Some (OpTuple [0xFD; 0xCB])) false 0]
      "" (Some 0));
  (OpTuple [0xFD; 0xE1],
    mkEntry 0
      []
      [SR (Some high_after_low) None 0;
        SR (Some high_after_low) (Some (LDr rIY PNone "value")) 0]
      "POP IY" (Some 2));
  (OpTuple [0xFD; 0xE3],
    mkEntry 0
      [RRr "H" (Some rIYH) PNone;
        RRr "L" (Some rIYL) PNone]
      [SR (Some high_after_low) None 0;
        SR (Some high_after_low) (Some (LDr rIY PNone "value")) 1;
        SW None "H" 0 None;
        SW None "L" 2 None]
      "EX (SP),IY" (Some 2));
  (OpTuple [0xFD; 0xE5],
    mkEntry 1
      []
      [SW (Some rIYH) "value" 0 None;
        SW (Some rIYL) "value" 0 None]
      "PUSH IY" (Some 2));
  (OpTuple [0xFD; 0xE9],
    mkEntry 0
      [JP PNone None (Some rIY)]
      []
      "JP (IY)" (Some 2));
  (OpTuple [0xFD; 0xF9],
    mkEntry 0
      [LDrs rSP rIY]
      []
      "LD SP,IY" (Some 2))
  ].

(** Opcodes with prefix DD CB. *)
Definition INSTRUCTION_STATES_DDCB : list (opcode * entry) :=
  [
  (OpTuple [0xDD; 0xCB; 0x06],
    mkEntry 0
      []
      [MR None None (Some high_after_low) (Some (RLC None "value")) false;
        MW None None PNone None None 0]
      "RLC (IX+d)" (Some 4));
  (OpTuple [0xDD; 0xCB; 0x0E],
    mkEntry 0
      []
      [MR None None (Some high_after_low) (Some (RRC None "value")) false;
        MW None None PNone None None 0]
      "RRC (IX+d)" (Some 4));
  (OpTuple [0xDD; 0xCB; 0x16],
    mkEntry 0
      []
      [MR None None (Some high_after_low) (Some (RL None "value")) false;
        MW None None PNone None None 0]
      "RL (IX+d)" (Some 4));
  (OpTuple [0xDD; 0xCB; 0x1E],
    mkEntry 0
      []
      [MR None None (Some high_after_low) (Some (RR None "value")) false;
        MW None None PNone None None 0]
      "RR (IX+d)" (Some 4));
  (OpTuple [0xDD; 0xCB; 0x26],
    mkEntry 0
      []
      [MR None None (Some high_after_low) (Some (SLA None "value")) false;
        MW None None PNone None None 0]
      "SLA (IX+d)" (Some 4));
  (OpTuple [0xDD; 0xCB; 0x2E],
    mkEntry 0
      []
      [MR None None (Some high_after_low) (Some (SRA None "value")) false;
        MW None None PNone None None 0]
      "SRA (IX+d)" (Some 4));
  (OpTuple [0xDD; 0xCB; 0x36],
    mkEntry 0
      []
      [MR None None (Some high_after_low) (Some (SL1 None "value")) false;
        MW None None PNone None None 0]
      "SL1 (IX+d) (undocumemnted)" (Some 4));
  (OpTuple [0xDD; 0xCB; 0x3E],
    mkEntry 0
      []
      [MR None None (Some high_after_low) (Some (SRL None "value")) false;
        MW None None PNone None None 0]
      "SRA (IX+d)" (Some 4));
  (OpTuple [0xDD; 0xCB; 0x46],
    mkEntry 0
      []
      [MR None None (Some high_after_low) (Some (BIT 0 None)) true]
      "BIT 0,(IX+d)" (Some 4));
  (OpTuple [0xDD; 0xCB; 0x4E],
    mkEntry 0
      []
      [MR None None (Some high_after_low) (Some (BIT 1 None)) true]
      "BIT 1,(IX+d)" (Some 4));
  (OpTuple [0xDD; 0xCB; 0x56],
    mkEntry 0
      []
      [MR None None (Some high_after_low) (Some (BIT 2 None)) true]
      "BIT 2,(IX+d)" (Some 4));
  (OpTuple [0xDD; 0xCB; 0x5E],
    mkEntry 0
      []
      [MR None None (Some high_after_low) (Some (BIT 3 None)) true]
      "BIT 3,(IX+d)" (Some 4));
  (OpTuple [0xDD; 0xCB; 0x66],
    mkEntry 0
      []
      [MR None None (Some high_after_low) (Some (BIT 4 None)) true]
      "BIT 4,(IX+d)" (Some 4));
  (OpTuple [0xDD; 0xCB; 0x6E],
    mkEntry 0
      []
      [MR None None (Some high_after_low) (Some (BIT 5 None)) true]
      "BIT 5,(IX+d)" (Some 4));
  (OpTuple [0xDD; 0xCB; 0x76],
    mkEntry 0
      []
      [MR None None (Some high_after_low) (Some (BIT 6 None)) true]
      "BIT 6,(IX+d)" (Some 4));
  (OpTuple [0xDD; 0xCB; 0x7E],
    mkEntry 0
      []
      [MR None None (Some high_after_low) (Some (BIT 7 None)) true]
      "BIT 7,(IX+d)" (Some 4));
  (OpTuple [0xDD; 0xCB; 0x86],
    mkEntry 0
      []
      [MR None None (Some high_after_low) (Some (RES 0 None "value")) false;
        MW None None PNone None None 0]
      "RES 0,(IX+d)" (Some 4));
  (OpTuple [0xDD; 0xCB; 0x8E],
    mkEntry 0
      []
      [MR None None (Some high_after_low) (Some (RES 1 None "value")) false;
        MW None None PNone None None 0]
      "RES 1,(IX+d)" (Some 4));
  (OpTuple [0xDD; 0xCB; 0x96],
    mkEntry 0
      []
      [MR None None (Some high_after_low) (Some (RES 2 None "value")) false;
        MW None None PNone None None 0]
      "RES 2,(IX+d)" (Some 4));
  (OpTuple [0xDD; 0xCB; 0x9E],
    mkEntry 0
      []
      [MR None None (Some high_after_low) (Some (RES 3 None "value")) false;
        MW None None PNone None None 0]
      "RES 3,(IX+d)" (Some 4));
  (OpTuple [0xDD; 0xCB; 0xA6],
    mkEntry 0
      []
      [MR None None (Some high_after_low) (Some (RES 4 None "value")) false;
        MW None None PNone None None 0]
      "RES 4,(IX+d)" (Some 4));
  (OpTuple [0xDD; 0xCB; 0xAE],
    mkEntry 0
      []
      [MR None None (Some high_after_low) (Some (RES 5 None "value")) false;
        MW None None PNone None None 0]
      "RES 5,(IX+d)" (Some 4));
  (OpTuple [0xDD; 0xCB; 0xB6],
    mkEntry 0
      []
      [MR None None (Some high_after_low) (Some (RES 6 None "value")) false;
        MW None None PNone None None 0]
      "RES 6,(IX+d)" (Some 4));
  (OpTuple [0xDD; 0xCB; 0xBE],
    mkEntry 0
      []
      [MR None None (Some high_after_low) (Some (RES 7 None "value")) false;
        MW None None PNone None None 0]
      "RES 7,(IX+d)" (Some 4));
  (OpTuple [0xDD; 0xCB; 0xC6],
    mkEntry 0
      []
      [MR None None (Some high_after_low) (Some (SET 0 None "value")) false;
        MW None None PNone None None 0]
      "SET 0,(IX+d)" (Some 4));
  (OpTuple [0xDD; 0xCB; 0xCE],
    mkEntry 0
      []
      [MR None None (Some high_after_low) (Some (SET 1 None "value")) false;
        MW None None PNone None None 0]
      "SET 1,(IX+d)" (Some 4));
  (OpTuple [0xDD; 0xCB; 0xD6],
    mkEntry 0
      []
      [MR None None (Some high_after_low) (Some (SET 2 None "value")) false;
        MW None None PNone None None 0]
      "SET 2,(IX+d)" (Some 4));
  (OpTuple [0xDD; 0xCB; 0xDE],
    mkEntry 0
      []
      [MR None None (Some high_after_low) (Some (SET 3 None "value")) false;
        MW None None PNone None None 0]
      "SET 3,(IX+d)" (Some 4));
  (OpTuple [0xDD; 0xCB; 0xE6],
    mkEntry 0
      []
      [MR None None (Some high_after_low) (Some (SET 4 None "value")) false;
        MW None None PNone None None 0]
      "SET 4,(IX+d)" (Some 4));
  (OpTuple [0xDD; 0xCB; 0xEE],
    mkEntry 0
      []
      [MR None None (Some high_after_low) (Some (SET 5 None "value")) false;
        MW None None PNone None None 0]
      "SET 5,(IX+d)" (Some 4));
  (OpTuple [0xDD; 0xCB; 0xF6],
    mkEntry 0
      []
      [MR None None (Some high_after_low) (Some (SET 6 None "value")) false;
        MW None None PNone None None 0]
      "SET 6,(IX+d)" (Some 4));
  (OpTuple [0xDD; 0xCB; 0xFE],
    mkEntry 0
      []
      [MR None None (Some high_after_low) (Some (SET 7 None "value")) false;
        MW None None PNone None None 0]
      "SET 7,(IX+d)" (Some 4))
  ].

(** Opcodes with prefix FD CB. *)
Definition INSTRUCTION_STATES_FDCB : list (opcode * entry) :=
  [
  (OpTuple [0xFD; 0xCB; 0x06],
    mkEntry 0
      []
      [MR None None (Some high_after_low) (Some (RLC None "value")) false;
        MW None None PNone None None 0]
      "RLC (IY+d)" (Some 4));
  (OpTuple [0xFD; 0xCB; 0x0E],
    mkEntry 0
      []
      [MR None None (Some high_after_low) (Some (RRC None "value")) false;
        MW None None PNone None None 0]
      "RRC (IY+d)" (Some 4));
  (OpTuple [0xFD; 0xCB; 0x16],
    mkEntry 0
      []
      [MR None None (Some high_after_low) (Some (RL None "value")) false;
        MW None None PNone None None 0]
      "RL (IY+d)" (Some 4));
  (OpTuple [0xFD; 0xCB; 0x1E],
    mkEntry 0
      []
      [MR None None (Some high_after_low) (Some (RR None "value")) false;
        MW None None PNone None None 0]
      "RR (IY+d)" (Some 4));
  (OpTuple [0xFD; 0xCB; 0x26],
    mkEntry 0
      []
      [MR None None (Some high_after_low) (Some (SLA None "value")) false;
        MW None None PNone None None 0]
      "SLA (IY+d)" (Some 4));
  (OpTuple [0xFD; 0xCB; 0x2E],
    mkEntry 0
      []
      [MR None None (Some high_after_low) (Some (SRA None "value")) false;
        MW None None PNone None None 0]
      "SRA (IY+d)" (Some 4));
  (OpTuple [0xFD; 0xCB; 0x36],
    mkEntry 0
      []
      [MR None None (Some high_after_low) (Some (SL1 None "value")) false;
        MW None None PNone None None 0]
      "SL1 (IY+d) (undocumemnted)" (Some 4));
  (OpTuple [0xFD; 0xCB; 0x3E],
    mkEntry 0
      []
      [MR None None (Some high_after_low) (Some (SRL None "value")) false;
        MW None None PNone None None 0]
      "SRA (IY+d)" (Some 4));
  (OpTuple [0xFD; 0xCB; 0x46],
    mkEntry 0
      []
      [MR None None (Some high_after_low) (Some (BIT 0 None)) true]
      "BIT 0,(IY+d)" (Some 4));
  (OpTuple [0xFD; 0xCB; 0x4E],
    mkEntry 0
      []
      [MR None None (Some high_after_low) (Some (BIT 1 None)) true]
      "BIT 1,(IY+d)" (Some 4));
  (OpTuple [0xFD; 0xCB; 0x56],
    mkEntry 0
      []
      [MR None None (Some high_after_low) (Some (BIT 2 None)) true]
      "BIT 2,(IY+d)" (Some 4));
  (OpTuple [0xFD; 0xCB; 0x5E],
    mkEntry 0
      []
      [MR None None (Some high_after_low) (Some (BIT 3 None)) true]
      "BIT 3,(IY+d)" (Some 4));
  (OpTuple [0xFD; 0xCB; 0x66],
    mkEntry 0
      []
      [MR None None (Some high_after_low) (Some (BIT 4 None)) true]
      "BIT 4,(IY+d)" (Some 4));
  (OpTuple [0xFD; 0xCB; 0x6E],
    mkEntry 0
      []
      [MR None None (Some high_after_low) (Some (BIT 5 None)) true]
      "BIT 5,(IY+d)" (Some 4));
  (OpTuple [0xFD; 0xCB; 0x76],
    mkEntry 0
      []
      [MR None None (Some high_after_low) (Some (BIT 6 None)) true]
      "BIT 6,(IY+d)" (Some 4));
  (OpTuple [0xFD; 0xCB; 0x7E],
    mkEntry 0
      []
      [MR None None (Some high_after_low) (Some (BIT 7 None)) true]
      "BIT 7,(IY+d)" (Some 4));
  (OpTuple [0xFD; 0xCB; 0x86],
    mkEntry 0
      []
      [MR None None (Some high_after_low) (Some (RES 0 None "value")) false;
        MW None None PNone None None 0]
      "RES 0,(IY+d)" (Some 4));
  (OpTuple [0xFD; 0xCB; 0x8E],
    mkEntry 0
      []
      [MR None None (Some high_after_low) (Some (RES 1 None "value")) false;
        MW None None PNone None None 0]
      "RES 1,(IY+d)" (Some 4));
  (OpTuple [0xFD; 0xCB; 0x96],
    mkEntry 0
      []
      [MR None None (Some high_after_low) (Some (RES 2 None "value")) false;
        MW None None PNone None None 0]
      "RES 2,(IY+d)" (Some 4));
  (OpTuple [0xFD; 0xCB; 0x9E],
    mkEntry 0
      []
      [MR None None (Some high_after_low) (Some (RES 3 None "value")) false;
        MW None None PNone None None 0]
      "RES 3,(IY+d)" (Some 4));
  (OpTuple [0xFD; 0xCB; 0xA6],
    mkEntry 0
      []
      [MR None None (Some high_after_low) (Some (RES 4 None "value")) false;
        MW None None PNone None None 0]
      "RES 4,(IY+d)" (Some 4));
  (OpTuple [0xFD; 0xCB; 0xAE],
    mkEntry 0
      []
      [MR None None (Some high_after_low) (Some (RES 5 None "value")) false;
        MW None None PNone None None 0]
      "RES 5,(IY+d)" (Some 4));
  (OpTuple [0xFD; 0xCB; 0xB6],
    mkEntry 0
      []
      [MR None None (Some high_after_low) (Some (RES 6 None "value")) false;
        MW None None PNone None None 0]
      "RES 6,(IY+d)" (Some 4));
  (OpTuple [0xFD; 0xCB; 0xBE],
    mkEntry 0
      []
      [MR None None (Some high_after_low) (Some (RES 7 None "value")) false;
        MW None None PNone None None 0]
      "RES 7,(IY+d)" (Some 4));
  (OpTuple [0xFD; 0xCB; 0xC6],
    mkEntry 0
      []
      [MR None None (Some high_after_low) (Some (SET 0 None "value")) false;
        MW None None PNone None None 0]
      "SET 0,(IY+d)" (Some 4));
  (OpTuple [0xFD; 0xCB; 0xCE],
    mkEntry 0
      []
      [MR None None (Some high_after_low) (Some (SET 1 None "value")) false;
        MW None None PNone None None 0]
      "SET 1,(IY+d)" (Some 4));
  (OpTuple [0xFD; 0xCB; 0xD6],
    mkEntry 0
      []
      [MR None None (Some high_after_low) (Some (SET 2 None "value")) false;
        MW None None PNone None None 0]
      "SET 2,(IY+d)" (Some 4));
  (OpTuple [0xFD; 0xCB; 0xDE],
    mkEntry 0
      []
      [MR None None (Some high_after_low) (Some (SET 3 None "value")) false;
        MW None None PNone None None 0]
      "SET 3,(IY+d)" (Some 4));
  (OpTuple [0xFD; 0xCB; 0xE6],
    mkEntry 0
      []
      [MR None None (Some high_after_low) (Some (SET 4 None "value")) false;
        MW None None PNone None None 0]
      "SET 4,(IY+d)" (Some 4));
  (OpTuple [0xFD; 0xCB; 0xEE],
    mkEntry 0
      []
      [MR None None (Some high_after_low) (Some (SET 5 None "value")) false;
        MW None None PNone None None 0]
      "SET 5,(IY+d)" (Some 4));
  (OpTuple [0xFD; 0xCB; 0xF6],
    mkEntry 0
      []
      [MR None None (Some high_after_low) (Some (SET 6 None "value")) false;
        MW None None PNone None None 0]
      "SET 6,(IY+d)" (Some 4));
  (OpTuple [0xFD; 0xCB; 0xFE],
    mkEntry 0
      []
      [MR None None (Some high_after_low) (Some (SET 7 None "value")) false;
        MW None None PNone None None 0]
      "SET 7,(IY+d)" (Some 4))
  ].

Definition INSTRUCTION_STATES : list (opcode * entry) :=
  INSTRUCTION_STATES_single
  ++ INSTRUCTION_STATES_CB
  ++ INSTRUCTION_STATES_DD
  ++ INSTRUCTION_STATES_ED
  ++ INSTRUCTION_STATES_FD
  ++ INSTRUCTION_STATES_DDCB
  ++ INSTRUCTION_STATES_FDCB.

(** ** decode_instruction *)

(** Decode an instruction code and return a tuple of (extra time for OCF,
    list of side-effects of OCF, list of new machine states to add to the
    pipeline): the first three elements of the table entry. *)
Definition decode_instruction (instruction : opcode)
  : result (Z * list action * list mclass) :=
  match table_get INSTRUCTION_STATES instruction with
  | Some e => Ok (e_extra_clocks e, e_actions e, e_states e)
  | None => Raise (UnrecognisedInstructionError instruction)
  end.

(** ** Running a machine state

    While the generator of the head state runs it sees the CPU, the data
    source, its own kwargs and the rest of the pipeline behind it. *)
Record rctx : Type := mkRctx {
  r_cpu : CPU;
  r_ds : list Z;
  r_kwargs : dict;
  r_tail : list mstate
}.

Definition rc_cpu (rc : rctx) (c : CPU) : rctx :=
  mkRctx c (r_ds rc) (r_kwargs rc) (r_tail rc).
Definition rc_ds (rc : rctx) (d : list Z) : rctx :=
  mkRctx (r_cpu rc) d (r_kwargs rc) (r_tail rc).
Definition rc_kwargs (rc : rctx) (k : dict) : rctx :=
  mkRctx (r_cpu rc) (r_ds rc) k (r_tail rc).
Definition rc_tail (rc : rctx) (t : list mstate) : rctx :=
  mkRctx (r_cpu rc) (r_ds rc) (r_kwargs rc) t.

Definition creg (c : CPU) (r : regname) : Z := getreg (cpu_reg c) r.
Definition cset (c : CPU) (r : regname) (v : Z) : CPU :=
  with_reg c (setreg (cpu_reg c) r v).

(** The machine state as the actions and callables see it: the pipeline
    has the running state at its head. *)
Definition as_astate (rc : rctx) : astate :=
  mkAState (r_cpu rc) (r_kwargs rc) (S (List.length (r_tail rc))) (r_ds rc).

(** [action(self, *args)]; states popped by the action leave the tail. *)
Definition call_action (act : action) (rc : rctx) (args : list Z) : result rctx :=
  do a <- act (as_astate rc) args;
  Ok (mkRctx (a_cpu a) (a_ds a) (a_kwargs a)
             (firstn (Nat.pred (a_plen a)) (r_tail rc))).

Definition call_opt_action (act : option action) (rc : rctx) (args : list Z)
  : result rctx :=
  match act with
  | Some a => call_action a rc args
  | None => Ok rc
  end.

Fixpoint call_actions (actions : list action) (rc : rctx) : result rctx :=
  match actions with
  | [] => Ok rc
  | a :: rest => do rc' <- call_action a rc []; call_actions rest rc'
  end.

(** [try: next(data_source) except StopIteration: 0x00] *)
Definition next_or_zero (ds : list Z) : Z * list Z :=
  match ds with
  | x :: rest => (x, rest)
  | [] => (0x00, [])
  end.

(** What one call of [next] on the generator does: it runs to the next
    [yield], or returns. *)
Inductive step : Type :=
| Yield (rc : rctx) (fr : frame)
| Return (rc : rctx).

(** [compound(D, kwargs[key])] when the key is present and a combiner is
    given. *)
Definition combine_with (compound : option (Z -> Z -> Z)) (kwargs : dict)
    (key : string) (D : Z) : Z :=
  match dict_get kwargs key, compound with
  | Some old, Some f => f D old
  | _, _ => D
  end.

(** The address of MR and MW: given, register indirect, or cascaded. *)
Definition resolve_address (who : string) (address : option Z)
    (indirect : option regname) (rc : rctx) : result Z :=
  match address with
  | Some a => Ok a
  | None =>
      match indirect with
      | None =>
          match dict_get (r_kwargs rc) "address" with
          | None => Raise (Exception (who ++ " without either address of indirect specified"))
          | Some a => Ok a
          end
      | Some r => Ok (creg (r_cpu rc) r)
      end
  end.

(** The opcode an OCF decodes: the byte it read, after its prefix if it
    has one. *)
Definition prefixed (prefix : option opcode) (inst : Z) : opcode :=
  match prefix with
  | Some (OpByte p) => OpTuple [p; inst]
  | Some (OpTuple ps) => OpTuple (ps ++ [inst])
  | None => OpByte inst
  end.

Definition run_OCF (prefix : option opcode) (extra : Z) (data_source : bool)
    (fr : frame) (rc : rctx) : result step :=
  match fr with
  | Start => Ok (Yield rc (OCF_latched (creg (r_cpu rc) rPC)))
  | OCF_latched PC =>
      let '(inst, ds) :=
        if data_source then next_or_zero (r_ds rc)
        else (membus_read (r_cpu rc) PC, r_ds rc) in
      let inst := prefixed prefix inst in
      let rc := rc_ds (rc_cpu rc (with_recent (r_cpu rc) (RecentInst inst))) ds in
      Ok (Yield rc (OCF_fetched PC inst))
  | OCF_fetched PC inst =>
      do decoded <- decode_instruction inst;
      let '(extra_clocks, actions, states) := decoded in
      let rc := if data_source then rc else rc_cpu rc (cset (r_cpu rc) rPC (PC + 1)) in
      let states :=
        map (fun cls => set_data_source (instantiate cls) data_source) states in
      Ok (Yield rc (OCF_wait 0 extra_clocks actions states))
  | OCF_wait n extra_clocks actions states =>
      if n <? extra + extra_clocks - 1
      then Ok (Yield rc (OCF_wait (n + 1) extra_clocks actions states))
      else
        let rc := rc_tail rc (r_tail rc ++ states) in
        do rc <- call_actions actions rc;
        Ok (Return rc)
  | _ => Ok (Return rc)
  end.

Definition run_OD (compound : option (Z -> Z -> Z)) (act : option action)
    (key : string) (signed : bool) (data_source : bool)
    (fr : frame) (rc : rctx) : result step :=
  match fr with
  | Start => Ok (Yield rc (OD_latched (creg (r_cpu rc) rPC)))
  | OD_latched PC =>
      let '(D, ds) :=
        if data_source then next_or_zero (r_ds rc)
        else (membus_read (r_cpu rc) PC, r_ds rc) in
      let D := if signed && (0x80 <=? D) then D - 0x100 else D in
      Ok (Yield (rc_ds rc ds) (OD_read PC D))
  | OD_read PC D =>
      let rc := if data_source then rc else rc_cpu rc (cset (r_cpu rc) rPC (PC + 1)) in
      let D := combine_with compound (r_kwargs rc) key D in
      match act with
      | Some a => do rc <- call_action a rc [D]; Ok (Return rc)
      | None => Ok (Return (rc_kwargs rc (dict_set (r_kwargs rc) key D)))
      end
  | _ => Ok (Return rc)
  end.

Definition run_MR (address : option Z) (indirect : option regname)
    (compound : option (Z -> Z -> Z)) (act : option action) (incaddr : bool)
    (fr : frame) (rc : rctx) : result step :=
  match fr with
  | Start =>
      do a <- resolve_address "MR" address indirect rc;
      Ok (Yield rc (MR_addressed a))
  | MR_addressed a => Ok (Yield rc (MR_read a (membus_read (r_cpu rc) a)))
  | MR_read a D =>
      let D := combine_with compound (r_kwargs rc) "value" D in
      let rc :=
        if incaddr then rc_kwargs rc (dict_set (r_kwargs rc) "address" (a + 1))
        else rc in
      match act with
      | Some f => do rc <- call_action f rc [D]; Ok (Return rc)
      | None => Ok (Return (rc_kwargs rc (dict_set (r_kwargs rc) "value" D)))
      end
  | _ => Ok (Return rc)
  end.

(** The tail of MW: [for n in range(0,self.extra): yield], then the
    action. *)
Definition MW_idle (act : option action) (extra : Z) (n value : Z) (rc : rctx)
  : result step :=
  if n <? extra then Ok (Yield rc (MW_wait (n + 1) value))
  else do rc <- call_opt_action act rc [value]; Ok (Return rc).

Definition run_MW (address : option Z) (indirect : option regname) (value : pval)
    (source : option regname) (act : option action) (extra : Z)
    (fr : frame) (rc : rctx) : result step :=
  match fr with
  | Start =>
      do a <- resolve_address "MW" address indirect rc;
      Ok (Yield rc (MW_addressed a))
  | MW_addressed a =>
      do v <-
        match value with
        | PNone =>
            match source with
            | None =>
                match dict_get (r_kwargs rc) "value" with
                | None => Raise (Exception "MW without either value or source specified")
                | Some v => Ok v
                end
            | Some r => Ok (creg (r_cpu rc) r)
            end
        | PCall f => f (as_astate rc) []
        | PLit v => Ok v
        end;
      Ok (Yield rc (MW_valued a v))
  | MW_valued a v =>
      let rc := rc_cpu rc (membus_write (r_cpu rc) a v) in
      let rc := rc_kwargs rc (dict_set (r_kwargs rc) "address" (a + 1)) in
      MW_idle act extra 0 v rc
  | MW_wait n v => MW_idle act extra n v rc
  | _ => Ok (Return rc)
  end.

Definition run_SR (compound : option (Z -> Z -> Z)) (act : option action)
    (extra : Z) (fr : frame) (rc : rctx) : result step :=
  match fr with
  | Start => Ok (Yield rc (SR_addressed (creg (r_cpu rc) rSP)))
  | SR_addressed a => Ok (Yield rc (SR_wait 0 (membus_read (r_cpu rc) a)))
  | SR_wait n D =>
      if n <? extra then Ok (Yield rc (SR_wait (n + 1) D))
      else
        let D := combine_with compound (r_kwargs rc) "value" D in
        let rc := rc_kwargs rc (dict_set (r_kwargs rc) "value" D) in
        let rc := rc_cpu rc (cset (r_cpu rc) rSP (creg (r_cpu rc) rSP + 1)) in
        do rc <- call_opt_action act rc [D];
        Ok (Return rc)
  | _ => Ok (Return rc)
  end.

Definition run_SW (source : option regname) (key : string) (extra : Z)
    (act : option action) (fr : frame) (rc : rctx) : result step :=
  match fr with
  | Start =>
      let rc := rc_cpu rc (cset (r_cpu rc) rSP (creg (r_cpu rc) rSP - 1)) in
      Ok (Yield rc (SW_wait 0))
  | SW_wait n =>
      if n <? extra then Ok (Yield rc (SW_wait (n + 1)))
      else Ok (Yield rc (SW_addressed (creg (r_cpu rc) rSP)))
  | SW_addressed a =>
      do D <-
        match source with
        | Some r => Ok (creg (r_cpu rc) r)
        | None =>
            match dict_get (r_kwargs rc) key with
            | Some v => Ok v
            | None => Raise (KeyError (Some key))
            end
        end;
      let rc := rc_cpu rc (membus_write (r_cpu rc) a D) in
      do rc <- call_opt_action act rc [D];
      Ok (Return rc)
  | _ => Ok (Return rc)
  end.

(** The opening loop of IO: [for key in self.kwargs], applying the
    transform to the kwargs it names. *)
Fixpoint IO_transform (transform : transform_t) (key : string)
    (keys : list string) (rc : rctx) : result rctx :=
  match keys with
  | [] => Ok rc
  | k :: rest =>
      let apply (f : transfn) :=
        match dict_get (r_kwargs rc) k with
        | Some old =>
            do v <- f (as_astate rc) old;
            Ok (rc_kwargs rc (dict_set (r_kwargs rc) k v))
        | None => Raise (KeyError (Some k))
        end in
      do rc' <-
        match transform with
        | TCall f => if String.eqb k key then apply f else Ok rc
        | TDict m =>
            match find (fun p => String.eqb (fst p) k) m with
            | Some p => apply (snd p)
            | None => Ok rc
            end
        | TNone => Ok rc
        end;
      IO_transform transform key rest rc'
  end.

(** The tail of IO: [for n in range(0,self.ticks - 1): yield], then the
    action. *)
Definition IO_idle (ticks : Z) (act : option action) (n : Z) (rc : rctx)
  : result step :=
  if n <? ticks - 1 then Ok (Yield rc (IO_wait (n + 1)))
  else do rc <- call_opt_action act rc []; Ok (Return rc).

Definition run_IO (ticks : Z) (transform : transform_t) (act : option action)
    (key : string) (fr : frame) (rc : rctx) : result step :=
  match fr with
  | Start =>
      do rc <- IO_transform transform key (map fst (r_kwargs rc)) rc;
      IO_idle ticks act 0 rc
  | IO_wait n => IO_idle ticks act n rc
  | _ => Ok (Return rc)
  end.

(** The port address of PR and PW: the low byte from a register or from
    the kwarg [key], the high byte from a register or zero. *)
Definition port_address (high low : option regname) (key : string) (rc : rctx)
  : result (Z * Z) :=
  do lo <-
    match low with
    | Some r => Ok (creg (r_cpu rc) r)
    | None =>
        match dict_get (r_kwargs rc) key with
        | Some v => Ok (Z.land v 0xFF)
        | None => Raise (KeyError (Some key))
        end
    end;
  let hi :=
    match high with
    | Some r => creg (r_cpu rc) r
    | None => 0x00
    end in
  Ok (lo, hi).

Definition run_PR (high low : option regname) (act : option action)
    (dest : option regname) (fr : frame) (rc : rctx) : result step :=
  match fr with
  | Start =>
      do a <- port_address high low "value" rc;
      Ok (Yield rc (PR_addressed (fst a) (snd a)))
  | PR_addressed lo hi => Ok (Yield rc (PR_read (iobus_read (r_cpu rc) lo hi)))
  | PR_read D => Ok (Yield rc (PR_idle D))
  | PR_idle D =>
      let rc :=
        match dest with
        | Some r => rc_cpu rc (cset (r_cpu rc) r D)
        | None => rc
        end in
      let rc := rc_kwargs rc (dict_set (r_kwargs rc) "value" D) in
      do rc <- call_opt_action act rc [D];
      Ok (Return rc)
  | _ => Ok (Return rc)
  end.

Definition run_PW (high low : option regname) (act : option action)
    (source : option regname) (fr : frame) (rc : rctx) : result step :=
  match fr with
  | Start =>
      do a <- port_address high low "address" rc;
      Ok (Yield rc (PW_addressed (fst a) (snd a)))
  | PW_addressed lo hi =>
      do D <-
        match source with
        | Some r => Ok (creg (r_cpu rc) r)
        | None =>
            match dict_get (r_kwargs rc) "value" with
            | Some v => Ok (Z.land v 0xFF)
            | None => Raise (KeyError (Some "value"))
            end
        end;
      Ok (Yield rc (PW_valued lo hi D))
  | PW_valued lo hi D =>
      Ok (Yield (rc_cpu rc (iobus_write (r_cpu rc) lo hi D)) (PW_written D))
  | PW_written D =>
      let rc := rc_kwargs rc (dict_set (r_kwargs rc) "value" D) in
      do rc <- call_opt_action act rc [D];
      Ok (Return rc)
  | _ => Ok (Return rc)
  end.

(** [next(self.iter)] for a state of class [cls]. *)
Definition run (cls : mclass) (data_source : bool) (fr : frame) (rc : rctx)
  : result step :=
  match cls with
  | OCF prefix _ extra => run_OCF prefix extra data_source fr rc
  | OD compound act key signed => run_OD compound act key signed data_source fr rc
  | MR address indirect compound act incaddr =>
      run_MR address indirect compound act incaddr fr rc
  | MW address indirect value source act extra =>
      run_MW address indirect value source act extra fr rc
  | SR compound act extra => run_SR compound act extra fr rc
  | SW source key extra act => run_SW source key extra act fr rc
  | IO ticks _ transform act key => run_IO ticks transform act key fr rc
  | PR high low act dest => run_PR high low act dest fr rc
  | PW high low act source => run_PW high low act source fr rc
  end.

(** ** The pipeline *)

Record world : Type := mkWorld {
  w_cpu : CPU;
  w_ds : list Z;
  w_pipeline : list mstate
}.

(** [MachineState.clock], called on the head of the pipeline: one T-cycle.
    When the generator returns (StopIteration), the state is popped and
    its kwargs are handed to the new head.  The boolean tells whether the
    generator returned during this call. *)
Definition clock_head (w : world) : result (bool * world) :=
  match w_pipeline w with
  | [] => Ok (false, w)
  | MState cls kwargs data_source fr :: tail =>
      do s <- run cls data_source fr (mkRctx (w_cpu w) (w_ds w) kwargs tail);
      match s with
      | Yield rc fr' =>
          Ok (false,
              mkWorld (r_cpu rc) (r_ds rc)
                (MState cls (r_kwargs rc) data_source fr' :: r_tail rc))
      | Return rc =>
          Ok (true,
              mkWorld (r_cpu rc) (r_ds rc)
                match r_tail rc with
                | [] => []
                | MState c _ d f :: rest => MState c (r_kwargs rc) d f :: rest
                end)
      end
  end.

Definition clock (w : world) : result world :=
  do r <- clock_head w; Ok (snd r).

(** [n] calls of [clock]. *)
Fixpoint clocks (n : nat) (w : world) : result world :=
  match n with
  | O => Ok w
  | S n' => do w' <- clock w; clocks n' w'
  end.

(** The number of calls of [clock] it takes the state at the head of the
    pipeline to finish, by returning or by raising, with what the last call
    gave; [None] when [fuel] calls were not enough. *)
Fixpoint run_head (fuel : nat) (calls : nat) (w : world)
  : option (nat * result world) :=
  match fuel with
  | O => None
  | S fuel' =>
      match clock_head w with
      | Ok (true, w') => Some (S calls, Ok w')
      | Ok (false, w') => run_head fuel' (S calls) w'
      | Raise e => Some (S calls, Raise e)
      end
  end.

(** Modelled from the spec: the scheduler of the CPU driver, which is not
    part of this module, advances the head of the pipeline by one tick per
    clock.  [run_pipeline] clocks a pipeline until it is empty and counts
    the T-cycles; [None] when [fuel] clocks were not enough. *)
Fixpoint run_pipeline (fuel : nat) (ticks : nat) (w : world)
  : option (result (world * nat)) :=
  match w_pipeline w with
  | [] => Some (Ok (w, ticks))
  | _ :: _ =>
      match fuel with
      | O => None
      | S fuel' =>
          match clock w with
          | Ok w' => run_pipeline fuel' (S ticks) w'
          | Raise e => Some (Raise e)
          end
      end
  end.

(** Modelled from the spec: with an empty pipeline and nothing pending the
    scheduler starts an instruction with a fresh [OCF()]. *)
Definition fetch (c : CPU) : world :=
  mkWorld c [] [instantiate (OCF None false 0)].

Definition exec_instruction (fuel : nat) (c : CPU) : option (result (world * nat)) :=
  run_pipeline fuel 0 (fetch c).

(** ** interrupt_response *)

(** Called to generate the new pipeline set up to respond to an
    interrupt.  [ack], when given, yields the bytes the interrupting device
    puts on the bus. *)
Definition interrupt_response (cpu : CPU) (nmi : bool) (ack : option (CPU -> list Z))
  : result world :=
  let ds := match ack with Some f => f cpu | None => [] end in
  if nmi then
    Ok (mkWorld (with_recent cpu (RecentName "NMI")) ds
          [instantiate (IO 5 true TNone (Some inta) "value");
           instantiate (SW (Some rPCH) "value" 0 None);
           instantiate (SW (Some rPCL) "value" 0 (Some (JP (PLit 0x0066) None None)))])
  else if cpu_interrupt_mode cpu =? 0 then
    Ok (mkWorld (with_recent cpu (RecentName "INT0")) ds
          [instantiate (OCF None true 2)])
  else if cpu_interrupt_mode cpu =? 1 then
    Ok (mkWorld (with_recent cpu (RecentName "INT1")) ds
          [instantiate (IO 7 true TNone (Some inta) "value");
           instantiate (SW (Some rPCH) "value" 0 None);
           instantiate (SW (Some rPCL) "value" 0 (Some (JP (PLit 0x0038) None None)))])
  else if cpu_interrupt_mode cpu =? 2 then
    Ok (mkWorld (with_recent cpu (RecentName "INT2")) ds
          [instantiate (IO 4 true TNone None "value");
           set_data_source
             (instantiate
                (OD (Some high_after_low)
                    (Some (RRr "address" None
                             (PCall (lam2 (fun state v =>
                                Ok (Z.lor (Z.shiftl (get_reg state rI) 8) (Z.land v 0xFE)))))))
                    "value" false))
             true;
           instantiate (SW (Some rPCH) "value" 0 None);
           instantiate (SW (Some rPCL) "value" 0 None);
           instantiate (MR None None (Some high_after_low) None true);
           instantiate (MR None None (Some high_after_low) (Some (JP PNone None None)) true)])
  else Raise (Exception "Not implemented yet").

(** ** disassemble_instructions *)

(** [sub in s] *)
Fixpoint contains (sub s : string) : bool :=
  String.prefix sub s
  || match s with
     | EmptyString => false
     | String _ s' => contains sub s'
     end.

(** [s.replace(old, new)] for a non-empty [old]: every occurrence, found
    from left to right and not overlapping; [skip] counts the characters
    of an occurrence still to be dropped. *)
Fixpoint replace_from (skip : nat) (old new s : string) : string :=
  match s with
  | EmptyString => EmptyString
  | String c s' =>
      match skip with
      | S k => replace_from k old new s'
      | O =>
          if String.prefix old s
          then new ++ replace_from (Nat.pred (String.length old)) old new s'
          else String c (replace_from O old new s')
      end
  end.

Definition replace (old new s : string) : string := replace_from O old new s.

Definition hex_digit (n : Z) : ascii :=
  nth (Z.to_nat n)
      ["0"; "1"; "2"; "3"; "4"; "5"; "6"; "7"; "8"; "9";
       "A"; "B"; "C"; "D"; "E"; "F"]%char "0"%char.

Fixpoint hex_digits (fuel : nat) (n : Z) (acc : string) : string :=
  match fuel with
  | O => acc
  | S fuel' =>
      let acc' := String (hex_digit (n mod 16)) acc in
      if n / 16 =? 0 then acc' else hex_digits fuel' (n / 16) acc'
  end.

Fixpoint zeros (n : nat) : string :=
  match n with
  | O => EmptyString
  | S n' => String "0" (zeros n')
  end.

(** ["{:0wX}".format(n)]: upper-case hexadecimal, zero-padded to [width]
    characters, the sign counted in. *)
Definition format_X (width : nat) (n : Z) : string :=
  let sign := if n <? 0 then "-" else "" in
  let digits := hex_digits (S (Z.to_nat (Z.log2 (Z.abs n)))) (Z.abs n) "" in
  sign ++ zeros (width - String.length sign - String.length digits) ++ digits.

(** [l[i]], negative indices counting from the end. *)
Definition py_index (l : list Z) (i : Z) : result Z :=
  let n := Z.of_nat (List.length l) in
  let j := if i <? 0 then i + n else i in
  if (j <? 0) || (n <=? j) then Raise IndexError
  else
    match nth_error l (Z.to_nat j) with
    | Some x => Ok x
    | None => Raise IndexError
    end.

(** The variable [length] of the disassembler: an integer from the table,
    or the string the fall-back for an unknown first byte assigns. *)
Inductive pylen : Type :=
| LenInt (n : Z)
| LenStr (s : string).

(** [(code, length) = INSTRUCTION_STATES[key][3:]]: unpacking the tail of
    a four-element entry into two names is a ValueError, which the
    [except] clause reports and raises again. *)
Definition code_and_length (e : entry) : result (string * Z) :=
  match e_length e with
  | Some n => Ok (e_mnemonic e, n)
  | None => Raise ValueError
  end.

(** The look-up part of one turn of the loop, on a non-empty list. *)
Definition lookup_code (instructions : list Z) : result (string * pylen) :=
  let len := Z.of_nat (List.length instructions) in
  do i0 <- py_index instructions 0;
  match table_get INSTRUCTION_STATES (OpByte i0) with
  | Some e =>
      do cl <- code_and_length e;
      if snd cl =? 0 then
        if 1 <? len then
          do i1 <- py_index instructions 1;
          match table_get INSTRUCTION_STATES (OpTuple [i0; i1]) with
          | Some e2 =>
              do cl2 <- code_and_length e2;
              if snd cl2 =? 0 then
                if 3 <? len then
                  do i3 <- py_index instructions 3;
                  match table_get INSTRUCTION_STATES (OpTuple [i0; i1; i3]) with
                  | Some e3 =>
                      do cl3 <- code_and_length e3;
                      Ok (fst cl3, LenInt (snd cl3))
                  | None => Ok ("???", LenInt 4)
                  end
                else Ok ("???", LenInt 4)
              else Ok (fst cl2, LenInt (snd cl2))
          | None => Ok ("???", LenInt 2)
          end
        else Ok ("???", LenInt 2)
      else Ok (fst cl, LenInt (snd cl))
  | None => Ok ("???", LenStr "1")
  end.

(** [length <= len(instructions)]; ordering a string against an integer
    is a TypeError. *)
Definition len_le (length : pylen) (n : Z) : result bool :=
  match length with
  | LenInt l => Ok (l <=? n)
  | LenStr _ => Raise TypeError
  end.

Definition len_int (length : pylen) : result Z :=
  match length with
  | LenInt l => Ok l
  | LenStr _ => Raise TypeError
  end.

(** The substitution of the constants into the mnemonic. *)
Definition substitute (code : string) (length : pylen) (instructions : list Z)
  : result string :=
  let len := Z.of_nat (List.length instructions) in
  do fits_nn <- (if contains "nn" code then len_le length len else Ok false);
  do code <-
    (if fits_nn then
       do l <- len_int length;
       do hi <- py_index instructions (l - 1);
       do lo <- py_index instructions (l - 2);
       let data := Z.shiftl hi 8 + lo in
       Ok (replace "nn" ("0x" ++ format_X 4 data) code)
     else
       do fits_n <- (if contains "n" code then len_le length len else Ok false);
       if fits_n then
         do l <- len_int length;
         do data <- py_index instructions (l - 1);
         Ok (replace "n" ("0x" ++ format_X 2 data) code)
       else Ok code);
  if contains "+d" code && (3 <=? len) then
    do data <- py_index instructions 2;
    Ok (replace "+d" ("+0x" ++ format_X 2 data) code)
  else Ok code.

(** [for i in range(0,length): if len(instructions) > 0:
    instructions.pop(0)] *)
Definition pop_front (length : pylen) (instructions : list Z) : result (list Z) :=
  match length with
  | LenInt l => Ok (skipn (Z.to_nat l) instructions)
  | LenStr _ => Raise TypeError
  end.

(** The [while len(instructions) > 0] loop; [None] when [fuel] turns were
    not enough. *)
Fixpoint disassemble_loop (fuel : nat) (instructions : list Z)
    (ret : list (string * pylen)) : option (result (list (string * pylen))) :=
  match instructions with
  | [] => Some (Ok ret)
  | _ :: _ =>
      match fuel with
      | O => None
      | S fuel' =>
          match
            (do cl <- lookup_code instructions;
             do code <- substitute (fst cl) (snd cl) instructions;
             do rest <- pop_front (snd cl) instructions;
             Ok (code, snd cl, rest))
          with
          | Ok (code, length, rest) =>
              disassemble_loop fuel' rest (ret ++ [(code, length)])
          | Raise e => Some (Raise e)
          end
      end
  end.

Definition disassemble_instructions (instructions : list Z)
  : option (result (list (string * pylen))) :=
  disassemble_loop (S (List.length instructions)) instructions [].

(** * Notions used to state the properties *)

(** A register file whose registers all hold values of their width. *)
Definition wf_regs (r : registers) : Prop :=
  (0 <= reg_A r < 256 /\ 0 <= reg_F r < 256 /\ 0 <= reg_B r < 256 /\
   0 <= reg_C r < 256 /\ 0 <= reg_D r < 256 /\ 0 <= reg_E r < 256 /\
   0 <= reg_H r < 256 /\ 0 <= reg_L r < 256) /\
  (0 <= reg_I r < 256 /\ 0 <= reg_R r < 256 /\
   0 <= reg_IXH r < 256 /\ 0 <= reg_IXL r < 256 /\
   0 <= reg_IYH r < 256 /\ 0 <= reg_IYL r < 256) /\
  (0 <= reg_SP r < 65536 /\ 0 <= reg_PC r < 65536).

(** No key of a table occurs twice. *)
Fixpoint distinct_keys (ks : list opcode) : bool :=
  match ks with
  | [] => true
  | k :: rest => negb (existsb (opcode_eqb k) rest) && distinct_keys rest
  end.

(** A memory holding the given bytes at the given addresses, zero
    elsewhere. *)
Fixpoint memory_of (cells : list (Z * Z)) (a : Z) : Z :=
  match cells with
  | [] => 0
  | (k, v) :: rest => if a =? k then v else memory_of rest a
  end.

(** A CPU to try the properties on: PC = 0x0100, SP = 0xFFFE, the flags
    and the interrupt latch as given, the given bytes in memory. *)
Definition example_regs (F : Z) : registers :=
  mkRegs 0x12 F 0xB1 0xC2 0xD3 0xE4 0x40 0x00 0x80 0x07 0x11 0x22 0x33 0x44
         0xFFFE 0x0100 1 2 3 4 5 6 7 8.

Definition example_cpu (F : Z) (int : bool) (cells : list (Z * Z)) : CPU :=
  mkCPU (example_regs F) 1 1 2 int RecentNone (memory_of cells) (fun _ _ => 0xFF) [].

(** Opcode 0xC8 at PC with Z set and the word 0x1234 on top of the stack. *)
Definition ret_cpu : CPU :=
  example_cpu 0x45 false [(0x0100, 0xC8); (0xFFFE, 0x34); (0xFFFF, 0x12)].

(** PUSH BC at PC. *)
Definition push_bc_cpu : CPU := example_cpu 0x45 false [(0x0100, 0xC5)].

(** LD BC,0x1234 at PC. *)
Definition ld_bc_cpu : CPU :=
  example_cpu 0x45 false [(0x0100, 0x01); (0x0101, 0x34); (0x0102, 0x12)].








(** Interrupt mode 2, I = 0x80, IFF1 = IFF2 = 1, the vector 0x9000 at
    0x8000 and EI at 0x9000. *)
Definition im2_cpu : CPU :=
  example_cpu 0x45 true [(0x8000, 0x00); (0x8001, 0x90); (0x9000, 0xFB)].

(** What [set_flags("-Z50311-")], the flag update of CPI and CPIR, writes
    to F (before the masking of the register write) when F holds [F] and
    the difference is [v]: Z, 5 and 3 from the low byte of [v], N and P/V
    set, H reset, S and C kept. *)
Definition cpi_flags (F v : Z) : Z :=
  let d := Z.land v 0xFF in
  let F1 := if d =? 0 then mask8 (Z.lor F 64) else mask8 (Z.land F (0xFF - 64)) in
  let F2 := if Z.land (Z.shiftr d 5) 1 =? 1
            then mask8 (Z.lor F1 32) else mask8 (Z.land F1 (0xFF - 32)) in
  let F3 := if Z.land (Z.shiftr d 3) 1 =? 1
            then mask8 (Z.lor F2 8) else mask8 (Z.land F2 (0xFF - 8)) in
  let F4 := mask8 (Z.lor F3 2) in
  let F5 := mask8 (Z.lor F4 4) in
  Z.land F5 (0xFF - 16).

(** [n] instructions one after the other: the CPU they leave and the
    T-cycles they took together. *)
Fixpoint exec_instructions (fuel n : nat) (c : CPU) : option (result (CPU * nat)) :=
  match n with
  | O => Some (Ok (c, O))
  | S n' =>
      match exec_instruction fuel c with
      | Some (Ok (w, t)) =>
          match exec_instructions fuel n' (w_cpu w) with
          | Some (Ok (c', t')) => Some (Ok (c', (t + t')%nat))
          | other => other
          end
      | Some (Raise e) => Some (Raise e)
      | None => None
      end
  end.

(** CPIR at PC, searching for A = 0x12 from HL = 0x4000 on, with BC = 3
    and the byte found in the second cell. *)
Definition cpir_cpu : CPU :=
  mkCPU (mkRegs 0x12 0x00 0x00 0x03 0 0 0x40 0x00 0 0 0 0 0 0 0xFFFE 0x0100
                0 0 0 0 0 0 0 0)
        0 0 1 false RecentNone
        (memory_of [(0x0100, 0xED); (0x0101, 0xB1); (0x4000, 0x55); (0x4001, 0x12)])
        (fun _ _ => 0xFF) [].

(** The flag a position of a flag template stands for. *)
Definition flag_at (i : nat) : flag := nth i [fS; fZ; f5; fH; f3; fP; fN; fC] fS.

(** A state whose F register holds [F]. *)
Definition flag_state (F : Z) : astate := mkAState (example_cpu F false []) [] 1 [].

(** Bit [b] of the F register. *)
Definition fbit (st : astate) (b : Z) : bool := Z.testbit (get_reg st rF) b.

(** What a character of a template does to a bit in the closing loop of
    [set_flags]. *)
Definition forced_bit (c : ascii) (old : bool) : bool :=
  if Ascii.eqb c "1" then true else if Ascii.eqb c "0" then false else old.

(** Bit [b] after the closing loop has gone through the bit numbers [ns]. *)
Fixpoint forced (flags : string) (ns : list nat) (b : Z) (old : bool) : bool :=
  match ns with
  | [] => old
  | n :: rest =>
      forced flags rest b
        (if b =? Z.of_nat n
         then match String.get (7 - n) flags with
              | Some c => forced_bit c old
              | None => old
              end
         else old)
  end.

(** The length an entry of the table gives, if the key is in the table and
    if the entry has one. *)
Definition length_of (k : opcode) : option (option Z) :=
  option_map e_length (table_get INSTRUCTION_STATES k).

(** ** Notions used to state further properties *)



(** A byte. *)
Definition is_byte (b : Z) : Prop := 0 <= b <= 255.

(** The sum of the lengths a disassembly reports. *)
Definition total_length (out : list (string * pylen)) : Z :=
  fold_right (fun cl acc =>
                match snd cl with
                | LenInt n => n + acc
                | LenStr _ => acc
                end) 0 out.

(** The lengths of the table are between 0 and 4, and no key of three
    bytes has length 0. *)
Definition length_in_range (ke : opcode * entry) : bool :=
  match e_length (snd ke) with
  | None => true
  | Some n =>
      (0 <=? n) && (n <=? 4)
      && match fst ke with
         | OpTuple [_; _; _] => 1 <=? n
         | _ => true
         end
  end.

(** The number of bits set among the low eight of [d]. *)
Definition bit_count (d : Z) : nat :=
  List.length (filter (fun i => Z.testbit d (Z.of_nat i)) (seq 0 8)).

(** The packed BCD byte of a number below 100. *)
Definition bcd (x : Z) : Z := (x / 10) * 16 + x mod 10.

(** What [daa] puts into A and F, as a function of A and of the flags C, H
    and N it reads. *)
Definition daa_values (A C H N : Z) : Z * Z :=
  let '(A, F) :=
    if N =? 0 then
      let A := if (9 <? Z.land A 0xF) || negb (H =? 0) then A + 0x06 else A in
      if (9 <? Z.shiftr A 4) || negb (C =? 0) then (A + 0x60, 0x01) else (A, 0)
    else
      let A := if (9 <? Z.land A 0xF) || negb (H =? 0) then A - 0x06 else A in
      if (9 <? Z.shiftr A 4) || negb (C =? 0) then (A - 0x60, 0x01) else (A, 0) in
  let A := Z.land A 0xFF in
  let F := Z.lor F (Z.shiftl N 1) in
  let F := Z.lor F (Z.land A 0xA8) in
  let F := if A =? 0x00 then Z.lor F 0x40 else F in
  (A, F).

(** [daa] after the binary addition of two BCD bytes and a carry gives the
    BCD byte of the sum in A and its carry in bit 0 of F; bit 6 tells
    whether the byte is zero and bit 1 is clear. *)
Definition daa_add_ok (a b cin : Z) : bool :=
  let s := bcd a + bcd b + cin in
  let '(A, F) :=
    daa_values (mask8 s) (Z.b2z (0xFF <? s))
               (Z.b2z (0xF <? Z.land (bcd a) 0xF + Z.land (bcd b) 0xF + cin)) 0 in
  (A =? bcd ((a + b + cin) mod 100))
  && Bool.eqb (Z.testbit F 0) (100 <=? a + b + cin)
  && Bool.eqb (Z.testbit F 6) ((a + b + cin) mod 100 =? 0)
  && negb (Z.testbit F 1)
  && (0 <=? A) && (A <? 256).

(** The same after a binary subtraction with borrow. *)
Definition daa_sub_ok (a b cin : Z) : bool :=
  let s := bcd a - bcd b - cin in
  let '(A, F) :=
    daa_values (mask8 s) (Z.b2z (s <? 0))
               (Z.b2z (Z.land (bcd a) 0xF - Z.land (bcd b) 0xF - cin <? 0)) 1 in
  (A =? bcd ((a - b - cin) mod 100))
  && Bool.eqb (Z.testbit F 0) (a - b - cin <? 0)
  && Bool.eqb (Z.testbit F 6) ((a - b - cin) mod 100 =? 0)
  && Z.testbit F 1
  && (0 <=? A) && (A <? 256).

(** All triples of two numbers below 100 and a carry. *)
Definition bcd_operands : list (Z * Z * Z) :=
  list_prod (list_prod (map Z.of_nat (seq 0 100)) (map Z.of_nat (seq 0 100)))
            [0; 1].

(** A state whose A and F registers hold [A] and [F]. *)
Definition acc_state (A F : Z) : astate :=
  set_reg (flag_state F) rA A.

(** What [set_flags("--503-0C")], the flag update of the rotates and
    shifts, writes to F (before the masking of the register write) when F
    holds [F] and the value is [D]: 5 and 3 from the low byte, C from bit
    8 and above, H and N reset, S, Z and P/V kept. *)
Definition rot_flags (F D : Z) : Z :=
  let d := Z.land D 0xFF in
  let F1 := if Z.land (Z.shiftr d 5) 1 =? 1
            then mask8 (Z.lor F 32) else mask8 (Z.land F (0xFF - 32)) in
  let F2 := if Z.land (Z.shiftr d 3) 1 =? 1
            then mask8 (Z.lor F1 8) else mask8 (Z.land F1 (0xFF - 8)) in
  let F3 := if (255 <? D) || (D <? 0)
            then mask8 (Z.lor F2 1) else mask8 (Z.land F2 (0xFF - 1)) in
  let F4 := mask8 (Z.land F3 (0xFF - 2)) in
  Z.land F4 (0xFF - 16).

(** The registers of eight bits other than F. *)
Definition byte_register (r : regname) : bool :=
  match r with
  | rA | rB | rC | rD | rE | rH | rL => true
  | _ => false
  end.

(** What [set_flags("SZ513P0-")], the flag update of BIT, writes to F
    (before the masking of the register write) when F holds [F] and the
    value is [D]: S, Z, 5, 3 and P from the low byte, H set, N reset, C
    kept. *)
Definition bit_flags (F D : Z) : Z :=
  let d := Z.land D 0xFF in
  let F0 := if Z.land (Z.shiftr d 7) 1 =? 1
            then mask8 (Z.lor F 128) else mask8 (Z.land F (0xFF - 128)) in
  let F1 := if d =? 0
            then mask8 (Z.lor F0 64) else mask8 (Z.land F0 (0xFF - 64)) in
  let F2 := if Z.land (Z.shiftr d 5) 1 =? 1
            then mask8 (Z.lor F1 32) else mask8 (Z.land F1 (0xFF - 32)) in
  let F3 := if Z.land (Z.shiftr d 3) 1 =? 1
            then mask8 (Z.lor F2 8) else mask8 (Z.land F2 (0xFF - 8)) in
  let F4 := if parity_fold (Z.to_nat d) d =? 0
            then mask8 (Z.lor F3 4) else mask8 (Z.land F3 (0xFF - 4)) in
  let F5 := mask8 (Z.land F4 (0xFF - 2)) in
  Z.lor F5 16.

(** What [set_flags("S-5-3V0C")] and [set_flags("S-5-3V1C")], the flag
    updates of ADC HL,rr and SBC HL,rr, write to F (before the masking of
    the register write) when F holds [F] and the value is [D]; [n] tells
    whether N is set or reset. *)
Definition word_flags (n : bool) (F D : Z) : Z :=
  let d := Z.land D 0xFF in
  let F0 := if Z.land (Z.shiftr d 7) 1 =? 1
            then mask8 (Z.lor F 128) else mask8 (Z.land F (0xFF - 128)) in
  let F1 := if Z.land (Z.shiftr d 5) 1 =? 1
            then mask8 (Z.lor F0 32) else mask8 (Z.land F0 (0xFF - 32)) in
  let F2 := if Z.land (Z.shiftr d 3) 1 =? 1
            then mask8 (Z.lor F1 8) else mask8 (Z.land F1 (0xFF - 8)) in
  let F3 := if (127 <? D) || (D <? -128)
            then mask8 (Z.lor F2 4) else mask8 (Z.land F2 (0xFF - 4)) in
  let F4 := if (255 <? D) || (D <? 0)
            then mask8 (Z.lor F3 1) else mask8 (Z.land F3 (0xFF - 1)) in
  if n then Z.lor F4 2 else Z.land F4 (0xFF - 2).

(** The register pairs ADC HL,rr and SBC HL,rr take. *)
Definition word_operand (r : regname) : bool :=
  match r with
  | rBC | rDE | rHL | rSP => true
  | _ => false
  end.

(** A state whose HL, BC and F registers hold [HL], [BC] and [F]. *)
Definition word_state (HL BC F : Z) : astate :=
  set_reg (set_reg (flag_state F) rHL HL) rBC BC.

(** What [set_flags("--50310-")], the flag update of LDI and LDIR, writes
    to F (before the masking of the register write) when F holds [F] and
    the value is [v]: 5 and 3 from the low byte of [v], N and H reset,
    P/V set, S, Z and C kept. *)
Definition ldi_flags (F v : Z) : Z :=
  let d := Z.land v 0xFF in
  let F1 := if Z.land (Z.shiftr d 5) 1 =? 1
            then mask8 (Z.lor F 32) else mask8 (Z.land F (0xFF - 32)) in
  let F2 := if Z.land (Z.shiftr d 3) 1 =? 1
            then mask8 (Z.lor F1 8) else mask8 (Z.land F1 (0xFF - 8)) in
  let F3 := mask8 (Z.land F2 (0xFF - 2)) in
  let F4 := mask8 (Z.lor F3 4) in
  Z.land F4 (0xFF - 16).

(** LDIR at PC, copying the three bytes at 0x4000 to 0x5000. *)
Definition ldir_cpu : CPU :=
  mkCPU (mkRegs 0x12 0x00 0x00 0x03 0x50 0x00 0x40 0x00 0 0 0 0 0 0 0xFFFE 0x0100
                0 0 0 0 0 0 0 0)
        0 0 1 false RecentNone
        (memory_of [(0x0100, 0xED); (0x0101, 0xB0);
                    (0x4000, 0x11); (0x4001, 0x22); (0x4002, 0x33)])
        (fun _ _ => 0xFF) [].

(** What [set_flags("SZ5H3V0C")], ("SZ5-3V0C") and ("SZ5H3V1C"), the flag
    updates of the 8-bit additions, subtractions and comparisons, write
    to F (before the masking of the register write) when F holds [F] and
    the value is [D]; [n] tells whether N is set or reset. *)
Definition byte_flags (n : bool) (F D : Z) : Z :=
  let d := Z.land D 0xFF in
  let F0 := if Z.land (Z.shiftr d 7) 1 =? 1
            then mask8 (Z.lor F 128) else mask8 (Z.land F (0xFF - 128)) in
  let F1 := if d =? 0
            then mask8 (Z.lor F0 64) else mask8 (Z.land F0 (0xFF - 64)) in
  let F2 := if Z.land (Z.shiftr d 5) 1 =? 1
            then mask8 (Z.lor F1 32) else mask8 (Z.land F1 (0xFF - 32)) in
  let F3 := if Z.land (Z.shiftr d 3) 1 =? 1
            then mask8 (Z.lor F2 8) else mask8 (Z.land F2 (0xFF - 8)) in
  let F4 := if (127 <? D) || (D <? -128)
            then mask8 (Z.lor F3 4) else mask8 (Z.land F3 (0xFF - 4)) in
  let F5 := if (255 <? D) || (D <? 0)
            then mask8 (Z.lor F4 1) else mask8 (Z.land F4 (0xFF - 1)) in
  if n then Z.lor F5 2 else Z.land F5 (0xFF - 2).

(** What [set_flags("SZ513P00")] and ("SZ503P00"), the flag updates of
    AND, XOR and OR, write to F (before the masking of the register
    write); [h] tells whether H is set or reset. *)
Definition logic_flags (h : bool) (F D : Z) : Z :=
  let d := Z.land D 0xFF in
  let F0 := if Z.land (Z.shiftr d 7) 1 =? 1
            then mask8 (Z.lor F 128) else mask8 (Z.land F (0xFF - 128)) in
  let F1 := if d =? 0
            then mask8 (Z.lor F0 64) else mask8 (Z.land F0 (0xFF - 64)) in
  let F2 := if Z.land (Z.shiftr d 5) 1 =? 1
            then mask8 (Z.lor F1 32) else mask8 (Z.land F1 (0xFF - 32)) in
  let F3 := if Z.land (Z.shiftr d 3) 1 =? 1
            then mask8 (Z.lor F2 8) else mask8 (Z.land F2 (0xFF - 8)) in
  let F4 := if parity_fold (Z.to_nat d) d =? 0
            then mask8 (Z.lor F3 4) else mask8 (Z.land F3 (0xFF - 4)) in
  let F5 := mask8 (Z.land F4 (0xFF - 1)) in
  let F6 := mask8 (Z.land F5 (0xFF - 2)) in
  if h then Z.lor F6 16 else Z.land F6 (0xFF - 16).

(** The three bits of an opcode that name its 8-bit register operand. *)
Definition operand_code (r : regname) : Z :=
  match r with
  | rB => 0 | rC => 1 | rD => 2 | rE => 3 | rH => 4 | rL => 5 | rA => 7
  | _ => 6
  end.

(** The subtractions on A: SUB r, SBC A,r and CP r. *)
Inductive subtraction : Type := sSUB | sSBC | sCP.

Definition subtraction_base (s : subtraction) : Z :=
  match s with sSUB => 0x90 | sSBC => 0x98 | sCP => 0xB8 end.

(** The bitwise operations on A: AND r, XOR r and OR r. *)
Inductive bitwise : Type := bAND | bXOR | bOR.

Definition bitwise_base (b : bitwise) : Z :=
  match b with bAND => 0xA0 | bXOR => 0xA8 | bOR => 0xB0 end.

Definition bitwise_fn (b : bitwise) : Z -> Z -> Z :=
  match b with bAND => Z.land | bXOR => Z.lxor | bOR => Z.lor end.

(** ** What decode_instruction gives for the opcodes stepped through below *)

Lemma decode_01 :
  decode_instruction (OpByte 0x01)
  = Ok (0,
        [],
        [OD (Some high_after_low) None "value" false;
          OD (Some high_after_low) (Some (LDr rBC PNone "value")) "value" false]).
Proof. reflexivity. Qed.

Lemma decode_76 :
  decode_instruction (OpByte 0x76)
  = Ok (0,
        [on_condition (lam1 (fun state => Ok (negb (cpu_int (a_cpu state))))) (dec rPC)],
        []).
Proof. reflexivity. Qed.


Lemma decode_C5 :
  decode_instruction (OpByte 0xC5)
  = Ok (1,
        [],
        [SW (Some rB) "value" 0 None;
          SW (Some rC) "value" 0 None]).
Proof. reflexivity. Qed.

Lemma decode_C8 :
  decode_instruction (OpByte 0xC8)
  = Ok (1,
        [unless_flag fZ early_abort],
        [SR (Some high_after_low) None 0;
          SR (Some high_after_low) (Some (JP PNone None None)) 0]).
Proof. reflexivity. Qed.






Lemma decode_ED :
  decode_instruction (OpByte 0xED)
  = Ok (0,
        [],
        [OCF (Some (OpByte 0xED)) false 0]).
Proof. reflexivity. Qed.






Lemma decode_EDB1 :
  decode_instruction (OpTuple [0xED; 0xB1])
  = Ok (0,
        [],
        [MR None (Some rHL) (Some high_after_low) None true;
          IO 5 true (TDict [("value", (subfrom rA))]) (Some (do_each [(set_flags "-Z50311-" (Some "value") None PNone None); (inc rHL); (dec rBC); (on_zero rBC (clear_flag fV)); (on_zero rBC early_abort); (on_flag fZ early_abort)])) "value";
          IO 5 true TNone (Some (do_each [(dec rPC); (dec rPC)])) "value"]).
Proof. reflexivity. Qed.



(** * Properties *)

(** ** Bytes and words *)

Section Words.

Lemma mask8_mod (v : Z) : mask8 v = v mod 256.
Proof. unfold mask8. change 0xFF with (Z.ones 8). now rewrite Z.land_ones. Qed.

Lemma mask16_mod (v : Z) : mask16 v = v mod 65536.
Proof. unfold mask16. change 0xFFFF with (Z.ones 16). now rewrite Z.land_ones. Qed.

Lemma hi8_div (v : Z) : hi8 v = (v / 256) mod 256.
Proof.
  unfold hi8. change 0xFF with (Z.ones 8).
  rewrite Z.land_ones, Z.shiftr_div_pow2 by lia. reflexivity.
Qed.

Lemma land_shiftl8_byte (h l : Z) : 0 <= l < 256 -> Z.land (Z.shiftl h 8) l = 0.
Proof.
  intros Hl. apply Z.bits_inj'. intros n Hn.
  rewrite Z.land_spec, Z.bits_0.
  destruct (Z.ltb_spec n 8) as [Hlt | Hge].
  - rewrite Z.shiftl_spec_low by lia. reflexivity.
  - replace (Z.testbit l n) with false; [apply andb_false_r|].
    symmetry. destruct (Z.eq_dec l 0) as [-> | Hnz]; [apply Z.bits_0|].
    apply Z.bits_above_log2; [lia|].
    assert (Z.log2 l < 8) by (apply Z.log2_lt_pow2; lia). lia.
Qed.

Lemma pair16_add (h l : Z) : 0 <= l < 256 -> pair16 h l = h * 256 + l.
Proof.
  intros Hl. unfold pair16.
  rewrite <- Z.lxor_lor, <- Z.add_nocarry_lxor by now apply land_shiftl8_byte.
  rewrite Z.shiftl_mul_pow2 by lia. reflexivity.
Qed.

Lemma mask8_range (v : Z) : 0 <= mask8 v < 256.
Proof. rewrite mask8_mod. apply Z.mod_pos_bound. lia. Qed.

Lemma mask16_range (v : Z) : 0 <= mask16 v < 65536.
Proof. rewrite mask16_mod. apply Z.mod_pos_bound. lia. Qed.

Lemma hi8_range (v : Z) : 0 <= hi8 v < 256.
Proof. rewrite hi8_div. apply Z.mod_pos_bound. lia. Qed.

Lemma mask8_id (v : Z) : 0 <= v < 256 -> mask8 v = v.
Proof. intros. rewrite mask8_mod. now apply Z.mod_small. Qed.

Lemma mask16_id (v : Z) : 0 <= v < 65536 -> mask16 v = v.
Proof. intros. rewrite mask16_mod. now apply Z.mod_small. Qed.

Lemma pair16_range (h l : Z) :
  0 <= h < 256 -> 0 <= l < 256 -> 0 <= pair16 h l < 65536.
Proof. intros. rewrite pair16_add by assumption. lia. Qed.

Lemma hi8_pair16 (h l : Z) :
  0 <= h < 256 -> 0 <= l < 256 -> hi8 (pair16 h l) = h.
Proof.
  intros Hh Hl. rewrite hi8_div, pair16_add by assumption.
  rewrite Z.div_add_l by lia. rewrite (Z.div_small l) by lia.
  rewrite Z.add_0_r. now apply Z.mod_small.
Qed.

Lemma mask8_pair16 (h l : Z) : 0 <= l < 256 -> mask8 (pair16 h l) = l.
Proof.
  intros Hl. rewrite mask8_mod, pair16_add by assumption.
  rewrite Z.add_comm, Z.mod_add by lia. now apply Z.mod_small.
Qed.

Lemma pair16_split (v : Z) : 0 <= v < 65536 -> pair16 (hi8 v) (mask8 v) = v.
Proof.
  intros Hv. rewrite pair16_add by apply mask8_range.
  rewrite hi8_div, mask8_mod.
  rewrite (Z.mod_small (v / 256)).
  - pose proof (Z.div_mod v 256). lia.
  - split; [apply Z.div_pos; lia | apply Z.div_lt_upper_bound; lia].
Qed.

Lemma mask16_add_l (a b : Z) : mask16 (mask16 a + b) = mask16 (a + b).
Proof. rewrite !mask16_mod. now rewrite Z.add_mod_idemp_l by lia. Qed.

Lemma mask16_sub_l (a b : Z) : mask16 (mask16 a - b) = mask16 (a - b).
Proof. rewrite !mask16_mod. now rewrite Zminus_mod_idemp_l. Qed.

Lemma mask16_mask16 (a : Z) : mask16 (mask16 a) = mask16 a.
Proof. apply mask16_id, mask16_range. Qed.

(** [dec] of a 16-bit register undoes an increment. *)
Lemma mask16_dec_inc (a : Z) : mask16 (0xFFFF + mask16 (a + 1)) = mask16 a.
Proof.
  rewrite Z.add_comm, mask16_add_l, !mask16_mod.
  replace (a + 1 + 0xFFFF) with (a + 1 * 65536) by lia.
  now rewrite Z.mod_add by lia.
Qed.

End Words.

(** ** Clocking a pipeline step by step *)

Lemma clock_of_head (w : world) (b : bool) (w' : world) :
  clock_head w = Ok (b, w') -> clock w = Ok w'.
Proof. unfold clock. intros ->. reflexivity. Qed.

Lemma run_pipeline_tick (fuel t : nat) (w w' : world) :
  clock w = Ok w' -> w_pipeline w <> [] ->
  run_pipeline (S fuel) t w = run_pipeline fuel (S t) w'.
Proof.
  intros Hc Hp. cbn [run_pipeline].
  destruct (w_pipeline w); [congruence|]. now rewrite Hc.
Qed.

Lemma run_pipeline_done (fuel t : nat) (w : world) :
  w_pipeline w = [] -> run_pipeline fuel t w = Some (Ok (w, t)).
Proof. intros Hp. destruct fuel; cbn [run_pipeline]; now rewrite Hp. Qed.

Lemma run_head_yield (fuel n : nat) (w w' : world) :
  clock_head w = Ok (false, w') ->
  run_head (S fuel) n w = run_head fuel (S n) w'.
Proof. intros Hc. cbn [run_head]. now rewrite Hc. Qed.

Lemma run_head_return (fuel n : nat) (w w' : world) :
  clock_head w = Ok (true, w') ->
  run_head (S fuel) n w = Some (S n, Ok w').
Proof. intros Hc. cbn [run_head]. now rewrite Hc. Qed.

(** Arithmetic is computed on numerals only, so that symbolic values keep
    their shape while a pipeline is stepped through. *)
#[local] Arguments Z.add !x !y.
#[local] Arguments Z.sub !m !n.
#[local] Arguments Z.opp !x.
#[local] Arguments Z.mul !x !y.
#[local] Arguments Z.land !a !b.
#[local] Arguments Z.lor !a !b.
#[local] Arguments Z.lxor !a !b.
#[local] Arguments Z.shiftl !a !n.
#[local] Arguments Z.shiftr !a !n.
#[local] Arguments Z.eqb !x !y.
#[local] Arguments Z.ltb !x !y.
#[local] Arguments Z.leb !x !y.
#[local] Arguments Z.compare !x !y.

Arguments run_pipeline : simpl never.
Arguments exec_instruction : simpl never.
Arguments run_head : simpl never.
Arguments clocks : simpl never.
Arguments decode_instruction : simpl never.
Arguments prefixed : simpl never.
Arguments mask8 : simpl never.
Arguments mask16 : simpl never.
Arguments hi8 : simpl never.
Arguments pair16 : simpl never.

(** Unfold the machine, but neither the arithmetic of symbolic values nor
    the decode table; then compute what has become numeral. *)
Ltac machine :=
  cbv -[Z.add Z.sub Z.opp Z.mul Z.land Z.lor Z.lxor Z.lnot Z.shiftl Z.shiftr
        Z.eqb Z.ltb Z.leb Z.of_nat Z.to_nat
        mask8 mask16 hi8 pair16 high_after_low decode_instruction];
  cbn.

Ltac step_eval tac := machine; tac; machine; tac; machine.

(** One clock of [run_pipeline], the head state computed with the help of
    [tac]. *)
Ltac tick_with tac :=
  erewrite run_pipeline_tick;
  [ | unfold clock; step_eval tac; reflexivity | cbn; discriminate ].

Ltac tick := tick_with idtac.

(** Clock a pipeline until it is empty. *)
Ltac run_to_end tac :=
  repeat tick_with tac; rewrite run_pipeline_done by reflexivity.

(** The hypothesis [H : wf_regs (mkRegs ...)] as bounds on the registers. *)
Ltac wf_bounds H :=
  unfold wf_regs in H;
  cbn [cpu_reg reg_A reg_F reg_B reg_C reg_D reg_E reg_H reg_L reg_I reg_R
       reg_IXH reg_IXL reg_IYH reg_IYL reg_SP reg_PC] in H;
  destruct H as [[?Ha [?Hf [?Hb [?Hc [?Hd [?He [?Hh ?Hl]]]]]]]
                 [[?Hi [?Hr [?Hixh [?Hixl [?Hiyh ?Hiyl]]]]] [?Hsp ?Hpc]]].

(** [wf_regs] of a register file given by numerals. *)
Ltac concrete_wf :=
  vm_compute; repeat split; try reflexivity; discriminate.

Lemma mask16_succ_neq (a : Z) : mask16 (a + 1) <> mask16 a.
Proof.
  rewrite !mask16_mod. intros H.
  rewrite <- Z.add_mod_idemp_l in H by lia.
  pose proof (Z.mod_pos_bound a 65536 ltac:(lia)) as Hr.
  destruct (Z.eq_dec (a mod 65536 + 1) 65536) as [E | E].
  - rewrite E, Z.mod_same in H by lia. lia.
  - rewrite Z.mod_small in H by lia. lia.
Qed.

(** A CPU taken apart into its registers and buses. *)
Ltac destruct_cpu c :=
  destruct c as [[va vf vb vc vd ve vh vl vi vr vixh vixl viyh viyl vsp vpc
                  sa sf sb sc sd se sh sl] i1 i2 im it mri mem ior iow].

Lemma land_0xFFFF (v : Z) : Z.land v 0xFFFF = mask16 v.
Proof. reflexivity. Qed.

Lemma land_0xFF (v : Z) : Z.land v 0xFF = mask8 v.
Proof. reflexivity. Qed.

Ltac ticks n := do n tick.

(** ** The decode table and decode_instruction *)

Lemma forallb_combine_eqb (xs ys : list Z) :
  List.length xs = List.length ys ->
  forallb (fun p => fst p =? snd p) (combine xs ys) = true ->
  xs = ys.
Proof.
  revert ys. induction xs as [|x xs IH]; intros [|y ys] Hlen Hall;
    try reflexivity; try discriminate.
  cbn in Hlen, Hall. apply andb_prop in Hall as [Hxy Hrest].
  apply Z.eqb_eq in Hxy. f_equal; [assumption|].
  apply IH; [congruence | assumption].
Qed.

Lemma forallb_combine_refl (xs : list Z) :
  forallb (fun p => fst p =? snd p) (combine xs xs) = true.
Proof.
  induction xs as [|x xs IH]; [reflexivity|].
  cbn. now rewrite Z.eqb_refl.
Qed.

Lemma opcode_eqb_eq (a b : opcode) : opcode_eqb a b = true <-> a = b.
Proof.
  split.
  - destruct a as [x | xs], b as [y | ys]; cbn; try discriminate.
    + intros H. apply Z.eqb_eq in H. now subst.
    + intros H. apply andb_prop in H as [Hlen Hall].
      apply Nat.eqb_eq in Hlen. f_equal. now apply forallb_combine_eqb.
  - intros <-. destruct a as [x | xs]; cbn.
    + apply Z.eqb_refl.
    + now rewrite Nat.eqb_refl, forallb_combine_refl.
Qed.

Lemma table_get_None (t : list (opcode * entry)) (k : opcode) :
  table_get t k = None <-> ~ In k (map fst t).
Proof.
  induction t as [|[k' e] t IH]; cbn.
  - tauto.
  - destruct (opcode_eqb k' k) eqn:E.
    + apply opcode_eqb_eq in E. split; [discriminate | tauto].
    + assert (k' <> k) by (intros Heq; apply opcode_eqb_eq in Heq; congruence).
      tauto.
Qed.

Lemma table_get_Some (t : list (opcode * entry)) (k : opcode) (e : entry) :
  table_get t k = Some e -> In (k, e) t.
Proof.
  induction t as [|[k' e'] t IH]; cbn; [discriminate|].
  destruct (opcode_eqb k' k) eqn:E.
  - apply opcode_eqb_eq in E. intros [= <-]. left. now subst.
  - auto.
Qed.

(** Every single byte is a key of the table, and no key occurs twice: the
    association list read front to back is the Python dictionary. *)
Lemma INSTRUCTION_STATES_has_every_byte :
  forallb (fun b => match table_get INSTRUCTION_STATES (OpByte (Z.of_nat b)) with
                    | Some _ => true
                    | None => false
                    end) (seq 0 256) = true.
Proof. vm_compute. reflexivity. Qed.

Lemma INSTRUCTION_STATES_keys_distinct :
  distinct_keys (map fst INSTRUCTION_STATES) = true.
Proof. vm_compute. reflexivity. Qed.

(** C8: decode_instruction raises UnrecognisedInstructionError exactly when
    the opcode (a byte or a tuple of bytes) is not a key of the decode
    table, the error carries that opcode unchanged, and for an opcode of
    the table it returns the first three elements of its entry (extra
    T-cycles, end-of-OCF actions, follow-on states) without raising. *)
Theorem C8_decode_instruction_raises_iff_unknown (instruction : opcode) :
  (~ In instruction (map fst INSTRUCTION_STATES) <->
   decode_instruction instruction
   = Raise (UnrecognisedInstructionError instruction))
  /\ (~ In instruction (map fst INSTRUCTION_STATES) <->
      exists x, decode_instruction instruction = Raise x)
  /\ (In instruction (map fst INSTRUCTION_STATES) <->
      exists e, In (instruction, e) INSTRUCTION_STATES
                /\ decode_instruction instruction
                   = Ok (e_extra_clocks e, e_actions e, e_states e)).
Proof.
  unfold decode_instruction.
  destruct (table_get INSTRUCTION_STATES instruction) as [e|] eqn:E.
  - assert (Hin : In instruction (map fst INSTRUCTION_STATES)).
    { apply table_get_Some in E. apply (in_map fst) in E. exact E. }
    repeat split; try tauto; try discriminate.
    + intros [x Hx]. discriminate.
    + intros _. exists e. split; [now apply table_get_Some | reflexivity].
  - assert (Hnin : ~ In instruction (map fst INSTRUCTION_STATES))
      by now apply table_get_None.
    repeat split; try tauto.
    + intros _. eexists. reflexivity.
    + intros [e [_ He]]. discriminate.
Qed.

Example decode_instruction_unknown :
  decode_instruction (OpTuple [0xED; 0x00])
  = Raise (UnrecognisedInstructionError (OpTuple [0xED; 0x00])).
Proof. reflexivity. Qed.

Example decode_instruction_short_entry :
  decode_instruction (OpByte 0x2E)
  = Ok (0, [], [OD (Some high_after_low) (Some (LDr rL PNone "value")) "value" false]).
Proof. reflexivity. Qed.

(** ** HALT *)

Lemma run_pipeline_fuel_mono (fuel fuel' t : nat) (w : world) (r : result (world * nat)) :
  (fuel <= fuel')%nat ->
  run_pipeline fuel t w = Some r -> run_pipeline fuel' t w = Some r.
Proof.
  revert fuel' t w. induction fuel as [|fuel IH]; intros fuel' t w Hle H.
  - unfold run_pipeline in H. destruct (w_pipeline w) eqn:E; [|discriminate].
    now rewrite run_pipeline_done.
  - destruct fuel' as [|fuel']; [lia|].
    unfold run_pipeline in *; fold run_pipeline in *.
    destruct (w_pipeline w); [assumption|].
    destruct (clock w); [|assumption].
    apply IH; [lia | assumption].
Qed.

(** C10: executing opcode 0x76 (HALT) takes the opcode fetch alone; when
    the interrupt-pending latch [int] is false PC ends where it started
    (the increment of the opcode fetch is undone by the 16-bit decrement)
    and memory is unchanged, so the next opcode fetch reads the HALT byte
    again; when [int] is true PC ends one past the HALT byte. *)
Theorem C10_halt_holds_pc_until_int (c : CPU) :
  0 <= reg_PC (cpu_reg c) < 65536 ->
  membus_read c (reg_PC (cpu_reg c)) = 0x76 ->
  exists w,
    exec_instruction 64 c = Some (Ok (w, 4%nat))
    /\ w_pipeline w = []
    /\ cpu_membus (w_cpu w) = cpu_membus c
    /\ (cpu_int c = false ->
        reg_PC (cpu_reg (w_cpu w)) = reg_PC (cpu_reg c)
        /\ membus_read (w_cpu w) (reg_PC (cpu_reg (w_cpu w))) = 0x76)
    /\ (cpu_int c = true ->
        reg_PC (cpu_reg (w_cpu w)) = mask16 (reg_PC (cpu_reg c) + 1)).
Proof.
  destruct_cpu c. cbn. intros Hpc Hmem.
  unfold exec_instruction, fetch.
  tick. tick_with ltac:(rewrite ?Hmem). tick_with ltac:(rewrite ?decode_76).
  destruct it.
  - tick. rewrite run_pipeline_done by reflexivity.
    eexists. split; [reflexivity|]. cbn.
    repeat split; congruence.
  - tick. rewrite run_pipeline_done by reflexivity.
    eexists. split; [reflexivity|]. cbn.
    assert (Hback : mask16 (mask16 (65535 + mask16 (vpc + 1))) = vpc)
      by (rewrite mask16_mask16, mask16_dec_inc; now apply mask16_id).
    rewrite land_0xFFFF, Hback.
    repeat split; congruence.
Qed.

Lemma C10_halt_witness :
  exists w,
    exec_instruction 64 (example_cpu 0x45 false [(0x0100, 0x76)]) = Some (Ok (w, 4%nat))
    /\ w_pipeline w = []
    /\ cpu_membus (w_cpu w) = cpu_membus (example_cpu 0x45 false [(0x0100, 0x76)])
    /\ (cpu_int (example_cpu 0x45 false [(0x0100, 0x76)]) = false ->
        reg_PC (cpu_reg (w_cpu w))
        = reg_PC (cpu_reg (example_cpu 0x45 false [(0x0100, 0x76)]))
        /\ membus_read (w_cpu w) (reg_PC (cpu_reg (w_cpu w))) = 0x76)
    /\ (cpu_int (example_cpu 0x45 false [(0x0100, 0x76)]) = true ->
        reg_PC (cpu_reg (w_cpu w))
        = mask16 (reg_PC (cpu_reg (example_cpu 0x45 false [(0x0100, 0x76)])) + 1)).
Proof.
  apply (C10_halt_holds_pc_until_int (example_cpu 0x45 false [(0x0100, 0x76)])).
  - cbn. lia.
  - reflexivity.
Defined.

(** ** Opcode 0xC8 *)

(** One call of [clock_head] in [run_head], the head state computed by
    [tac]. *)
Ltac head_yields_with tac :=
  erewrite run_head_yield; [ | step_eval tac; reflexivity ].

Ltac head_returns_with tac :=
  erewrite run_head_return; [ | step_eval tac; reflexivity ].

Lemma getflag_0_or_1 (r : registers) (f : flag) :
  regs_getflag r f = 0 \/ regs_getflag r f = 1.
Proof.
  unfold regs_getflag.
  assert (H : forall x, Z.land x 1 = x mod 2)
    by (intros x; change 1 with (Z.ones 1); now rewrite Z.land_ones by lia).
  rewrite H.
  pose proof (Z.mod_pos_bound (Z.shiftr (reg_F r) (flag_bit f)) 2). lia.
Qed.

(** C9: the table entry of opcode 0xC8 carries the mnemonic "RET NZ" and
    the action [unless_flag('Z', early_abort())] before two stack reads, the
    second of which jumps.  With Z set the opcode fetch leaves the two
    stack reads in the pipeline and the instruction ends with PC holding
    the word popped from the stack (low byte first) and SP two higher;
    with Z clear the pipeline is cut down to the opcode fetch, which leaves
    SP alone and PC behind the opcode: the behaviour of RET Z. *)
Theorem C9_opcode_C8_is_ret_z (c : CPU) :
  membus_read c (reg_PC (cpu_reg c)) = 0xC8 ->
  (exists e,
      table_get INSTRUCTION_STATES (OpByte 0xC8) = Some e
      /\ e_mnemonic e = "RET NZ"
      /\ e_actions e = [unless_flag fZ early_abort]
      /\ e_states e = [SR (Some high_after_low) None 0;
                       SR (Some high_after_low) (Some (JP PNone None None)) 0])
  /\ (regs_getflag (cpu_reg c) fZ = 1 ->
      (exists n w1,
          run_head 64 0 (fetch c) = Some (n, Ok w1)
          /\ map ms_class (w_pipeline w1)
             = [SR (Some high_after_low) None 0;
                SR (Some high_after_low) (Some (JP PNone None None)) 0])
      /\ (exists w t,
             exec_instruction 64 c = Some (Ok (w, t))
             /\ reg_PC (cpu_reg (w_cpu w))
                = mask16 (high_after_low
                            (membus_read c (mask16 (reg_SP (cpu_reg c) + 1)))
                            (membus_read c (reg_SP (cpu_reg c))))
             /\ reg_SP (cpu_reg (w_cpu w))
                = mask16 (mask16 (reg_SP (cpu_reg c) + 1) + 1)))
  /\ (regs_getflag (cpu_reg c) fZ = 0 ->
      (exists n w1,
          run_head 64 0 (fetch c) = Some (n, Ok w1) /\ w_pipeline w1 = [])
      /\ (exists w t,
             exec_instruction 64 c = Some (Ok (w, t))
             /\ reg_PC (cpu_reg (w_cpu w)) = mask16 (reg_PC (cpu_reg c) + 1)
             /\ reg_SP (cpu_reg (w_cpu w)) = reg_SP (cpu_reg c))).
Proof.
  destruct_cpu c. cbn. intros Hmem.
  split; [|split].
  - eexists. split; [reflexivity|]. repeat split.
  - intros HZ. split.
    + unfold fetch.
      head_yields_with idtac. head_yields_with ltac:(rewrite ?Hmem).
      head_yields_with ltac:(rewrite ?decode_C8).
      head_returns_with ltac:(rewrite ?HZ).
      do 2 eexists. split; reflexivity.
    + unfold exec_instruction, fetch.
      tick. tick_with ltac:(rewrite ?Hmem). tick_with ltac:(rewrite ?decode_C8).
      tick_with ltac:(rewrite ?HZ).
      do 6 tick. rewrite run_pipeline_done by reflexivity.
      do 2 eexists. split; [reflexivity|]. cbn. split; reflexivity.
  - intros HZ. split.
    + unfold fetch.
      head_yields_with idtac. head_yields_with ltac:(rewrite ?Hmem).
      head_yields_with ltac:(rewrite ?decode_C8).
      head_returns_with ltac:(rewrite ?HZ).
      do 2 eexists. split; reflexivity.
    + unfold exec_instruction, fetch.
      tick. tick_with ltac:(rewrite ?Hmem). tick_with ltac:(rewrite ?decode_C8).
      tick_with ltac:(rewrite ?HZ).
      rewrite run_pipeline_done by reflexivity.
      do 2 eexists. split; [reflexivity|]. cbn. split; reflexivity.
Qed.

Lemma C9_opcode_C8_witness :
  membus_read ret_cpu (reg_PC (cpu_reg ret_cpu)) = 0xC8
  /\ regs_getflag (cpu_reg ret_cpu) fZ = 1
  /\ exists w t,
       exec_instruction 64 ret_cpu = Some (Ok (w, t))
       /\ reg_PC (cpu_reg (w_cpu w)) = 0x1234
       /\ reg_SP (cpu_reg (w_cpu w)) = 0x0000.
Proof.
  split; [reflexivity|]. split; [reflexivity|].
  destruct (C9_opcode_C8_is_ret_z ret_cpu eq_refl) as [_ [Hset _]].
  destruct (Hset eq_refl) as [_ [w [t [Hrun [Hpc Hsp]]]]].
  exists w, t. split; [exact Hrun|]. split.
  - rewrite Hpc. reflexivity.
  - rewrite Hsp. reflexivity.
Defined.

(** ** How long an opcode fetch takes *)

Lemma run_head_raise (fuel n : nat) (w : world) (e : exn) :
  clock_head w = Raise e ->
  run_head (S fuel) n w = Some (S n, Raise e).
Proof. intros Hc. unfold run_head. now rewrite Hc. Qed.

Lemma decode_of_entry (k : opcode) (e : entry) :
  table_get INSTRUCTION_STATES k = Some e ->
  decode_instruction k = Ok (e_extra_clocks e, e_actions e, e_states e).
Proof. intros H. unfold decode_instruction. now rewrite H. Qed.

(** A clock of an OCF in its idle loop: it yields while the counter is
    below [extra + extra_clocks - 1], and finishes on the first call
    that finds it there. *)
Lemma clock_head_OCF_wait (c : CPU) (ds : list Z) (prefix : option opcode)
    (dcls dsrc : bool) (extra : Z) (kwargs : dict) (n k : Z)
    (actions : list action) (states tail : list mstate) :
  let w := mkWorld c ds
             (MState (OCF prefix dcls extra) kwargs dsrc
                     (OCF_wait n k actions states) :: tail) in
  (n < extra + k - 1 ->
   clock_head w
   = Ok (false,
         mkWorld c ds
           (MState (OCF prefix dcls extra) kwargs dsrc
                   (OCF_wait (n + 1) k actions states) :: tail)))
  /\ (extra + k - 1 <= n ->
      (exists w', clock_head w = Ok (true, w'))
      \/ (exists e, clock_head w = Raise e)).
Proof.
  intros w. subst w. unfold clock_head, run, run_OCF, w_pipeline, w_cpu, w_ds.
  split; intros Hn.
  - apply Z.ltb_lt in Hn. rewrite Hn. reflexivity.
  - apply Z.ltb_ge in Hn. rewrite Hn.
    destruct (call_actions actions
                (rc_tail (mkRctx c ds kwargs tail)
                         (r_tail (mkRctx c ds kwargs tail) ++ states)))
      as [rc | e]; unfold bind.
    + left. eexists. reflexivity.
    + right. eexists. reflexivity.
Qed.

Lemma OCF_wait_finishes (m : nat) :
  forall (c : CPU) (ds : list Z) (prefix : option opcode) (dcls dsrc : bool)
         (extra : Z) (kwargs : dict) (n k : Z) (actions : list action)
         (states tail : list mstate) (calls fuel : nat),
    Z.to_nat (extra + k - 1 - n) = m ->
    (m < fuel)%nat ->
    exists r,
      run_head fuel calls
        (mkWorld c ds
           (MState (OCF prefix dcls extra) kwargs dsrc
                   (OCF_wait n k actions states) :: tail))
      = Some ((calls + m + 1)%nat, r).
Proof.
  induction m as [|m IH]; intros c ds prefix dcls dsrc extra kwargs n k actions
                                 states tail calls fuel Hm Hfuel;
    (destruct fuel as [|fuel]; [lia|]);
    destruct (clock_head_OCF_wait c ds prefix dcls dsrc extra kwargs n k
                actions states tail) as [Hlt Hge].
  - destruct Hge as [[w' Hw] | [e He]]; [lia | |].
    + rewrite (run_head_return _ _ _ _ Hw). eexists. f_equal. f_equal. lia.
    + rewrite (run_head_raise _ _ _ _ He). eexists. f_equal. f_equal. lia.
  - rewrite (run_head_yield _ _ _ _ (Hlt ltac:(lia))).
    destruct (IH c ds prefix dcls dsrc extra kwargs (n + 1) k actions states
                 tail (S calls) fuel ltac:(lia) ltac:(lia)) as [r Hr].
    exists r. rewrite Hr. f_equal. f_equal. lia.
Qed.

(** The opcode fetch of an opcode of the table finishes at call number
    [4 + max(0, extra + extra_clocks - 1)] of its tick function (by
    returning, or by raising what an end-of-fetch action raises). *)
Lemma OCF_finishes_after (prefix : option opcode) (dcls : bool) (extra : Z)
    (c : CPU) (ds : list Z) (kwargs : dict) (tail : list mstate) (e : entry)
    (fuel : nat) :
  table_get INSTRUCTION_STATES
    (prefixed prefix (membus_read c (reg_PC (cpu_reg c)))) = Some e ->
  (4 + Z.to_nat (extra + e_extra_clocks e - 1) <= fuel)%nat ->
  exists r,
    run_head fuel 0
      (mkWorld c ds (MState (OCF prefix dcls extra) kwargs false Start :: tail))
    = Some ((4 + Z.to_nat (extra + e_extra_clocks e - 1))%nat, r).
Proof.
  intros He Hfuel.
  do 3 (destruct fuel as [|fuel]; [lia|]).
  erewrite run_head_yield by (cbn; reflexivity).
  erewrite run_head_yield by (cbn; reflexivity).
  erewrite run_head_yield
    by (cbn; rewrite (decode_of_entry _ _ He); cbn; reflexivity).
  match goal with
  | |- context [run_head fuel 3 (mkWorld ?c' ?ds' (MState ?cls ?kw ?d (OCF_wait 0 ?k ?a ?s) :: ?t))] =>
      destruct (OCF_wait_finishes (Z.to_nat (extra + k - 1 - 0)) c' ds' prefix dcls d
                  extra kw 0 k a s t 3%nat fuel eq_refl) as [r Hr]
  end.
  - rewrite Z.sub_0_r. lia.
  - exists r. rewrite Hr. f_equal. f_equal. rewrite Z.sub_0_r. lia.
Qed.

(** PUSH BC from any state: the opcode fetch takes 4 calls and the whole
    instruction 10 T-cycles. *)
Lemma push_bc_ten_cycles (c : CPU) :
  membus_read c (reg_PC (cpu_reg c)) = 0xC5 ->
  (exists w1, run_head 64 0 (fetch c) = Some (4%nat, Ok w1))
  /\ (exists w, exec_instruction 64 c = Some (Ok (w, 10%nat))).
Proof.
  destruct_cpu c. cbn. intros Hmem. split.
  - unfold fetch.
    head_yields_with idtac. head_yields_with ltac:(rewrite ?Hmem).
    head_yields_with ltac:(rewrite ?decode_C5). head_returns_with idtac.
    eexists. reflexivity.
  - unfold exec_instruction, fetch.
    tick. tick_with ltac:(rewrite ?Hmem). tick_with ltac:(rewrite ?decode_C5).
    do 7 tick. rewrite run_pipeline_done by reflexivity.
    eexists. reflexivity.
Qed.

(** C1 (the code departs from it): for every opcode of the table, with
    its entry asking for [k] extra T-cycles, every prefix, every [extra]
    and every state of the CPU, the opcode fetch finishes at call number
    4 + max(0, extra + k - 1) of its tick function, the idle loop being
    [range(0, extra + extra_clocks - 1)]: one call short of 4 + extra + k
    as soon as extra + k >= 1.  So PUSH BC (opcode 0xC5, k = 1), fetched
    with [extra = 0] from any state, has its opcode fetch finish at the
    fourth call and takes 10 T-cycles from the opcode fetch to the end of
    its pipeline, where the Z80 takes 11 = 5 + 3 + 3. *)
Theorem C1_opcode_fetch_finishes_one_call_early :
  (forall (prefix : option opcode) (dcls : bool) (extra : Z) (c : CPU)
          (ds : list Z) (kwargs : dict) (tail : list mstate) (e : entry)
          (fuel : nat),
      table_get INSTRUCTION_STATES
        (prefixed prefix (membus_read c (reg_PC (cpu_reg c)))) = Some e ->
      (4 + Z.to_nat (extra + e_extra_clocks e - 1) <= fuel)%nat ->
      exists r,
        run_head fuel 0
          (mkWorld c ds
             (MState (OCF prefix dcls extra) kwargs false Start :: tail))
        = Some ((4 + Z.to_nat (extra + e_extra_clocks e - 1))%nat, r))
  /\ decode_instruction (OpByte 0xC5)
     = Ok (1, [], [SW (Some rB) "value" 0 None; SW (Some rC) "value" 0 None])
  /\ (forall c : CPU,
        membus_read c (reg_PC (cpu_reg c)) = 0xC5 ->
        (exists w1, run_head 64 0 (fetch c) = Some (4%nat, Ok w1))
        /\ (exists w, exec_instruction 64 c = Some (Ok (w, 10%nat)))).
Proof.
  split; [exact OCF_finishes_after|].
  split; [reflexivity | exact push_bc_ten_cycles].
Qed.

Lemma C1_opcode_fetch_witness :
  (exists w1, run_head 64 0 (fetch push_bc_cpu) = Some (4%nat, Ok w1))
  /\ (exists w, exec_instruction 64 push_bc_cpu = Some (Ok (w, 10%nat))).
Proof.
  exact (proj2 (proj2 C1_opcode_fetch_finishes_one_call_early)
           push_bc_cpu eq_refl).
Defined.

(** The same by running the model on one state. *)
Example push_bc_runs_ten_cycles :
  (exists w1, run_head 64 0 (fetch push_bc_cpu) = Some (4%nat, Ok w1)
              /\ map ms_class (w_pipeline w1)
                 = [SW (Some rB) "value" 0 None; SW (Some rC) "value" 0 None])
  /\ (exists w, exec_instruction 64 push_bc_cpu = Some (Ok (w, 10%nat))
                /\ w_pipeline w = []).
Proof.
  split.
  - eexists. split; vm_compute; reflexivity.
  - eexists. split; vm_compute; reflexivity.
Qed.

(** ** The combiner high_after_low *)

Lemma high_after_low_pair16 (x y : Z) : high_after_low x y = pair16 x y.
Proof. reflexivity. Qed.

(** C6, as the claim words it, fails: with the new byte 0x12 and the old
    value 0x34 the combiner gives 0x1234, while new | (old << 8) is
    0x3412. *)
Lemma C6_new_or_old_shifted_fails :
  combine_with (Some high_after_low) [("value", 0x34)] "value" 0x12
  <> Z.lor 0x12 (Z.shiftl 0x34 8).
Proof. vm_compute. discriminate. Qed.

(** C6, amended: the default combiner of OD and MR, called as
    [compound(new, old)], gives (new << 8) | old, for every new byte and
    every value cascaded before; so two byte reads in a row, the low byte
    first and the high byte second, make the little-endian word
    lo + 256 * hi, as LD BC,nn (two OD states) shows on every state. *)
Theorem C6_high_after_low_new_shifted_or_old (c : CPU) (lo hi : Z) :
  0 <= lo < 256 -> 0 <= hi < 256 ->
  membus_read c (reg_PC (cpu_reg c)) = 0x01 ->
  membus_read c (mask16 (reg_PC (cpu_reg c) + 1)) = lo ->
  membus_read c (mask16 (reg_PC (cpu_reg c) + 2)) = hi ->
  (forall new old, high_after_low new old = Z.lor (Z.shiftl new 8) old)
  /\ (forall kwargs key new old,
         dict_get kwargs key = Some old ->
         combine_with (Some high_after_low) kwargs key new
         = Z.lor (Z.shiftl new 8) old)
  /\ high_after_low hi lo = lo + 256 * hi
  /\ (exists w t,
         exec_instruction 64 c = Some (Ok (w, t))
         /\ reg_C (cpu_reg (w_cpu w)) = lo
         /\ reg_B (cpu_reg (w_cpu w)) = hi
         /\ getreg (cpu_reg (w_cpu w)) rBC = lo + 256 * hi).
Proof.
  intros Hlo Hhi.
  destruct_cpu c. cbn. intros Hm0 Hm1 Hm2.
  split; [reflexivity|].
  split; [intros kwargs key new old Hget; unfold combine_with; now rewrite Hget|].
  split; [rewrite high_after_low_pair16, pair16_add by assumption; lia|].
  assert (E2 : mask16 (mask16 (vpc + 1) + 1) = mask16 (vpc + 2))
    by (rewrite mask16_add_l; f_equal; lia).
  unfold exec_instruction, fetch.
  tick. tick_with ltac:(rewrite ?Hm0). tick_with ltac:(rewrite ?decode_01).
  tick.
  tick. tick_with ltac:(rewrite ?Hm1). tick.
  tick. tick_with ltac:(rewrite ?E2, ?Hm2). tick.
  rewrite run_pipeline_done by reflexivity.
  do 2 eexists. split; [reflexivity|]. cbn.
  rewrite !high_after_low_pair16.
  rewrite mask8_pair16, hi8_pair16 by assumption.
  repeat split. rewrite pair16_add by assumption. lia.
Qed.

Lemma C6_high_after_low_witness :
  high_after_low 0x12 0x34 = 0x34 + 256 * 0x12
  /\ exists w t,
       exec_instruction 64 ld_bc_cpu = Some (Ok (w, t))
       /\ getreg (cpu_reg (w_cpu w)) rBC = 0x34 + 256 * 0x12.
Proof.
  destruct (C6_high_after_low_new_shifted_or_old ld_bc_cpu 0x34 0x12)
    as [_ [_ [Hword [w [t [Hrun [_ [_ Hbc]]]]]]]];
    try reflexivity; try (cbn; lia).
  split; [exact Hword|]. exists w, t. split; assumption.
Defined.

(** ** PUSH rr ; POP rr *)

Section StackArithmetic.

Variables (vsp vpc : Z).
Hypothesis (Hsp : 0 <= vsp < 65536).

Lemma below_below : mask16 (mask16 (vsp - 1) - 1) = mask16 (vsp - 2).
Proof. rewrite mask16_sub_l. f_equal. lia. Qed.

Lemma above_below_below : mask16 (mask16 (vsp - 2) + 1) = mask16 (vsp - 1).
Proof. rewrite mask16_add_l. f_equal. lia. Qed.

Lemma above_below : mask16 (mask16 (vsp - 1) + 1) = vsp.
Proof.
  rewrite mask16_add_l. replace (vsp - 1 + 1) with vsp by lia.
  now apply mask16_id.
Qed.

Lemma below_neq_below_below : (mask16 (vsp - 1) =? mask16 (vsp - 2)) = false.
Proof.
  apply Z.eqb_neq. replace (vsp - 1) with (vsp - 2 + 1) by lia.
  apply mask16_succ_neq.
Qed.

Lemma pc_plus_2 : mask16 (mask16 (vpc + 1) + 1) = mask16 (vpc + 2).
Proof. rewrite mask16_add_l. f_equal. lia. Qed.

Lemma pc_plus_3 : mask16 (mask16 (vpc + 2) + 1) = mask16 (vpc + 3).
Proof. rewrite mask16_add_l. f_equal. lia. Qed.

Lemma pc_plus_4 : mask16 (mask16 (vpc + 3) + 1) = mask16 (vpc + 4).
Proof. rewrite mask16_add_l. f_equal. lia. Qed.

End StackArithmetic.

(** The addresses the machine computes, brought to one shape. *)
Ltac addresses Hsp :=
  rewrite ?below_below, ?above_below_below, ?(above_below _ Hsp),
          ?pc_plus_2, ?pc_plus_3, ?pc_plus_4;
  rewrite ?Z.eqb_refl, ?below_neq_below_below.




(** ** The response to an interrupt in mode 2 *)

(** C5, as the claim words it, fails where it has the pipeline set IFF1
    and IFF2 to 0: on a CPU in interrupt mode 2 with I = 0x80, the vector
    0x9000 at 0x8000 and IFF1 = IFF2 = 1, the pipeline of
    [interrupt_response] runs its 19 T-cycles and leaves IFF1 and IFF2
    at 1. *)
Lemma C5_pipeline_leaves_iff_set :
  exists w0 w,
    interrupt_response im2_cpu false (Some (fun _ => [0x00])) = Ok w0
    /\ run_pipeline 64 0 w0 = Some (Ok (w, 19%nat))
    /\ cpu_iff1 im2_cpu = 1
    /\ cpu_iff1 (w_cpu w) <> 0
    /\ cpu_iff2 (w_cpu w) <> 0.
Proof.
  do 2 eexists. split; [reflexivity|].
  split; [vm_compute; reflexivity|].
  split; [reflexivity|]. split; vm_compute; discriminate.
Qed.

(** C5, amended: in interrupt mode 2 with I = 0x80, memory[0x8000] = 0x00,
    memory[0x8001] = 0x90, a data source yielding 0x00 and the two cells
    below SP away from the vector, the pipeline of
    [interrupt_response(nmi=False)] takes exactly 19 T-cycles, writes the
    high byte of the interrupted PC at SP-1 and its low byte at SP-2,
    leaves SP two lower, loads PC with 0x9000, the little-endian word at
    the vector address (I << 8) | (byte & 0xFE) = 0x8000, and leaves IFF1
    and IFF2 as they were. *)
Theorem C5_interrupt_mode_2 (c : CPU) (rest : list Z) :
  cpu_interrupt_mode c = 2 ->
  reg_I (cpu_reg c) = 0x80 ->
  membus_read c 0x8000 = 0x00 ->
  membus_read c 0x8001 = 0x90 ->
  0 <= reg_SP (cpu_reg c) < 65536 ->
  mask16 (reg_SP (cpu_reg c) - 1) <> 0x8000 ->
  mask16 (reg_SP (cpu_reg c) - 1) <> 0x8001 ->
  mask16 (reg_SP (cpu_reg c) - 2) <> 0x8000 ->
  mask16 (reg_SP (cpu_reg c) - 2) <> 0x8001 ->
  exists w0 w,
    interrupt_response c false (Some (fun _ => 0x00 :: rest)) = Ok w0
    /\ run_pipeline 64 0 w0 = Some (Ok (w, 19%nat))
    /\ reg_PC (cpu_reg (w_cpu w)) = 0x9000
    /\ reg_SP (cpu_reg (w_cpu w)) = mask16 (reg_SP (cpu_reg c) - 2)
    /\ membus_read (w_cpu w) (mask16 (reg_SP (cpu_reg c) - 1))
       = hi8 (reg_PC (cpu_reg c))
    /\ membus_read (w_cpu w) (mask16 (reg_SP (cpu_reg c) - 2))
       = mask8 (reg_PC (cpu_reg c))
    /\ cpu_iff1 (w_cpu w) = cpu_iff1 c
    /\ cpu_iff2 (w_cpu w) = cpu_iff2 c.
Proof.
  destruct_cpu c. cbn. intros Him HI Hv0 Hv1 Hsp N1 N2 N3 N4. subst im vi.
  assert (Z.eqb 32768 (mask16 (vsp - 1)) = false) by (apply Z.eqb_neq; congruence).
  assert (Z.eqb 32769 (mask16 (vsp - 1)) = false) by (apply Z.eqb_neq; congruence).
  assert (Z.eqb 32768 (mask16 (vsp - 2)) = false) by (apply Z.eqb_neq; congruence).
  assert (Z.eqb 32769 (mask16 (vsp - 2)) = false) by (apply Z.eqb_neq; congruence).
  do 2 eexists. split; [reflexivity|].
  run_to_end ltac:(addresses Hsp; rewrite ?H, ?H0, ?H1, ?H2; rewrite ?Hv0, ?Hv1).
  split; [reflexivity|]. cbn. addresses Hsp.
  repeat split; reflexivity.
Qed.

Lemma C5_interrupt_mode_2_witness :
  exists w0 w,
    interrupt_response im2_cpu false (Some (fun _ => [0x00])) = Ok w0
    /\ run_pipeline 64 0 w0 = Some (Ok (w, 19%nat))
    /\ reg_PC (cpu_reg (w_cpu w)) = 0x9000
    /\ reg_SP (cpu_reg (w_cpu w)) = 0xFFFC
    /\ membus_read (w_cpu w) 0xFFFD = 0x01
    /\ membus_read (w_cpu w) 0xFFFC = 0x00.
Proof.
  assert (Hsp : 0 <= reg_SP (cpu_reg im2_cpu) < 65536)
    by (vm_compute; split; [discriminate | reflexivity]).
  destruct (C5_interrupt_mode_2 im2_cpu [] eq_refl eq_refl eq_refl eq_refl Hsp)
    as [w0 [w [H0 [H1 [H2 [H3 [H4 [H5 _]]]]]]]].
  - vm_compute. discriminate.
  - vm_compute. discriminate.
  - vm_compute. discriminate.
  - vm_compute. discriminate.
  - exists w0, w. repeat split; assumption.
Defined.

(** ** CPIR *)

Lemma bit_of_shift (x n : Z) :
  0 <= n -> Z.land (Z.shiftr x n) 1 = Z.b2z (Z.testbit x n).
Proof.
  intros Hn. change 1 with (Z.ones 1). rewrite Z.land_ones by lia.
  rewrite Z.shiftr_div_pow2 by lia. symmetry. now apply Z.testbit_spec'.
Qed.

Lemma testbit_mask8 (x n : Z) :
  0 <= n < 8 -> Z.testbit (mask8 x) n = Z.testbit x n.
Proof.
  intros Hn. unfold mask8. change 0xFF with (Z.ones 8).
  rewrite Z.land_spec, Z.ones_spec_low by lia. apply andb_true_r.
Qed.

(** The flag update of CPIR in closed form. *)
Lemma set_flags_cpi_eq (st : astate) (v : Z) :
  dict_get (a_kwargs st) "value" = Some v ->
  set_flags "-Z50311-" (Some "value") None PNone None st []
  = Ok (set_kw (set_reg st rF (cpi_flags (get_reg st rF) v)) "value" (Z.land v 0xFF)).
Proof.
  destruct st as [[[a f b c d e h l i r ixh ixl iyh iyl sp pc a' f' b' c' d' e' h' l']
                   i1 i2 im it mri mem ior iow] kws pl ds].
  intros Hv. unfold set_flags, kw_opt, kw. cbn [a_kwargs] in *. rewrite Hv.
  unfold cpi_flags.
  cbv -[Z.add Z.sub Z.opp Z.mul Z.land Z.lor Z.lxor Z.lnot Z.shiftl Z.shiftr
        Z.eqb Z.ltb Z.leb Z.of_nat Z.to_nat mask8 assign_flag set_reg get_reg set_kw].
  destruct (Z.land v 0xFF =? 0) eqn:EZ;
    destruct (Z.land (Z.shiftr (Z.land v 0xFF) 5) 1 =? 1) eqn:E5;
    destruct (Z.land (Z.shiftr (Z.land v 0xFF) 3) 1 =? 1) eqn:E3;
    machine; reflexivity.
Qed.

(** It sets Z exactly when the low byte of the difference is zero. *)
Lemma cpi_flags_Z (f v : Z) :
  Z.land (Z.shiftr (mask8 (cpi_flags f v)) 6) 1
  = if Z.land v 0xFF =? 0 then 1 else 0.
Proof.
  rewrite bit_of_shift, testbit_mask8 by lia. unfold cpi_flags.
  destruct (Z.land v 0xFF =? 0);
    destruct (Z.land (Z.shiftr (Z.land v 0xFF) 5) 1 =? 1);
    destruct (Z.land (Z.shiftr (Z.land v 0xFF) 3) 1 =? 1);
    repeat first [ rewrite testbit_mask8 by lia
                 | rewrite Z.land_spec | rewrite Z.lor_spec ];
    cbn; rewrite ?andb_true_r, ?orb_true_r, ?orb_false_r, ?andb_false_r;
    reflexivity.
Qed.

Lemma cpi_flags_Z_clear_V (f v : Z) :
  Z.land (Z.shiftr (mask8 (Z.land (mask8 (cpi_flags f v)) 251)) 6) 1
  = if Z.land v 0xFF =? 0 then 1 else 0.
Proof.
  rewrite <- cpi_flags_Z with (f := f).
  rewrite !bit_of_shift, !testbit_mask8, Z.land_spec, testbit_mask8 by lia.
  f_equal. apply andb_true_r.
Qed.

(** The micro-operations of CPIR, one layer unfolded. *)
Lemma inc_eq (r : regname) (st : astate) :
  inc r st []
  = if reg16 r
    then Ok (set_reg st r (mask16 (get_reg st r + 1)))
    else Ok (set_reg st r (mask8 (get_reg st r + 1))).
Proof. reflexivity. Qed.

Lemma dec_eq (r : regname) (st : astate) :
  dec r st []
  = if reg16 r
    then Ok (set_reg st r (mask16 (0xFFFF + get_reg st r)))
    else Ok (set_reg st r (mask8 (0xFF + get_reg st r))).
Proof. reflexivity. Qed.

Lemma on_zero_eq (r : regname) (act : action) (st : astate) :
  on_zero r act st [] = if get_reg st r =? 0 then act st [] else Ok st.
Proof. reflexivity. Qed.

Lemma on_flag_eq (f : flag) (act : action) (st : astate) :
  on_flag f act st [] = if getflag st f =? 1 then act st [] else Ok st.
Proof. reflexivity. Qed.

Lemma clear_flag_eq (f : flag) (st : astate) :
  clear_flag f st [] = Ok (resetflag st f).
Proof. reflexivity. Qed.

Lemma early_abort_eq (st : astate) :
  early_abort st [] = Ok (with_plen st (pop_down_to_head (a_plen st) (a_plen st))).
Proof. reflexivity. Qed.

Lemma mask16_add_r (a b : Z) : mask16 (a + mask16 b) = mask16 (a + b).
Proof. rewrite !mask16_mod. now rewrite Z.add_mod_idemp_r by lia. Qed.

Lemma mask16_pred (a : Z) : mask16 (0xFFFF + a) = mask16 (a - 1).
Proof.
  rewrite !mask16_mod. replace (0xFFFF + a) with (a - 1 + 1 * 65536) by lia.
  now rewrite Z.mod_add by lia.
Qed.

(** The two [dec("PC")] of the last state of CPIR take PC back to the
    opcode. *)
Lemma pc_back_to_opcode (pc : Z) :
  0 <= pc < 65536 ->
  mask16 (mask16 (0xFFFF + mask16 (mask16 (0xFFFF + mask16 (pc + 2))))) = pc.
Proof.
  intros Hpc. rewrite !mask16_mask16, mask16_add_r, Z.add_assoc, mask16_add_r.
  rewrite mask16_mod.
  pose proof (Z.mod_add pc 2 65536 ltac:(lia)) as E.
  replace (pc + 2 * 65536) with (0xFFFF + 0xFFFF + (pc + 2)) in E by lia.
  rewrite E. now apply Z.mod_small.
Qed.

(** Unfold the machine down to its micro-operations, which stay folded
    until a state is handed to them. *)
Ltac machine_folded :=
  cbv -[Z.add Z.sub Z.opp Z.mul Z.land Z.lor Z.lxor Z.lnot Z.shiftl Z.shiftr
        Z.eqb Z.ltb Z.leb Z.of_nat Z.to_nat
        mask8 mask16 hi8 pair16 high_after_low decode_instruction cpi_flags
        set_flags do_each inc dec on_zero on_flag clear_flag early_abort];
  cbn -[set_flags do_each inc dec on_zero on_flag clear_flag early_abort cpi_flags].

Ltac micro_step tac :=
  first [ progress cbn [do_each bind]
        | erewrite set_flags_cpi_eq by reflexivity
        | rewrite inc_eq | rewrite dec_eq
        | rewrite on_zero_eq | rewrite on_flag_eq
        | rewrite clear_flag_eq | rewrite early_abort_eq
        | progress tac ].

Ltac tick_micro tac :=
  erewrite run_pipeline_tick;
  [ | unfold clock; machine_folded; repeat (micro_step tac; machine_folded);
      reflexivity
    | cbn; discriminate ].

(** One execution of CPIR: BC is decremented, HL incremented, Z tells
    whether A equals the byte at HL; either the instruction is over after
    16 T-cycles with PC past it and BC = 0 or Z = 1, or it has taken 21
    T-cycles and PC is back at its first byte. *)
Lemma cpir_iteration (c : CPU) :
  wf_regs (cpu_reg c) ->
  membus_read c (reg_PC (cpu_reg c)) = 0xED ->
  membus_read c (mask16 (reg_PC (cpu_reg c) + 1)) = 0xB1 ->
  exists w t,
    exec_instruction 64 c = Some (Ok (w, t))
    /\ wf_regs (cpu_reg (w_cpu w))
    /\ cpu_membus (w_cpu w) = cpu_membus c
    /\ getreg (cpu_reg (w_cpu w)) rBC = mask16 (getreg (cpu_reg c) rBC - 1)
    /\ getreg (cpu_reg (w_cpu w)) rHL = mask16 (getreg (cpu_reg c) rHL + 1)
    /\ reg_A (cpu_reg (w_cpu w)) = reg_A (cpu_reg c)
    /\ regs_getflag (cpu_reg (w_cpu w)) fZ
       = (if mask8 (reg_A (cpu_reg c)
                    - membus_read c (getreg (cpu_reg c) rHL)) =? 0
          then 1 else 0)
    /\ ((t = 16%nat
         /\ reg_PC (cpu_reg (w_cpu w)) = mask16 (reg_PC (cpu_reg c) + 2)
         /\ (getreg (cpu_reg (w_cpu w)) rBC = 0
             \/ regs_getflag (cpu_reg (w_cpu w)) fZ = 1))
        \/ (t = 21%nat
            /\ reg_PC (cpu_reg (w_cpu w)) = reg_PC (cpu_reg c)
            /\ getreg (cpu_reg (w_cpu w)) rBC <> 0
            /\ regs_getflag (cpu_reg (w_cpu w)) fZ = 0)).
Proof.
  destruct_cpu c. intros Hwf. wf_bounds Hwf. cbn. intros Hm0 Hm1.
  unfold exec_instruction, fetch.
  destruct (mask16 (65535 + pair16 vb vc) =? 0) eqn:EB;
    destruct (Z.land (va - mem (pair16 vh vl)) 255 =? 0) eqn:EZ;
    repeat tick_micro ltac:(
      rewrite ?pc_plus_2; rewrite ?Hm0, ?Hm1;
      rewrite ?decode_ED, ?decode_EDB1;
      rewrite ?pair16_split by apply mask16_range;
      rewrite ?EB; rewrite ?cpi_flags_Z, ?cpi_flags_Z_clear_V; rewrite ?EZ);
    rewrite run_pipeline_done by reflexivity;
    do 2 eexists; (split; [reflexivity|]);
    unfold regs_getflag, wf_regs;
    cbn [w_cpu cpu_reg cpu_membus getreg flag_bit reg_A reg_F reg_B reg_C
         reg_D reg_E reg_H reg_L reg_I reg_R reg_IXH reg_IXL reg_IYH reg_IYL
         reg_SP reg_PC];
    rewrite ?pc_back_to_opcode by assumption;
    rewrite ?pair16_split by apply mask16_range;
    rewrite ?cpi_flags_Z, ?cpi_flags_Z_clear_V;
    change (mask8 (va - mem (pair16 vh vl)))
      with (Z.land (va - mem (pair16 vh vl)) 255);
    rewrite ?EZ;
    rewrite <- (mask16_pred (pair16 vb vc));
    pose proof (mask8_range (cpi_flags vf (va - mem (pair16 vh vl))));
    pose proof (mask8_range
                  (Z.land (mask8 (cpi_flags vf (va - mem (pair16 vh vl)))) 251));
    pose proof (hi8_range (mask16 (65535 + pair16 vb vc)));
    pose proof (mask8_range (mask16 (65535 + pair16 vb vc)));
    pose proof (hi8_range (mask16 (pair16 vh vl + 1)));
    pose proof (mask8_range (mask16 (pair16 vh vl + 1)));
    pose proof (mask16_range (vpc + 2));
    apply Z.eqb_eq in EB || apply Z.eqb_neq in EB;
    repeat split; try assumption; try reflexivity; lia.
Qed.

Lemma exec_instructions_S (fuel n : nat) (c : CPU) (w : world) (t : nat)
    (c' : CPU) (t' : nat) :
  exec_instruction fuel c = Some (Ok (w, t)) ->
  exec_instructions fuel n (w_cpu w) = Some (Ok (c', t')) ->
  exec_instructions fuel (S n) c = Some (Ok (c', (t + t')%nat)).
Proof. intros H1 H2. cbn [exec_instructions]. now rewrite H1, H2. Qed.

(** CPIR run until it is over, [k] bounding the executions still to come
    after the next one. *)
Lemma cpir_terminates_within (k : nat) :
  forall c : CPU,
    wf_regs (cpu_reg c) ->
    membus_read c (reg_PC (cpu_reg c)) = 0xED ->
    membus_read c (mask16 (reg_PC (cpu_reg c) + 1)) = 0xB1 ->
    Z.to_nat (mask16 (getreg (cpu_reg c) rBC - 1)) = k ->
    exists (n : nat) (c' : CPU),
      (1 <= n <= S k)%nat
      /\ exec_instructions 64 n c = Some (Ok (c', (21 * (n - 1) + 16)%nat))
      /\ reg_PC (cpu_reg c') = mask16 (reg_PC (cpu_reg c) + 2)
      /\ (getreg (cpu_reg c') rBC = 0 \/ regs_getflag (cpu_reg c') fZ = 1)
      /\ (forall m : nat, (m < n)%nat ->
            exists cm : CPU,
              exec_instructions 64 m c = Some (Ok (cm, (21 * m)%nat))
              /\ reg_PC (cpu_reg cm) = reg_PC (cpu_reg c)).
Proof.
  induction k as [|k IH]; intros c Hwf Hm0 Hm1 Hk;
    destruct (cpir_iteration c Hwf Hm0 Hm1)
      as [w [t [Hrun [Hwf' [Hmem [Hbc [_ [_ [_ Hcases]]]]]]]]];
    pose proof (mask16_range (getreg (cpu_reg c) rBC - 1)) as Hr.
  - destruct Hcases as [[-> [Hpc Hend]] | [_ [_ [Hnz _]]]]; [|lia].
    exists 1%nat, (w_cpu w). repeat split; try assumption; try lia.
    + cbn [exec_instructions]. now rewrite Hrun.
    + intros m Hm. assert (m = 0%nat) as -> by lia. exists c. now split.
  - destruct Hcases as [[-> [Hpc Hend]] | [-> [Hpc [Hnz _]]]].
    + exists 1%nat, (w_cpu w). repeat split; try assumption; try lia.
      * cbn [exec_instructions]. now rewrite Hrun.
      * intros m Hm. assert (m = 0%nat) as -> by lia. exists c. now split.
    + destruct (IH (w_cpu w)) as [n [c' [Hn [Hrun' [Hpc' [Hend' Hbefore]]]]]];
        try assumption.
      * unfold membus_read. now rewrite Hmem, Hpc.
      * unfold membus_read. now rewrite Hmem, Hpc.
      * rewrite Hbc, mask16_id by lia. lia.
      * exists (S n), c'. repeat split; try assumption; try lia.
        -- rewrite (exec_instructions_S _ _ _ _ _ _ _ Hrun Hrun').
           do 3 f_equal. lia.
        -- now rewrite Hpc', Hpc.
        -- intros m Hm. destruct m as [|m].
           ++ exists c. now split.
           ++ destruct (Hbefore m ltac:(lia)) as [cm [Hcm Hpcm]].
              exists cm. split; [|now rewrite Hpcm].
              rewrite (exec_instructions_S _ _ _ _ _ _ _ Hrun Hcm).
              do 3 f_equal. lia.
Qed.

(** C2: from every start state with well-formed registers and CPIR
    (ED B1) at PC, whatever BC, A and the memory searched, CPIR is over
    after a finite number [n] of executions, at least 1 and at most
    65536: the first [n - 1] take 21 T-cycles each and leave PC at the
    opcode, which is fetched again, and the last takes 16, so the
    T-cycles add up to 21 * (n - 1) + 16; PC then is past the two bytes,
    and BC = 0 or flag Z = 1. *)
Theorem C2_cpir_terminates (c : CPU) :
  wf_regs (cpu_reg c) ->
  membus_read c (reg_PC (cpu_reg c)) = 0xED ->
  membus_read c (mask16 (reg_PC (cpu_reg c) + 1)) = 0xB1 ->
  exists (n : nat) (c' : CPU),
    1 <= Z.of_nat n <= 65536
    /\ exec_instructions 64 n c = Some (Ok (c', (21 * (n - 1) + 16)%nat))
    /\ reg_PC (cpu_reg c') = mask16 (reg_PC (cpu_reg c) + 2)
    /\ (getreg (cpu_reg c') rBC = 0 \/ regs_getflag (cpu_reg c') fZ = 1)
    /\ (forall m : nat, (m < n)%nat ->
          exists cm : CPU,
            exec_instructions 64 m c = Some (Ok (cm, (21 * m)%nat))
            /\ reg_PC (cpu_reg cm) = reg_PC (cpu_reg c)).
Proof.
  intros Hwf Hm0 Hm1.
  destruct (cpir_terminates_within _ c Hwf Hm0 Hm1 eq_refl)
    as [n [c' [Hn H]]].
  exists n, c'. split; [|exact H].
  pose proof (mask16_range (getreg (cpu_reg c) rBC - 1)). lia.
Qed.

Lemma C2_cpir_witness :
  exists (n : nat) (c' : CPU),
    1 <= Z.of_nat n <= 65536
    /\ exec_instructions 64 n cpir_cpu = Some (Ok (c', (21 * (n - 1) + 16)%nat))
    /\ reg_PC (cpu_reg c') = 0x0102
    /\ (getreg (cpu_reg c') rBC = 0 \/ regs_getflag (cpu_reg c') fZ = 1).
Proof.
  destruct (C2_cpir_terminates cpir_cpu) as [n [c' [Hn [Hrun [Hpc [Hend _]]]]]].
  - concrete_wf.
  - reflexivity.
  - reflexivity.
  - exists n, c'. repeat split; try assumption; apply Hn.
Defined.

(** ** The flag templates of set_flags *)

Lemma getflag_fbit (st : astate) (f : flag) :
  getflag st f = Z.b2z (fbit st (flag_bit f)).
Proof.
  unfold getflag, regs_getflag, fbit, get_reg. cbn [getreg].
  apply bit_of_shift. destruct f; cbn; lia.
Qed.

Lemma fbit_set_reg_F (st : astate) (v b : Z) :
  0 <= b < 8 -> fbit (set_reg st rF v) b = Z.testbit v b.
Proof.
  intros Hb. destruct st as [[[] ? ? ? ? ? ? ? ?] ? ? ?].
  unfold fbit. cbn. now apply testbit_mask8.
Qed.

Lemma testbit_shiftl_1 (n b : Z) :
  0 <= n -> Z.testbit (Z.shiftl 1 n) b = (b =? n).
Proof.
  intros Hn. rewrite Z.shiftl_1_l, Z.pow2_bits_eqb by assumption.
  apply Z.eqb_sym.
Qed.

Lemma testbit_clear_mask (n b : Z) :
  0 <= n < 8 -> 0 <= b < 8 ->
  Z.testbit (0xFF - Z.shiftl 1 n) b = negb (b =? n).
Proof.
  intros Hn Hb.
  assert (En : n = 0 \/ n = 1 \/ n = 2 \/ n = 3 \/ n = 4 \/ n = 5 \/ n = 6 \/ n = 7)
    by lia.
  assert (Eb : b = 0 \/ b = 1 \/ b = 2 \/ b = 3 \/ b = 4 \/ b = 5 \/ b = 6 \/ b = 7)
    by lia.
  repeat (destruct En as [-> | En]); try subst n;
    repeat (destruct Eb as [-> | Eb]); try subst b; reflexivity.
Qed.

Lemma fbit_setflag (st : astate) (f : flag) (b : Z) :
  0 <= b < 8 -> fbit (setflag st f) b = fbit st b || (b =? flag_bit f).
Proof.
  intros Hb. change (setflag st f)
    with (set_reg st rF (Z.lor (get_reg st rF) (Z.shiftl 1 (flag_bit f)))).
  rewrite fbit_set_reg_F, Z.lor_spec, testbit_shiftl_1 by (destruct f; cbn; lia).
  reflexivity.
Qed.

Lemma fbit_resetflag (st : astate) (f : flag) (b : Z) :
  0 <= b < 8 -> fbit (resetflag st f) b = fbit st b && negb (b =? flag_bit f).
Proof.
  intros Hb. change (resetflag st f)
    with (set_reg st rF (Z.land (get_reg st rF) (0xFF - Z.shiftl 1 (flag_bit f)))).
  rewrite fbit_set_reg_F, Z.land_spec, testbit_clear_mask
    by (destruct f; cbn; lia).
  reflexivity.
Qed.

(** A flag assignment leaves the other bits of F alone. *)
Lemma fbit_assign_other (st : astate) (f : flag) (x : bool) (b : Z) (y : bool) :
  0 <= b < 8 -> b <> flag_bit f -> fbit st b = y ->
  fbit (assign_flag st f x) b = y.
Proof.
  intros Hb Hne <-. apply Z.eqb_neq in Hne. unfold assign_flag.
  destruct x; rewrite ?fbit_setflag, ?fbit_resetflag by assumption;
    rewrite Hne; cbn; rewrite ?orb_false_r, ?andb_true_r; reflexivity.
Qed.

Lemma fbit_if (g : bool) (s1 s2 : astate) (b : Z) (y : bool) :
  fbit s1 b = y -> fbit s2 b = y -> fbit (if g then s1 else s2) b = y.
Proof. now destruct g. Qed.

Lemma string_get_lt (s : string) :
  forall i : nat, (i < String.length s)%nat -> exists c, String.get i s = Some c.
Proof.
  induction s as [|c s IH]; intros i Hi; cbn in Hi; [lia|].
  destruct i as [|i]; cbn; [now exists c|]. apply IH. lia.
Qed.

(** The closing loop of [set_flags] returns, and forces the bits its
    characters name. *)
Lemma force_literal_flags_spec (flags : string) (ns : list nat) :
  String.length flags = 8%nat ->
  Forall (fun n => (n <= 7)%nat) ns ->
  forall st : astate,
    exists st',
      force_literal_flags flags ns st = Ok st'
      /\ forall b, 0 <= b < 8 -> fbit st' b = forced flags ns b (fbit st b).
Proof.
  intros Hlen Hns. induction Hns as [|n ns Hn Hns IH]; intros st.
  - exists st. split; reflexivity.
  - cbn [force_literal_flags forced]. unfold flag_char.
    destruct (string_get_lt flags (7 - n)) as [c Hc]; [lia|]. rewrite Hc.
    cbn [bind].
    match goal with
    | |- context [force_literal_flags flags ns ?s] =>
        destruct (IH s) as [st' [Hrun Hbits]]
    end.
    exists st'. split; [exact Hrun|].
    intros b Hb. rewrite (Hbits b Hb). f_equal. unfold forced_bit.
    destruct (Ascii.eqb c "1"); [|destruct (Ascii.eqb c "0")].
    + rewrite fbit_set_reg_F, Z.lor_spec, testbit_shiftl_1 by lia.
      destruct (b =? Z.of_nat n); [apply orb_true_r | apply orb_false_r].
    + rewrite fbit_set_reg_F, Z.land_spec, testbit_clear_mask by lia.
      destruct (b =? Z.of_nat n); [apply andb_false_r | apply andb_true_r].
    + now destruct (b =? Z.of_nat n).
Qed.

Lemma fbit_after_key (key : option string) (st : astate) (d b : Z) :
  fbit match key with Some k => set_kw st k d | None => st end b = fbit st b.
Proof. now destruct key. Qed.

(** The comparisons of a known character of a template are computed. *)
Ltac known_chars :=
  repeat match goal with
         | |- context [Ascii.eqb (Ascii ?a0 ?a1 ?a2 ?a3 ?a4 ?a5 ?a6 ?a7) ?c] =>
             let r := eval vm_compute
                      in (Ascii.eqb (Ascii a0 a1 a2 a3 a4 a5 a6 a7) c) in
             change (Ascii.eqb (Ascii a0 a1 a2 a3 a4 a5 a6 a7) c) with r
         end;
  cbv iota.

Ltac keeps_bit :=
  repeat lazymatch goal with
         | |- fbit (assign_flag _ _ _) _ = _ =>
             apply fbit_assign_other; [lia | cbn; lia | ]
         | |- fbit (if _ then _ else _) _ = _ => apply fbit_if
         | |- _ => reflexivity
         end.

(** Bit [b] of F after [set_flags], where the loop has left [Hbits]. *)
Ltac flag_bit_after Hbits :=
  cbn [flag_at nth flag_bit];
  rewrite Hbits by lia;
  match goal with
  | |- context [forced ?fl ?ns ?b (fbit ?pre ?b)] =>
      let old := fresh "old" in
      let Hold := fresh "Hold" in
      remember (fbit pre b) as old eqn:Hold;
      let r := eval cbv in (forced fl ns b old) in
      change (forced fl ns b old) with r;
      subst old
  end.

(** C4: for every eight-character template, every input value and every
    state, [set_flags] returns; a flag whose position holds '-' is left
    as it was; a literal '1' or '0' at any position but the first (Z, 5,
    H, 3, P/V, N, C) forces that bit of F to 1 or 0.  At the first
    position, S, a literal is not looked at, since the closing loop is
    [for n in range(0,7)] and never reaches bit 7: S is left as it was,
    where the claim has it forced. *)
Theorem C4_set_flags_ignores_literal_at_S
    (flags : string) (key : option string) (v : Z) (st : astate) :
  String.length flags = 8%nat ->
  exists st',
    set_flags flags key None (PLit v) None st [] = Ok st'
    /\ (forall i, String.get i flags = Some "-"%char ->
          getflag st' (flag_at i) = getflag st (flag_at i))
    /\ (forall i, (1 <= i)%nat -> String.get i flags = Some "1"%char ->
          getflag st' (flag_at i) = 1)
    /\ (forall i, (1 <= i)%nat -> String.get i flags = Some "0"%char ->
          getflag st' (flag_at i) = 0)
    /\ (String.get 0 flags = Some "1"%char \/ String.get 0 flags = Some "0"%char ->
        getflag st' fS = getflag st fS).
Proof.
  intros Hlen.
  destruct flags as [|c0 [|c1 [|c2 [|c3 [|c4 [|c5 [|c6 [|c7 [|]]]]]]]]];
    try discriminate Hlen.
  unfold set_flags. cbn [bind flag_char String.get]. cbv zeta.
  match goal with
  | |- context [force_literal_flags ?fl ?ns ?pre] =>
      destruct (force_literal_flags_spec fl ns eq_refl
                  ltac:(repeat constructor) pre) as [st1 [Hrun Hbits]]
  end.
  rewrite Hrun. cbn [bind]. eexists. split; [reflexivity|].
  split; [|split; [|split]].
  - intros i Hi. rewrite !getflag_fbit, fbit_after_key.
    do 8 (destruct i as [|i];
          [ cbn in Hi; injection Hi as ->; flag_bit_after Hbits; f_equal;
            known_chars; keeps_bit | ]).
    cbn in Hi. discriminate.
  - intros i Hpos Hi. rewrite !getflag_fbit, fbit_after_key.
    destruct i as [|i]; [lia|].
    do 7 (destruct i as [|i];
          [ cbn in Hi; injection Hi as ->; flag_bit_after Hbits; reflexivity | ]).
    cbn in Hi. discriminate.
  - intros i Hpos Hi. rewrite !getflag_fbit, fbit_after_key.
    destruct i as [|i]; [lia|].
    do 7 (destruct i as [|i];
          [ cbn in Hi; injection Hi as ->; flag_bit_after Hbits; reflexivity | ]).
    cbn in Hi. discriminate.
  - intros Hi. rewrite !getflag_fbit, fbit_after_key. cbn in Hi.
    destruct Hi as [Hi | Hi]; injection Hi as ->;
      change fS with (flag_at 0); flag_bit_after Hbits; f_equal;
      known_chars; keeps_bit.
Qed.

Lemma C4_set_flags_witness :
  exists st',
    set_flags "0-------" None None (PLit 0) None (flag_state 0xFF) [] = Ok st'
    /\ getflag (flag_state 0xFF) fS = 1
    /\ getflag st' fS = 1.
Proof.
  destruct (C4_set_flags_ignores_literal_at_S "0-------" None 0
              (flag_state 0xFF) eq_refl) as [st' [Hrun [_ [_ [_ HS]]]]].
  exists st'. split; [exact Hrun|]. split; [reflexivity|].
  rewrite HS; [reflexivity | right; reflexivity].
Defined.

(** The same on two runs: '0' at S with S set leaves S set, '1' at S with
    S clear leaves S clear, while the same literals one position further,
    at Z, are obeyed. *)
Example set_flags_literal_at_S_and_Z :
  (exists st, set_flags "0-------" None None (PLit 0) None (flag_state 0xFF) []
              = Ok st /\ getflag st fS = 1)
  /\ (exists st, set_flags "1-------" None None (PLit 0) None (flag_state 0x00) []
                 = Ok st /\ getflag st fS = 0)
  /\ (exists st, set_flags "-0------" None None (PLit 0) None (flag_state 0xFF) []
                 = Ok st /\ getflag st fZ = 0)
  /\ (exists st, set_flags "-1------" None None (PLit 0) None (flag_state 0x00) []
                 = Ok st /\ getflag st fZ = 1).
Proof. repeat split; eexists; (split; [vm_compute; reflexivity | reflexivity]). Qed.

(** ** The disassembler *)

Lemma py_index_0 (x : Z) (rest : list Z) : py_index (x :: rest) 0 = Ok x.
Proof.
  unfold py_index. cbn [List.length].
  replace (0 <? 0) with false by reflexivity. cbv zeta.
  replace (Z.of_nat (S (List.length rest)) <=? 0) with false
    by (symmetry; apply Z.leb_gt; lia).
  reflexivity.
Qed.

Lemma py_index_1 (x y : Z) (rest : list Z) : py_index (x :: y :: rest) 1 = Ok y.
Proof.
  unfold py_index. cbn [List.length].
  replace (1 <? 0) with false by reflexivity. cbv zeta.
  replace (Z.of_nat (S (S (List.length rest))) <=? 1) with false
    by (symmetry; apply Z.leb_gt; lia).
  reflexivity.
Qed.

Lemma py_index_3 (x y z u : Z) (rest : list Z) :
  py_index (x :: y :: z :: u :: rest) 3 = Ok u.
Proof.
  unfold py_index. cbn [List.length].
  replace (3 <? 0) with false by reflexivity. cbv zeta.
  replace (Z.of_nat (S (S (S (S (List.length rest))))) <=? 3) with false
    by (symmetry; apply Z.leb_gt; lia).
  reflexivity.
Qed.

(** An exception of the look-up is the outcome of the whole call. *)
Lemma disassemble_raises (b : Z) (rest : list Z) (e : exn) :
  lookup_code (b :: rest) = Raise e ->
  disassemble_instructions (b :: rest) = Some (Raise e).
Proof.
  intros H. unfold disassemble_instructions.
  cbn [List.length disassemble_loop]. now rewrite H.
Qed.

(** A first byte whose entry has four elements only. *)
Lemma lookup_code_short_byte (b : Z) (rest : list Z) (e : entry) :
  table_get INSTRUCTION_STATES (OpByte b) = Some e ->
  e_length e = None ->
  lookup_code (b :: rest) = Raise ValueError.
Proof.
  intros He Hl. unfold lookup_code. rewrite py_index_0. cbn [bind].
  rewrite He. unfold code_and_length. now rewrite Hl.
Qed.

(** A prefix followed by a byte whose entry has four elements only. *)
Lemma lookup_code_short_pair (p b : Z) (rest : list Z) (e0 e : entry) :
  table_get INSTRUCTION_STATES (OpByte p) = Some e0 ->
  e_length e0 = Some 0 ->
  table_get INSTRUCTION_STATES (OpTuple [p; b]) = Some e ->
  e_length e = None ->
  lookup_code (p :: b :: rest) = Raise ValueError.
Proof.
  intros He0 Hl0 He Hl. unfold lookup_code. rewrite py_index_0. cbn [bind].
  rewrite He0. unfold code_and_length at 1. rewrite Hl0. cbn [bind snd].
  replace (0 =? 0) with true by reflexivity. cbn [List.length].
  replace (1 <? Z.of_nat (S (S (List.length rest)))) with true
    by (symmetry; apply Z.ltb_lt; lia).
  rewrite py_index_1. cbn [bind]. rewrite He.
  unfold code_and_length. now rewrite Hl.
Qed.

Lemma length_of_Some (k : opcode) (l : option Z) :
  length_of k = Some l ->
  exists e, table_get INSTRUCTION_STATES k = Some e /\ e_length e = l.
Proof.
  unfold length_of. destruct (table_get INSTRUCTION_STATES k) as [e|];
    [|discriminate].
  cbn. intros [= <-]. now exists e.
Qed.

(** The prefixes have length 0 in the table. *)
Lemma prefix_lengths :
  Forall (fun k => length_of k = Some (Some 0))
         [OpByte 0xCB; OpByte 0xDD; OpByte 0xED; OpByte 0xFD;
          OpTuple [0xFD; 0xCB]].
Proof.
  repeat (apply Forall_cons; [vm_compute; reflexivity|]). apply Forall_nil.
Qed.

(** The entries of the table that have no length. *)
Lemma short_entries :
  Forall (fun k => length_of k = Some None)
         [OpByte 0x2E; OpByte 0x96; OpTuple [0xDD; 0x46]; OpTuple [0xDD; 0x73];
          OpTuple [0xDD; 0xCB]; OpTuple [0xDD; 0xE3]].
Proof.
  repeat (apply Forall_cons; [vm_compute; reflexivity|]). apply Forall_nil.
Qed.

(** They are the only ones. *)
Lemma short_entries_complete :
  map fst (filter (fun ke => match e_length (snd ke) with
                             | None => true
                             | Some _ => false
                             end) INSTRUCTION_STATES)
  = [OpByte 0x2E; OpByte 0x96; OpTuple [0xDD; 0x46]; OpTuple [0xDD; 0x73];
     OpTuple [0xDD; 0xCB]; OpTuple [0xDD; 0xE3]].
Proof. vm_compute. reflexivity. Qed.

(** C3, where it fails: the entries of 0x2E and 0x96 and of (0xDD, 0x46),
    (0xDD, 0x73), (0xDD, 0xCB) and (0xDD, 0xE3) have four elements, no
    length, and [(code, length) = ...[3:]] raises ValueError on them: the
    disassembler raises on every sequence that begins with one of them,
    the one-byte sequence 0x2E among them. *)
Theorem C3_disassemble_raises_on_short_entries (rest : list Z) :
  disassemble_instructions (0x2E :: rest) = Some (Raise ValueError)
  /\ disassemble_instructions (0x96 :: rest) = Some (Raise ValueError)
  /\ disassemble_instructions (0xDD :: 0x46 :: rest) = Some (Raise ValueError)
  /\ disassemble_instructions (0xDD :: 0x73 :: rest) = Some (Raise ValueError)
  /\ disassemble_instructions (0xDD :: 0xCB :: rest) = Some (Raise ValueError)
  /\ disassemble_instructions (0xDD :: 0xE3 :: rest) = Some (Raise ValueError).
Proof.
  pose proof short_entries as H.
  repeat (apply Forall_cons_iff in H;
          let Hk := fresh "Hk" in
          destruct H as [Hk H]; apply length_of_Some in Hk;
          destruct Hk as [? [? ?]]).
  pose proof prefix_lengths as P.
  apply Forall_cons_iff in P. destruct P as [_ P].
  apply Forall_cons_iff in P. destruct P as [P _].
  apply length_of_Some in P. destruct P as [? [? ?]].
  repeat split; apply disassemble_raises;
    first [ eapply lookup_code_short_byte; eassumption
          | eapply lookup_code_short_pair; eassumption ].
Qed.

(** What C3 says of unknown bytes, on the look-up: "???" with length 2
    after a prefix, with length 4 after a double prefix. *)
Lemma lookup_code_prefix_alone (p : Z) (e0 : entry) :
  table_get INSTRUCTION_STATES (OpByte p) = Some e0 ->
  e_length e0 = Some 0 ->
  lookup_code [p] = Ok ("???", LenInt 2).
Proof.
  intros He0 Hl0. unfold lookup_code. rewrite py_index_0. cbn [bind].
  rewrite He0. unfold code_and_length. rewrite Hl0. reflexivity.
Qed.

Lemma lookup_code_unknown_second (p b : Z) (rest : list Z) (e0 : entry) :
  table_get INSTRUCTION_STATES (OpByte p) = Some e0 ->
  e_length e0 = Some 0 ->
  table_get INSTRUCTION_STATES (OpTuple [p; b]) = None ->
  lookup_code (p :: b :: rest) = Ok ("???", LenInt 2).
Proof.
  intros He0 Hl0 Hnone. unfold lookup_code. rewrite py_index_0. cbn [bind].
  rewrite He0. unfold code_and_length. rewrite Hl0. cbn [bind snd].
  replace (0 =? 0) with true by reflexivity. cbn [List.length].
  replace (1 <? Z.of_nat (S (S (List.length rest)))) with true
    by (symmetry; apply Z.ltb_lt; lia).
  rewrite py_index_1. cbn [bind]. now rewrite Hnone.
Qed.

Lemma lookup_code_unknown_fourth (p q d op : Z) (rest : list Z) (e0 e1 : entry) :
  table_get INSTRUCTION_STATES (OpByte p) = Some e0 ->
  e_length e0 = Some 0 ->
  table_get INSTRUCTION_STATES (OpTuple [p; q]) = Some e1 ->
  e_length e1 = Some 0 ->
  table_get INSTRUCTION_STATES (OpTuple [p; q; op]) = None ->
  lookup_code (p :: q :: d :: op :: rest) = Ok ("???", LenInt 4).
Proof.
  intros He0 Hl0 He1 Hl1 Hnone. unfold lookup_code.
  rewrite py_index_0. cbn [bind].
  rewrite He0. unfold code_and_length. rewrite Hl0. cbn [bind snd].
  replace (0 =? 0) with true by reflexivity. cbn [List.length].
  replace (1 <? Z.of_nat (S (S (S (S (List.length rest)))))) with true
    by (symmetry; apply Z.ltb_lt; lia).
  rewrite py_index_1. cbn [bind]. rewrite He1, Hl1. cbn [bind snd].
  replace (0 =? 0) with true by reflexivity.
  replace (3 <? Z.of_nat (S (S (S (S (List.length rest)))))) with true
    by (symmetry; apply Z.ltb_lt; lia).
  rewrite py_index_3. cbn [bind]. now rewrite Hnone.
Qed.

(** For a first element that is not a key the fall-back length is the
    string "1", and [range(0, length)] raises TypeError; no byte gets
    there, every byte being a key. *)
Lemma disassemble_unknown_first (b : Z) (rest : list Z) :
  table_get INSTRUCTION_STATES (OpByte b) = None ->
  lookup_code (b :: rest) = Ok ("???", LenStr "1")
  /\ disassemble_instructions (b :: rest) = Some (Raise TypeError).
Proof.
  intros Hnone.
  assert (Hl : lookup_code (b :: rest) = Ok ("???", LenStr "1")).
  { unfold lookup_code. rewrite py_index_0. cbn [bind]. now rewrite Hnone. }
  split; [exact Hl|].
  unfold disassemble_instructions. cbn [List.length disassemble_loop].
  rewrite Hl. reflexivity.
Qed.

Lemma every_byte_is_a_key (b : Z) :
  0 <= b <= 255 -> table_get INSTRUCTION_STATES (OpByte b) <> None.
Proof.
  intros Hb. pose proof INSTRUCTION_STATES_has_every_byte as H.
  rewrite forallb_forall in H. specialize (H (Z.to_nat b)).
  rewrite Z2Nat.id in H by lia.
  destruct (table_get INSTRUCTION_STATES (OpByte b)); [discriminate|].
  assert (false = true); [|discriminate].
  apply H. apply in_seq. lia.
Qed.

(** The disassembler at work: an unknown ED-prefixed byte, an unknown
    fourth byte after FD CB, a known one, and the same after DD CB. *)
Example disassemble_examples :
  disassemble_instructions [0xED; 0x00; 0x00]
  = Some (Ok [("???", LenInt 2); ("NOP", LenInt 1)])
  /\ disassemble_instructions [0xFD; 0xCB; 0x02; 0x00]
     = Some (Ok [("???", LenInt 4)])
  /\ disassemble_instructions [0xFD; 0xCB; 0x02; 0x06]
     = Some (Ok [("RLC (IY+0x02)", LenInt 4)])
  /\ disassemble_instructions [0xDD; 0xCB; 0x02; 0x06]
     = Some (Raise ValueError)
  /\ disassemble_instructions [0x3E; 0x2A; 0x2E; 0x01]
     = Some (Raise ValueError).
Proof. repeat split; vm_compute; reflexivity. Qed.

(** ** How long the machine states take *)






(** The same state run: it does return, at its fifth call. *)
Example stack_write_with_two_extra :
  exists w',
    run_head 16 0
      (mkWorld push_bc_cpu []
         (MState (SW (Some rB) "value" 2 None) [] false Start :: []))
    = Some (5%nat, Ok w').
Proof. eexists. vm_compute. reflexivity. Qed.

(** ** The disassembler on byte sequences *)

Lemma table_lengths_in_range :
  forallb length_in_range INSTRUCTION_STATES = true.
Proof. vm_compute. reflexivity. Qed.

Lemma entry_length_in_range (k : opcode) (e : entry) (n : Z) :
  table_get INSTRUCTION_STATES k = Some e ->
  e_length e = Some n ->
  0 <= n <= 4
  /\ (forall a b c, k = OpTuple [a; b; c] -> 1 <= n).
Proof.
  intros He Hn. apply table_get_Some in He.
  pose proof table_lengths_in_range as H. rewrite forallb_forall in H.
  specialize (H _ He). unfold length_in_range in H. cbn [fst snd] in H.
  rewrite Hn in H. apply andb_prop in H. destruct H as [H H3].
  apply andb_prop in H. destruct H as [H0 H4].
  split; [lia|]. intros a b c ->. lia.
Qed.

Lemma py_index_in_range (l : list Z) (i : Z) :
  - Z.of_nat (List.length l) <= i < Z.of_nat (List.length l) ->
  exists x, py_index l i = Ok x.
Proof.
  intros Hi. unfold py_index.
  set (n := Z.of_nat (List.length l)) in *.
  set (j := if i <? 0 then i + n else i).
  assert (Hj : 0 <= j < n) by (subst j; destruct (Z.ltb_spec i 0); lia).
  replace ((j <? 0) || (n <=? j)) with false
    by (symmetry; apply orb_false_intro; [apply Z.ltb_ge | apply Z.leb_gt]; lia).
  destruct (nth_error l (Z.to_nat j)) as [x|] eqn:E; [now exists x|].
  apply nth_error_None in E. lia.
Qed.

Lemma code_and_length_Some (e : entry) (n : Z) :
  e_length e = Some n -> code_and_length e = Ok (e_mnemonic e, n).
Proof. unfold code_and_length. now intros ->. Qed.

Lemma code_and_length_None (e : entry) :
  e_length e = None -> code_and_length e = Raise ValueError.
Proof. unfold code_and_length. now intros ->. Qed.

(** The look-up on a sequence that begins with a byte: ValueError on an
    entry without length, else a mnemonic and a length from 1 to 4. *)
Lemma lookup_code_of_byte (b : Z) (rest : list Z) :
  is_byte b ->
  lookup_code (b :: rest) = Raise ValueError
  \/ exists code n, lookup_code (b :: rest) = Ok (code, LenInt n) /\ 1 <= n <= 4.
Proof.
  intros Hb. unfold lookup_code. rewrite py_index_0. cbn [bind].
  destruct (table_get INSTRUCTION_STATES (OpByte b)) as [e|] eqn:He;
    [|now apply every_byte_is_a_key in He].
  destruct (e_length e) as [n|] eqn:Hn;
    [rewrite (code_and_length_Some _ _ Hn)
    |rewrite (code_and_length_None _ Hn); now left].
  cbn [bind fst snd].
  destruct (entry_length_in_range _ _ _ He Hn) as [Hr _].
  destruct (Z.eqb_spec n 0) as [-> | Hn0];
    [|right; exists (e_mnemonic e), n; split; [reflexivity | lia]].
  destruct (1 <? Z.of_nat (List.length (b :: rest))) eqn:H1;
    [|right; exists "???", 2; split; [reflexivity | lia]].
  apply Z.ltb_lt in H1.
  destruct (py_index_in_range (b :: rest) 1 ltac:(lia)) as [i1 ->]. cbn [bind].
  destruct (table_get INSTRUCTION_STATES (OpTuple [b; i1])) as [e2|] eqn:He2;
    [|right; exists "???", 2; split; [reflexivity | lia]].
  destruct (e_length e2) as [n2|] eqn:Hn2;
    [rewrite (code_and_length_Some _ _ Hn2)
    |rewrite (code_and_length_None _ Hn2); now left].
  cbn [bind fst snd].
  destruct (entry_length_in_range _ _ _ He2 Hn2) as [Hr2 _].
  destruct (Z.eqb_spec n2 0) as [-> | Hn20];
    [|right; exists (e_mnemonic e2), n2; split; [reflexivity | lia]].
  destruct (3 <? Z.of_nat (List.length (b :: rest))) eqn:H3;
    [|right; exists "???", 4; split; [reflexivity | lia]].
  apply Z.ltb_lt in H3.
  destruct (py_index_in_range (b :: rest) 3 ltac:(lia)) as [i3 ->]. cbn [bind].
  destruct (table_get INSTRUCTION_STATES (OpTuple [b; i1; i3])) as [e3|] eqn:He3;
    [|right; exists "???", 4; split; [reflexivity | lia]].
  destruct (e_length e3) as [n3|] eqn:Hn3;
    [rewrite (code_and_length_Some _ _ Hn3)
    |rewrite (code_and_length_None _ Hn3); now left].
  cbn [bind fst snd].
  destruct (entry_length_in_range _ _ _ He3 Hn3) as [Hr3 H13].
  specialize (H13 _ _ _ eq_refl).
  right. exists (e_mnemonic e3), n3. split; [reflexivity | lia].
Qed.

(** The substitution of the operands raises nothing: every index it uses
    is within the sequence, counting from the end when it is negative. *)
Lemma substitute_returns (code : string) (n : Z) (instructions : list Z) :
  1 <= n -> instructions <> [] ->
  exists code', substitute code (LenInt n) instructions = Ok code'.
Proof.
  intros Hn Hne. unfold substitute.
  assert (Hlen : 1 <= Z.of_nat (List.length instructions))
    by (destruct instructions; [congruence | cbn [List.length]; lia]).
  set (len := Z.of_nat (List.length instructions)) in *.
  assert (Hd : forall c : string,
             exists code',
               (if contains "+d" c && (3 <=? len)
                then do data <- py_index instructions 2;
                     Ok (replace "+d" ("+0x" ++ format_X 2 data) c)
                else Ok c) = Ok code').
  { intros c. destruct (contains "+d" c); cbn [andb]; [|now eexists].
    destruct (Z.leb_spec 3 len); [|now eexists].
    destruct (py_index_in_range instructions 2 ltac:(fold len; lia)) as [x ->].
    cbn [bind]. now eexists. }
  cbn [len_le len_int bind].
  destruct (contains "nn" code); cbn [bind].
  - destruct (Z.leb_spec n len).
    + destruct (py_index_in_range instructions (n - 1) ltac:(fold len; lia))
        as [hi ->].
      destruct (py_index_in_range instructions (n - 2) ltac:(fold len; lia))
        as [lo ->].
      cbn [bind]. apply Hd.
    + destruct (contains "n" code); cbn [bind].
      * destruct (Z.leb_spec n len); [lia|]. apply Hd.
      * apply Hd.
  - destruct (contains "n" code); cbn [bind].
    + destruct (Z.leb_spec n len).
      * destruct (py_index_in_range instructions (n - 1) ltac:(fold len; lia))
          as [data ->].
        cbn [bind]. apply Hd.
      * apply Hd.
    + apply Hd.
Qed.

Lemma total_length_app (a b : list (string * pylen)) :
  total_length (a ++ b) = total_length a + total_length b.
Proof.
  induction a as [|[c l] a IH]; cbn; [reflexivity|].
  fold (total_length (a ++ b)). fold (total_length a).
  destruct l; cbn; lia.
Qed.

Lemma Forall_skipn {A : Type} (P : A -> Prop) (n : nat) (l : list A) :
  Forall P l -> Forall P (skipn n l).
Proof.
  revert l. induction n as [|n IH]; intros l H; [exact H|].
  destruct l as [|x l]; [exact H|]. cbn. apply IH. now inversion H.
Qed.

(** The loop of the disassembler, with as many turns allowed as bytes are
    left: it ends, with ValueError or with the lengths of what it found. *)
Lemma disassemble_loop_on_bytes (fuel : nat) :
  forall (instructions : list Z) (ret : list (string * pylen)),
    Forall is_byte instructions ->
    (List.length instructions <= fuel)%nat ->
    disassemble_loop fuel instructions ret = Some (Raise ValueError)
    \/ exists out,
         disassemble_loop fuel instructions ret = Some (Ok (ret ++ out))
         /\ Forall (fun cl => exists n, snd cl = LenInt n /\ 1 <= n <= 4) out
         /\ Z.of_nat (List.length instructions) <= total_length out
            <= Z.of_nat (List.length instructions) + 3
         /\ (instructions = [] <-> out = []).
Proof.
  induction fuel as [|fuel IH]; intros instructions ret Hbytes Hfuel.
  - destruct instructions; [|cbn in Hfuel; lia].
    right. exists []. rewrite app_nil_r. cbn. repeat split; try lia; constructor.
  - destruct instructions as [|b rest].
    { right. exists []. rewrite app_nil_r. cbn.
      repeat split; try lia; constructor. }
    cbn [disassemble_loop].
    assert (Hb : is_byte b) by now inversion Hbytes.
    destruct (lookup_code_of_byte b rest Hb) as [-> | [code [n [-> Hn]]]];
      [now left|].
    cbn [bind fst snd].
    destruct (substitute_returns code n (b :: rest) ltac:(lia) ltac:(discriminate))
      as [code' ->].
    cbn [bind pop_front].
    remember (skipn (Z.to_nat n) (b :: rest)) as rest' eqn:Hrest'.
    assert (Hskip : (List.length rest' = List.length (b :: rest) - Z.to_nat n)%nat)
      by (rewrite Hrest'; apply length_skipn).
    assert (Hbytes' : Forall is_byte rest')
      by (rewrite Hrest'; now apply Forall_skipn).
    cbn [List.length] in Hskip, Hfuel.
    destruct (IH rest' (ret ++ [(code', LenInt n)]) Hbytes' ltac:(lia))
      as [-> | [out [-> [Hall [Hsum Hnil]]]]]; [now left|].
    right. exists ((code', LenInt n) :: out).
    rewrite <- app_assoc. split; [reflexivity|].
    split; [constructor; [exists n; split; [reflexivity | lia] | exact Hall]|].
    split.
    + cbn [total_length fold_right snd]. fold (total_length out).
      cbn [List.length].
      destruct out as [|o out'].
      * assert (rest' = []) by now apply Hnil.
        assert (List.length rest' = 0%nat) by (now apply length_zero_iff_nil).
        cbn in Hsum |- *. lia.
      * assert (rest' <> []) by (intros E; apply Hnil in E; discriminate).
        assert (List.length rest' <> 0%nat)
          by (destruct rest'; [congruence | discriminate]).
        lia.
    + split; discriminate.
Qed.

(** X2: on every sequence of bytes the disassembler comes to an end, and
    the only exception it can raise is the ValueError of an entry that
    has no length; when it returns, every length it reports is between 1
    and 4, and the lengths add up to the number of bytes given, or to at
    most 3 more when the last instruction is cut short. *)
Theorem disassemble_instructions_on_bytes (instructions : list Z) :
  Forall is_byte instructions ->
  disassemble_instructions instructions = Some (Raise ValueError)
  \/ exists out,
       disassemble_instructions instructions = Some (Ok out)
       /\ Forall (fun cl => exists n, snd cl = LenInt n /\ 1 <= n <= 4) out
       /\ Z.of_nat (List.length instructions) <= total_length out
          <= Z.of_nat (List.length instructions) + 3.
Proof.
  intros Hbytes. unfold disassemble_instructions.
  destruct (disassemble_loop_on_bytes (S (List.length instructions))
              instructions [] Hbytes ltac:(lia))
    as [H | [out [H [Hall [Hsum _]]]]]; [now left|].
  right. exists out. repeat split; try assumption; lia.
Qed.

Lemma disassemble_instructions_on_bytes_witness :
  exists out,
    disassemble_instructions [0x3E; 0x2A; 0x01; 0x34] = Some (Ok out)
    /\ Forall (fun cl => exists n, snd cl = LenInt n /\ 1 <= n <= 4) out
    /\ 4 <= total_length out <= 7.
Proof.
  destruct (disassemble_instructions_on_bytes [0x3E; 0x2A; 0x01; 0x34])
    as [H | H].
  - repeat constructor; unfold is_byte; lia.
  - vm_compute in H. discriminate H.
  - exact H.
Defined.

(** ** The flags set_flags computes *)

(** The parity loop [while p > 1: p = (p&0x1) ^ (p >> 1)] ends on 0
    exactly for the bytes with an even number of bits set. *)
Lemma parity_fold_even_bits :
  forallb (fun k => Bool.eqb (parity_fold k (Z.of_nat k) =? 0)
                             (Nat.even (bit_count (Z.of_nat k))))
          (seq 0 256) = true.
Proof. vm_compute. reflexivity. Qed.

Lemma parity_fold_byte (d : Z) :
  0 <= d < 256 ->
  (parity_fold (Z.to_nat d) d =? 0) = Nat.even (bit_count d).
Proof.
  intros Hd. pose proof parity_fold_even_bits as H.
  rewrite forallb_forall in H. specialize (H (Z.to_nat d)).
  rewrite Z2Nat.id in H by lia.
  apply eqb_prop. apply H. apply in_seq. lia.
Qed.

Lemma fbit_assign_same (st : astate) (f : flag) (x : bool) (b : Z) :
  b = flag_bit f -> fbit (assign_flag st f x) b = x.
Proof.
  intros ->. assert (Hb : 0 <= flag_bit f < 8) by (destruct f; cbn; lia).
  unfold assign_flag.
  destruct x; rewrite ?fbit_setflag, ?fbit_resetflag by assumption;
    rewrite Z.eqb_refl; cbn; rewrite ?orb_true_r, ?andb_false_r; reflexivity.
Qed.

Lemma low_byte_bit (v b : Z) :
  0 <= b < 8 ->
  (Z.land (Z.shiftr (Z.land v 255) b) 1 =? 1) = Z.testbit v b.
Proof.
  intros Hb. rewrite bit_of_shift by lia.
  change (Z.land v 255) with (mask8 v). rewrite testbit_mask8 by lia.
  now destruct (Z.testbit v b).
Qed.

Lemma dict_get_set_same (d : dict) (k : string) (v : Z) :
  dict_get (dict_set d k v) k = Some v.
Proof.
  induction d as [|[k' v'] d IH]; cbn.
  - now rewrite String.eqb_refl.
  - destruct (String.eqb k' k) eqn:E; cbn; rewrite E; [reflexivity | exact IH].
Qed.

Lemma dict_get_set_other (d : dict) (k k0 : string) (v : Z) :
  k <> k0 -> dict_get (dict_set d k v) k0 = dict_get d k0.
Proof.
  intros Hne. induction d as [|[k' v'] d IH]; cbn.
  - apply String.eqb_neq in Hne. now rewrite Hne.
  - destruct (String.eqb k' k) eqn:E; cbn.
    + apply String.eqb_eq in E. subst k'.
      apply String.eqb_neq in Hne. now rewrite Hne.
    + destruct (String.eqb k' k0); [reflexivity | exact IH].
Qed.

(** Bit [b] of F after the computed part of [set_flags]: the assignment
    to [b] itself gives the value, the others leave it alone. *)
Ltac computed_bit :=
  repeat lazymatch goal with
         | |- fbit (assign_flag _ _ _) _ = _ =>
             first [ apply fbit_assign_same; reflexivity
                   | apply fbit_assign_other; [lia | cbn; lia | ] ]
         | |- fbit (if _ then _ else _) _ = _ => apply fbit_if
         end.

(** X3: for every eight-character template, every value and every state,
    the letters of the template make [set_flags] compute the flags from
    the value: S, 5 and 3 are bits 7, 5 and 3 of the value, Z tells
    whether its low byte is zero, P whether the low byte has an even
    number of bits set (the parity loop of the code), V whether the value
    is outside -128..127, C whether it is outside 0..255; and the low
    byte is stored under the key. *)
Theorem set_flags_computes_flags
    (flags : string) (key : option string) (v : Z) (st : astate) :
  String.length flags = 8%nat ->
  exists st',
    set_flags flags key None (PLit v) None st [] = Ok st'
    /\ (String.get 0 flags = Some "S"%char ->
        getflag st' fS = Z.b2z (Z.testbit v 7))
    /\ (String.get 1 flags = Some "Z"%char ->
        getflag st' fZ = Z.b2z (mask8 v =? 0))
    /\ (String.get 2 flags = Some "5"%char ->
        getflag st' f5 = Z.b2z (Z.testbit v 5))
    /\ (String.get 4 flags = Some "3"%char ->
        getflag st' f3 = Z.b2z (Z.testbit v 3))
    /\ (String.get 5 flags = Some "P"%char ->
        getflag st' fP = Z.b2z (Nat.even (bit_count (mask8 v))))
    /\ (String.get 5 flags = Some "V"%char ->
        getflag st' fV = Z.b2z ((127 <? v) || (v <? -128)))
    /\ (String.get 7 flags = Some "C"%char ->
        getflag st' fC = Z.b2z ((255 <? v) || (v <? 0)))
    /\ (forall k, key = Some k -> dict_get (a_kwargs st') k = Some (mask8 v)).
Proof.
  intros Hlen.
  destruct flags as [|c0 [|c1 [|c2 [|c3 [|c4 [|c5 [|c6 [|c7 [|]]]]]]]]];
    try discriminate Hlen.
  unfold set_flags. cbn [bind flag_char String.get]. cbv zeta.
  match goal with
  | |- context [force_literal_flags ?fl ?ns ?pre] =>
      destruct (force_literal_flags_spec fl ns eq_refl
                  ltac:(repeat constructor) pre) as [st1 [Hrun Hbits]]
  end.
  rewrite Hrun. cbn [bind]. eexists. split; [reflexivity|].
  repeat split.
  all: try (intros Hi; cbn in Hi; injection Hi as ->;
            rewrite !getflag_fbit, fbit_after_key).
  - change fS with (flag_at 0). flag_bit_after Hbits. f_equal.
    known_chars. rewrite <- (low_byte_bit v 7) by lia. computed_bit.
  - change fZ with (flag_at 1). flag_bit_after Hbits. f_equal.
    known_chars. computed_bit.
  - change f5 with (flag_at 2). flag_bit_after Hbits. f_equal.
    known_chars. rewrite <- (low_byte_bit v 5) by lia. computed_bit.
  - change f3 with (flag_at 4). flag_bit_after Hbits. f_equal.
    known_chars. rewrite <- (low_byte_bit v 3) by lia. computed_bit.
  - change fP with (flag_at 5). flag_bit_after Hbits. f_equal.
    known_chars.
    rewrite <- (parity_fold_byte (mask8 v)) by apply mask8_range.
    computed_bit.
  - change (flag_bit fV) with (flag_bit (flag_at 5)). flag_bit_after Hbits.
    f_equal. known_chars. computed_bit.
  - change fC with (flag_at 7). flag_bit_after Hbits. f_equal.
    known_chars. computed_bit.
  - intros k ->. cbn. apply dict_get_set_same.
Qed.

Lemma set_flags_computes_flags_witness :
  exists st',
    set_flags "SZ503P0C" (Some "value") None (PLit 0x1A5) None (flag_state 0x00) []
    = Ok st'
    /\ getflag st' fS = 1 /\ getflag st' fZ = 0 /\ getflag st' fP = 1
    /\ getflag st' fC = 1
    /\ dict_get (a_kwargs st') "value" = Some 0xA5.
Proof.
  destruct (set_flags_computes_flags "SZ503P0C" (Some "value") 0x1A5
              (flag_state 0x00) eq_refl)
    as [st' [Hrun [HS [HZ [_ [_ [HP [_ [HC Hk]]]]]]]]].
  exists st'. split; [exact Hrun|].
  split; [exact (HS eq_refl)|]. split; [exact (HZ eq_refl)|].
  split; [exact (HP eq_refl)|]. split; [exact (HC eq_refl)|].
  exact (Hk "value" eq_refl).
Defined.

(** ** Decimal adjust *)

Lemma daa_add_checked :
  forallb (fun t => daa_add_ok (fst (fst t)) (snd (fst t)) (snd t)) bcd_operands
  = true.
Proof. vm_compute. reflexivity. Qed.

Lemma daa_sub_checked :
  forallb (fun t => daa_sub_ok (fst (fst t)) (snd (fst t)) (snd t)) bcd_operands
  = true.
Proof. vm_compute. reflexivity. Qed.

Lemma in_bcd_operands (a b cin : Z) :
  0 <= a < 100 -> 0 <= b < 100 -> 0 <= cin <= 1 -> In (a, b, cin) bcd_operands.
Proof.
  intros Ha Hb Hc. unfold bcd_operands.
  apply in_prod; [apply in_prod|].
  - apply in_map_iff. exists (Z.to_nat a). split; [lia | apply in_seq; lia].
  - apply in_map_iff. exists (Z.to_nat b). split; [lia | apply in_seq; lia].
  - assert (cin = 0 \/ cin = 1) as [-> | ->] by lia; cbn; tauto.
Qed.

(** [daa] reads A and the flags C, H and N, and writes A and F. *)
Lemma daa_eq (st : astate) :
  daa st []
  = Ok (set_reg
          (set_reg st rA
             (fst (daa_values (get_reg st rA) (getflag st fC) (getflag st fH)
                              (getflag st fN))))
          rF
          (snd (daa_values (get_reg st rA) (getflag st fC) (getflag st fH)
                           (getflag st fN)))).
Proof.
  unfold daa, daa_values, getflag, regs_getflag, get_reg.
  cbn [getreg flag_bit].
  repeat match goal with
         | |- context [if ?c then _ else _] =>
             lazymatch c with
             | context [if _ then _ else _] => fail
             | _ => destruct c
             end
         end; reflexivity.
Qed.

Lemma get_reg_A_after (st : astate) (x y : Z) :
  get_reg (set_reg (set_reg st rA x) rF y) rA = mask8 x.
Proof. destruct st as [[[] ? ? ? ? ? ? ? ?] ? ? ?]. reflexivity. Qed.

Lemma getflag_set_reg_F (st : astate) (y : Z) (f : flag) :
  getflag (set_reg st rF y) f = Z.b2z (Z.testbit y (flag_bit f)).
Proof.
  rewrite getflag_fbit, fbit_set_reg_F by (destruct f; cbn; lia). reflexivity.
Qed.

(** X4: [daa] after the binary addition of two packed BCD bytes (with a
    carry in), A holding the low byte of the sum and the flags C and H its
    carry and half carry, N being clear: A becomes the packed BCD byte of
    the decimal sum modulo 100, C tells whether the sum reached 100, Z
    whether the result is zero, and N stays clear. *)
Theorem daa_after_bcd_addition (a b cin : Z) (st : astate) :
  0 <= a < 100 -> 0 <= b < 100 -> 0 <= cin <= 1 ->
  get_reg st rA = mask8 (bcd a + bcd b + cin) ->
  getflag st fC = Z.b2z (0xFF <? bcd a + bcd b + cin) ->
  getflag st fH = Z.b2z (0xF <? Z.land (bcd a) 0xF + Z.land (bcd b) 0xF + cin) ->
  getflag st fN = 0 ->
  exists st',
    daa st [] = Ok st'
    /\ get_reg st' rA = bcd ((a + b + cin) mod 100)
    /\ getflag st' fC = Z.b2z (100 <=? a + b + cin)
    /\ getflag st' fZ = Z.b2z ((a + b + cin) mod 100 =? 0)
    /\ getflag st' fN = 0.
Proof.
  intros Ha Hb Hc HA HC HH HN.
  pose proof daa_add_checked as H. rewrite forallb_forall in H.
  specialize (H _ (in_bcd_operands a b cin Ha Hb Hc)). cbn [fst snd] in H.
  unfold daa_add_ok in H.
  rewrite daa_eq, HA, HC, HH, HN.
  destruct (daa_values _ _ _ _) as [A' F'].
  repeat (apply andb_prop in H; destruct H as [H ?]).
  eexists. split; [reflexivity|]. cbn [fst snd].
  rewrite get_reg_A_after, !getflag_set_reg_F. cbn [flag_bit].
  repeat match goal with
         | E : Bool.eqb _ _ = true |- _ => apply eqb_prop in E; rewrite E; clear E
         end.
  apply Z.eqb_eq in H. subst A'.
  rewrite mask8_id by lia.
  destruct (Z.testbit F' 1); [discriminate|].
  repeat split.
Qed.

Lemma daa_after_bcd_addition_witness :
  exists st',
    daa (acc_state 0x7D 0x00) [] = Ok st'
    /\ get_reg st' rA = 0x83
    /\ getflag st' fC = 0.
Proof.
  destruct (daa_after_bcd_addition 38 45 0 (acc_state 0x7D 0x00))
    as [st' [Hrun [HA [HC _]]]]; try lia; try reflexivity.
  exists st'. repeat split; assumption.
Defined.

(** X5: [daa] after the binary subtraction of a packed BCD byte from
    another (with a borrow in), A holding the low byte of the difference
    and the flags C and H its borrow and half borrow, N being set: A
    becomes the packed BCD byte of the decimal difference modulo 100, C
    tells whether it went below zero, Z whether the result is zero, and N
    stays set. *)
Theorem daa_after_bcd_subtraction (a b cin : Z) (st : astate) :
  0 <= a < 100 -> 0 <= b < 100 -> 0 <= cin <= 1 ->
  get_reg st rA = mask8 (bcd a - bcd b - cin) ->
  getflag st fC = Z.b2z (bcd a - bcd b - cin <? 0) ->
  getflag st fH = Z.b2z (Z.land (bcd a) 0xF - Z.land (bcd b) 0xF - cin <? 0) ->
  getflag st fN = 1 ->
  exists st',
    daa st [] = Ok st'
    /\ get_reg st' rA = bcd ((a - b - cin) mod 100)
    /\ getflag st' fC = Z.b2z (a - b - cin <? 0)
    /\ getflag st' fZ = Z.b2z ((a - b - cin) mod 100 =? 0)
    /\ getflag st' fN = 1.
Proof.
  intros Ha Hb Hc HA HC HH HN.
  pose proof daa_sub_checked as H. rewrite forallb_forall in H.
  specialize (H _ (in_bcd_operands a b cin Ha Hb Hc)). cbn [fst snd] in H.
  unfold daa_sub_ok in H.
  rewrite daa_eq, HA, HC, HH, HN.
  destruct (daa_values _ _ _ _) as [A' F'].
  repeat (apply andb_prop in H; destruct H as [H ?]).
  eexists. split; [reflexivity|]. cbn [fst snd].
  rewrite get_reg_A_after, !getflag_set_reg_F. cbn [flag_bit].
  repeat match goal with
         | E : Bool.eqb _ _ = true |- _ => apply eqb_prop in E; rewrite E; clear E
         end.
  apply Z.eqb_eq in H. subst A'.
  rewrite mask8_id by lia.
  destruct (Z.testbit F' 1); [|discriminate].
  repeat split.
Qed.

Lemma daa_after_bcd_subtraction_witness :
  exists st',
    daa (acc_state 0xED 0x13) [] = Ok st'
    /\ get_reg st' rA = 0x87
    /\ getflag st' fC = 1.
Proof.
  destruct (daa_after_bcd_subtraction 32 45 0 (acc_state 0xED 0x13))
    as [st' [Hrun [HA [HC _]]]]; try lia; try reflexivity.
  exists st'. repeat split; assumption.
Defined.

(** ** Rotates and shifts *)

(** The flag update of the rotates and shifts in closed form. *)
Lemma set_flags_rot_eq (f : valfn) (dest : regname) (st : astate)
    (args : list Z) (D : Z) :
  f st args = Ok D ->
  set_flags "--503-0C" (Some "value") None (PCall f) (Some dest) st args
  = Ok (set_reg
          (set_kw (set_reg st rF (rot_flags (get_reg st rF) D))
                  "value" (Z.land D 0xFF))
          dest (Z.land D 0xFF)).
Proof.
  intros HD. unfold set_flags. rewrite HD. cbn [bind].
  destruct st as [[[a f0 b c d e h l i r ixh ixl iyh iyl sp pc a' f' b' c' d' e' h' l']
                   i1 i2 im it mri mem ior iow] kws pl ds].
  unfold rot_flags.
  cbv -[Z.add Z.sub Z.opp Z.mul Z.land Z.lor Z.lxor Z.lnot Z.shiftl Z.shiftr
        Z.eqb Z.ltb Z.leb Z.of_nat Z.to_nat mask8 assign_flag set_reg get_reg
        set_kw orb].
  destruct (Z.land (Z.shiftr (Z.land D 255) 5) 1 =? 1);
    destruct (Z.land (Z.shiftr (Z.land D 255) 3) 1 =? 1);
    destruct ((255 <? D) || (D <? 0));
    destruct dest; machine; reflexivity.
Qed.

Lemma rot_flags_C (F D : Z) :
  Z.testbit (rot_flags F D) 0 = ((255 <? D) || (D <? 0)).
Proof.
  unfold rot_flags.
  destruct (Z.land (Z.shiftr (Z.land D 255) 5) 1 =? 1);
    destruct (Z.land (Z.shiftr (Z.land D 255) 3) 1 =? 1);
    destruct ((255 <? D) || (D <? 0));
    repeat first [ rewrite testbit_mask8 by lia
                 | rewrite Z.land_spec | rewrite Z.lor_spec ];
    cbn; rewrite ?andb_true_r, ?orb_true_r, ?orb_false_r, ?andb_false_r;
    reflexivity.
Qed.

(** The state a rotate or a shift leaves: the register holds the low byte
    of the value, the flags are those written to F, the other registers
    of eight bits are as before. *)
Lemma rot_state (st : astate) (x d d' : Z) (k : string) (r : regname) :
  byte_register r = true ->
  let st' := set_reg (set_kw (set_reg st rF x) k d) r d' in
  get_reg st' r = mask8 d'
  /\ (forall f, getflag st' f = Z.b2z (Z.testbit x (flag_bit f)))
  /\ (forall q, byte_register q = true -> q <> r -> get_reg st' q = get_reg st q).
Proof.
  intros Hr st'. subst st'.
  destruct st as [[[] ? ? ? ? ? ? ? ?] ? ? ?].
  destruct r; try discriminate Hr; (split; [reflexivity|]); split.
  all: try (intros f; unfold getflag, regs_getflag; cbn;
            rewrite bit_of_shift, testbit_mask8 by (destruct f; cbn; lia);
            reflexivity).
  all: intros q Hq Hne; destruct q; try discriminate Hq; try congruence;
    reflexivity.
Qed.

(** A property of all bytes, checked on each of them. *)
Lemma forall_bytes (P : Z -> bool) :
  forallb (fun k => P (Z.of_nat k)) (seq 0 256) = true ->
  forall v, 0 <= v < 256 -> P v = true.
Proof.
  intros H v Hv. rewrite forallb_forall in H.
  specialize (H (Z.to_nat v)). rewrite Z2Nat.id in H by lia.
  apply H. apply in_seq. lia.
Qed.

Ltac check_bytes P v Hv :=
  let H := fresh "H" in
  pose proof (forall_bytes P ltac:(vm_compute; reflexivity) v Hv) as H;
  cbv beta zeta in H;
  repeat (apply andb_prop in H; let H' := fresh "H" in destruct H as [H H']);
  repeat match goal with
         | E : (_ =? _) = true |- _ => apply Z.eqb_eq in E
         | E : (_ <=? _) = true |- _ => apply Z.leb_le in E
         | E : (_ <? _) = true |- _ => apply Z.ltb_lt in E
         | E : Bool.eqb _ _ = true |- _ => apply eqb_prop in E
         end.



Lemma rl_value (v c : Z) :
  0 <= v < 256 -> 0 <= c <= 1 ->
  let D := Z.lor (Z.shiftl v 1) c in
  mask8 D = 2 * v mod 256 + c
  /\ ((255 <? D) || (D <? 0)) = (128 <=? v).
Proof.
  intros Hv Hc. assert (c = 0 \/ c = 1) as [-> | ->] by lia.
  - check_bytes (fun v => let D := Z.lor (Z.shiftl v 1) 0 in
                          (mask8 D =? 2 * v mod 256 + 0)
                          && Bool.eqb ((255 <? D) || (D <? 0)) (128 <=? v)) v Hv.
    now split.
  - check_bytes (fun v => let D := Z.lor (Z.shiftl v 1) 1 in
                          (mask8 D =? 2 * v mod 256 + 1)
                          && Bool.eqb ((255 <? D) || (D <? 0)) (128 <=? v)) v Hv.
    now split.
Qed.

Lemma rr_value (v c : Z) :
  0 <= v < 256 -> 0 <= c <= 1 ->
  let D := Z.lor (Z.lor (Z.shiftr v 1) (Z.shiftl c 7))
                 (Z.shiftl (Z.land v 0x01) 8) in
  mask8 D = v / 2 + 128 * c
  /\ ((255 <? D) || (D <? 0)) = (v mod 2 =? 1).
Proof.
  intros Hv Hc. assert (c = 0 \/ c = 1) as [-> | ->] by lia.
  - check_bytes (fun v => let D := Z.lor (Z.lor (Z.shiftr v 1) (Z.shiftl 0 7))
                                         (Z.shiftl (Z.land v 0x01) 8) in
                          (mask8 D =? v / 2 + 128 * 0)
                          && Bool.eqb ((255 <? D) || (D <? 0)) (v mod 2 =? 1)) v Hv.
    now split.
  - check_bytes (fun v => let D := Z.lor (Z.lor (Z.shiftr v 1) (Z.shiftl 1 7))
                                         (Z.shiftl (Z.land v 0x01) 8) in
                          (mask8 D =? v / 2 + 128 * 1)
                          && Bool.eqb ((255 <? D) || (D <? 0)) (v mod 2 =? 1)) v Hv.
    now split.
Qed.

(** What a rotate or a shift on a register does, given the value [D] its
    callable computes. *)
Lemma rotate_register (f : astate -> result Z) (r : regname) (st : astate) (D : Z) :
  byte_register r = true ->
  f st = Ok D ->
  exists st',
    set_flags "--503-0C" (Some "value") None (PCall (lam1 f)) (Some r) st []
    = Ok st'
    /\ get_reg st' r = mask8 D
    /\ getflag st' fC = Z.b2z ((255 <? D) || (D <? 0))
    /\ (forall q, byte_register q = true -> q <> r -> get_reg st' q = get_reg st q).
Proof.
  intros Hr HD.
  rewrite (set_flags_rot_eq (lam1 f) r st [] D HD).
  eexists. split; [reflexivity|].
  destruct (rot_state st (rot_flags (get_reg st rF) D) (Z.land D 255)
              (Z.land D 255) "value" r Hr) as [Hreg [Hflag Hother]].
  split; [rewrite Hreg; apply mask8_id; apply mask8_range|].
  split; [rewrite Hflag; cbn [flag_bit]; now rewrite rot_flags_C | exact Hother].
Qed.

Lemma rotated_back (v : Z) :
  0 <= v < 256 ->
  0 <= 2 * v mod 256 + v / 128 < 256
  /\ (2 * v mod 256 + v / 128) / 2 + 128 * ((2 * v mod 256 + v / 128) mod 2) = v
  /\ Z.b2z (128 <=? v) = v / 128
  /\ Z.b2z ((2 * v mod 256 + v / 128) mod 2 =? 1) = v / 128.
Proof.
  intros Hv.
  check_bytes (fun v => let w := 2 * v mod 256 + v / 128 in
                        (0 <=? w) && (w <? 256)
                        && (w / 2 + 128 * (w mod 2) =? v)
                        && (Z.b2z (128 <=? v) =? v / 128)
                        && (Z.b2z (w mod 2 =? 1) =? v / 128)) v Hv.
  split; [split; assumption|]. split; [assumption|]. split; assumption.
Qed.



Lemma getflag_bit (st : astate) (f : flag) : 0 <= getflag st f <= 1.
Proof.
  unfold getflag. destruct (getflag_0_or_1 (cpu_reg (a_cpu st)) f) as [-> | ->]; lia.
Qed.

Lemma rotated_back_through_carry (v c : Z) :
  0 <= v < 256 -> 0 <= c <= 1 ->
  0 <= 2 * v mod 256 + c < 256
  /\ (2 * v mod 256 + c) / 2 + 128 * Z.b2z (128 <=? v) = v
  /\ Z.b2z ((2 * v mod 256 + c) mod 2 =? 1) = c
  /\ 0 <= Z.b2z (128 <=? v) <= 1.
Proof.
  intros Hv Hc. assert (c = 0 \/ c = 1) as [-> | ->] by lia.
  - check_bytes (fun v => let w := 2 * v mod 256 + 0 in
                          (0 <=? w) && (w <? 256)
                          && (w / 2 + 128 * Z.b2z (128 <=? v) =? v)
                          && (Z.b2z (w mod 2 =? 1) =? 0)) v Hv.
    split; [split; assumption|]. split; [assumption|]. split; [assumption|].
    destruct (128 <=? v); cbn; lia.
  - check_bytes (fun v => let w := 2 * v mod 256 + 1 in
                          (0 <=? w) && (w <? 256)
                          && (w / 2 + 128 * Z.b2z (128 <=? v) =? v)
                          && (Z.b2z (w mod 2 =? 1) =? 1)) v Hv.
    split; [split; assumption|]. split; [assumption|]. split; [assumption|].
    destruct (128 <=? v); cbn; lia.
Qed.

(** X7: RL on a register of eight bits rotates the nine bits made of the
    register and the carry flag left by one, and RR after it rotates them
    back: both the register and the carry flag hold what they held. *)
Theorem rl_then_rr_restores (r : regname) (k1 k2 : string) (st : astate) :
  byte_register r = true ->
  0 <= get_reg st r < 256 ->
  exists st1 st2,
    RL (Some r) k1 st [] = Ok st1
    /\ RR (Some r) k2 st1 [] = Ok st2
    /\ get_reg st1 r = 2 * get_reg st r mod 256 + getflag st fC
    /\ getflag st1 fC = get_reg st r / 128
    /\ get_reg st2 r = get_reg st r
    /\ getflag st2 fC = getflag st fC
    /\ (forall q, byte_register q = true -> q <> r ->
          get_reg st2 q = get_reg st q).
Proof.
  intros Hr Hv. unfold RL, RR.
  pose proof (getflag_bit st fC) as Hc.
  destruct (rotate_register
              (fun state => Ok (Z.lor (Z.shiftl (get_reg state r) 1)
                                      (getflag state fC)))
              r st _ Hr eq_refl) as [st1 [Hrun1 [Hreg1 [Hc1 Hq1]]]].
  destruct (rl_value _ _ Hv Hc) as [Hlow Hcarry]. cbv zeta in Hlow, Hcarry.
  rewrite Hlow in Hreg1. rewrite Hcarry in Hc1.
  destruct (rotated_back_through_carry _ _ Hv Hc) as [Hw [Hback [Hb0 Hb7]]].
  destruct (rotate_register
              (fun state =>
                 Ok (Z.lor (Z.lor (Z.shiftr (get_reg state r) 1)
                                  (Z.shiftl (getflag state fC) 7))
                           (Z.shiftl (Z.land (get_reg state r) 0x01) 8)))
              r st1 _ Hr eq_refl) as [st2 [Hrun2 [Hreg2 [Hc2 Hq2]]]].
  rewrite Hreg1, Hc1 in Hreg2, Hc2.
  destruct (rr_value _ _ Hw Hb7) as [Hlow2 Hcarry2]. cbv zeta in Hlow2, Hcarry2.
  rewrite Hlow2 in Hreg2. rewrite Hcarry2 in Hc2.
  exists st1, st2. repeat split; try assumption.
  - rewrite Hc1. destruct (rotated_back _ Hv) as [_ [_ [E _]]]. exact E.
  - now rewrite Hreg2.
  - now rewrite Hc2.
  - intros q Hq Hne. rewrite (Hq2 q Hq Hne). now apply Hq1.
Qed.

Lemma rl_then_rr_restores_witness :
  exists st1 st2,
    RL (Some rA) "value" (acc_state 0x96 0x01) [] = Ok st1
    /\ RR (Some rA) "value" st1 [] = Ok st2
    /\ get_reg st1 rA = 0x2D
    /\ getflag st1 fC = 1
    /\ get_reg st2 rA = 0x96
    /\ getflag st2 fC = 1.
Proof.
  destruct (rl_then_rr_restores rA "value" "value" (acc_state 0x96 0x01)
              eq_refl)
    as [st1 [st2 [H1 [H2 [H3 [H4 [H5 [H6 _]]]]]]]].
  - vm_compute. split; [discriminate | reflexivity].
  - exists st1, st2. repeat split; assumption.
Defined.

Lemma shift_values (v : Z) :
  0 <= v < 256 ->
  (let D := Z.shiftl v 1 in
   mask8 D = 2 * v mod 256 /\ ((255 <? D) || (D <? 0)) = (128 <=? v))
  /\ (let D := Z.lor (Z.shiftl v 1) 0x01 in
      mask8 D = 2 * v mod 256 + 1 /\ ((255 <? D) || (D <? 0)) = (128 <=? v))
  /\ (let D := Z.lor (Z.shiftr v 1) (Z.shiftl (Z.land v 0x01) 8) in
      mask8 D = v / 2 /\ ((255 <? D) || (D <? 0)) = (v mod 2 =? 1))
  /\ (let D := Z.lor (Z.lor (Z.shiftr v 1) (Z.land v 0x80))
                     (Z.shiftl (Z.land v 0x01) 8) in
      mask8 D = v / 2 + 128 * (v / 128)
      /\ ((255 <? D) || (D <? 0)) = (v mod 2 =? 1)).
Proof.
  intros Hv.
  check_bytes
    (fun v =>
       (let D := Z.shiftl v 1 in
        (mask8 D =? 2 * v mod 256)
        && Bool.eqb ((255 <? D) || (D <? 0)) (128 <=? v))
       && (let D := Z.lor (Z.shiftl v 1) 0x01 in
           (mask8 D =? 2 * v mod 256 + 1)
           && Bool.eqb ((255 <? D) || (D <? 0)) (128 <=? v))
       && (let D := Z.lor (Z.shiftr v 1) (Z.shiftl (Z.land v 0x01) 8) in
           (mask8 D =? v / 2)
           && Bool.eqb ((255 <? D) || (D <? 0)) (v mod 2 =? 1))
       && (let D := Z.lor (Z.lor (Z.shiftr v 1) (Z.land v 0x80))
                          (Z.shiftl (Z.land v 0x01) 8) in
           (mask8 D =? v / 2 + 128 * (v / 128))
           && Bool.eqb ((255 <? D) || (D <? 0)) (v mod 2 =? 1))) v Hv.
  repeat match goal with
         | E : _ && _ = true |- _ =>
             apply andb_prop in E; destruct E as [? ?]
         end.
  repeat match goal with
         | E : (_ =? _) = true |- _ => apply Z.eqb_eq in E
         | E : Bool.eqb _ _ = true |- _ => apply eqb_prop in E
         end.
  cbv zeta. repeat split; assumption.
Qed.

(** X8: the shifts on a register of eight bits: SLA doubles the byte
    modulo 256 and SL1 adds one to that; SRL halves it; SRA halves it and
    keeps bit 7; the carry flag receives the bit shifted out, bit 7 for
    the left shifts and bit 0 for the right ones. *)
Theorem shifts_on_a_register (r : regname) (k : string) (st : astate) :
  byte_register r = true ->
  0 <= get_reg st r < 256 ->
  (exists st', SLA (Some r) k st [] = Ok st'
               /\ get_reg st' r = 2 * get_reg st r mod 256
               /\ getflag st' fC = get_reg st r / 128)
  /\ (exists st', SL1 (Some r) k st [] = Ok st'
                  /\ get_reg st' r = 2 * get_reg st r mod 256 + 1
                  /\ getflag st' fC = get_reg st r / 128)
  /\ (exists st', SRL (Some r) k st [] = Ok st'
                  /\ get_reg st' r = get_reg st r / 2
                  /\ getflag st' fC = get_reg st r mod 2)
  /\ (exists st', SRA (Some r) k st [] = Ok st'
                  /\ get_reg st' r = get_reg st r / 2 + 128 * (get_reg st r / 128)
                  /\ getflag st' fC = get_reg st r mod 2).
Proof.
  intros Hr Hv. unfold SLA, SL1, SRL, SRA.
  destruct (shift_values _ Hv)
    as [[Ha1 Ha2] [[Hb1 Hb2] [[Hc1 Hc2] [Hd1 Hd2]]]].
  destruct (rotated_back _ Hv) as [_ [_ [H7 _]]].
  assert (H0 : Z.b2z (get_reg st r mod 2 =? 1) = get_reg st r mod 2).
  { pose proof (Z.mod_pos_bound (get_reg st r) 2 ltac:(lia)).
    destruct (Z.eqb_spec (get_reg st r mod 2) 1) as [E | E]; cbn; lia. }
  repeat split.
  - destruct (rotate_register
                (fun state => Ok (Z.shiftl (get_reg state r) 1))
                r st _ Hr eq_refl) as [st' [Hrun [Hreg [Hc _]]]].
    exists st'. split; [exact Hrun|]. split; congruence.
  - destruct (rotate_register
                (fun state => Ok (Z.lor (Z.shiftl (get_reg state r) 1) 0x01))
                r st _ Hr eq_refl) as [st' [Hrun [Hreg [Hc _]]]].
    exists st'. split; [exact Hrun|]. split; congruence.
  - destruct (rotate_register
                (fun state =>
                   Ok (Z.lor (Z.shiftr (get_reg state r) 1)
                             (Z.shiftl (Z.land (get_reg state r) 0x01) 8)))
                r st _ Hr eq_refl) as [st' [Hrun [Hreg [Hc _]]]].
    exists st'. split; [exact Hrun|]. split; congruence.
  - destruct (rotate_register
                (fun state =>
                   Ok (Z.lor (Z.lor (Z.shiftr (get_reg state r) 1)
                                    (Z.land (get_reg state r) 0x80))
                             (Z.shiftl (Z.land (get_reg state r) 0x01) 8)))
                r st _ Hr eq_refl) as [st' [Hrun [Hreg [Hc _]]]].
    exists st'. split; [exact Hrun|]. split; congruence.
Qed.

Lemma shifts_on_a_register_witness :
  (exists st', SLA (Some rA) "value" (acc_state 0x96 0x00) [] = Ok st'
               /\ get_reg st' rA = 0x2C /\ getflag st' fC = 1)
  /\ (exists st', SRA (Some rA) "value" (acc_state 0x96 0x00) [] = Ok st'
                  /\ get_reg st' rA = 0xCB /\ getflag st' fC = 0).
Proof.
  destruct (shifts_on_a_register rA "value" (acc_state 0x96 0x00) eq_refl)
    as [Hsla [_ [_ Hsra]]].
  - vm_compute. split; [discriminate | reflexivity].
  - split; assumption.
Defined.

(** ** BIT, SET and RES *)

(** The flag update of BIT in closed form. *)
Lemma set_flags_bit_eq (f : valfn) (st : astate) (args : list Z) (D : Z) :
  f st args = Ok D ->
  set_flags "SZ513P0-" (Some "value") None (PCall f) None st args
  = Ok (set_kw (set_reg st rF (bit_flags (get_reg st rF) D))
               "value" (Z.land D 0xFF)).
Proof.
  intros HD. unfold set_flags. rewrite HD. cbn [bind].
  destruct st as [[[a f0 b c d e h l i r ixh ixl iyh iyl sp pc a' f' b' c' d' e' h' l']
                   i1 i2 im it mri mem ior iow] kws pl ds].
  unfold bit_flags.
  cbv -[Z.add Z.sub Z.opp Z.mul Z.land Z.lor Z.lxor Z.lnot Z.shiftl Z.shiftr
        Z.eqb Z.ltb Z.leb Z.of_nat Z.to_nat mask8 assign_flag set_reg get_reg
        set_kw parity_fold].
  destruct (Z.land (Z.shiftr (Z.land D 255) 7) 1 =? 1);
    destruct (Z.land D 255 =? 0);
    destruct (Z.land (Z.shiftr (Z.land D 255) 5) 1 =? 1);
    destruct (Z.land (Z.shiftr (Z.land D 255) 3) 1 =? 1);
    destruct (parity_fold (Z.to_nat (Z.land D 255)) (Z.land D 255) =? 0);
    cbv -[Z.add Z.sub Z.opp Z.mul Z.land Z.lor Z.lxor Z.lnot Z.shiftl Z.shiftr
          Z.eqb Z.ltb Z.leb Z.of_nat Z.to_nat mask8 parity_fold];
    reflexivity.
Qed.

Lemma bit_flags_Z (F D : Z) :
  Z.testbit (bit_flags F D) 6 = (Z.land D 0xFF =? 0).
Proof.
  unfold bit_flags.
  destruct (Z.land (Z.shiftr (Z.land D 255) 7) 1 =? 1);
    destruct (Z.land D 255 =? 0);
    destruct (Z.land (Z.shiftr (Z.land D 255) 5) 1 =? 1);
    destruct (Z.land (Z.shiftr (Z.land D 255) 3) 1 =? 1);
    destruct (parity_fold (Z.to_nat (Z.land D 255)) (Z.land D 255) =? 0);
    repeat first [ rewrite testbit_mask8 by lia
                 | rewrite Z.land_spec | rewrite Z.lor_spec ];
    cbn; rewrite ?andb_true_r, ?orb_true_r, ?orb_false_r, ?andb_false_r;
    reflexivity.
Qed.

(** The state BIT leaves: the flags are those written to F, the registers
    of eight bits are as before. *)
Lemma flags_only_state (st : astate) (x d : Z) (k : string) :
  let st' := set_kw (set_reg st rF x) k d in
  (forall f, getflag st' f = Z.b2z (Z.testbit x (flag_bit f)))
  /\ (forall q, byte_register q = true -> get_reg st' q = get_reg st q).
Proof.
  intros st'. subst st'.
  destruct st as [[[] ? ? ? ? ? ? ? ?] ? ? ?]. split.
  - intros f. unfold getflag, regs_getflag. cbn.
    rewrite bit_of_shift, testbit_mask8 by (destruct f; cbn; lia). reflexivity.
  - intros q Hq. destruct q; try discriminate Hq; reflexivity.
Qed.

Lemma tested_bit (n v : Z) :
  0 <= n < 8 -> 0 <= v < 256 ->
  (Z.land (Z.land v (Z.shiftl 1 n)) 0xFF =? 0) = negb (Z.testbit v n).
Proof.
  intros Hn Hv.
  assert (En : n = 0 \/ n = 1 \/ n = 2 \/ n = 3 \/ n = 4 \/ n = 5 \/ n = 6 \/ n = 7)
    by lia.
  repeat (destruct En as [-> | En]); try subst n.
  all: match goal with
       | |- (Z.land (Z.land _ (Z.shiftl 1 ?m)) 255 =? 0) = _ =>
           check_bytes (fun v => Bool.eqb
                                   (Z.land (Z.land v (Z.shiftl 1 m)) 0xFF =? 0)
                                   (negb (Z.testbit v m))) v Hv
       end; assumption.
Qed.

(** BIT n on a register: Z tells whether bit n is clear, and no register
    of eight bits changes. *)
Lemma bit_on_register (n : Z) (r : regname) (st : astate) :
  0 <= n < 8 -> 0 <= get_reg st r < 256 ->
  exists st',
    BIT n (Some r) st [] = Ok st'
    /\ getflag st' fZ = Z.b2z (negb (Z.testbit (get_reg st r) n))
    /\ (forall q, byte_register q = true -> get_reg st' q = get_reg st q).
Proof.
  intros Hn Hv. unfold BIT.
  rewrite (set_flags_bit_eq _ st [] (Z.land (get_reg st r) (Z.shiftl 1 n)) eq_refl).
  eexists. split; [reflexivity|].
  match goal with
  | |- context [set_kw (set_reg st rF ?x) ?k ?d] =>
      destruct (flags_only_state st x d k) as [Hflag Hregs]
  end.
  split; [|exact Hregs].
  rewrite Hflag. cbn [flag_bit]. rewrite bit_flags_Z. f_equal.
  now apply tested_bit.
Qed.

Lemma set_on_register (n : Z) (r : regname) (k : string) (st : astate) :
  byte_register r = true -> 0 <= n < 8 ->
  exists st',
    SET n (Some r) k st [] = Ok st'
    /\ 0 <= get_reg st' r < 256
    /\ (forall b, 0 <= b < 8 ->
          Z.testbit (get_reg st' r) b = (b =? n) || Z.testbit (get_reg st r) b)
    /\ (forall q, byte_register q = true -> q <> r -> get_reg st' q = get_reg st q).
Proof.
  intros Hr Hn. unfold SET, LDr, lam1. cbn [bind]. eexists.
  split; [reflexivity|].
  assert (Hreg : get_reg (set_reg st r (Z.lor (get_reg st r) (Z.shiftl 1 n))) r
                 = mask8 (Z.lor (get_reg st r) (Z.shiftl 1 n))).
  { destruct st as [[[] ? ? ? ? ? ? ? ?] ? ? ?].
    destruct r; try discriminate Hr; reflexivity. }
  rewrite Hreg. split; [apply mask8_range|]. split.
  - intros b Hb. rewrite testbit_mask8, Z.lor_spec, testbit_shiftl_1 by lia.
    apply orb_comm.
  - intros q Hq Hne. destruct st as [[[] ? ? ? ? ? ? ? ?] ? ? ?].
    destruct r; try discriminate Hr; destruct q; try discriminate Hq;
      try congruence; reflexivity.
Qed.

Lemma res_on_register (n : Z) (r : regname) (k : string) (st : astate) :
  byte_register r = true -> 0 <= n < 8 ->
  exists st',
    RES n (Some r) k st [] = Ok st'
    /\ 0 <= get_reg st' r < 256
    /\ (forall b, 0 <= b < 8 ->
          Z.testbit (get_reg st' r) b
          = negb (b =? n) && Z.testbit (get_reg st r) b)
    /\ (forall q, byte_register q = true -> q <> r -> get_reg st' q = get_reg st q).
Proof.
  intros Hr Hn. unfold RES, LDr, lam1. cbn [bind]. eexists.
  split; [reflexivity|].
  assert (Hreg : get_reg (set_reg st r (Z.land (get_reg st r)
                                               (0xFF - Z.shiftl 1 n))) r
                 = mask8 (Z.land (get_reg st r) (0xFF - Z.shiftl 1 n))).
  { destruct st as [[[] ? ? ? ? ? ? ? ?] ? ? ?].
    destruct r; try discriminate Hr; reflexivity. }
  rewrite Hreg. split; [apply mask8_range|]. split.
  - intros b Hb. rewrite testbit_mask8, Z.land_spec, testbit_clear_mask by lia.
    apply andb_comm.
  - intros q Hq Hne. destruct st as [[[] ? ? ? ? ? ? ? ?] ? ? ?].
    destruct r; try discriminate Hr; destruct q; try discriminate Hq;
      try congruence; reflexivity.
Qed.

(** X9: on a register of eight bits and for a bit number n from 0 to 7,
    SET n sets bit n and RES n clears it, each leaving the other seven
    bits and the other registers as they were; BIT n changes no register
    and reports in Z whether bit n is clear, so Z is 0 after SET n and 1
    after RES n. *)
Theorem set_res_then_bit (n : Z) (r : regname) (k : string) (st : astate) :
  byte_register r = true ->
  0 <= n < 8 ->
  (exists st1 st2,
      SET n (Some r) k st [] = Ok st1
      /\ BIT n (Some r) st1 [] = Ok st2
      /\ (forall b, 0 <= b < 8 ->
            Z.testbit (get_reg st2 r) b = (b =? n) || Z.testbit (get_reg st r) b)
      /\ getflag st2 fZ = 0
      /\ (forall q, byte_register q = true -> q <> r ->
            get_reg st2 q = get_reg st q))
  /\ (exists st1 st2,
         RES n (Some r) k st [] = Ok st1
         /\ BIT n (Some r) st1 [] = Ok st2
         /\ (forall b, 0 <= b < 8 ->
               Z.testbit (get_reg st2 r) b
               = negb (b =? n) && Z.testbit (get_reg st r) b)
         /\ getflag st2 fZ = 1
         /\ (forall q, byte_register q = true -> q <> r ->
               get_reg st2 q = get_reg st q)).
Proof.
  intros Hr Hn. split.
  - destruct (set_on_register n r k st Hr Hn) as [st1 [H1 [Hb1 [Hbits Hq1]]]].
    destruct (bit_on_register n r st1 Hn Hb1) as [st2 [H2 [HZ Hq2]]].
    exists st1, st2. split; [exact H1|]. split; [exact H2|].
    split; [|split].
    + intros b Hb. rewrite (Hq2 r Hr). now apply Hbits.
    + rewrite HZ, (Hbits n Hn), Z.eqb_refl. reflexivity.
    + intros q Hq Hne. rewrite (Hq2 q Hq). now apply Hq1.
  - destruct (res_on_register n r k st Hr Hn) as [st1 [H1 [Hb1 [Hbits Hq1]]]].
    destruct (bit_on_register n r st1 Hn Hb1) as [st2 [H2 [HZ Hq2]]].
    exists st1, st2. split; [exact H1|]. split; [exact H2|].
    split; [|split].
    + intros b Hb. rewrite (Hq2 r Hr). now apply Hbits.
    + rewrite HZ, (Hbits n Hn), Z.eqb_refl. reflexivity.
    + intros q Hq Hne. rewrite (Hq2 q Hq). now apply Hq1.
Qed.

Lemma set_res_then_bit_witness :
  exists st1 st2,
    SET 3 (Some rA) "value" (acc_state 0x90 0x00) [] = Ok st1
    /\ BIT 3 (Some rA) st1 [] = Ok st2
    /\ Z.testbit (get_reg st2 rA) 3 = true
    /\ getflag st2 fZ = 0.
Proof.
  destruct (set_res_then_bit 3 rA "value" (acc_state 0x90 0x00) eq_refl)
    as [[st1 [st2 [H1 [H2 [Hbits [HZ _]]]]]] _]; [lia|].
  exists st1, st2. split; [exact H1|]. split; [exact H2|].
  split; [now rewrite Hbits by lia | exact HZ].
Defined.

(** ** ADC HL,rr and SBC HL,rr *)

(** The flag updates of the 16-bit additions in closed form. *)
Lemma set_flags_adc_eq (f : valfn) (st : astate) (args : list Z) (D : Z) :
  f st args = Ok D ->
  set_flags "S-5-3V0C" (Some "value") None (PCall f) None st args
  = Ok (set_kw (set_reg st rF (word_flags false (get_reg st rF) D))
               "value" (Z.land D 0xFF)).
Proof.
  intros HD. unfold set_flags. rewrite HD. cbn [bind].
  destruct st as [[[a f0 b c d e h l i r ixh ixl iyh iyl sp pc a' f' b' c' d' e' h' l']
                   i1 i2 im it mri mem ior iow] kws pl ds].
  unfold word_flags.
  cbv -[Z.add Z.sub Z.opp Z.mul Z.land Z.lor Z.lxor Z.lnot Z.shiftl Z.shiftr
        Z.eqb Z.ltb Z.leb Z.of_nat Z.to_nat mask8 assign_flag set_reg get_reg
        set_kw orb].
  destruct (Z.land (Z.shiftr (Z.land D 255) 7) 1 =? 1);
    destruct (Z.land (Z.shiftr (Z.land D 255) 5) 1 =? 1);
    destruct (Z.land (Z.shiftr (Z.land D 255) 3) 1 =? 1);
    destruct ((127 <? D) || (D <? -128));
    destruct ((255 <? D) || (D <? 0));
    cbv -[Z.add Z.sub Z.opp Z.mul Z.land Z.lor Z.lxor Z.lnot Z.shiftl Z.shiftr
          Z.eqb Z.ltb Z.leb Z.of_nat Z.to_nat mask8];
    reflexivity.
Qed.

Lemma set_flags_sbc_eq (f : valfn) (st : astate) (args : list Z) (D : Z) :
  f st args = Ok D ->
  set_flags "S-5-3V1C" (Some "value") None (PCall f) None st args
  = Ok (set_kw (set_reg st rF (word_flags true (get_reg st rF) D))
               "value" (Z.land D 0xFF)).
Proof.
  intros HD. unfold set_flags. rewrite HD. cbn [bind].
  destruct st as [[[a f0 b c d e h l i r ixh ixl iyh iyl sp pc a' f' b' c' d' e' h' l']
                   i1 i2 im it mri mem ior iow] kws pl ds].
  unfold word_flags.
  cbv -[Z.add Z.sub Z.opp Z.mul Z.land Z.lor Z.lxor Z.lnot Z.shiftl Z.shiftr
        Z.eqb Z.ltb Z.leb Z.of_nat Z.to_nat mask8 assign_flag set_reg get_reg
        set_kw orb].
  destruct (Z.land (Z.shiftr (Z.land D 255) 7) 1 =? 1);
    destruct (Z.land (Z.shiftr (Z.land D 255) 5) 1 =? 1);
    destruct (Z.land (Z.shiftr (Z.land D 255) 3) 1 =? 1);
    destruct ((127 <? D) || (D <? -128));
    destruct ((255 <? D) || (D <? 0));
    cbv -[Z.add Z.sub Z.opp Z.mul Z.land Z.lor Z.lxor Z.lnot Z.shiftl Z.shiftr
          Z.eqb Z.ltb Z.leb Z.of_nat Z.to_nat mask8];
    reflexivity.
Qed.

(** What the updates of a state leave alone. *)
Section Frames.

Variable st : astate.

Lemma kw_set_kw_same (n : string) (v : Z) : kw (set_kw st n v) n = Ok v.
Proof. unfold kw, set_kw. cbn. now rewrite dict_get_set_same. Qed.

Lemma kw_set_kw_other (n m : string) (v : Z) :
  n <> m -> kw (set_kw st n v) m = kw st m.
Proof. intros H. unfold kw, set_kw. cbn. now rewrite dict_get_set_other. Qed.

Lemma get_reg_set_kw (n : string) (v : Z) (r : regname) :
  get_reg (set_kw st n v) r = get_reg st r.
Proof. reflexivity. Qed.

Lemma getflag_set_kw (n : string) (v : Z) (f : flag) :
  getflag (set_kw st n v) f = getflag st f.
Proof. reflexivity. Qed.

Lemma kw_assign_flag (f : flag) (x : bool) (k : string) :
  kw (assign_flag st f x) k = kw st k.
Proof. now destruct x. Qed.

Lemma get_reg_assign_flag (f : flag) (x : bool) (r : regname) :
  word_operand r = true -> get_reg (assign_flag st f x) r = get_reg st r.
Proof.
  intros Hr. destruct st as [[[] ? ? ? ? ? ? ? ?] ? ? ?].
  destruct x; destruct r; try discriminate Hr; reflexivity.
Qed.

Lemma getflag_assign_flag_other (f g : flag) (x : bool) :
  flag_bit g <> flag_bit f -> getflag (assign_flag st f x) g = getflag st g.
Proof.
  intros H. rewrite !getflag_fbit. f_equal.
  apply fbit_assign_other; [destruct g; cbn; lia | exact H | reflexivity].
Qed.

Lemma getflag_assign_flag_same (f : flag) (x : bool) :
  getflag (assign_flag st f x) f = Z.b2z x.
Proof. rewrite getflag_fbit. f_equal. now apply fbit_assign_same. Qed.

Lemma kw_set_reg (r : regname) (v : Z) (k : string) :
  kw (set_reg st r v) k = kw st k.
Proof. reflexivity. Qed.

Lemma getflag_set_reg_HL (v : Z) (f : flag) :
  getflag (set_reg st rHL v) f = getflag st f.
Proof. destruct st as [[[] ? ? ? ? ? ? ? ?] ? ? ?]. reflexivity. Qed.

Lemma get_reg_set_reg_HL (v : Z) :
  get_reg (set_reg st rHL v) rHL = pair16 (hi8 v) (mask8 v).
Proof. destruct st as [[[] ? ? ? ? ? ? ? ?] ? ? ?]. reflexivity. Qed.

Lemma get_reg_set_reg_F (v : Z) (r : regname) :
  word_operand r = true -> get_reg (set_reg st rF v) r = get_reg st r.
Proof.
  intros Hr. destruct st as [[[] ? ? ? ? ? ? ? ?] ? ? ?].
  destruct r; try discriminate Hr; reflexivity.
Qed.

End Frames.

Lemma force_flag_eq (f : flag) (g : astate -> result Z) (st : astate) (v : Z) :
  g st = Ok v ->
  force_flag f (PCall (lam1 g)) st [] = Ok (assign_flag st f (negb (v =? 0))).
Proof.
  intros Hg. unfold force_flag, lam1. rewrite Hg. cbn [bind].
  unfold assign_flag. now destruct (v =? 0).
Qed.

Lemma word_flags_bits (n : bool) (F D : Z) :
  Z.testbit (word_flags n F D) 0 = ((255 <? D) || (D <? 0))
  /\ Z.testbit (word_flags n F D) 1 = n
  /\ Z.testbit (word_flags n F D) 7 = Z.testbit D 7.
Proof.
  unfold word_flags. rewrite (low_byte_bit D 7) by lia.
  destruct n;
    destruct (Z.testbit D 7);
    destruct (Z.land (Z.shiftr (Z.land D 255) 5) 1 =? 1);
    destruct (Z.land (Z.shiftr (Z.land D 255) 3) 1 =? 1);
    destruct ((127 <? D) || (D <? -128));
    destruct ((255 <? D) || (D <? 0));
    repeat first [ rewrite testbit_mask8 by lia
                 | rewrite Z.land_spec | rewrite Z.lor_spec ];
    cbn; rewrite ?andb_true_r, ?orb_true_r, ?orb_false_r, ?andb_false_r;
    repeat split.
Qed.

Lemma sum_of_high_bytes (x y c : Z) :
  Z.shiftr x 8 + Z.shiftr y 8
  + Z.shiftr (Z.land x 0xFF + Z.land y 0xFF + c) 8
  = (x + y + c) / 256.
Proof.
  rewrite !Z.shiftr_div_pow2 by lia. change (2 ^ 8) with 256.
  change (Z.land x 0xFF) with (mask8 x). change (Z.land y 0xFF) with (mask8 y).
  rewrite !mask8_mod.
  pose proof (Z.div_mod x 256 ltac:(lia)) as Hx.
  pose proof (Z.div_mod y 256 ltac:(lia)) as Hy.
  replace (x + y + c)
    with ((x mod 256 + y mod 256 + c) + (x / 256 + y / 256) * 256) by lia.
  rewrite Z.div_add by lia. lia.
Qed.

Lemma adc16_run (rr : regname) (st : astate) :
  word_operand rr = true ->
  let x := get_reg st rr in
  let y := get_reg st rHL in
  let c := getflag st fC in
  exists st',
    do_each (ADC16 rr) st [] = Ok st'
    /\ get_reg st' rHL = pair16 (hi8 (mask16 (x + y + c))) (mask8 (mask16 (x + y + c)))
    /\ getflag st' fC
       = Z.b2z ((255 <? (x + y + c) / 256) || ((x + y + c) / 256 <? 0))
    /\ getflag st' fZ
       = Z.b2z (pair16 (hi8 (mask16 (x + y + c))) (mask8 (mask16 (x + y + c))) =? 0)
    /\ getflag st' fN = 0
    /\ getflag st' fS = Z.b2z (Z.testbit ((x + y + c) / 256) 7).
Proof.
  intros Hrr x y c. unfold ADC16. cbn [do_each bind].
  unfold RRr at 1. cbn [bind].
  set (s1 := set_kw st "value" (get_reg st rHL)).
  unfold RRr at 1. cbn [bind].
  set (s2 := set_kw s1 "summand" (get_reg s1 rr)).
  assert (Hsum : kw s2 "summand" = Ok x) by apply kw_set_kw_same.
  assert (Hval : kw s2 "value" = Ok y).
  { unfold s2. rewrite kw_set_kw_other by discriminate. apply kw_set_kw_same. }
  assert (Hc2 : getflag s2 fC = c) by reflexivity.
  erewrite force_flag_eq
    by (rewrite Hsum, Hval; cbn [bind]; rewrite Hc2; reflexivity).
  cbn [bind].
  match goal with
  | |- context [assign_flag s2 fH ?b] => set (s3 := assign_flag s2 fH b)
  end.
  assert (Hsum3 : kw s3 "summand" = Ok x) by (unfold s3; now rewrite kw_assign_flag).
  assert (Hval3 : kw s3 "value" = Ok y) by (unfold s3; now rewrite kw_assign_flag).
  assert (Hc3 : getflag s3 fC = c)
    by (unfold s3; rewrite getflag_assign_flag_other by (cbn; lia); exact Hc2).
  unfold LDr at 1, lam1 at 1. rewrite Hsum3, Hval3. cbn [bind]. rewrite Hc3.
  set (s4 := set_reg s3 rHL (Z.land (x + y + c) 65535)).
  assert (Hc4 : getflag s4 fC = c)
    by (unfold s4; now rewrite getflag_set_reg_HL).
  assert (Hsum4 : kw s4 "summand" = Ok x) by exact Hsum3.
  assert (Hval4 : kw s4 "value" = Ok y) by exact Hval3.
  erewrite set_flags_adc_eq
    by (unfold lam1; rewrite Hsum4, Hval4; cbn [bind];
        rewrite Hc4, sum_of_high_bytes; reflexivity).
  cbn [bind].
  match goal with
  | |- context [set_kw (set_reg s4 rF ?F) ?k ?d] =>
      set (s5 := set_kw (set_reg s4 rF F) k d);
      destruct (flags_only_state s4 F d k) as [Hflag5 _];
      destruct (word_flags_bits false (get_reg s4 rF) ((x + y + c) / 256))
        as [HbC [HbN HbS]]
  end.
  fold s5 in Hflag5.
  assert (Hhl5 : get_reg s5 rHL
                 = pair16 (hi8 (mask16 (x + y + c))) (mask8 (mask16 (x + y + c)))).
  { unfold s5. rewrite get_reg_set_kw, get_reg_set_reg_F by reflexivity.
    unfold s4. apply get_reg_set_reg_HL. }
  erewrite force_flag_eq by (rewrite Hhl5; reflexivity).
  eexists. split; [reflexivity|].
  split; [rewrite get_reg_assign_flag by reflexivity; exact Hhl5|].
  split; [rewrite getflag_assign_flag_other by (cbn; lia);
          rewrite Hflag5; cbn [flag_bit]; now rewrite HbC|].
  split; [rewrite getflag_assign_flag_same; f_equal;
          now destruct (pair16 _ _ =? 0)|].
  split; [rewrite getflag_assign_flag_other by (cbn; lia);
          rewrite Hflag5; cbn [flag_bit]; now rewrite HbN|].
  rewrite getflag_assign_flag_other by (cbn; lia).
  rewrite Hflag5. cbn [flag_bit]. now rewrite HbS.
Qed.

(** X10: the actions of ADC HL,rr performed in order, for rr among BC,
    DE, HL and SP and with HL and rr holding 16-bit words: HL receives
    HL + rr + C modulo 65536, the carry flag tells whether the sum reached
    65536, Z whether the new HL is zero, S is bit 15 of the sum and N is
    reset. *)
Theorem adc16_adds_with_carry (rr : regname) (st : astate) :
  word_operand rr = true ->
  0 <= get_reg st rHL < 65536 ->
  0 <= get_reg st rr < 65536 ->
  exists st',
    do_each (ADC16 rr) st [] = Ok st'
    /\ get_reg st' rHL
       = (get_reg st rHL + get_reg st rr + getflag st fC) mod 65536
    /\ getflag st' fC
       = Z.b2z (65536 <=? get_reg st rHL + get_reg st rr + getflag st fC)
    /\ getflag st' fZ
       = Z.b2z ((get_reg st rHL + get_reg st rr + getflag st fC) mod 65536 =? 0)
    /\ getflag st' fN = 0
    /\ getflag st' fS
       = Z.b2z (Z.testbit (get_reg st rHL + get_reg st rr + getflag st fC) 15).
Proof.
  intros Hrr Hy Hx.
  destruct (adc16_run rr st Hrr) as [st' [Hrun [Hhl [Hc [Hz [Hn Hs]]]]]].
  cbv zeta in Hhl, Hc, Hz, Hs.
  pose proof (getflag_bit st fC) as Hcb.
  replace (get_reg st rr + get_reg st rHL + getflag st fC)
    with (get_reg st rHL + get_reg st rr + getflag st fC) in * by lia.
  set (t := get_reg st rHL + get_reg st rr + getflag st fC) in *.
  rewrite pair16_split, mask16_mod in Hhl, Hz by apply mask16_range.
  exists st'. split; [exact Hrun|]. split; [exact Hhl|].
  split; [|split; [exact Hz|split; [exact Hn|]]].
  - rewrite Hc. f_equal.
    destruct (Z.leb_spec 65536 t) as [H | H].
    + assert (256 <= t / 256) by (apply Z.div_le_lower_bound; lia).
      apply orb_true_intro. left. apply Z.ltb_lt. lia.
    + assert (t / 256 < 256) by (apply Z.div_lt_upper_bound; lia).
      assert (0 <= t / 256) by (apply Z.div_pos; lia).
      apply orb_false_intro; [apply Z.ltb_ge | apply Z.ltb_ge]; lia.
  - rewrite Hs. f_equal. change 256 with (2 ^ 8).
    rewrite Z.div_pow2_bits by lia. reflexivity.
Qed.

Lemma adc16_adds_with_carry_witness :
  exists st',
    do_each (ADC16 rBC) (word_state 0xFFFF 0x0001 0x01) [] = Ok st'
    /\ get_reg st' rHL = 0x0001
    /\ getflag st' fC = 1
    /\ getflag st' fZ = 0.
Proof.
  destruct (adc16_adds_with_carry rBC (word_state 0xFFFF 0x0001 0x01) eq_refl)
    as [st' [Hrun [Hhl [Hc [Hz _]]]]].
  - vm_compute. split; [discriminate | reflexivity].
  - vm_compute. split; [discriminate | reflexivity].
  - exists st'. repeat split; assumption.
Defined.

Lemma sbc16_run (rr : regname) (st : astate) :
  word_operand rr = true ->
  let x := mask16 (- get_reg st rr) in
  let y := get_reg st rHL in
  let c := getflag st fC in
  exists st',
    do_each (SBC16 rr) st [] = Ok st'
    /\ get_reg st' rHL = pair16 (hi8 (mask16 (x + y - c))) (mask8 (mask16 (x + y - c)))
    /\ getflag st' fZ
       = Z.b2z (pair16 (hi8 (mask16 (x + y - c))) (mask8 (mask16 (x + y - c))) =? 0)
    /\ getflag st' fN = 1.
Proof.
  intros Hrr x y c. unfold SBC16. cbn [do_each bind].
  unfold RRr at 1. cbn [bind].
  set (s1 := set_kw st "value" (get_reg st rHL)).
  unfold RRr at 1, lam1 at 1. cbn [bind].
  set (s2 := set_kw s1 "summand" (Z.land (- get_reg s1 rr) 65535)).
  assert (Hsum : kw s2 "summand" = Ok x) by apply kw_set_kw_same.
  assert (Hval : kw s2 "value" = Ok y).
  { unfold s2. rewrite kw_set_kw_other by discriminate. apply kw_set_kw_same. }
  assert (Hc2 : getflag s2 fC = c) by reflexivity.
  erewrite force_flag_eq
    by (rewrite Hsum, Hval; cbn [bind]; rewrite Hc2; reflexivity).
  cbn [bind].
  match goal with
  | |- context [assign_flag s2 fH ?b] => set (s3 := assign_flag s2 fH b)
  end.
  assert (Hsum3 : kw s3 "summand" = Ok x) by (unfold s3; now rewrite kw_assign_flag).
  assert (Hval3 : kw s3 "value" = Ok y) by (unfold s3; now rewrite kw_assign_flag).
  assert (Hc3 : getflag s3 fC = c)
    by (unfold s3; rewrite getflag_assign_flag_other by (cbn; lia); exact Hc2).
  unfold LDr at 1, lam1 at 1. rewrite Hsum3, Hval3. cbn [bind]. rewrite Hc3.
  set (s4 := set_reg s3 rHL (Z.land (x + y - c) 65535)).
  assert (Hc4 : getflag s4 fC = c)
    by (unfold s4; now rewrite getflag_set_reg_HL).
  assert (Hsum4 : kw s4 "summand" = Ok x) by exact Hsum3.
  assert (Hval4 : kw s4 "value" = Ok y) by exact Hval3.
  erewrite set_flags_sbc_eq
    by (unfold lam1; rewrite Hsum4, Hval4; cbn [bind];
        rewrite Hc4; reflexivity).
  cbn [bind].
  match goal with
  | |- context [set_kw (set_reg s4 rF ?F) ?k ?d] =>
      set (s5 := set_kw (set_reg s4 rF F) k d);
      destruct (flags_only_state s4 F d k) as [Hflag5 _]
  end.
  fold s5 in Hflag5.
  match type of Hflag5 with
  | forall f, _ = Z.b2z (Z.testbit (word_flags true ?F ?D) _) =>
      destruct (word_flags_bits true F D) as [_ [HbN _]]
  end.
  assert (Hhl5 : get_reg s5 rHL
                 = pair16 (hi8 (mask16 (x + y - c))) (mask8 (mask16 (x + y - c)))).
  { unfold s5. rewrite get_reg_set_kw, get_reg_set_reg_F by reflexivity.
    unfold s4. apply get_reg_set_reg_HL. }
  erewrite force_flag_eq by (rewrite Hhl5; reflexivity).
  eexists. split; [reflexivity|].
  split; [rewrite get_reg_assign_flag by reflexivity; exact Hhl5|].
  split; [rewrite getflag_assign_flag_same; f_equal;
          now destruct (pair16 _ _ =? 0)|].
  rewrite getflag_assign_flag_other by (cbn; lia).
  rewrite Hflag5. cbn [flag_bit]. now rewrite HbN.
Qed.

(** X11: the actions of SBC HL,rr performed in order, for rr among BC,
    DE, HL and SP: HL receives HL - rr - C modulo 65536, Z tells whether
    the new HL is zero and N is set. *)
Theorem sbc16_subtracts_with_carry (rr : regname) (st : astate) :
  word_operand rr = true ->
  exists st',
    do_each (SBC16 rr) st [] = Ok st'
    /\ get_reg st' rHL
       = (get_reg st rHL - get_reg st rr - getflag st fC) mod 65536
    /\ getflag st' fZ
       = Z.b2z ((get_reg st rHL - get_reg st rr - getflag st fC) mod 65536 =? 0)
    /\ getflag st' fN = 1.
Proof.
  intros Hrr.
  destruct (sbc16_run rr st Hrr) as [st' [Hrun [Hhl [Hz Hn]]]].
  cbv zeta in Hhl, Hz.
  assert (E : mask16 (mask16 (- get_reg st rr) + get_reg st rHL - getflag st fC)
              = (get_reg st rHL - get_reg st rr - getflag st fC) mod 65536).
  { replace (mask16 (- get_reg st rr) + get_reg st rHL - getflag st fC)
      with (mask16 (- get_reg st rr) + (get_reg st rHL - getflag st fC)) by lia.
    rewrite mask16_add_l, mask16_mod. f_equal. lia. }
  rewrite pair16_split, E in Hhl, Hz by apply mask16_range.
  exists st'. repeat split; assumption.
Qed.

Lemma sbc16_subtracts_with_carry_witness :
  exists st',
    do_each (SBC16 rBC) (word_state 0x0000 0x0001 0x01) [] = Ok st'
    /\ get_reg st' rHL = 0xFFFE
    /\ getflag st' fZ = 0
    /\ getflag st' fN = 1.
Proof.
  destruct (sbc16_subtracts_with_carry rBC (word_state 0x0000 0x0001 0x01) eq_refl)
    as [st' [Hrun [Hhl [Hz Hn]]]].
  exists st'. repeat split; assumption.
Defined.

(** ** The response to a non-maskable interrupt and to mode 1 *)

Lemma restart_response (c : CPU) (ds : list Z) (ticks target : Z) (name : string) :
  0 <= reg_SP (cpu_reg c) < 65536 ->
  4 <= ticks <= 8 ->
  exists w,
    run_pipeline 64 0
      (mkWorld (with_recent c (RecentName name)) ds
         [instantiate (IO ticks true TNone (Some inta) "value");
          instantiate (SW (Some rPCH) "value" 0 None);
          instantiate (SW (Some rPCL) "value" 0
                          (Some (JP (PLit target) None None)))])
    = Some (Ok (w, Z.to_nat ticks + 6)%nat)
    /\ reg_PC (cpu_reg (w_cpu w)) = mask16 target
    /\ reg_SP (cpu_reg (w_cpu w)) = mask16 (reg_SP (cpu_reg c) - 2)
    /\ membus_read (w_cpu w) (mask16 (reg_SP (cpu_reg c) - 1))
       = hi8 (reg_PC (cpu_reg c))
    /\ membus_read (w_cpu w) (mask16 (reg_SP (cpu_reg c) - 2))
       = mask8 (reg_PC (cpu_reg c))
    /\ w_ds w = tl ds
    /\ cpu_iff1 (w_cpu w) = cpu_iff1 c
    /\ cpu_iff2 (w_cpu w) = cpu_iff2 c.
Proof.
  destruct_cpu c. cbn. intros Hsp Ht.
  assert (E : ticks = 4 \/ ticks = 5 \/ ticks = 6 \/ ticks = 7 \/ ticks = 8) by lia.
  destruct E as [-> | [-> | [-> | [-> | ->]]]];
    (eexists; run_to_end ltac:(addresses Hsp);
     split; [reflexivity|]; cbn; addresses Hsp; repeat split; reflexivity).
Qed.

(** X12: the response to a non-maskable interrupt, and to a maskable one
    in interrupt mode 1, on any CPU whose SP is a 16-bit value: the
    pipeline that [interrupt_response] builds runs for 11 T-cycles (NMI)
    or 13 (mode 1), writes the high byte of the interrupted PC at SP-1
    and the low byte at SP-2, leaves SP two lower, loads PC with 0x0066
    (NMI) or 0x0038 (mode 1), drops one item of what the interrupting
    device supplies, and leaves IFF1 and IFF2 as they were. *)
Theorem interrupt_response_restarts (c : CPU) (nmi : bool) (ack : CPU -> list Z) :
  nmi = true \/ cpu_interrupt_mode c = 1 ->
  0 <= reg_SP (cpu_reg c) < 65536 ->
  exists w0 w,
    interrupt_response c nmi (Some ack) = Ok w0
    /\ run_pipeline 64 0 w0 = Some (Ok (w, if nmi then 11%nat else 13%nat))
    /\ reg_PC (cpu_reg (w_cpu w)) = (if nmi then 0x0066 else 0x0038)
    /\ reg_SP (cpu_reg (w_cpu w)) = mask16 (reg_SP (cpu_reg c) - 2)
    /\ membus_read (w_cpu w) (mask16 (reg_SP (cpu_reg c) - 1))
       = hi8 (reg_PC (cpu_reg c))
    /\ membus_read (w_cpu w) (mask16 (reg_SP (cpu_reg c) - 2))
       = mask8 (reg_PC (cpu_reg c))
    /\ w_ds w = tl (ack c)
    /\ cpu_iff1 (w_cpu w) = cpu_iff1 c
    /\ cpu_iff2 (w_cpu w) = cpu_iff2 c.
Proof.
  intros Hmode Hsp. unfold interrupt_response.
  destruct nmi.
  - destruct (restart_response c (ack c) 5 0x0066 "NMI" Hsp ltac:(lia))
      as [w Hw].
    change (mask16 0x0066) with 0x0066 in Hw.
    eexists. exists w. split; [reflexivity | exact Hw].
  - destruct Hmode as [Hn | Hm]; [discriminate|]. rewrite Hm.
    change (1 =? 0) with false. change (1 =? 1) with true. cbv iota.
    destruct (restart_response c (ack c) 7 0x0038 "INT1" Hsp ltac:(lia))
      as [w Hw].
    change (mask16 0x0038) with 0x0038 in Hw.
    eexists. exists w. split; [reflexivity | exact Hw].
Qed.

Lemma interrupt_response_restarts_witness :
  exists w0 w,
    interrupt_response im2_cpu true (Some (fun _ => [0xFF; 0x12])) = Ok w0
    /\ run_pipeline 64 0 w0 = Some (Ok (w, 11%nat))
    /\ reg_PC (cpu_reg (w_cpu w)) = 0x0066
    /\ reg_SP (cpu_reg (w_cpu w)) = 0xFFFC
    /\ membus_read (w_cpu w) 0xFFFD = 0x01
    /\ membus_read (w_cpu w) 0xFFFC = 0x00
    /\ w_ds w = [0x12].
Proof.
  assert (Hsp : 0 <= reg_SP (cpu_reg im2_cpu) < 65536)
    by (vm_compute; split; [discriminate | reflexivity]).
  destruct (interrupt_response_restarts im2_cpu true (fun _ => [0xFF; 0x12])
              (or_introl eq_refl) Hsp)
    as [w0 [w [H0 [H1 [H2 [H3 [H4 [H5 [H6 _]]]]]]]]].
  exists w0, w. repeat split; assumption.
Defined.

(** ** The response to an interrupt in mode 0 *)

(** The eight RST opcodes, 0xC7 + 8 p, push PC and jump to 8 p. *)
Lemma decode_RST (p : Z) :
  0 <= p < 8 ->
  decode_instruction (OpByte (0xC7 + 8 * p))
  = Ok (1, [],
        [SW (Some rPCH) "value" 0 None;
         SW (Some rPCL) "value" 0 (Some (JP (PLit (8 * p)) None None))]).
Proof.
  intros Hp.
  assert (E : p = 0 \/ p = 1 \/ p = 2 \/ p = 3 \/ p = 4 \/ p = 5 \/ p = 6 \/ p = 7)
    by lia.
  destruct E as [-> | [-> | [-> | [-> | [-> | [-> | [-> | ->]]]]]]]; reflexivity.
Qed.

(** X13: in interrupt mode 0 the opcode is taken from the interrupting
    device.  When the device supplies one of the eight RST opcodes,
    0xC7 + 8 p, to a CPU whose SP is a 16-bit value, the pipeline that
    [interrupt_response] builds runs for 12 T-cycles, does not advance
    PC over the opcode: the bytes written at SP-1 and SP-2 are the high
    and the low byte of the interrupted PC itself; it leaves SP two
    lower, PC at 8 p, and the rest of what the device supplies
    untouched. *)
Theorem interrupt_mode_0_restart (c : CPU) (p : Z) (rest : list Z) :
  cpu_interrupt_mode c = 0 ->
  0 <= p < 8 ->
  0 <= reg_SP (cpu_reg c) < 65536 ->
  exists w0 w,
    interrupt_response c false (Some (fun _ => 0xC7 + 8 * p :: rest)) = Ok w0
    /\ run_pipeline 64 0 w0 = Some (Ok (w, 12%nat))
    /\ reg_PC (cpu_reg (w_cpu w)) = 8 * p
    /\ reg_SP (cpu_reg (w_cpu w)) = mask16 (reg_SP (cpu_reg c) - 2)
    /\ membus_read (w_cpu w) (mask16 (reg_SP (cpu_reg c) - 1))
       = hi8 (reg_PC (cpu_reg c))
    /\ membus_read (w_cpu w) (mask16 (reg_SP (cpu_reg c) - 2))
       = mask8 (reg_PC (cpu_reg c))
    /\ w_ds w = rest.
Proof.
  destruct_cpu c. cbn. intros Him Hp Hsp. subst im.
  assert (Hpc : mask16 (8 * p) = 8 * p) by (apply mask16_id; lia).
  do 2 eexists. split; [reflexivity|].
  run_to_end ltac:(rewrite ?(decode_RST p Hp); addresses Hsp).
  split; [reflexivity|]. cbn. addresses Hsp. rewrite ?Hpc.
  repeat split; reflexivity.
Qed.

Lemma interrupt_mode_0_restart_witness :
  exists w0 w,
    interrupt_response (with_interrupt_mode im2_cpu 0) false
      (Some (fun _ => [0xFF; 0x12])) = Ok w0
    /\ run_pipeline 64 0 w0 = Some (Ok (w, 12%nat))
    /\ reg_PC (cpu_reg (w_cpu w)) = 0x38
    /\ reg_SP (cpu_reg (w_cpu w)) = 0xFFFC
    /\ membus_read (w_cpu w) 0xFFFD = 0x01
    /\ membus_read (w_cpu w) 0xFFFC = 0x00
    /\ w_ds w = [0x12].
Proof.
  assert (Hsp : 0 <= reg_SP (cpu_reg (with_interrupt_mode im2_cpu 0)) < 65536)
    by (vm_compute; split; [discriminate | reflexivity]).
  destruct (interrupt_mode_0_restart (with_interrupt_mode im2_cpu 0) 7 [0x12]
              eq_refl ltac:(lia) Hsp)
    as [w0 [w [H0 [H1 [H2 [H3 [H4 [H5 H6]]]]]]]].
  exists w0, w. repeat split; assumption.
Defined.

Lemma decode_00 : decode_instruction (OpByte 0x00) = Ok (0, [], []).
Proof. reflexivity. Qed.

(** X19: in interrupt mode 0, when the interrupting device supplies
    nothing (no [ack], or one that yields no byte), the opcode fetch
    reads 0x00, a NOP: the pipeline that [interrupt_response] builds
    runs for 5 T-cycles and leaves the CPU as it was, PC included, but
    for the record of the most recent instruction. *)
Theorem interrupt_mode_0_idle_bus (c : CPU) (ack : option (CPU -> list Z)) :
  cpu_interrupt_mode c = 0 ->
  match ack with Some f => f c | None => [] end = [] ->
  exists w0 w,
    interrupt_response c false ack = Ok w0
    /\ run_pipeline 64 0 w0 = Some (Ok (w, 5%nat))
    /\ w_cpu w = with_recent c (RecentInst (OpByte 0x00))
    /\ w_ds w = [].
Proof.
  destruct_cpu c. cbn. intros Him Hack. subst im.
  unfold interrupt_response. cbn [cpu_interrupt_mode]. rewrite Hack.
  do 2 eexists. split; [reflexivity|].
  run_to_end ltac:(rewrite ?decode_00).
  repeat split.
Qed.

Lemma interrupt_mode_0_idle_bus_witness :
  exists w0 w,
    interrupt_response (with_interrupt_mode im2_cpu 0) false None = Ok w0
    /\ run_pipeline 64 0 w0 = Some (Ok (w, 5%nat))
    /\ reg_PC (cpu_reg (w_cpu w)) = 0x0100.
Proof.
  destruct (interrupt_mode_0_idle_bus (with_interrupt_mode im2_cpu 0) None
              eq_refl eq_refl)
    as [w0 [w [H0 [H1 [H2 _]]]]].
  exists w0, w. rewrite H2. repeat split; assumption.
Defined.

(** ** Relative jumps *)




Lemma decode_10 :
  decode_instruction (OpByte 0x10)
  = Ok (1, [],
        [OD (Some high_after_low)
            (Some (do_each
                     [LDr rB (PCall (lam2 (fun state v =>
                                Ok (Z.land (get_reg state rB - 1) 0xFF)))) "value";
                      on_condition (lam2 (fun state v => Ok (get_reg state rB =? 0x00)))
                                   early_abort;
                      RRr "value" None PNone]))
            "value" true;
         IO 5 true TNone (Some (JR PNone "value")) "value"]).
Proof. reflexivity. Qed.

(** X15: DJNZ e (opcode 0x10 followed by the displacement byte e)
    decrements B modulo 256 and leaves the other registers but PC alone.
    When B has become zero the instruction is over after 7 T-cycles with
    PC after its two bytes; otherwise it takes 12 T-cycles and moves PC
    from there by e read as a signed byte. *)
Theorem djnz_counts_down (c : CPU) (e : Z) :
  membus_read c (reg_PC (cpu_reg c)) = 0x10 ->
  membus_read c (mask16 (reg_PC (cpu_reg c) + 1)) = e ->
  0 <= e < 256 ->
  exists w t,
    exec_instruction 64 c = Some (Ok (w, t))
    /\ reg_B (cpu_reg (w_cpu w)) = (reg_B (cpu_reg c) - 1) mod 256
    /\ (if (reg_B (cpu_reg c) - 1) mod 256 =? 0
        then t = 7%nat
             /\ reg_PC (cpu_reg (w_cpu w)) = (reg_PC (cpu_reg c) + 2) mod 65536
        else t = 12%nat
             /\ reg_PC (cpu_reg (w_cpu w))
                = (reg_PC (cpu_reg c) + 2 + (if e <? 0x80 then e else e - 0x100))
                  mod 65536)
    /\ reg_F (cpu_reg (w_cpu w)) = reg_F (cpu_reg c)
    /\ reg_A (cpu_reg (w_cpu w)) = reg_A (cpu_reg c)
    /\ getreg (cpu_reg (w_cpu w)) rHL = getreg (cpu_reg c) rHL
    /\ reg_SP (cpu_reg (w_cpu w)) = reg_SP (cpu_reg c)
    /\ cpu_membus (w_cpu w) = cpu_membus c.
Proof.
  destruct_cpu c. cbn. intros Hm0 Hm1 He.
  unfold exec_instruction, fetch.
  rewrite <- mask8_mod.
  destruct (mask8 (mask8 (vb - 1)) =? 0) eqn:EB; destruct (0x80 <=? e) eqn:E;
    repeat tick_with ltac:(rewrite ?Hm0, ?Hm1, ?decode_10, ?E, ?land_0xFF, ?EB);
    rewrite run_pipeline_done by reflexivity;
    do 2 eexists; (split; [reflexivity|]); cbn;
    rewrite (mask8_id _ (mask8_range _)) in EB; rewrite EB;
    (apply Z.leb_le in E || apply Z.leb_gt in E);
    try replace (e <? 128) with false by (symmetry; apply Z.ltb_ge; lia);
    try replace (e <? 128) with true by (symmetry; apply Z.ltb_lt; lia);
    rewrite ?pc_plus_2, ?mask16_add_l, ?mask16_mod, ?(mask8_id _ (mask8_range _));
    repeat split; reflexivity.
Qed.

Lemma djnz_counts_down_witness :
  exists w,
    exec_instruction 64 (example_cpu 0x00 false [(0x0100, 0x10); (0x0101, 0xFE)])
    = Some (Ok (w, 12%nat))
    /\ reg_B (cpu_reg (w_cpu w)) = 0xB0
    /\ reg_PC (cpu_reg (w_cpu w)) = 0x0100.
Proof.
  destruct (djnz_counts_down
              (example_cpu 0x00 false [(0x0100, 0x10); (0x0101, 0xFE)]) 0xFE
              eq_refl eq_refl ltac:(lia))
    as [w [t [Hrun [Hb [Hcase _]]]]].
  change ((reg_B (cpu_reg (example_cpu 0 false [(256, 16); (257, 254)])) - 1)
            mod 256 =? 0) with false in Hcase.
  destruct Hcase as [-> Hpc].
  exists w. repeat split; assumption.
Defined.

(** ** CALL nn and RET *)

Lemma decode_CD :
  decode_instruction (OpByte 0xCD)
  = Ok (0, [],
        [OD (Some high_after_low) None "value" false;
         OD (Some high_after_low) (Some (RRr "target" None PNone)) "value" false;
         SW (Some rPCH) "value" 0 None;
         SW (Some rPCL) "value" 0 (Some (JP PNone (Some "target") None))]).
Proof. reflexivity. Qed.

Lemma decode_C9 :
  decode_instruction (OpByte 0xC9)
  = Ok (0, [],
        [SR (Some high_after_low) None 0;
         SR (Some high_after_low) (Some (JP PNone None None)) 0]).
Proof. reflexivity. Qed.

(** X16: CALL nn followed by the RET found at nn.  With SP a 16-bit
    value and nn away from the two cells below SP, CALL nn takes 16
    T-cycles, writes the address after its three bytes below SP (high
    byte at SP-1, low byte at SP-2), leaves SP two lower and PC at nn;
    the RET then takes 10 T-cycles, and after it the register file is
    what it was before the CALL but for PC, which is after the CALL. *)
Theorem call_then_ret_returns (c : CPU) (nn : Z) :
  0 <= reg_SP (cpu_reg c) < 65536 ->
  0 <= nn < 65536 ->
  membus_read c (reg_PC (cpu_reg c)) = 0xCD ->
  membus_read c (mask16 (reg_PC (cpu_reg c) + 1)) = mask8 nn ->
  membus_read c (mask16 (reg_PC (cpu_reg c) + 2)) = hi8 nn ->
  membus_read c nn = 0xC9 ->
  nn <> mask16 (reg_SP (cpu_reg c) - 1) ->
  nn <> mask16 (reg_SP (cpu_reg c) - 2) ->
  exists w1 w2,
    exec_instruction 64 c = Some (Ok (w1, 16%nat))
    /\ reg_PC (cpu_reg (w_cpu w1)) = nn
    /\ reg_SP (cpu_reg (w_cpu w1)) = mask16 (reg_SP (cpu_reg c) - 2)
    /\ membus_read (w_cpu w1) (mask16 (reg_SP (cpu_reg c) - 1))
       = hi8 (mask16 (reg_PC (cpu_reg c) + 3))
    /\ membus_read (w_cpu w1) (mask16 (reg_SP (cpu_reg c) - 2))
       = mask8 (mask16 (reg_PC (cpu_reg c) + 3))
    /\ exec_instruction 64 (w_cpu w1) = Some (Ok (w2, 10%nat))
    /\ cpu_reg (w_cpu w2) = setreg (cpu_reg c) rPC (reg_PC (cpu_reg c) + 3).
Proof.
  destruct_cpu c. cbn. intros Hsp Hnn Hm0 Hm1 Hm2 Hret N1 N2.
  apply Z.eqb_neq in N1, N2.
  assert (Hpair : mask16 (pair16 (hi8 nn) (mask8 nn)) = nn)
    by (rewrite pair16_split, mask16_id by assumption; reflexivity).
  unfold exec_instruction, fetch.
  run_to_end ltac:(addresses Hsp; rewrite ?Hm0, ?Hm1, ?Hm2, ?decode_CD;
                   rewrite ?high_after_low_pair16, ?Hpair).
  do 2 eexists. split; [reflexivity|]. cbn [w_cpu].
  split; [reflexivity|]. split; [reflexivity|].
  split; [cbn; addresses Hsp; reflexivity|].
  split; [cbn; addresses Hsp; reflexivity|].
  run_to_end ltac:(addresses Hsp; rewrite ?N1, ?N2, ?Hret, ?decode_C9;
                   rewrite ?high_after_low_pair16).
  split; [reflexivity|].
  cbn. addresses Hsp.
  rewrite ?high_after_low_pair16, pair16_split by apply mask16_range.
  rewrite mask16_mask16. reflexivity.
Qed.

Lemma call_then_ret_returns_witness :
  exists w1 w2,
    exec_instruction 64
      (example_cpu 0x00 false
         [(0x0100, 0xCD); (0x0101, 0x34); (0x0102, 0x12); (0x1234, 0xC9)])
    = Some (Ok (w1, 16%nat))
    /\ reg_PC (cpu_reg (w_cpu w1)) = 0x1234
    /\ reg_SP (cpu_reg (w_cpu w1)) = 0xFFFC
    /\ exec_instruction 64 (w_cpu w1) = Some (Ok (w2, 10%nat))
    /\ reg_PC (cpu_reg (w_cpu w2)) = 0x0103
    /\ reg_SP (cpu_reg (w_cpu w2)) = 0xFFFE.
Proof.
  destruct (call_then_ret_returns
              (example_cpu 0x00 false
                 [(0x0100, 0xCD); (0x0101, 0x34); (0x0102, 0x12); (0x1234, 0xC9)])
              0x1234)
    as [w1 [w2 [H1 [H2 [H3 [_ [_ [H4 H5]]]]]]]].
  - vm_compute. split; [discriminate | reflexivity].
  - lia.
  - reflexivity.
  - reflexivity.
  - reflexivity.
  - reflexivity.
  - vm_compute. discriminate.
  - vm_compute. discriminate.
  - exists w1, w2. rewrite H5. repeat split; assumption.
Defined.

(** ** LDIR *)

Lemma decode_EDB0 :
  decode_instruction (OpTuple [0xED; 0xB0])
  = Ok (0, [],
        [MR None (Some rHL) (Some high_after_low) None true;
         MW None (Some rDE) PNone None
            (Some (do_each
                     [set_flags "--50310-" (Some "value") None
                        (PCall (lam2 (fun state _ =>
                                  do kw_value <- kw state "value";
                                  Ok (kw_value + get_reg state rA)))) None;
                      inc rHL; inc rDE; dec rBC;
                      on_zero rBC (clear_flag fV);
                      on_zero rBC early_abort])) 2;
         IO 5 true TNone (Some (do_each [dec rPC; dec rPC])) "value"]).
Proof. reflexivity. Qed.

(** The flag update of LDIR in closed form. *)
Lemma set_flags_ldi_eq (f : valfn) (st : astate) (args : list Z) (D : Z) :
  f st args = Ok D ->
  set_flags "--50310-" (Some "value") None (PCall f) None st args
  = Ok (set_kw (set_reg st rF (ldi_flags (get_reg st rF) D))
               "value" (Z.land D 0xFF)).
Proof.
  intros HD. unfold set_flags. rewrite HD. cbn [bind].
  destruct st as [[[a f0 b c d e h l i r ixh ixl iyh iyl sp pc a' f' b' c' d' e' h' l']
                   i1 i2 im it mri mem ior iow] kws pl ds].
  unfold ldi_flags.
  cbv -[Z.add Z.sub Z.opp Z.mul Z.land Z.lor Z.lxor Z.lnot Z.shiftl Z.shiftr
        Z.eqb Z.ltb Z.leb Z.of_nat Z.to_nat mask8 assign_flag set_reg get_reg
        set_kw].
  destruct (Z.land (Z.shiftr (Z.land D 255) 5) 1 =? 1);
    destruct (Z.land (Z.shiftr (Z.land D 255) 3) 1 =? 1);
    cbv -[Z.add Z.sub Z.opp Z.mul Z.land Z.lor Z.lxor Z.lnot Z.shiftl Z.shiftr
          Z.eqb Z.ltb Z.leb Z.of_nat Z.to_nat mask8];
    reflexivity.
Qed.

(** It sets P/V, which [clear_flag("V")] then resets. *)
Lemma ldi_flags_PV (f v : Z) :
  Z.land (Z.shiftr (mask8 (ldi_flags f v)) 2) 1 = 1.
Proof.
  rewrite bit_of_shift, testbit_mask8 by lia. unfold ldi_flags.
  rewrite Z.land_spec, testbit_mask8, Z.lor_spec by lia.
  change (Z.testbit 4 2) with true. change (Z.testbit (255 - 16) 2) with true.
  now rewrite orb_true_r.
Qed.

Lemma ldi_flags_PV_cleared (f v : Z) :
  Z.land (Z.shiftr (mask8 (Z.land (mask8 (ldi_flags f v)) 251)) 2) 1 = 0.
Proof.
  rewrite bit_of_shift, testbit_mask8, Z.land_spec by lia.
  cbn. now rewrite andb_false_r.
Qed.

(** The micro-operations of LDIR, handed the byte written, one layer
    unfolded. *)
Lemma inc_args_eq (r : regname) (st : astate) (args : list Z) :
  inc r st args
  = if reg16 r
    then Ok (set_reg st r (mask16 (get_reg st r + 1)))
    else Ok (set_reg st r (mask8 (get_reg st r + 1))).
Proof. reflexivity. Qed.

Lemma dec_args_eq (r : regname) (st : astate) (args : list Z) :
  dec r st args
  = if reg16 r
    then Ok (set_reg st r (mask16 (0xFFFF + get_reg st r)))
    else Ok (set_reg st r (mask8 (0xFF + get_reg st r))).
Proof. reflexivity. Qed.

Lemma on_zero_args_eq (r : regname) (act : action) (st : astate) (args : list Z) :
  on_zero r act st args = if get_reg st r =? 0 then act st args else Ok st.
Proof. reflexivity. Qed.

Lemma clear_flag_args_eq (f : flag) (st : astate) (args : list Z) :
  clear_flag f st args = Ok (resetflag st f).
Proof. reflexivity. Qed.

Lemma early_abort_args_eq (st : astate) (args : list Z) :
  early_abort st args
  = Ok (with_plen st (pop_down_to_head (a_plen st) (a_plen st))).
Proof. reflexivity. Qed.

Ltac machine_ldir :=
  cbv -[Z.add Z.sub Z.opp Z.mul Z.land Z.lor Z.lxor Z.lnot Z.shiftl Z.shiftr
        Z.eqb Z.ltb Z.leb Z.of_nat Z.to_nat
        mask8 mask16 hi8 pair16 high_after_low decode_instruction ldi_flags
        set_flags do_each inc dec on_zero on_flag clear_flag early_abort];
  cbn -[set_flags do_each inc dec on_zero on_flag clear_flag early_abort ldi_flags].

Ltac micro_ldir tac :=
  first [ progress cbn [do_each bind]
        | erewrite set_flags_ldi_eq by (machine_ldir; reflexivity)
        | rewrite inc_args_eq | rewrite dec_args_eq
        | rewrite on_zero_args_eq
        | rewrite clear_flag_args_eq | rewrite early_abort_args_eq
        | progress tac ].

Ltac tick_ldir tac :=
  erewrite run_pipeline_tick;
  [ | unfold clock; machine_ldir; repeat (micro_ldir tac; machine_ldir);
      reflexivity
    | cbn; discriminate ].

(** One execution of LDIR: the byte at HL is written at DE, HL and DE
    are incremented and BC decremented; either BC has become zero and
    the instruction is over after 16 T-cycles with PC past it and P/V
    reset, or it has taken 21 T-cycles, PC is back at its first byte and
    P/V is set. *)
Lemma ldir_iteration (c : CPU) :
  wf_regs (cpu_reg c) ->
  membus_read c (reg_PC (cpu_reg c)) = 0xED ->
  membus_read c (mask16 (reg_PC (cpu_reg c) + 1)) = 0xB0 ->
  exists w t,
    exec_instruction 64 c = Some (Ok (w, t))
    /\ wf_regs (cpu_reg (w_cpu w))
    /\ cpu_membus (w_cpu w)
       = (fun a => if a =? getreg (cpu_reg c) rDE
                   then membus_read c (getreg (cpu_reg c) rHL)
                   else cpu_membus c a)
    /\ getreg (cpu_reg (w_cpu w)) rBC = mask16 (getreg (cpu_reg c) rBC - 1)
    /\ getreg (cpu_reg (w_cpu w)) rHL = mask16 (getreg (cpu_reg c) rHL + 1)
    /\ getreg (cpu_reg (w_cpu w)) rDE = mask16 (getreg (cpu_reg c) rDE + 1)
    /\ reg_A (cpu_reg (w_cpu w)) = reg_A (cpu_reg c)
    /\ reg_SP (cpu_reg (w_cpu w)) = reg_SP (cpu_reg c)
    /\ ((t = 16%nat
         /\ reg_PC (cpu_reg (w_cpu w)) = mask16 (reg_PC (cpu_reg c) + 2)
         /\ getreg (cpu_reg (w_cpu w)) rBC = 0
         /\ regs_getflag (cpu_reg (w_cpu w)) fP = 0)
        \/ (t = 21%nat
            /\ reg_PC (cpu_reg (w_cpu w)) = reg_PC (cpu_reg c)
            /\ getreg (cpu_reg (w_cpu w)) rBC <> 0
            /\ regs_getflag (cpu_reg (w_cpu w)) fP = 1)).
Proof.
  destruct_cpu c. intros Hwf. wf_bounds Hwf. cbn. intros Hm0 Hm1.
  unfold exec_instruction, fetch.
  destruct (mask16 (65535 + pair16 vb vc) =? 0) eqn:EB;
    repeat tick_ldir ltac:(
      rewrite ?pc_plus_2; rewrite ?Hm0, ?Hm1;
      rewrite ?decode_ED, ?decode_EDB0;
      rewrite ?pair16_split by apply mask16_range;
      rewrite ?EB);
    rewrite run_pipeline_done by reflexivity;
    do 2 eexists; (split; [reflexivity|]);
    unfold regs_getflag, wf_regs;
    cbn [w_cpu cpu_reg cpu_membus getreg flag_bit reg_A reg_F reg_B reg_C
         reg_D reg_E reg_H reg_L reg_I reg_R reg_IXH reg_IXL reg_IYH reg_IYL
         reg_SP reg_PC];
    rewrite ?pc_back_to_opcode by assumption;
    rewrite ?pair16_split by apply mask16_range;
    rewrite ?ldi_flags_PV, ?ldi_flags_PV_cleared;
    rewrite <- (mask16_pred (pair16 vb vc));
    pose proof (mask8_range (ldi_flags vf (mem (pair16 vh vl) + va)));
    pose proof (mask8_range
                  (Z.land (mask8 (ldi_flags vf (mem (pair16 vh vl) + va))) 251));
    pose proof (hi8_range (mask16 (65535 + pair16 vb vc)));
    pose proof (mask8_range (mask16 (65535 + pair16 vb vc)));
    pose proof (hi8_range (mask16 (pair16 vh vl + 1)));
    pose proof (mask8_range (mask16 (pair16 vh vl + 1)));
    pose proof (hi8_range (mask16 (pair16 vd ve + 1)));
    pose proof (mask8_range (mask16 (pair16 vd ve + 1)));
    pose proof (mask16_range (vpc + 2));
    apply Z.eqb_eq in EB || apply Z.eqb_neq in EB;
    repeat split; try assumption; try reflexivity; lia.
Qed.

Lemma wf_pairs (r : registers) :
  wf_regs r ->
  0 <= getreg r rBC < 65536 /\ 0 <= getreg r rDE < 65536
  /\ 0 <= getreg r rHL < 65536 /\ 0 <= reg_PC r < 65536.
Proof.
  intros [[_ [_ [Hb [Hc [Hd [He [Hh Hl]]]]]]] [_ [_ Hpc]]].
  cbn [getreg]. repeat split; try apply pair16_range; try apply Hpc; assumption.
Qed.

(** Two addresses less than 65536 apart are different cells. *)
Lemma mask16_apart (x i j : Z) :
  0 <= i < j -> j < 65536 -> mask16 (x + i) <> mask16 (x + j).
Proof.
  intros Hi Hj. rewrite !mask16_mod. intros E.
  pose proof (Z.div_mod (x + i) 65536 ltac:(lia)) as E1.
  pose proof (Z.div_mod (x + j) 65536 ltac:(lia)) as E2.
  rewrite E in E1. lia.
Qed.

Lemma mask16_shift (x i : Z) : mask16 (mask16 (x + 1) + i) = mask16 (x + (i + 1)).
Proof. rewrite mask16_add_l. f_equal. lia. Qed.

(** LDIR run until BC is zero, [n] executions following the first one,
    with the cells written neither among those read nor the two of the
    opcode. *)
Lemma ldir_copies_within (n : nat) :
  forall c : CPU,
    wf_regs (cpu_reg c) ->
    membus_read c (reg_PC (cpu_reg c)) = 0xED ->
    membus_read c (mask16 (reg_PC (cpu_reg c) + 1)) = 0xB0 ->
    getreg (cpu_reg c) rBC = Z.of_nat (S n) ->
    (forall i, 0 <= i < Z.of_nat (S n) ->
       mask16 (getreg (cpu_reg c) rDE + i) <> reg_PC (cpu_reg c)
       /\ mask16 (getreg (cpu_reg c) rDE + i) <> mask16 (reg_PC (cpu_reg c) + 1)) ->
    (forall i j, 0 <= i < Z.of_nat (S n) -> 0 <= j < Z.of_nat (S n) ->
       mask16 (getreg (cpu_reg c) rDE + i) <> mask16 (getreg (cpu_reg c) rHL + j)) ->
    exists c' : CPU,
      exec_instructions 64 (S n) c = Some (Ok (c', (21 * n + 16)%nat))
      /\ getreg (cpu_reg c') rBC = 0
      /\ getreg (cpu_reg c') rHL = mask16 (getreg (cpu_reg c) rHL + Z.of_nat (S n))
      /\ getreg (cpu_reg c') rDE = mask16 (getreg (cpu_reg c) rDE + Z.of_nat (S n))
      /\ reg_PC (cpu_reg c') = mask16 (reg_PC (cpu_reg c) + 2)
      /\ regs_getflag (cpu_reg c') fP = 0
      /\ (forall i, 0 <= i < Z.of_nat (S n) ->
            membus_read c' (mask16 (getreg (cpu_reg c) rDE + i))
            = membus_read c (mask16 (getreg (cpu_reg c) rHL + i)))
      /\ (forall a, (forall i, 0 <= i < Z.of_nat (S n) ->
                       a <> mask16 (getreg (cpu_reg c) rDE + i)) ->
            membus_read c' a = membus_read c a).
Proof.
  induction n as [|n IH]; intros c Hwf Hm0 Hm1 Hbc Hcode Hdis;
    destruct (ldir_iteration c Hwf Hm0 Hm1)
      as [w [t [Hrun [Hwf' [Hmem [Hbc' [Hhl' [Hde' [_ [_ Hcases]]]]]]]]]];
    destruct (wf_pairs _ Hwf) as [Rbc [Rde [Rhl Rpc]]];
    assert (Hde0 : mask16 (getreg (cpu_reg c) rDE + 0) = getreg (cpu_reg c) rDE)
      by (rewrite Z.add_0_r; now apply mask16_id);
    assert (Hhl0 : mask16 (getreg (cpu_reg c) rHL + 0) = getreg (cpu_reg c) rHL)
      by (rewrite Z.add_0_r; now apply mask16_id).
  - rewrite Hbc in Hbc'. change (mask16 (Z.of_nat 1 - 1)) with 0 in Hbc'.
    destruct Hcases as [[-> [Hpc [_ Hp]]] | [_ [_ [Hnz _]]]]; [|congruence].
    exists (w_cpu w). split; [cbn [exec_instructions]; now rewrite Hrun|].
    repeat split; try assumption.
    + intros i Hi. assert (i = 0) as -> by lia.
      unfold membus_read. rewrite Hmem, Hde0, Hhl0, Z.eqb_refl. reflexivity.
    + intros a Ha. unfold membus_read. rewrite Hmem.
      specialize (Ha 0 ltac:(lia)). rewrite Hde0 in Ha.
      apply Z.eqb_neq in Ha. now rewrite Ha.
  - assert (Hbc1 : getreg (cpu_reg (w_cpu w)) rBC = Z.of_nat (S n)).
    { rewrite Hbc', Hbc, mask16_id by lia. lia. }
    destruct Hcases as [[_ [_ [Hz _]]] | [-> [Hpc _]]]; [lia|].
    destruct (Hcode 0 ltac:(lia)) as [Hc0 Hc1]. rewrite Hde0 in Hc0, Hc1.
    destruct (IH (w_cpu w)) as [c' [Hrun' [Hz [Hhl [Hde [Hpc' [Hp [Hcopy Hrest]]]]]]]].
    + exact Hwf'.
    + unfold membus_read. rewrite Hmem, Hpc.
      replace (_ =? _) with false by (symmetry; apply Z.eqb_neq; congruence).
      exact Hm0.
    + unfold membus_read. rewrite Hmem, Hpc.
      replace (_ =? _) with false by (symmetry; apply Z.eqb_neq; congruence).
      exact Hm1.
    + exact Hbc1.
    + intros i Hi. rewrite Hde', Hpc, mask16_shift. apply Hcode. lia.
    + intros i j Hi Hj. rewrite Hde', Hhl', !mask16_shift. apply Hdis; lia.
    + exists c'.
      split; [rewrite (exec_instructions_S _ _ _ _ _ _ _ Hrun Hrun');
              do 3 f_equal; lia|].
      split; [exact Hz|].
      split; [rewrite Hhl, Hhl', mask16_add_l; f_equal; lia|].
      split; [rewrite Hde, Hde', mask16_add_l; f_equal; lia|].
      split; [now rewrite Hpc', Hpc|].
      split; [exact Hp|]. split.
      * intros i Hi. destruct (Z.eq_dec i 0) as [-> | Hnz].
        -- rewrite Hrest.
           ++ unfold membus_read. rewrite Hmem, Hde0, Hhl0, Z.eqb_refl.
              reflexivity.
           ++ intros i' Hi'. rewrite Hde', mask16_shift.
              apply mask16_apart; lia.
        -- specialize (Hcopy (i - 1) ltac:(lia)).
           rewrite Hde', Hhl', !mask16_shift in Hcopy.
           replace (i - 1 + 1) with i in Hcopy by lia. rewrite Hcopy.
           unfold membus_read. rewrite Hmem.
           replace (_ =? _) with false; [reflexivity|].
           symmetry. apply Z.eqb_neq. rewrite <- Hde0.
           intros E. apply (Hdis 0 i); [lia | lia | now symmetry].
      * intros a Ha. rewrite Hrest.
        -- unfold membus_read. rewrite Hmem.
           specialize (Ha 0 ltac:(lia)). rewrite Hde0 in Ha.
           apply Z.eqb_neq in Ha. now rewrite Ha.
        -- intros i' Hi'. rewrite Hde', mask16_shift. apply Ha. lia.
Qed.

(** X17: LDIR (ED B0) with BC = n, at least 1, on well-formed registers,
    when the n cells from DE on are none of the n cells from HL on nor
    the two cells of the opcode (addresses taken modulo 65536): the
    instruction is executed n times, the first n - 1 taking 21 T-cycles
    and the last 16; afterwards cell DE + i holds what cell HL + i held,
    for every i below n, all other cells are unchanged, BC is 0, HL and
    DE have advanced by n, PC is past the two bytes and P/V is reset. *)
Theorem ldir_copies_block (c : CPU) (n : nat) :
  wf_regs (cpu_reg c) ->
  membus_read c (reg_PC (cpu_reg c)) = 0xED ->
  membus_read c (mask16 (reg_PC (cpu_reg c) + 1)) = 0xB0 ->
  getreg (cpu_reg c) rBC = Z.of_nat n ->
  (1 <= n)%nat ->
  (forall i, 0 <= i < Z.of_nat n ->
     mask16 (getreg (cpu_reg c) rDE + i) <> reg_PC (cpu_reg c)
     /\ mask16 (getreg (cpu_reg c) rDE + i) <> mask16 (reg_PC (cpu_reg c) + 1)) ->
  (forall i j, 0 <= i < Z.of_nat n -> 0 <= j < Z.of_nat n ->
     mask16 (getreg (cpu_reg c) rDE + i) <> mask16 (getreg (cpu_reg c) rHL + j)) ->
  exists c' : CPU,
    exec_instructions 64 n c = Some (Ok (c', (21 * (n - 1) + 16)%nat))
    /\ getreg (cpu_reg c') rBC = 0
    /\ getreg (cpu_reg c') rHL = mask16 (getreg (cpu_reg c) rHL + Z.of_nat n)
    /\ getreg (cpu_reg c') rDE = mask16 (getreg (cpu_reg c) rDE + Z.of_nat n)
    /\ reg_PC (cpu_reg c') = mask16 (reg_PC (cpu_reg c) + 2)
    /\ regs_getflag (cpu_reg c') fP = 0
    /\ (forall i, 0 <= i < Z.of_nat n ->
          membus_read c' (mask16 (getreg (cpu_reg c) rDE + i))
          = membus_read c (mask16 (getreg (cpu_reg c) rHL + i)))
    /\ (forall a, (forall i, 0 <= i < Z.of_nat n ->
                     a <> mask16 (getreg (cpu_reg c) rDE + i)) ->
          membus_read c' a = membus_read c a).
Proof.
  intros Hwf Hm0 Hm1 Hbc Hn Hcode Hdis.
  destruct n as [|n]; [lia|].
  replace (S n - 1)%nat with n by lia.
  now apply ldir_copies_within.
Qed.

Lemma ldir_copies_block_witness :
  exists c' : CPU,
    exec_instructions 64 3 ldir_cpu = Some (Ok (c', 58%nat))
    /\ getreg (cpu_reg c') rBC = 0
    /\ getreg (cpu_reg c') rHL = 0x4003
    /\ getreg (cpu_reg c') rDE = 0x5003
    /\ reg_PC (cpu_reg c') = 0x0102
    /\ membus_read c' 0x5000 = 0x11
    /\ membus_read c' 0x5001 = 0x22
    /\ membus_read c' 0x5002 = 0x33.
Proof.
  assert (Hsmall : forall i, 0 <= i < Z.of_nat 3 -> i = 0 \/ i = 1 \/ i = 2)
    by (intros; lia).
  destruct (ldir_copies_block ldir_cpu 3)
    as [c' [Hrun [Hbc [Hhl [Hde [Hpc [_ [Hcopy _]]]]]]]].
  - concrete_wf.
  - reflexivity.
  - reflexivity.
  - reflexivity.
  - lia.
  - intros i Hi.
    destruct (Hsmall i Hi) as [-> | [-> | ->]]; split; vm_compute; discriminate.
  - intros i j Hi Hj.
    destruct (Hsmall i Hi) as [-> | [-> | ->]];
      destruct (Hsmall j Hj) as [-> | [-> | ->]]; vm_compute; discriminate.
  - exists c'. split; [exact Hrun|].
    split; [exact Hbc|]. split; [exact Hhl|]. split; [exact Hde|].
    split; [exact Hpc|].
    split; [exact (Hcopy 0 ltac:(lia))|].
    split; [exact (Hcopy 1 ltac:(lia)) | exact (Hcopy 2 ltac:(lia))].
Defined.

(** ** EX (SP),HL *)

Lemma decode_E3 :
  decode_instruction (OpByte 0xE3)
  = Ok (0,
        [RRr "H" (Some rH) PNone; RRr "L" (Some rL) PNone],
        [SR (Some high_after_low) None 0;
         SR (Some high_after_low) (Some (LDr rHL PNone "value")) 1;
         SW None "H" 0 None;
         SW None "L" 2 None]).
Proof. reflexivity. Qed.

Lemma above_neq (a : Z) : (mask16 (a + 1) =? a) = false.
Proof.
  apply Z.eqb_neq. intros E.
  pose proof (mask16_range (a + 1)) as R. rewrite E in R.
  apply (mask16_succ_neq a). now rewrite (mask16_id a) by lia.
Qed.

Lemma below_above (a : Z) : mask16 (mask16 (a + 1) - 1) = mask16 a.
Proof. rewrite mask16_sub_l. f_equal. lia. Qed.

(** X18: EX (SP),HL (opcode 0xE3) on well-formed registers, with bytes
    in the two cells on top of the stack: after 19 T-cycles L holds what
    the cell at SP held and H what the cell at SP+1 held, the two cells
    hold the old L and the old H, SP is what it was, PC is one further,
    and no other cell of the memory has changed. *)
Theorem ex_sp_hl_exchanges (c : CPU) :
  wf_regs (cpu_reg c) ->
  membus_read c (reg_PC (cpu_reg c)) = 0xE3 ->
  0 <= membus_read c (reg_SP (cpu_reg c)) < 256 ->
  0 <= membus_read c (mask16 (reg_SP (cpu_reg c) + 1)) < 256 ->
  exists w,
    exec_instruction 64 c = Some (Ok (w, 19%nat))
    /\ reg_L (cpu_reg (w_cpu w)) = membus_read c (reg_SP (cpu_reg c))
    /\ reg_H (cpu_reg (w_cpu w)) = membus_read c (mask16 (reg_SP (cpu_reg c) + 1))
    /\ membus_read (w_cpu w) (reg_SP (cpu_reg c)) = reg_L (cpu_reg c)
    /\ membus_read (w_cpu w) (mask16 (reg_SP (cpu_reg c) + 1)) = reg_H (cpu_reg c)
    /\ reg_SP (cpu_reg (w_cpu w)) = reg_SP (cpu_reg c)
    /\ reg_PC (cpu_reg (w_cpu w)) = mask16 (reg_PC (cpu_reg c) + 1)
    /\ (forall a, a <> reg_SP (cpu_reg c) ->
                  a <> mask16 (reg_SP (cpu_reg c) + 1) ->
                  membus_read (w_cpu w) a = membus_read c a).
Proof.
  destruct_cpu c. intros Hwf. wf_bounds Hwf. cbn. intros Hm0 Hlo Hhi.
  unfold exec_instruction, fetch.
  run_to_end ltac:(rewrite ?Hm0, ?decode_E3).
  eexists. split; [reflexivity|]. cbn.
  repeat (rewrite below_above || rewrite mask16_mask16).
  rewrite ?(mask16_id vsp Hsp).
  rewrite high_after_low_pair16, mask8_pair16, hi8_pair16 by assumption.
  rewrite Z.eqb_refl, above_neq, Z.eqb_refl.
  repeat split.
  intros a N1 N2. apply Z.eqb_neq in N1, N2. now rewrite N1, N2.
Qed.

Lemma ex_sp_hl_exchanges_witness :
  exists w,
    exec_instruction 64
      (example_cpu 0x00 false [(0x0100, 0xE3); (0xFFFE, 0x34); (0xFFFF, 0x12)])
    = Some (Ok (w, 19%nat))
    /\ reg_L (cpu_reg (w_cpu w)) = 0x34
    /\ reg_H (cpu_reg (w_cpu w)) = 0x12
    /\ membus_read (w_cpu w) 0xFFFE = 0x00
    /\ membus_read (w_cpu w) 0xFFFF = 0x40.
Proof.
  destruct (ex_sp_hl_exchanges
              (example_cpu 0x00 false
                 [(0x0100, 0xE3); (0xFFFE, 0x34); (0xFFFF, 0x12)]))
    as [w [Hrun [Hl [Hh [Hm0 [Hm1 _]]]]]].
  - concrete_wf.
  - reflexivity.
  - vm_compute. split; [discriminate | reflexivity].
  - vm_compute. split; [discriminate | reflexivity].
  - exists w. repeat split; assumption.
Defined.

(** ** Port input and output *)

Lemma decode_D3 :
  decode_instruction (OpByte 0xD3)
  = Ok (0, [],
        [OD (Some high_after_low) None "address" false;
         PW (Some rA) None None (Some rA)]).
Proof. reflexivity. Qed.

Lemma decode_DB :
  decode_instruction (OpByte 0xDB)
  = Ok (0, [],
        [OD (Some high_after_low) None "value" false;
         PR (Some rA) None None (Some rA)]).
Proof. reflexivity. Qed.

(** X20: OUT (n),A (opcode 0xD3 followed by the port byte n) takes 11
    T-cycles and performs exactly one write on the I/O bus, after those
    already made: the value of A, to the port whose low address byte is
    n and whose high address byte is A.  Registers other than PC, and
    the memory, are as before. *)
Theorem out_n_a_writes_port (c : CPU) (n : Z) :
  membus_read c (reg_PC (cpu_reg c)) = 0xD3 ->
  membus_read c (mask16 (reg_PC (cpu_reg c) + 1)) = n ->
  0 <= n < 256 ->
  exists w,
    exec_instruction 64 c = Some (Ok (w, 11%nat))
    /\ cpu_iowrites (w_cpu w)
       = cpu_iowrites c ++ [(n, reg_A (cpu_reg c), reg_A (cpu_reg c))]
    /\ cpu_reg (w_cpu w) = setreg (cpu_reg c) rPC (reg_PC (cpu_reg c) + 2)
    /\ cpu_membus (w_cpu w) = cpu_membus c.
Proof.
  destruct_cpu c. cbn. intros Hm0 Hm1 Hn.
  unfold exec_instruction, fetch.
  run_to_end ltac:(rewrite ?Hm0, ?Hm1, ?decode_D3, ?land_0xFF,
                           ?(mask8_id n Hn)).
  eexists. split; [reflexivity|]. cbn.
  rewrite pc_plus_2. repeat split.
Qed.

Lemma out_n_a_writes_port_witness :
  exists w,
    exec_instruction 64 (example_cpu 0x00 false [(0x0100, 0xD3); (0x0101, 0xFE)])
    = Some (Ok (w, 11%nat))
    /\ cpu_iowrites (w_cpu w) = [(0xFE, 0x12, 0x12)].
Proof.
  destruct (out_n_a_writes_port
              (example_cpu 0x00 false [(0x0100, 0xD3); (0x0101, 0xFE)]) 0xFE
              eq_refl eq_refl ltac:(lia))
    as [w [Hrun [Hio _]]].
  exists w. split; [exact Hrun | exact Hio].
Defined.

(** X21: IN A,(n) (opcode 0xDB followed by the port byte n) takes 11
    T-cycles and loads A with the low eight bits of what the I/O bus
    returns for the port whose low address byte is n and whose high
    address byte is the old A; the flags, the other registers but PC,
    the memory and the record of port writes are as before. *)
Theorem in_a_n_reads_port (c : CPU) (n : Z) :
  membus_read c (reg_PC (cpu_reg c)) = 0xDB ->
  membus_read c (mask16 (reg_PC (cpu_reg c) + 1)) = n ->
  0 <= n < 256 ->
  exists w,
    exec_instruction 64 c = Some (Ok (w, 11%nat))
    /\ cpu_reg (w_cpu w)
       = setreg (setreg (cpu_reg c) rPC (reg_PC (cpu_reg c) + 2)) rA
           (iobus_read c n (reg_A (cpu_reg c)))
    /\ reg_A (cpu_reg (w_cpu w)) = iobus_read c n (reg_A (cpu_reg c)) mod 256
    /\ reg_F (cpu_reg (w_cpu w)) = reg_F (cpu_reg c)
    /\ cpu_iowrites (w_cpu w) = cpu_iowrites c
    /\ cpu_membus (w_cpu w) = cpu_membus c.
Proof.
  destruct_cpu c. cbn. intros Hm0 Hm1 Hn.
  unfold exec_instruction, fetch.
  run_to_end ltac:(rewrite ?Hm0, ?Hm1, ?decode_DB, ?land_0xFF,
                           ?(mask8_id n Hn)).
  eexists. split; [reflexivity|]. cbn.
  rewrite pc_plus_2, <- mask8_mod. repeat split.
Qed.

Lemma in_a_n_reads_port_witness :
  exists w,
    exec_instruction 64 (example_cpu 0x00 false [(0x0100, 0xDB); (0x0101, 0xFE)])
    = Some (Ok (w, 11%nat))
    /\ reg_A (cpu_reg (w_cpu w)) = 0xFF.
Proof.
  destruct (in_a_n_reads_port
              (example_cpu 0x00 false [(0x0100, 0xDB); (0x0101, 0xFE)]) 0xFE
              eq_refl eq_refl ltac:(lia))
    as [w [Hrun [_ [Ha _]]]].
  exists w. split; [exact Hrun | exact Ha].
Defined.

(** ** Opcodes the table knows, and the fetch of one it does not *)

Lemma INSTRUCTION_STATES_has_every_CB_byte :
  forallb (fun b => match table_get INSTRUCTION_STATES
                            (OpTuple [0xCB; Z.of_nat b]) with
                    | Some _ => true
                    | None => false
                    end) (seq 0 256) = true.
Proof. vm_compute. reflexivity. Qed.

(** X22: [decode_instruction] raises on no single byte and on no byte
    that follows the prefix 0xCB: the table has an entry for each of
    these 512 opcodes. *)
Theorem decode_instruction_knows_every_byte (b : Z) :
  0 <= b <= 255 ->
  (exists d, decode_instruction (OpByte b) = Ok d)
  /\ (exists d, decode_instruction (OpTuple [0xCB; b]) = Ok d).
Proof.
  intros Hb. unfold decode_instruction. split.
  - pose proof INSTRUCTION_STATES_has_every_byte as H.
    rewrite forallb_forall in H. specialize (H (Z.to_nat b)).
    rewrite Z2Nat.id in H by lia.
    destruct (table_get INSTRUCTION_STATES (OpByte b)); [eexists; reflexivity|].
    assert (false = true); [|discriminate]. apply H. apply in_seq. lia.
  - pose proof INSTRUCTION_STATES_has_every_CB_byte as H.
    rewrite forallb_forall in H. specialize (H (Z.to_nat b)).
    rewrite Z2Nat.id in H by lia.
    destruct (table_get INSTRUCTION_STATES (OpTuple [0xCB; b]));
      [eexists; reflexivity|].
    assert (false = true); [|discriminate]. apply H. apply in_seq. lia.
Qed.

Lemma decode_instruction_knows_every_byte_witness :
  (exists d, decode_instruction (OpByte 0x76) = Ok d)
  /\ (exists d, decode_instruction (OpTuple [0xCB; 0x76]) = Ok d).
Proof. apply decode_instruction_knows_every_byte. lia. Defined.

Lemma decode_unknown (k : opcode) :
  table_get INSTRUCTION_STATES k = None ->
  decode_instruction k = Raise (UnrecognisedInstructionError k).
Proof. intros H. unfold decode_instruction. now rewrite H. Qed.

(** X23: the fetch of an ED-prefixed opcode that the table does not have.
    The prefix is fetched in 4 T-cycles, the byte after it is read in
    the next two, and the seventh clock raises
    UnrecognisedInstructionError with the pair (0xED, b); PC then points
    at the byte b, one past the prefix, and registers and memory are
    otherwise untouched. *)
Theorem fetch_of_unknown_ED_opcode_raises (c : CPU) (b : Z) :
  membus_read c (reg_PC (cpu_reg c)) = 0xED ->
  membus_read c (mask16 (reg_PC (cpu_reg c) + 1)) = b ->
  table_get INSTRUCTION_STATES (OpTuple [0xED; b]) = None ->
  exec_instruction 64 c
  = Some (Raise (UnrecognisedInstructionError (OpTuple [0xED; b])))
  /\ exists w,
       clocks 6 (fetch c) = Ok w
       /\ clock w = Raise (UnrecognisedInstructionError (OpTuple [0xED; b]))
       /\ cpu_reg (w_cpu w) = setreg (cpu_reg c) rPC (reg_PC (cpu_reg c) + 1)
       /\ cpu_membus (w_cpu w) = cpu_membus c.
Proof.
  intros Hm0 Hm1 Hnone.
  pose proof (decode_unknown _ Hnone) as Hdec. clear Hnone.
  destruct_cpu c. cbn in Hm0, Hm1 |- *.
  split.
  - unfold exec_instruction, fetch.
    do 6 tick_with ltac:(rewrite ?Hm0, ?Hm1, ?decode_ED).
    unfold run_pipeline. cbn [w_pipeline]. unfold clock.
    machine. rewrite Hdec. reflexivity.
  - unfold fetch. eexists. split.
    + unfold clocks.
      do 6 (match goal with
            | |- context [clock ?w] =>
                let H := fresh in
                eassert (H : clock w = Ok _)
                  by (unfold clock; step_eval ltac:(rewrite ?Hm0, ?Hm1, ?decode_ED);
                      reflexivity);
                rewrite H; clear H; cbn [bind]
            end).
      reflexivity.
    + split; [unfold clock; machine; rewrite Hdec; reflexivity|].
      split; reflexivity.
Qed.

Lemma fetch_of_unknown_ED_opcode_raises_witness :
  exec_instruction 64 (example_cpu 0x00 false [(0x0100, 0xED); (0x0101, 0x00)])
  = Some (Raise (UnrecognisedInstructionError (OpTuple [0xED; 0x00]))).
Proof.
  apply (fetch_of_unknown_ED_opcode_raises
           (example_cpu 0x00 false [(0x0100, 0xED); (0x0101, 0x00)]) 0x00).
  - reflexivity.
  - reflexivity.
  - vm_compute. reflexivity.
Defined.

(** ** A non-maskable interrupt and the RETN that ends its routine *)

Lemma decode_ED45 :
  decode_instruction (OpTuple [0xED; 0x45])
  = Ok (0, [],
        [SR (Some high_after_low) None 0;
         SR (Some high_after_low)
            (Some (do_each [restore_iff; JP PNone None None])) 0]).
Proof. reflexivity. Qed.

(** X24: a non-maskable interrupt whose routine at 0x0066 is a lone RETN
    (ED 45), on a CPU with 16-bit SP and PC and the two cells below SP
    away from 0x0066 and 0x0067.  The response takes 11 T-cycles and the
    RETN 14; afterwards PC is the interrupted PC again, the register
    file is what it was, and IFF1 has taken the value of IFF2, which is
    unchanged. *)
Theorem nmi_then_retn_resumes (c : CPU) (ack : CPU -> list Z) :
  0 <= reg_SP (cpu_reg c) < 65536 ->
  0 <= reg_PC (cpu_reg c) < 65536 ->
  membus_read c 0x0066 = 0xED ->
  membus_read c 0x0067 = 0x45 ->
  mask16 (reg_SP (cpu_reg c) - 1) <> 0x0066 ->
  mask16 (reg_SP (cpu_reg c) - 1) <> 0x0067 ->
  mask16 (reg_SP (cpu_reg c) - 2) <> 0x0066 ->
  mask16 (reg_SP (cpu_reg c) - 2) <> 0x0067 ->
  exists w0 w1 w2,
    interrupt_response c true (Some ack) = Ok w0
    /\ run_pipeline 64 0 w0 = Some (Ok (w1, 11%nat))
    /\ exec_instruction 64 (w_cpu w1) = Some (Ok (w2, 14%nat))
    /\ cpu_reg (w_cpu w2) = cpu_reg c
    /\ cpu_iff1 (w_cpu w2) = cpu_iff2 c
    /\ cpu_iff2 (w_cpu w2) = cpu_iff2 c.
Proof.
  destruct_cpu c. cbn. intros Hsp Hpc Hm0 Hm1 N1 N2 N3 N4.
  assert (Z.eqb 0x66 (mask16 (vsp - 1)) = false) by (apply Z.eqb_neq; congruence).
  assert (Z.eqb 0x67 (mask16 (vsp - 1)) = false) by (apply Z.eqb_neq; congruence).
  assert (Z.eqb 0x66 (mask16 (vsp - 2)) = false) by (apply Z.eqb_neq; congruence).
  assert (Z.eqb 0x67 (mask16 (vsp - 2)) = false) by (apply Z.eqb_neq; congruence).
  do 3 eexists. split; [reflexivity|].
  run_to_end ltac:(addresses Hsp).
  split; [reflexivity|]. cbn [w_cpu].
  unfold exec_instruction, fetch.
  run_to_end ltac:(change (mask16 102) with 102; change (mask16 103) with 103;
                   addresses Hsp; rewrite ?H, ?H0, ?H1, ?H2; rewrite ?Hm0, ?Hm1;
                   rewrite ?decode_ED, ?decode_ED45).
  split; [reflexivity|]. cbn. addresses Hsp.
  rewrite high_after_low_pair16, pair16_split, mask16_id by (try apply mask16_range; assumption).
  repeat split.
Qed.

Lemma nmi_then_retn_resumes_witness :
  exists w0 w1 w2,
    interrupt_response
      (with_iff (example_cpu 0x00 false [(0x0066, 0xED); (0x0067, 0x45)]) 0 1)
      true (Some (fun _ => [])) = Ok w0
    /\ run_pipeline 64 0 w0 = Some (Ok (w1, 11%nat))
    /\ exec_instruction 64 (w_cpu w1) = Some (Ok (w2, 14%nat))
    /\ reg_PC (cpu_reg (w_cpu w2)) = 0x0100
    /\ cpu_iff1 (w_cpu w2) = 1.
Proof.
  destruct (nmi_then_retn_resumes
              (with_iff (example_cpu 0x00 false [(0x0066, 0xED); (0x0067, 0x45)]) 0 1)
              (fun _ => []))
    as [w0 [w1 [w2 [H0 [H1 [H2 [H3 [H4 _]]]]]]]].
  - vm_compute. split; [discriminate | reflexivity].
  - vm_compute. split; [discriminate | reflexivity].
  - reflexivity.
  - reflexivity.
  - vm_compute. discriminate.
  - vm_compute. discriminate.
  - vm_compute. discriminate.
  - vm_compute. discriminate.
  - exists w0, w1, w2. rewrite H3. repeat split; assumption.
Defined.

(** ** EX DE,HL *)

Lemma decode_EB :
  decode_instruction (OpByte 0xEB) = Ok (0, [EX (Some rDE) (Some rHL)], []).
Proof. reflexivity. Qed.

(** X25: EX DE,HL (opcode 0xEB) on well-formed registers takes 4
    T-cycles and exchanges DE with HL; every other register but PC, the
    flags and the memory are as before. *)
Theorem ex_de_hl_exchanges (c : CPU) :
  wf_regs (cpu_reg c) ->
  membus_read c (reg_PC (cpu_reg c)) = 0xEB ->
  exists w,
    exec_instruction 64 c = Some (Ok (w, 4%nat))
    /\ cpu_reg (w_cpu w)
       = setreg (setreg (setreg (cpu_reg c) rPC (reg_PC (cpu_reg c) + 1))
                        rDE (getreg (cpu_reg c) rHL))
                rHL (getreg (cpu_reg c) rDE)
    /\ getreg (cpu_reg (w_cpu w)) rDE = getreg (cpu_reg c) rHL
    /\ getreg (cpu_reg (w_cpu w)) rHL = getreg (cpu_reg c) rDE
    /\ reg_F (cpu_reg (w_cpu w)) = reg_F (cpu_reg c)
    /\ cpu_membus (w_cpu w) = cpu_membus c.
Proof.
  destruct_cpu c. intros Hwf. wf_bounds Hwf. cbn. intros Hm0.
  unfold exec_instruction, fetch.
  run_to_end ltac:(rewrite ?Hm0, ?decode_EB).
  eexists. split; [reflexivity|]. cbn.
  rewrite !hi8_pair16, !mask8_pair16 by assumption.
  repeat split.
Qed.

Lemma ex_de_hl_exchanges_witness :
  exists w,
    exec_instruction 64 (example_cpu 0x00 false [(0x0100, 0xEB)])
    = Some (Ok (w, 4%nat))
    /\ getreg (cpu_reg (w_cpu w)) rDE = 0x4000
    /\ getreg (cpu_reg (w_cpu w)) rHL = 0xD3E4.
Proof.
  destruct (ex_de_hl_exchanges (example_cpu 0x00 false [(0x0100, 0xEB)]))
    as [w [Hrun [_ [Hde [Hhl _]]]]].
  - concrete_wf.
  - reflexivity.
  - exists w. repeat split; assumption.
Defined.

(** ** The 8-bit arithmetic and logic on A *)

(** The flag updates of the 8-bit operations in closed form. *)
Ltac closed_form_of_set_flags HD D unfolded :=
  unfold set_flags; rewrite HD; cbn [bind];
  match goal with
  | st : astate |- _ =>
      destruct st as [[[a f0 b c d e h l i r ixh ixl iyh iyl sp pc
                        a' f' b' c' d' e' h' l']
                       i1 i2 im it mri mem ior iow] kws pl ds]
  end;
  unfold unfolded;
  cbv -[Z.add Z.sub Z.opp Z.mul Z.land Z.lor Z.lxor Z.lnot Z.shiftl Z.shiftr
        Z.eqb Z.ltb Z.leb Z.of_nat Z.to_nat mask8 assign_flag set_reg get_reg
        set_kw orb parity_fold];
  destruct (Z.land (Z.shiftr (Z.land D 255) 7) 1 =? 1);
  destruct (Z.land D 255 =? 0);
  destruct (Z.land (Z.shiftr (Z.land D 255) 5) 1 =? 1);
  destruct (Z.land (Z.shiftr (Z.land D 255) 3) 1 =? 1);
  try destruct ((127 <? D) || (D <? -128));
  try destruct ((255 <? D) || (D <? 0));
  try destruct (parity_fold (Z.to_nat (Z.land D 255)) (Z.land D 255) =? 0);
  cbv -[Z.add Z.sub Z.opp Z.mul Z.land Z.lor Z.lxor Z.lnot Z.shiftl Z.shiftr
        Z.eqb Z.ltb Z.leb Z.of_nat Z.to_nat mask8 parity_fold];
  reflexivity.

Lemma set_flags_add_eq (f : valfn) (st : astate) (args : list Z) (D : Z) :
  f st args = Ok D ->
  set_flags "SZ5H3V0C" (Some "value") None (PCall f) None st args
  = Ok (set_kw (set_reg st rF (byte_flags false (get_reg st rF) D))
               "value" (Z.land D 0xFF)).
Proof. intros HD. closed_form_of_set_flags HD D byte_flags. Qed.

Lemma set_flags_add_b_eq (f : valfn) (st : astate) (args : list Z) (D : Z) :
  f st args = Ok D ->
  set_flags "SZ5-3V0C" (Some "value") None (PCall f) None st args
  = Ok (set_kw (set_reg st rF (byte_flags false (get_reg st rF) D))
               "value" (Z.land D 0xFF)).
Proof. intros HD. closed_form_of_set_flags HD D byte_flags. Qed.

Lemma set_flags_sub_eq (f : valfn) (st : astate) (args : list Z) (D : Z) :
  f st args = Ok D ->
  set_flags "SZ5H3V1C" (Some "value") None (PCall f) None st args
  = Ok (set_kw (set_reg st rF (byte_flags true (get_reg st rF) D))
               "value" (Z.land D 0xFF)).
Proof. intros HD. closed_form_of_set_flags HD D byte_flags. Qed.

Lemma set_flags_and_eq (f : valfn) (st : astate) (args : list Z) (D : Z) :
  f st args = Ok D ->
  set_flags "SZ513P00" (Some "value") None (PCall f) None st args
  = Ok (set_kw (set_reg st rF (logic_flags true (get_reg st rF) D))
               "value" (Z.land D 0xFF)).
Proof. intros HD. closed_form_of_set_flags HD D logic_flags. Qed.

Lemma set_flags_or_eq (f : valfn) (st : astate) (args : list Z) (D : Z) :
  f st args = Ok D ->
  set_flags "SZ503P00" (Some "value") None (PCall f) None st args
  = Ok (set_kw (set_reg st rF (logic_flags false (get_reg st rF) D))
               "value" (Z.land D 0xFF)).
Proof. intros HD. closed_form_of_set_flags HD D logic_flags. Qed.

(** [force_flag] with a callable, as one write to F. *)
Lemma force_flag_call_eq (f : flag) (g : valfn) (st : astate) (args : list Z)
    (v : Z) :
  g st args = Ok v ->
  force_flag f (PCall g) st args
  = Ok (set_reg st rF
          (if v =? 0
           then Z.land (get_reg st rF) (0xFF - Z.shiftl 1 (flag_bit f))
           else Z.lor (get_reg st rF) (Z.shiftl 1 (flag_bit f)))).
Proof.
  intros Hg. unfold force_flag. rewrite Hg. cbn [bind].
  now destruct (v =? 0).
Qed.

(** One flag assignment of [set_flags], seen bit by bit. *)
Lemma testbit_assigned (F m j k : Z) (b : bool) :
  m = Z.shiftl 1 j -> 0 <= j < 8 -> 0 <= k < 8 ->
  Z.testbit (if b then mask8 (Z.lor F m) else mask8 (Z.land F (0xFF - m))) k
  = if k =? j then b else Z.testbit F k.
Proof.
  intros -> Hj Hk.
  destruct b; rewrite testbit_mask8 by lia.
  - rewrite Z.lor_spec, testbit_shiftl_1 by lia.
    destruct (k =? j); [apply orb_true_r | apply orb_false_r].
  - rewrite Z.land_spec, testbit_clear_mask by lia.
    destruct (k =? j); [apply andb_false_r | apply andb_true_r].
Qed.

Lemma testbit_forced (F m j k : Z) (b : bool) :
  m = Z.shiftl 1 j -> 0 <= j < 8 -> 0 <= k < 8 ->
  Z.testbit (if b then Z.lor F m else Z.land F (0xFF - m)) k
  = if k =? j then b else Z.testbit F k.
Proof.
  intros -> Hj Hk. destruct b.
  - rewrite Z.lor_spec, testbit_shiftl_1 by lia.
    destruct (k =? j); [apply orb_true_r | apply orb_false_r].
  - rewrite Z.land_spec, testbit_clear_mask by lia.
    destruct (k =? j); [apply andb_false_r | apply andb_true_r].
Qed.

Lemma testbit_reset (F m j k : Z) :
  m = Z.shiftl 1 j -> 0 <= j < 8 -> 0 <= k < 8 ->
  Z.testbit (mask8 (Z.land F (0xFF - m))) k
  = if k =? j then false else Z.testbit F k.
Proof. intros. now apply (testbit_assigned F m j k false). Qed.

(** The bits of F, one assignment after the other. *)
Ltac flag_layers :=
  repeat first
    [ rewrite (testbit_forced _ 2 1) by solve [reflexivity | lia]
    | rewrite (testbit_forced _ 16 4) by solve [reflexivity | lia]
    | rewrite (testbit_reset _ 1 0) by solve [reflexivity | lia]
    | rewrite (testbit_reset _ 2 1) by solve [reflexivity | lia]
    | rewrite (testbit_assigned _ 1 0) by solve [reflexivity | lia]
    | rewrite (testbit_assigned _ 4 2) by solve [reflexivity | lia]
    | rewrite (testbit_assigned _ 8 3) by solve [reflexivity | lia]
    | rewrite (testbit_assigned _ 32 5) by solve [reflexivity | lia]
    | rewrite (testbit_assigned _ 64 6) by solve [reflexivity | lia]
    | rewrite (testbit_assigned _ 128 7) by solve [reflexivity | lia] ];
  cbn [Z.eqb Pos.eqb].

Lemma byte_flags_bits (n : bool) (F D : Z) :
  Z.testbit (byte_flags n F D) 0 = ((255 <? D) || (D <? 0))
  /\ Z.testbit (byte_flags n F D) 1 = n
  /\ Z.testbit (byte_flags n F D) 2 = ((127 <? D) || (D <? -128))
  /\ Z.testbit (byte_flags n F D) 4 = Z.testbit F 4
  /\ Z.testbit (byte_flags n F D) 6 = (Z.land D 255 =? 0)
  /\ Z.testbit (byte_flags n F D) 7 = Z.testbit D 7.
Proof.
  unfold byte_flags. cbv zeta. rewrite (low_byte_bit D 7) by lia.
  repeat split; flag_layers; reflexivity.
Qed.

Lemma logic_flags_bits (h : bool) (F D : Z) :
  Z.testbit (logic_flags h F D) 0 = false
  /\ Z.testbit (logic_flags h F D) 1 = false
  /\ Z.testbit (logic_flags h F D) 2
     = (parity_fold (Z.to_nat (Z.land D 255)) (Z.land D 255) =? 0)
  /\ Z.testbit (logic_flags h F D) 4 = h
  /\ Z.testbit (logic_flags h F D) 6 = (Z.land D 255 =? 0)
  /\ Z.testbit (logic_flags h F D) 7 = Z.testbit D 7.
Proof.
  unfold logic_flags. cbv zeta. rewrite (low_byte_bit D 7) by lia.
  repeat split; flag_layers; reflexivity.
Qed.

Lemma decode_add (carry : bool) (r : regname) :
  byte_register r = true ->
  decode_instruction (OpByte ((if carry then 0x88 else 0x80) + operand_code r))
  = Ok (0,
        [force_flag fH
           (PCall (lam1 (fun state =>
              Ok (if 0xF <? (if carry
                             then Z.land (get_reg state rA) 0xF
                                  + Z.land (get_reg state r) 0xF
                                  + getflag state fC
                             else Z.land (get_reg state rA) 0xF
                                  + Z.land (get_reg state r) 0xF)
                  then 1 else 0))));
         set_flags (if negb carry && (operand_code r =? 0)
                    then "SZ5-3V0C" else "SZ5H3V0C")
           (Some "value") None
           (PCall (lam1 (fun state =>
              Ok (if carry
                  then get_reg state rA + get_reg state r + getflag state fC
                  else get_reg state rA + get_reg state r)))) None;
         LDr rA PNone "value"],
        []).
Proof.
  intros Hr. destruct r; try discriminate Hr; destruct carry; reflexivity.
Qed.

Ltac machine_alu :=
  cbv -[Z.add Z.sub Z.opp Z.mul Z.land Z.lor Z.lxor Z.lnot Z.shiftl Z.shiftr
        Z.eqb Z.ltb Z.leb Z.of_nat Z.to_nat
        mask8 mask16 hi8 pair16 high_after_low decode_instruction
        byte_flags logic_flags set_flags force_flag do_each];
  cbn -[set_flags force_flag do_each byte_flags logic_flags].

Ltac micro_alu tac :=
  first [ progress cbn [do_each bind]
        | erewrite force_flag_call_eq by (machine_alu; reflexivity)
        | erewrite set_flags_add_eq by (machine_alu; reflexivity)
        | erewrite set_flags_add_b_eq by (machine_alu; reflexivity)
        | erewrite set_flags_sub_eq by (machine_alu; reflexivity)
        | erewrite set_flags_and_eq by (machine_alu; reflexivity)
        | erewrite set_flags_or_eq by (machine_alu; reflexivity)
        | progress tac ].

Ltac tick_alu tac :=
  erewrite run_pipeline_tick;
  [ | unfold clock; machine_alu; repeat (micro_alu tac; machine_alu);
      reflexivity
    | cbn; discriminate ].


(** F after [force_flag("H", ...)] and one of the flag updates above. *)
Lemma forced_H_bit (F k : Z) (hb : bool) :
  0 <= k < 8 ->
  Z.testbit (mask8 (if (if hb then 1 else 0) =? 0
                    then Z.land F 239 else Z.lor F 16)) k
  = if k =? 4 then hb else Z.testbit F k.
Proof.
  intros Hk. rewrite testbit_mask8 by lia.
  change 239 with (0xFF - 16).
  destruct hb; cbn [Z.eqb]; cbv iota.
  - rewrite (testbit_forced F 16 4 k true) by solve [reflexivity | lia].
    reflexivity.
  - rewrite (testbit_forced F 16 4 k false) by solve [reflexivity | lia].
    reflexivity.
Qed.

Lemma carry_after_H (F : Z) (hb : bool) :
  Z.land (Z.shiftr (mask8 (if (if hb then 1 else 0) =? 0
                           then Z.land F 239 else Z.lor F 16)) 0) 1
  = Z.land (Z.shiftr F 0) 1.
Proof. rewrite !bit_of_shift, forced_H_bit by lia. reflexivity. Qed.

Lemma arithmetic_flags (n hb : bool) (F D : Z) :
  let F' := mask8 (byte_flags n
                     (mask8 (if (if hb then 1 else 0) =? 0
                             then Z.land F 239 else Z.lor F 16)) D) in
  Z.land (Z.shiftr F' 0) 1 = Z.b2z ((255 <? D) || (D <? 0))
  /\ Z.land (Z.shiftr F' 1) 1 = Z.b2z n
  /\ Z.land (Z.shiftr F' 2) 1 = Z.b2z ((127 <? D) || (D <? -128))
  /\ Z.land (Z.shiftr F' 4) 1 = Z.b2z hb
  /\ Z.land (Z.shiftr F' 6) 1 = Z.b2z (D mod 256 =? 0)
  /\ Z.land (Z.shiftr F' 7) 1 = Z.b2z (Z.testbit (D mod 256) 7).
Proof.
  intros F'. subst F'. rewrite <- !mask8_mod, (testbit_mask8 D 7) by lia.
  change (mask8 D) with (Z.land D 255).
  destruct (byte_flags_bits n
              (mask8 (if (if hb then 1 else 0) =? 0
                      then Z.land F 239 else Z.lor F 16)) D)
    as [H0 [H1 [H2 [H4 [H6 H7]]]]].
  rewrite forced_H_bit in H4 by lia. cbn [Z.eqb Pos.eqb] in H4.
  rewrite !bit_of_shift, !testbit_mask8 by lia.
  rewrite H0, H1, H2, H4, H6, H7. repeat split.
Qed.

Lemma land_15 (x : Z) : Z.land x 15 = x mod 16.
Proof. change 15 with (Z.ones 4). now rewrite Z.land_ones. Qed.

Lemma land_255 (x : Z) : Z.land x 255 = x mod 256.
Proof. change 255 with (Z.ones 8). now rewrite Z.land_ones. Qed.

Lemma flag_is_bit (F k : Z) :
  0 <= k -> 0 <= Z.land (Z.shiftr F k) 1 <= 1.
Proof. intros Hk. rewrite bit_of_shift by lia. destruct (Z.testbit F k); cbn; lia. Qed.

(** F after the flag update of CP, which leaves H alone. *)
Lemma comparison_flags (F D : Z) :
  let F' := mask8 (byte_flags true F D) in
  Z.land (Z.shiftr F' 0) 1 = Z.b2z ((255 <? D) || (D <? 0))
  /\ Z.land (Z.shiftr F' 1) 1 = 1
  /\ Z.land (Z.shiftr F' 2) 1 = Z.b2z ((127 <? D) || (D <? -128))
  /\ Z.land (Z.shiftr F' 4) 1 = Z.land (Z.shiftr F 4) 1
  /\ Z.land (Z.shiftr F' 6) 1 = Z.b2z (D mod 256 =? 0)
  /\ Z.land (Z.shiftr F' 7) 1 = Z.b2z (Z.testbit (D mod 256) 7).
Proof.
  intros F'. subst F'. rewrite <- !mask8_mod, (testbit_mask8 D 7) by lia.
  change (mask8 D) with (Z.land D 255).
  destruct (byte_flags_bits true F D) as [H0 [H1 [H2 [H4 [H6 H7]]]]].
  rewrite !bit_of_shift, !testbit_mask8 by lia.
  rewrite H0, H1, H2, H4, H6, H7. repeat split.
Qed.

(** X26: ADD A,r and ADC A,r (opcodes 0x80 + r and 0x88 + r, r one of
    B, C, D, E, H, L, A) on well-formed registers take 4 T-cycles and
    leave in A the sum of A, r and, for ADC, the carry flag, modulo 256.
    C tells whether the sum exceeds 255, Z whether the new A is zero, S
    is bit 7 of the new A, H tells whether the low nibbles (and the carry)
    add up to more than 15, N is reset, and P/V is set exactly when the
    sum exceeds 127.  The other 8-bit registers are unchanged and PC is
    one further. *)
Theorem add_a_r_adds (carry : bool) (r : regname) (c : CPU) :
  wf_regs (cpu_reg c) ->
  byte_register r = true ->
  membus_read c (reg_PC (cpu_reg c))
  = (if carry then 0x88 else 0x80) + operand_code r ->
  exists w cin,
    cin = (if carry then regs_getflag (cpu_reg c) fC else 0)
    /\ exec_instruction 64 c = Some (Ok (w, 4%nat))
    /\ reg_A (cpu_reg (w_cpu w))
       = (reg_A (cpu_reg c) + getreg (cpu_reg c) r + cin) mod 256
    /\ regs_getflag (cpu_reg (w_cpu w)) fC
       = Z.b2z (255 <? reg_A (cpu_reg c) + getreg (cpu_reg c) r + cin)
    /\ regs_getflag (cpu_reg (w_cpu w)) fZ
       = Z.b2z ((reg_A (cpu_reg c) + getreg (cpu_reg c) r + cin) mod 256 =? 0)
    /\ regs_getflag (cpu_reg (w_cpu w)) fS
       = Z.b2z (Z.testbit
                  ((reg_A (cpu_reg c) + getreg (cpu_reg c) r + cin) mod 256) 7)
    /\ regs_getflag (cpu_reg (w_cpu w)) fH
       = Z.b2z (15 <? reg_A (cpu_reg c) mod 16 + getreg (cpu_reg c) r mod 16 + cin)
    /\ regs_getflag (cpu_reg (w_cpu w)) fN = 0
    /\ regs_getflag (cpu_reg (w_cpu w)) fP
       = Z.b2z (127 <? reg_A (cpu_reg c) + getreg (cpu_reg c) r + cin)
    /\ (forall q, byte_register q = true -> q <> rA ->
          getreg (cpu_reg (w_cpu w)) q = getreg (cpu_reg c) q)
    /\ reg_PC (cpu_reg (w_cpu w)) = mask16 (reg_PC (cpu_reg c) + 1).
Proof.
  intros Hwf Hr Hm0.
  pose proof (decode_add carry r Hr) as Hdec.
  destruct_cpu c. wf_bounds Hwf.
  pose proof (flag_is_bit vf 0 ltac:(lia)) as Hcin.
  destruct r; try discriminate Hr; destruct carry;
    cbn in Hm0, Hdec;
    unfold exec_instruction, fetch;
    repeat tick_alu ltac:(rewrite ?Hm0; rewrite ?Hdec);
    rewrite run_pipeline_done by reflexivity;
    do 2 eexists; (split; [reflexivity|]); (split; [reflexivity|]);
    unfold regs_getflag;
    cbn [w_cpu cpu_reg getreg flag_bit reg_A reg_F reg_B reg_C
         reg_D reg_E reg_H reg_L reg_PC];
    rewrite ?carry_after_H;
    match goal with
    | |- context [mask8 (byte_flags ?n (mask8 (if (if ?hb then 1 else 0) =? 0
                                               then _ else _)) ?D)] =>
        destruct (arithmetic_flags n hb vf D) as [H0 [H1 [H2 [H4 [H6 H7]]]]]
    end;
    cbv zeta in H0, H1, H2, H4, H6, H7;
    rewrite H0, H1, H2, H4, H6, H7;
    rewrite ?land_15, ?land_255, ?Z.add_0_r;
    rewrite ?mask8_mod, ?Zmod_mod;
    repeat match goal with
           | |- context [(?a <? ?s) || (?s <? ?b)] =>
               replace (s <? b) with false by (symmetry; apply Z.ltb_ge; lia);
               rewrite orb_false_r
           end;
    (repeat split; try reflexivity;
     intros q Hq Hne; destruct q; try discriminate Hq; try reflexivity;
     congruence).
Qed.

Lemma add_a_r_adds_witness :
  exists w,
    exec_instruction 64 (example_cpu 0x01 false [(0x0100, 0x88)])
    = Some (Ok (w, 4%nat))
    /\ reg_A (cpu_reg (w_cpu w)) = 0xC4
    /\ regs_getflag (cpu_reg (w_cpu w)) fC = 0
    /\ regs_getflag (cpu_reg (w_cpu w)) fS = 1.
Proof.
  destruct (add_a_r_adds true rB (example_cpu 0x01 false [(0x0100, 0x88)]))
    as [w [cin [Hcin [Hrun [Ha [Hc [_ [Hs _]]]]]]]].
  - concrete_wf.
  - reflexivity.
  - reflexivity.
  - subst cin. exists w. repeat split; assumption.
Defined.

Lemma decode_sub (s : subtraction) (r : regname) :
  byte_register r = true ->
  decode_instruction (OpByte (subtraction_base s + operand_code r))
  = Ok (0,
        match s with
        | sSUB =>
            [force_flag fH
               (PCall (lam1 (fun state =>
                  Ok (if Z.land (get_reg state rA) 0xF
                         - Z.land (get_reg state r) 0xF <? 0x0
                      then 1 else 0))));
             set_flags "SZ5H3V1C" (Some "value") None
               (PCall (lam1 (fun state =>
                  Ok (get_reg state rA - get_reg state r)))) None;
             LDr rA PNone "value"]
        | sSBC =>
            [force_flag fH
               (PCall (lam1 (fun state =>
                  Ok (if Z.land (get_reg state rA) 0xF
                         - Z.land (get_reg state r) 0xF
                         - getflag state fC <? 0x0
                      then 1 else 0))));
             set_flags "SZ5H3V1C" (Some "value") None
               (PCall (lam1 (fun state =>
                  Ok (get_reg state rA - get_reg state r
                      - getflag state fC)))) None;
             LDr rA PNone "value"]
        | sCP =>
            [set_flags "SZ5H3V1C" (Some "value") None
               (PCall (lam1 (fun state =>
                  Ok (get_reg state rA - get_reg state r)))) None]
        end,
        []).
Proof.
  intros Hr. destruct r; try discriminate Hr; destruct s; reflexivity.
Qed.

(** X27: SUB r, SBC A,r and CP r (opcodes 0x90 + r, 0x98 + r and
    0xB8 + r, r one of B, C, D, E, H, L, A) on well-formed registers
    take 4 T-cycles.  With the difference A - r, less the carry flag for
    SBC: SUB and SBC leave it, modulo 256, in A, and CP leaves A alone;
    C tells whether the difference is negative, Z whether it is zero
    modulo 256, S is its bit 7, N is set, and P/V is set exactly when
    the difference is above 127 or below -128.  H tells whether the low
    nibbles give a borrow, except after CP, which leaves H as it was.
    The other 8-bit registers are unchanged and PC is one further. *)
Theorem sub_a_r_subtracts (s : subtraction) (r : regname) (c : CPU) :
  wf_regs (cpu_reg c) ->
  byte_register r = true ->
  membus_read c (reg_PC (cpu_reg c)) = subtraction_base s + operand_code r ->
  exists w cin,
    cin = (match s with sSBC => regs_getflag (cpu_reg c) fC | _ => 0 end)
    /\ exec_instruction 64 c = Some (Ok (w, 4%nat))
    /\ reg_A (cpu_reg (w_cpu w))
       = (match s with
          | sCP => reg_A (cpu_reg c)
          | _ => (reg_A (cpu_reg c) - getreg (cpu_reg c) r - cin) mod 256
          end)
    /\ regs_getflag (cpu_reg (w_cpu w)) fC
       = Z.b2z (reg_A (cpu_reg c) - getreg (cpu_reg c) r - cin <? 0)
    /\ regs_getflag (cpu_reg (w_cpu w)) fZ
       = Z.b2z ((reg_A (cpu_reg c) - getreg (cpu_reg c) r - cin) mod 256 =? 0)
    /\ regs_getflag (cpu_reg (w_cpu w)) fS
       = Z.b2z (Z.testbit
                  ((reg_A (cpu_reg c) - getreg (cpu_reg c) r - cin) mod 256) 7)
    /\ regs_getflag (cpu_reg (w_cpu w)) fH
       = (match s with
          | sCP => regs_getflag (cpu_reg c) fH
          | _ => Z.b2z (reg_A (cpu_reg c) mod 16
                        - getreg (cpu_reg c) r mod 16 - cin <? 0)
          end)
    /\ regs_getflag (cpu_reg (w_cpu w)) fN = 1
    /\ regs_getflag (cpu_reg (w_cpu w)) fP
       = Z.b2z ((127 <? reg_A (cpu_reg c) - getreg (cpu_reg c) r - cin)
                || (reg_A (cpu_reg c) - getreg (cpu_reg c) r - cin <? -128))
    /\ (forall q, byte_register q = true -> q <> rA ->
          getreg (cpu_reg (w_cpu w)) q = getreg (cpu_reg c) q)
    /\ reg_PC (cpu_reg (w_cpu w)) = mask16 (reg_PC (cpu_reg c) + 1).
Proof.
  intros Hwf Hr Hm0.
  pose proof (decode_sub s r Hr) as Hdec.
  destruct_cpu c. wf_bounds Hwf.
  pose proof (flag_is_bit vf 0 ltac:(lia)) as Hcin.
  destruct r; try discriminate Hr; destruct s;
    cbn in Hm0, Hdec;
    unfold exec_instruction, fetch;
    repeat tick_alu ltac:(rewrite ?Hm0; rewrite ?Hdec);
    rewrite run_pipeline_done by reflexivity;
    do 2 eexists; (split; [reflexivity|]); (split; [reflexivity|]);
    unfold regs_getflag;
    cbn [w_cpu cpu_reg getreg flag_bit reg_A reg_F reg_B reg_C
         reg_D reg_E reg_H reg_L reg_PC];
    rewrite ?carry_after_H;
    match goal with
    | |- context [mask8 (byte_flags ?n (mask8 (if (if ?hb then 1 else 0) =? 0
                                               then _ else _)) ?D)] =>
        destruct (arithmetic_flags n hb vf D) as [H0 [H1 [H2 [H4 [H6 H7]]]]]
    | |- context [mask8 (byte_flags true vf ?D)] =>
        destruct (comparison_flags vf D) as [H0 [H1 [H2 [H4 [H6 H7]]]]]
    end;
    cbv zeta in H0, H1, H2, H4, H6, H7;
    rewrite H0, H1, H2, H4, H6, H7;
    rewrite ?land_15, ?land_255, ?Z.sub_0_r;
    rewrite ?mask8_mod, ?Zmod_mod;
    repeat match goal with
           | |- context [(255 <? ?s) || (?s <? 0)] =>
               replace (255 <? s) with false by (symmetry; apply Z.ltb_ge; lia);
               rewrite orb_false_l
           end;
    (repeat split; try reflexivity;
     intros q Hq Hne; destruct q; try discriminate Hq; try reflexivity;
     congruence).
Qed.

Lemma sub_a_r_subtracts_witness :
  exists w,
    exec_instruction 64 (example_cpu 0x00 false [(0x0100, 0xB8)])
    = Some (Ok (w, 4%nat))
    /\ reg_A (cpu_reg (w_cpu w)) = 0x12
    /\ regs_getflag (cpu_reg (w_cpu w)) fC = 1
    /\ regs_getflag (cpu_reg (w_cpu w)) fZ = 0
    /\ regs_getflag (cpu_reg (w_cpu w)) fN = 1.
Proof.
  destruct (sub_a_r_subtracts sCP rB (example_cpu 0x00 false [(0x0100, 0xB8)]))
    as [w [cin [Hcin [Hrun [Ha [Hc [Hz [_ [_ [Hn _]]]]]]]]]].
  - concrete_wf.
  - reflexivity.
  - reflexivity.
  - subst cin. exists w. repeat split; assumption.
Defined.

Lemma byte_high_bits (a n : Z) : 0 <= a < 256 -> 8 <= n -> Z.testbit a n = false.
Proof.
  intros Ha Hn. destruct (Z.eq_dec a 0) as [-> | Hnz]; [apply Z.bits_0|].
  apply Z.bits_above_log2; [lia|].
  assert (Z.log2 a < 8) by (apply Z.log2_lt_pow2; lia). lia.
Qed.

Lemma bitwise_byte (b : bitwise) (a x : Z) :
  0 <= a < 256 -> 0 <= x < 256 ->
  Z.land (bitwise_fn b a x) 255 = bitwise_fn b a x.
Proof.
  intros Ha Hx. apply Z.bits_inj'. intros n Hn.
  rewrite Z.land_spec. change 255 with (Z.ones 8).
  destruct (Z.ltb_spec n 8) as [Hlt | Hge].
  - rewrite Z.ones_spec_low by lia. apply andb_true_r.
  - rewrite Z.ones_spec_high, andb_false_r by lia. symmetry.
    destruct b; cbn [bitwise_fn];
      rewrite ?Z.land_spec, ?Z.lxor_spec, ?Z.lor_spec;
      rewrite (byte_high_bits a n Ha Hge), (byte_high_bits x n Hx Hge);
      reflexivity.
Qed.

Lemma bitwise_range (b : bitwise) (a x : Z) :
  0 <= a < 256 -> 0 <= x < 256 -> 0 <= bitwise_fn b a x < 256.
Proof.
  intros Ha Hx. rewrite <- (bitwise_byte b a x Ha Hx).
  apply (mask8_range (bitwise_fn b a x)).
Qed.

(** F after the flag update of AND, XOR and OR. *)
Lemma bitwise_flags (h : bool) (F D : Z) :
  0 <= D < 256 ->
  let F' := mask8 (logic_flags h F D) in
  Z.land (Z.shiftr F' 0) 1 = 0
  /\ Z.land (Z.shiftr F' 1) 1 = 0
  /\ Z.land (Z.shiftr F' 2) 1 = Z.b2z (Nat.even (bit_count D))
  /\ Z.land (Z.shiftr F' 4) 1 = Z.b2z h
  /\ Z.land (Z.shiftr F' 6) 1 = Z.b2z (D =? 0)
  /\ Z.land (Z.shiftr F' 7) 1 = Z.b2z (Z.testbit D 7).
Proof.
  intros HD F'. subst F'.
  destruct (logic_flags_bits h F D) as [H0 [H1 [H2 [H4 [H6 H7]]]]].
  assert (E : Z.land D 255 = D) by (apply (mask8_id D HD)).
  rewrite E in H2, H6. rewrite parity_fold_byte in H2 by assumption.
  rewrite !bit_of_shift, !testbit_mask8 by lia.
  rewrite H0, H1, H2, H4, H6, H7. repeat split.
Qed.

Lemma decode_bitwise (b : bitwise) (r : regname) :
  byte_register r = true ->
  decode_instruction (OpByte (bitwise_base b + operand_code r))
  = Ok (0,
        [set_flags (match b with bAND => "SZ513P00" | _ => "SZ503P00" end)
           (Some "value") None
           (PCall (lam1 (fun state =>
              Ok (bitwise_fn b (get_reg state rA) (get_reg state r))))) None;
         LDr rA PNone "value"],
        []).
Proof.
  intros Hr. destruct r; try discriminate Hr; destruct b; reflexivity.
Qed.

(** X28: AND r, XOR r and OR r (opcodes 0xA0 + r, 0xA8 + r and
    0xB0 + r, r one of B, C, D, E, H, L, A) on well-formed registers
    take 4 T-cycles and leave in A the bitwise AND, XOR or OR of A and
    r.  Z tells whether the new A is zero, S is its bit 7, P/V tells
    whether the number of its bits set is even, C and N are reset, and H
    is set by AND and reset by XOR and OR.  The other 8-bit registers
    are unchanged and PC is one further. *)
Theorem bitwise_a_r_combines (b : bitwise) (r : regname) (c : CPU) :
  wf_regs (cpu_reg c) ->
  byte_register r = true ->
  membus_read c (reg_PC (cpu_reg c)) = bitwise_base b + operand_code r ->
  exists w,
    exec_instruction 64 c = Some (Ok (w, 4%nat))
    /\ reg_A (cpu_reg (w_cpu w))
       = bitwise_fn b (reg_A (cpu_reg c)) (getreg (cpu_reg c) r)
    /\ regs_getflag (cpu_reg (w_cpu w)) fZ
       = Z.b2z (reg_A (cpu_reg (w_cpu w)) =? 0)
    /\ regs_getflag (cpu_reg (w_cpu w)) fS
       = Z.b2z (Z.testbit (reg_A (cpu_reg (w_cpu w))) 7)
    /\ regs_getflag (cpu_reg (w_cpu w)) fP
       = Z.b2z (Nat.even (bit_count (reg_A (cpu_reg (w_cpu w)))))
    /\ regs_getflag (cpu_reg (w_cpu w)) fC = 0
    /\ regs_getflag (cpu_reg (w_cpu w)) fN = 0
    /\ regs_getflag (cpu_reg (w_cpu w)) fH
       = (match b with bAND => 1 | _ => 0 end)
    /\ (forall q, byte_register q = true -> q <> rA ->
          getreg (cpu_reg (w_cpu w)) q = getreg (cpu_reg c) q)
    /\ reg_PC (cpu_reg (w_cpu w)) = mask16 (reg_PC (cpu_reg c) + 1).
Proof.
  intros Hwf Hr Hm0.
  pose proof (decode_bitwise b r Hr) as Hdec.
  destruct_cpu c. wf_bounds Hwf.
  destruct r; try discriminate Hr; destruct b;
    cbn in Hm0, Hdec;
    unfold exec_instruction, fetch;
    repeat tick_alu ltac:(rewrite ?Hm0; rewrite ?Hdec);
    rewrite run_pipeline_done by reflexivity;
    eexists; (split; [reflexivity|]);
    unfold regs_getflag;
    cbn [w_cpu cpu_reg getreg flag_bit reg_A reg_F reg_B reg_C
         reg_D reg_E reg_H reg_L reg_PC];
    match goal with
    | |- context [mask8 (logic_flags ?h vf (?op ?a ?x))] =>
        let R := fresh "R" in
        let E := fresh "E" in
        first [ pose proof (bitwise_range bAND a x ltac:(assumption)
                              ltac:(assumption)) as R;
                pose proof (bitwise_byte bAND a x ltac:(assumption)
                              ltac:(assumption)) as E;
                cbn [bitwise_fn] in R, E;
                destruct (bitwise_flags h vf (op a x) R)
                  as [H0 [H1 [H2 [H4 [H6 H7]]]]]
              | pose proof (bitwise_range bXOR a x ltac:(assumption)
                              ltac:(assumption)) as R;
                pose proof (bitwise_byte bXOR a x ltac:(assumption)
                              ltac:(assumption)) as E;
                cbn [bitwise_fn] in R, E;
                destruct (bitwise_flags h vf (op a x) R)
                  as [H0 [H1 [H2 [H4 [H6 H7]]]]]
              | pose proof (bitwise_range bOR a x ltac:(assumption)
                              ltac:(assumption)) as R;
                pose proof (bitwise_byte bOR a x ltac:(assumption)
                              ltac:(assumption)) as E;
                cbn [bitwise_fn] in R, E;
                destruct (bitwise_flags h vf (op a x) R)
                  as [H0 [H1 [H2 [H4 [H6 H7]]]]] ];
        cbv zeta in H0, H1, H2, H4, H6, H7;
        rewrite H0, H1, H2, H4, H6, H7, E, (mask8_id _ R)
    end;
    (repeat split; try reflexivity;
     intros q Hq Hne; destruct q; try discriminate Hq; try reflexivity;
     congruence).
Qed.

Lemma bitwise_a_r_combines_witness :
  exists w,
    exec_instruction 64 (example_cpu 0x01 false [(0x0100, 0xA8)])
    = Some (Ok (w, 4%nat))
    /\ reg_A (cpu_reg (w_cpu w)) = 0xA3
    /\ regs_getflag (cpu_reg (w_cpu w)) fC = 0
    /\ regs_getflag (cpu_reg (w_cpu w)) fP = 1.
Proof.
  destruct (bitwise_a_r_combines bXOR rB
              (example_cpu 0x01 false [(0x0100, 0xA8)]))
    as [w [Hrun [Ha [_ [_ [Hp [Hc _]]]]]]].
  - concrete_wf.
  - reflexivity.
  - reflexivity.
  - exists w. rewrite Ha in Hp. repeat split; assumption.
Defined.

(** ** A word stored and loaded back *)



Lemma pc_plus (vpc j k : Z) : mask16 (mask16 (vpc + j) + k) = mask16 (vpc + (j + k)).
Proof. rewrite mask16_add_l. f_equal. lia. Qed.



(** ** Conditional jumps *)

(** The eight conditions of JP cc,nn: their opcode, the flag they test
    and the value of the flag on which they jump. *)
Lemma decode_jp_cc (f : flag) (set : bool) :
  f = fZ \/ f = fC \/ f = fP \/ f = fS ->
  decode_instruction
    (OpByte (0xC2 + 16 * (match f with fZ => 0 | fC => 1 | fP => 2 | _ => 3 end)
             + (if set then 8 else 0)))
  = Ok (0, [],
        [OD (Some high_after_low) None "value" false;
         OD (Some high_after_low)
            (Some (if set then on_flag f (JP PNone None None)
                   else unless_flag f (JP PNone None None)))
            "value" false]).
Proof.
  intros [-> | [-> | [-> | ->]]]; destruct set; reflexivity.
Qed.

(** X30: JP cc,nn for the eight conditions NZ, Z, NC, C, PO, PE, P and M
    (opcodes 0xC2, 0xCA, 0xD2, 0xDA, 0xE2, 0xEA, 0xF2, 0xFA, followed by
    the low and the high byte of nn).  The instruction takes 10
    T-cycles whether it jumps or not; PC becomes nn when the flag tested
    (Z, C, P/V or S) has the value the condition asks for, and the
    address after the three bytes otherwise.  The other registers, the
    flags and the memory are as before. *)
Theorem jp_cc_jumps_on_condition (f : flag) (set : bool) (c : CPU) (nn : Z) :
  f = fZ \/ f = fC \/ f = fP \/ f = fS ->
  0 <= nn < 65536 ->
  membus_read c (reg_PC (cpu_reg c))
  = 0xC2 + 16 * (match f with fZ => 0 | fC => 1 | fP => 2 | _ => 3 end)
    + (if set then 8 else 0) ->
  membus_read c (mask16 (reg_PC (cpu_reg c) + 1)) = mask8 nn ->
  membus_read c (mask16 (reg_PC (cpu_reg c) + 2)) = hi8 nn ->
  exists w,
    exec_instruction 64 c = Some (Ok (w, 10%nat))
    /\ cpu_reg (w_cpu w)
       = setreg (cpu_reg c) rPC
           (if regs_getflag (cpu_reg c) f =? (if set then 1 else 0)
            then nn else reg_PC (cpu_reg c) + 3)
    /\ cpu_membus (w_cpu w) = cpu_membus c.
Proof.
  intros Hf Hnn Hm0 Hm1 Hm2.
  pose proof (decode_jp_cc f set Hf) as Hdec.
  assert (Hpair : high_after_low (hi8 nn) (mask8 nn) = nn)
    by (rewrite high_after_low_pair16; now apply pair16_split).
  destruct_cpu c.
  destruct Hf as [-> | [-> | [-> | ->]]]; destruct set;
    cbn in Hm0, Hm1, Hm2, Hdec;
    unfold regs_getflag; cbn [cpu_reg reg_F reg_PC flag_bit];
    match goal with
    | |- context [Z.land (Z.shiftr vf ?k) 1 =? ?v] =>
        destruct (Z.land (Z.shiftr vf k) 1 =? v) eqn:E
    end;
    unfold exec_instruction, fetch;
    run_to_end ltac:(rewrite ?pc_plus; cbn [Z.add Pos.add Pos.succ];
                     rewrite ?Hm0, ?Hm1, ?Hm2, ?Hdec, ?Hpair, ?E);
    eexists; (split; [reflexivity|]); cbn;
    rewrite ?pc_plus; cbn [Z.add Pos.add Pos.succ];
    split; reflexivity.
Qed.

Lemma jp_cc_jumps_on_condition_witness :
  exists w,
    exec_instruction 64
      (example_cpu 0x40 false [(0x0100, 0xCA); (0x0101, 0x34); (0x0102, 0x12)])
    = Some (Ok (w, 10%nat))
    /\ reg_PC (cpu_reg (w_cpu w)) = 0x1234.
Proof.
  destruct (jp_cc_jumps_on_condition fZ true
              (example_cpu 0x40 false
                 [(0x0100, 0xCA); (0x0101, 0x34); (0x0102, 0x12)]) 0x1234)
    as [w [Hrun [Hregs _]]].
  - left. reflexivity.
  - lia.
  - reflexivity.
  - reflexivity.
  - reflexivity.
  - exists w. split; [exact Hrun|]. rewrite Hregs. reflexivity.
Defined.
